(** * Customer behaviour analysis dashboard: filters, RFM scoring, personas

    A shallow embedding of the filter / segmentation / scoring code of the
    dashboard ([src/source_data.py], [src/customer_prediction_insights.py],
    [src/predicted_results.py]) and the statements proved about it.

    Conventions of the embedding.
    - A data frame is the list of its rows, in index order; a column that may
      be absent from the frame is tracked by a flag of the table.
    - A missing cell (pandas NaN) is [VNaN] in a text column and [None] in
      a numeric column; it compares unequal to everything, as in pandas.
    - The present cells of a column are of one kind, text or numbers, and
      a column of text identifiers has no missing cell: the values that
      the code sorts into the options of a select box can be compared.
    - Real numbers are exact rationals ([Q]); the IEEE special values that
      the code can produce (infinities, not-a-number) are explicit where a
      division occurs.  Comparisons of float64 values are exact; the one
      product whose rounding decides which rows a filter keeps, the
      similarity score times 100, is rounded to float64.
    - Text is a [string] of ASCII characters; case folding is ASCII case
      folding.
    - Python exceptions are values: a computation returns [Ok v] or
      [Raise e].
    - The pandas and [re] library calls are embedded by the behaviour the
      libraries document for the arguments the source passes. *)

From Stdlib Require Import List String Ascii Bool Arith ZArith QArith Lia Lqa Permutation.
From Stdlib Require Floats Uint63.
Import ListNotations.

Set Implicit Arguments.

(* ================================================================== *)
(** * Python values, exceptions *)
(* ================================================================== *)

Module Py.

(** The exceptions the modelled code can raise. *)
Inductive exn : Type :=
| KeyError       (* dict key or data-frame column missing *)
| IndexError     (* [.iloc[0]] on an empty selection *)
| ValueError     (* pandas binning errors, NaN to int *)
| ReError        (* [re.error]: pattern does not compile *)
| OSError        (* [subprocess.run] cannot start the program *)
| StreamlitAPIException.  (* a slider whose two bounds coincide, a
                             second widget with the same key *)

(** Outcome of a computation.  [OutsideModel] marks an input that the
    embedding does not describe (a regular expression outside the
    modelled fragment); it is not a Python outcome and nothing is
    claimed about it. *)
Inductive result (A : Type) : Type :=
| Ok (a : A)
| Raise (e : exn)
| OutsideModel.

Arguments Raise {A} e.
Arguments OutsideModel {A}.

Definition bind {A B} (m : result A) (k : A -> result B) : result B :=
  match m with
  | Ok a => k a
  | Raise e => Raise e
  | OutsideModel => OutsideModel
  end.

Fixpoint mapM {A B} (f : A -> result B) (l : list A) : result (list B) :=
  match l with
  | [] => Ok []
  | a :: l' =>
      bind (f a) (fun b => bind (mapM f l') (fun bs => Ok (b :: bs)))
  end.

(** A cell of an object column, or the value held by a select box:
    text, an integer, or missing (NaN). *)
Inductive value : Type :=
| VNaN
| VStr (s : string)
| VInt (z : Z).

(** Python [a == b] on scalars; NaN equals nothing. *)
Definition py_eq (a b : value) : bool :=
  match a, b with
  | VStr s, VStr t => String.eqb s t
  | VInt x, VInt y => Z.eqb x y
  | _, _ => false
  end.

(** Python [a != b]. *)
Definition py_ne (a b : value) : bool := negb (py_eq a b).

(** Python truthiness of a scalar. *)
Definition truthy (a : value) : bool :=
  match a with
  | VNaN => true
  | VStr s => negb (String.eqb s EmptyString)
  | VInt z => negb (Z.eqb z 0)
  end.

(** [d.get(k) != "All"]: an absent key gives [None], which differs
    from any string. *)
Definition get_ne (o : option value) (v : value) : bool :=
  match o with
  | None => true
  | Some a => py_ne a v
  end.

(** [d[k]]: raises [KeyError] when the key is absent. *)
Definition subscript {A} (o : option A) : result A :=
  match o with
  | Some a => Ok a
  | None => Raise KeyError
  end.

Definition All : value := VStr "All".

End Py.

Import Py.

Declare Scope py_scope.
Delimit Scope py_scope with py.
Notation "x <- m ;; k" := (Py.bind m (fun x => k))
  (at level 61, m at next level, right associativity) : py_scope.

(* ================================================================== *)
(** * Text: lower-casing and the substring test *)
(* ================================================================== *)

Module Str.

(** ASCII [str.lower()] on one character. *)
Definition lower_ascii (c : ascii) : ascii :=
  let n := nat_of_ascii c in
  if (65 <=? n)%nat && (n <=? 90)%nat then ascii_of_nat (n + 32) else c.

(** [s.lower()]. *)
Fixpoint lower (s : string) : string :=
  match s with
  | EmptyString => EmptyString
  | String c s' => String (lower_ascii c) (lower s')
  end.

(** [s.startswith(p)]. *)
Fixpoint startswith (p s : string) : bool :=
  match p with
  | EmptyString => true
  | String a p' =>
      match s with
      | EmptyString => false
      | String b s' => Ascii.eqb a b && startswith p' s'
      end
  end.

(** Python [p in s]: [p] occurs in [s] as a contiguous substring. *)
Fixpoint contains (p s : string) : bool :=
  startswith p s ||
  match s with
  | EmptyString => false
  | String _ s' => contains p s'
  end.

(** [p.lower() in s.lower()]. *)
Definition icontains (p s : string) : bool := contains (lower p) (lower s).

(** The specification side: [p] is a case-insensitive substring of [s]. *)
Definition isubstring (p s : string) : Prop :=
  exists a b, lower s = (a ++ lower p ++ b)%string.

End Str.

(* ================================================================== *)
(** * Regular expressions: the fragment of Python's [re] that is modelled *)
(* ================================================================== *)

Module Re.

(** An item of a pattern: an ordinary character or [.], with at most
    one greedy repetition operator after it.  Groups, alternation,
    classes, anchors, escapes, counted and lazy repetitions are outside
    the fragment. *)
Inductive atom : Type := Lit (c : ascii) | Dot.
Inductive rep : Type := Once | Star | Plus | Opt.
Definition regex : Type := list (atom * rep).

Definition backslash : ascii := ascii_of_nat 92.
Definition newline : ascii := ascii_of_nat 10.

(** Characters with a special meaning in a pattern. *)
Definition special_chars : list ascii :=
  backslash :: list_ascii_of_string ".^$*+?{}[]|()".

Definition is_special (c : ascii) : bool :=
  existsb (Ascii.eqb c) special_chars.

Definition rep_of (c : ascii) : option rep :=
  if Ascii.eqb c "*" then Some Star
  else if Ascii.eqb c "+" then Some Plus
  else if Ascii.eqb c "?" then Some Opt
  else None.

Definition atom_of (c : ascii) : option atom :=
  if Ascii.eqb c "." then Some Dot
  else if is_special c then None
  else Some (Lit c).

Definition cons_item (i : atom * rep) (r : result regex) : result regex :=
  match r with
  | Ok items => Ok (i :: items)
  | other => other
  end.

(** Items of a pattern, read from a position where an item starts. *)
Fixpoint parse_items (p : string) : result regex :=
  match p with
  | EmptyString => Ok []
  | String c rest =>
      match atom_of c with
      | None => OutsideModel
      | Some a =>
          match rest with
          | EmptyString => Ok [(a, Once)]
          | String q rest' =>
              match rep_of q with
              | None => cons_item (a, Once) (parse_items rest)
              | Some r =>
                  match rest' with
                  | EmptyString => Ok [(a, r)]
                  | String q2 _ =>
                      match rep_of q2 with
                      | Some _ => OutsideModel
                      | None => cons_item (a, r) (parse_items rest')
                      end
                  end
              end
          end
      end
  end.

(** [re.compile(pat, re.IGNORECASE)].  A repetition operator with
    nothing before it is the error "nothing to repeat". *)
Definition compile (pat : string) : result regex :=
  match pat with
  | EmptyString => Ok []
  | String c _ =>
      match rep_of c with
      | Some _ => Raise ReError
      | None => parse_items pat
      end
  end.

(** One character against one atom, ignoring case; [.] matches
    anything but a newline. *)
Definition atom_ok (a : atom) (c : ascii) : bool :=
  match a with
  | Lit p => Ascii.eqb (Str.lower_ascii p) (Str.lower_ascii c)
  | Dot => negb (Ascii.eqb c newline)
  end.

(** Does some prefix of the text match the whole pattern? *)
Fixpoint match_here (r : regex) : string -> bool :=
  match r with
  | [] => fun _ => true
  | (a, q) :: r' =>
      let k := match_here r' in
      let one := fun s =>
        match s with
        | EmptyString => false
        | String c s' => atom_ok a c && k s'
        end in
      let star := fix star (s : string) : bool :=
        k s ||
        match s with
        | EmptyString => false
        | String c s' => atom_ok a c && star s'
        end in
      match q with
      | Once => one
      | Opt => fun s => k s || one s
      | Star => star
      | Plus => fun s =>
          match s with
          | EmptyString => false
          | String c s' => atom_ok a c && star s'
          end
      end
  end.

(** [pattern.search(s) is not None]. *)
Fixpoint search (r : regex) (s : string) : bool :=
  match_here r s ||
  match s with
  | EmptyString => false
  | String _ s' => search r s'
  end.

(** The pattern that matches the text [p] literally. *)
Definition literal (p : string) : regex :=
  map (fun c => (Lit c, Once)) (list_ascii_of_string p).

(** A product name without any special character. *)
Definition plain (p : string) : bool :=
  forallb (fun c => negb (is_special c)) (list_ascii_of_string p).

End Re.


(* ================================================================== *)
(** * pandas: quantiles, binning, ranks *)
(* ================================================================== *)

Module Pandas.

Definition Qlt_bool (a b : Q) : bool := negb (Qle_bool b a).

(** A numeric cell: a number, or missing. *)
Definition num : Type := option Q.

Fixpoint dropna (xs : list num) : list Q :=
  match xs with
  | [] => []
  | Some x :: xs' => x :: dropna xs'
  | None :: xs' => dropna xs'
  end.

(** Ascending sort of the present values. *)
Fixpoint insert_sorted (x : Q) (l : list Q) : list Q :=
  match l with
  | [] => [x]
  | y :: l' => if Qle_bool x y then x :: l else y :: insert_sorted x l'
  end.

Definition sort_asc (l : list Q) : list Q := fold_right insert_sorted [] l.

(** [Series.quantile(k/m)] with linear interpolation: the value at the
    (possibly fractional) position [(n-1)*k/m] of the sorted values. *)
Definition quantile (xs : list Q) (k m : nat) : Q :=
  let s := sort_asc xs in
  let h := ((List.length xs - 1) * k)%nat in
  let j := (h / m)%nat in
  let g := (inject_Z (Z.of_nat (h mod m)) / inject_Z (Z.of_nat m))%Q in
  let lo := nth j s 0%Q in
  let hi := nth (S j) s lo in
  (lo + (hi - lo) * g)%Q.

(** [np.linspace(0, 1, q + 1)] applied through [quantile]: the [q + 1]
    bin edges of [qcut]. *)
Definition quantile_edges (xs : list Q) (q : nat) : list Q :=
  map (fun k => quantile xs k q) (seq 0 (S q)).

(** [algos.unique]: the distinct values, in order of first occurrence. *)
Fixpoint unique (l : list Q) : list Q :=
  match l with
  | [] => []
  | x :: l' => x :: filter (fun y => negb (Qeq_bool x y)) (unique l')
  end.

(** [bins.searchsorted(x, side="left")] on increasing [bins]: the number
    of edges strictly below [x]. *)
Definition searchsorted_left (bins : list Q) (x : Q) : nat :=
  List.length (filter (fun b => Qlt_bool b x) bins).

Inductive duplicates : Type := DupRaise | DupDrop.

(** Bin number of one cell (0 = missing / out of range), as computed by
    [_bins_to_cuts] with [right=True]. *)
Definition bin_id (bins : list Q) (include_lowest : bool) (x : num) : nat :=
  match x with
  | None => 0
  | Some v =>
      let i := searchsorted_left bins v in
      let i' :=
        match bins with
        | b0 :: _ => if include_lowest && Qeq_bool v b0 then 1%nat else i
        | [] => i
        end in
      if (i' =? List.length bins)%nat || (i' =? 0)%nat then 0%nat else i'
  end.

(** [labels.take(ids - 1)], NaN for bin 0. *)
Definition take_label {L : Type} (labels : list L) (i : nat) : option L :=
  match i with
  | O => None
  | S j => nth_error labels j
  end.

(** [_bins_to_cuts(x, bins, right=True, labels=labels,
    include_lowest=..., duplicates=...)] with a list of distinct labels.
    Duplicate edges are an error, or are dropped, as [duplicates] says
    (two edges are always accepted); afterwards there must be exactly one
    label per bin. *)
Definition bins_to_cuts {L : Type} (x : list num) (bins : list Q)
    (labels : list L) (include_lowest : bool) (dup : duplicates)
    : result (list (option L)) :=
  let unique_bins := unique bins in
  (bins' <-
     (if (List.length unique_bins <? List.length bins)%nat
         && negb (List.length bins =? 2)%nat
      then match dup with
           | DupRaise => Raise ValueError
           | DupDrop => Ok unique_bins
           end
      else Ok bins) ;;
   if negb (S (List.length labels) =? List.length bins')%nat
   then Raise ValueError
   else Ok (map (fun v => take_label labels (bin_id bins' include_lowest v)) x))%py.

(** [pd.qcut(x, q, labels=labels, duplicates=dup)] for a non-empty list
    of labels.  A column without any present value has only NaN edges;
    they collapse to a single edge, which is an error under either
    policy. *)
Definition qcut {L : Type} (x : list num) (q : nat) (labels : list L)
    (dup : duplicates) : result (list (option L)) :=
  match dropna x with
  | [] => Raise ValueError
  | present => bins_to_cuts x (quantile_edges present q) labels true dup
  end.

(** [pd.cut(x, bins=bins, labels=labels)] for increasing [bins]:
    right-closed intervals, lowest edge excluded. *)
Definition cut {L : Type} (x : list num) (bins : list Q) (labels : list L)
    : result (list (option L)) :=
  bins_to_cuts x bins labels false DupRaise.

(** [Series.rank(method="first")]: 1-based position in ascending order,
    equal values ranked in order of appearance. *)
Fixpoint rank_first_from (seen rest all : list Q) : list Q :=
  match rest with
  | [] => []
  | x :: rest' =>
      let below := List.length (filter (fun y => Qlt_bool y x) all) in
      let ties := List.length (filter (fun y => Qeq_bool y x) seen) in
      inject_Z (Z.of_nat (1 + below + ties)) :: rank_first_from (seen ++ [x]) rest' all
  end.

Definition rank_first (xs : list Q) : list Q := rank_first_from [] xs xs.

(** [series >= bound] and [series <= bound] on one cell; a missing cell
    compares false. *)
Definition num_ge (x : num) (b : Q) : bool :=
  match x with
  | Some v => Qle_bool b v
  | None => false
  end.

Definition num_le (x : num) (b : Q) : bool :=
  match x with
  | Some v => Qle_bool v b
  | None => false
  end.

(** [Series.astype(int)] on one cell of a categorical of integers. *)
Definition astype_int (c : option Z) : result Z :=
  match c with
  | Some z => Ok z
  | None => Raise ValueError
  end.

End Pandas.

(* ================================================================== *)
(** * source_data.py: RFM scores and segments *)
(* ================================================================== *)

Module SourceData.

Import Pandas.

Record rfm_row : Type := {
  Recency : Q;
  Frequency : Q;
  Monetary : Q
}.

Record scored_row : Type := {
  rfm : rfm_row;
  R_Score : Z;
  F_Score : Z;
  M_Score : Z;
  RFM_Score : Z;
  Segment : string
}.

(** [segment_customer(score)], lines 277-287. *)
Definition segment_customer (score : Z) : string :=
  if (score >=? 10)%Z then "Champions"
  else if (score >=? 8)%Z then "Loyal Customers"
  else if (score >=? 6)%Z then "Potential Loyalists"
  else if (score >=? 5)%Z then "At Risk"
  else "Lost".

Definition mk_scored (x : rfm_row * Z * Z * Z) : scored_row :=
  let '(row, r, f, m) := x in
  let total := (r + f + m)%Z in
  {| rfm := row; R_Score := r; F_Score := f; M_Score := m;
     RFM_Score := total; Segment := segment_customer total |}.

(** Lines 266-289 of [show_rfm_analysis]: the three quartile scores, their
    sum and the segment of every row. *)
Definition score_rfm (rfm_data : list rfm_row) : result (list scored_row) :=
  (r <- qcut (map (fun c => Some (Recency c)) rfm_data) 4 [4; 3; 2; 1]%Z DupRaise ;;
   f <- qcut (map Some (rank_first (map Frequency rfm_data))) 4 [1; 2; 3; 4]%Z DupRaise ;;
   m <- qcut (map (fun c => Some (Monetary c)) rfm_data) 4 [1; 2; 3; 4]%Z DupRaise ;;
   ri <- mapM astype_int r ;;
   fi <- mapM astype_int f ;;
   mi <- mapM astype_int m ;;
   Ok (map mk_scored (combine (combine (combine rfm_data ri) fi) mi)))%py.

(** [show_rfm_analysis]: nothing is computed for an empty frame. *)
Definition show_rfm_analysis (rfm_data : list rfm_row)
    : option (result (list scored_row)) :=
  match rfm_data with
  | [] => None
  | _ => Some (score_rfm rfm_data)
  end.

End SourceData.

(* ================================================================== *)
(** * Floating-point special values *)
(* ================================================================== *)

Module Float.

Import Pandas.

(** A float64 as far as the scores need it: a number, an infinity with
    its sign, or not-a-number.  The sign of zero is not modelled; the
    arithmetic of the engagement score ([fmul], [fadd], [fdiv]) is
    exact, [round64] is the rounding of float64. *)
Inductive float : Type :=
| FNum (q : Q)
| FInf (negative : bool)
| FNaN.

(** The positive fraction [n / d] divided by [2 ^ k], as a fraction. *)
Definition scaled (n d k : Z) : Z * Z :=
  if (0 <=? k)%Z then (n, d * 2 ^ k)%Z else (n * 2 ^ (- k), d)%Z.

(** The integer nearest to the positive fraction [n / d]; of two nearest
    integers the even one. *)
Definition nearest_even (n d : Z) : Z :=
  let q := (n / d)%Z in
  let r := (n mod d)%Z in
  match (2 * r ?= d)%Z with
  | Lt => q
  | Gt => (q + 1)%Z
  | Eq => if Z.even q then q else (q + 1)%Z
  end.

(** The exponent of the leading bit of the positive fraction [n / d]:
    the integer [e] with [2 ^ e <= n / d < 2 ^ (e + 1)]. *)
Definition exponent (n d : Z) : Z :=
  let e0 := (Z.log2 n - Z.log2 d)%Z in
  let (a, b) := scaled n d e0 in
  if (b <=? a)%Z then e0 else (e0 - 1)%Z.

(** Rounding of the positive fraction [n / d] to float64: a significand
    of 53 bits (fewer below [2 ^ -1022], where the last bit stays at
    [2 ^ -1074]), round to nearest, ties to even; a result of [2 ^ 1024]
    or more is an infinity. *)
Definition round64_pos (n d : Z) (negative : bool) : float :=
  let q := Z.max (exponent n d - 52) (-1074) in
  let (a, b) := scaled n d q in
  let m := nearest_even a b in
  if (2 ^ 1024 <=? m * 2 ^ q)%Z then FInf negative
  else
    let v := if (0 <=? q)%Z then inject_Z (m * 2 ^ q)
             else Qmake m (Z.to_pos (2 ^ (- q))) in
    FNum (Qred (if negative then - v else v)).

(** The float64 nearest to a real number: what an arithmetic operation
    on float64 values returns for its exact result. *)
Definition round64 (x : Q) : float :=
  match Qnum x with
  | Z0 => FNum 0
  | Zpos n => round64_pos (Zpos n) (Zpos (Qden x)) false
  | Zneg n => round64_pos (Zpos n) (Zpos (Qden x)) true
  end.

(** [x >= b] and [x <= b] for a float64 [x] and a number [b];
    not-a-number compares false. *)
Definition fge (x : float) (b : Q) : bool :=
  match x with
  | FNum v => Qle_bool b v
  | FInf negative => negb negative
  | FNaN => false
  end.

Definition fle (x : float) (b : Q) : bool :=
  match x with
  | FNum v => Qle_bool v b
  | FInf negative => negative
  | FNaN => false
  end.

(** The value of a float64 of the kernel, for comparing [round64] with
    the multiplication of the processor. *)
Definition of_spec (x : SpecFloat.spec_float) : float :=
  match x with
  | SpecFloat.S754_zero _ => FNum 0
  | SpecFloat.S754_infinity s => FInf s
  | SpecFloat.S754_nan => FNaN
  | SpecFloat.S754_finite s m e =>
      let v := if (0 <=? e)%Z then inject_Z (Zpos m * 2 ^ e)
               else Qmake (Zpos m) (Z.to_pos (2 ^ (- e))) in
      FNum (Qred (if s then - v else v))
  end.

Definition of_prim (x : PrimFloat.float) : float := of_spec (FloatOps.Prim2SF x).

(** The float64 that the decimal text of [n / d] is read as, for
    integers below [2 ^ 53]. *)
Definition decimal (n d : Z) : PrimFloat.float :=
  PrimFloat.div (PrimFloat.of_uint63 (Uint63.of_Z n))
                (PrimFloat.of_uint63 (Uint63.of_Z d)).

(** The same float64 as a number. *)
Definition double (n d : Z) : Q :=
  match of_prim (decimal n d) with
  | FNum q => q
  | _ => 0
  end.

Definition is_zero (q : Q) : bool := Qeq_bool q 0.
Definition is_neg (q : Q) : bool := Qlt_bool q 0.

Definition of_num (x : num) : float :=
  match x with
  | Some q => FNum q
  | None => FNaN
  end.

Definition fmul (a b : float) : float :=
  match a, b with
  | FNaN, _ | _, FNaN => FNaN
  | FNum x, FNum y => FNum (x * y)
  | FInf s, FNum y | FNum y, FInf s =>
      if is_zero y then FNaN else FInf (xorb s (is_neg y))
  | FInf s, FInf t => FInf (xorb s t)
  end.

Definition fadd (a b : float) : float :=
  match a, b with
  | FNaN, _ | _, FNaN => FNaN
  | FNum x, FNum y => FNum (x + y)
  | FInf s, FNum _ | FNum _, FInf s => FInf s
  | FInf s, FInf t => if Bool.eqb s t then FInf s else FNaN
  end.

(** Division as numpy performs it on float64: dividing by zero raises
    nothing; it gives an infinity, or not-a-number for 0/0. *)
Definition fdiv (a b : float) : float :=
  match a, b with
  | FNaN, _ | _, FNaN => FNaN
  | FNum x, FNum y =>
      if is_zero y
      then (if is_zero x then FNaN else FInf (is_neg x))
      else FNum (x / y)
  | FNum _, FInf _ => FNum 0
  | FInf s, FNum y => FInf (xorb s (is_neg y))
  | FInf _, FInf _ => FNaN
  end.

(** [Series.max()]: the largest present value, NaN when there is none. *)
Definition series_max (xs : list num) : float :=
  match dropna xs with
  | [] => FNaN
  | x :: rest => FNum (fold_left (fun m y => if Qle_bool m y then y else m) rest x)
  end.

End Float.

(* ================================================================== *)
(** * customer_prediction_insights.py: derived scores and inline filters *)
(* ================================================================== *)

Module Insights.

Import Pandas Float.

(** A row of the prediction table, with the columns the code reads. *)
Record prediction : Type := {
  customer_id : value;
  category : value;
  product : value;
  region : value;
  city : value;
  gender : value;
  propensity_score : num;
  embedding_similarity : num;
  price_inr : num;
  total_spent : num;
  total_transactions : num
}.

(** The row after [preprocess_prediction_data]. *)
Record preprocessed : Type := {
  pred : prediction;
  propensity_category : option string;
  spending_category : option string;
  engagement_score : float
}.

(** [Series.fillna('Unknown')] on one cell. *)
Definition fillna (v : value) : value :=
  match v with
  | VNaN => VStr "Unknown"
  | _ => v
  end.

Definition fill_unknown (p : prediction) : prediction :=
  {| customer_id := customer_id p; category := category p;
     product := product p;
     region := fillna (region p); city := fillna (city p);
     gender := fillna (gender p);
     propensity_score := propensity_score p;
     embedding_similarity := embedding_similarity p;
     price_inr := price_inr p; total_spent := total_spent p;
     total_transactions := total_transactions p |}.

(** Lines 63-67: [pd.cut(propensity_score, bins=[0, 0.3, 0.6, 1.0],
    labels=['Low', 'Medium', 'High'])]. *)
Definition propensity_categories (scores : list num) : result (list (option string)) :=
  cut scores [0; 3 # 10; 6 # 10; 1]%Q ["Low"; "Medium"; "High"]%string.

(** Lines 70-75: [pd.qcut(total_spent, q=3, labels=[...],
    duplicates='drop')]. *)
Definition spending_categories (spent : list num) : result (list (option string)) :=
  qcut spent 3 ["Low Spender"; "Medium Spender"; "High Spender"]%string DupDrop.

(** Lines 78-82: the engagement score of one row, given the population
    maximum of [total_transactions]. *)
Definition engagement (max_transactions : float) (p : prediction) : float :=
  fadd (fadd (fmul (of_num (propensity_score p)) (FNum (4 # 10)))
             (fmul (of_num (embedding_similarity p)) (FNum (3 # 10))))
       (fmul (fdiv (of_num (total_transactions p)) max_transactions) (FNum (3 # 10))).

Definition engagement_scores (df : list prediction) : list float :=
  map (engagement (series_max (map total_transactions df))) df.

Definition mk_preprocessed (x : prediction * option string * option string * float)
    : preprocessed :=
  let '(p, pc, sc, e) := x in
  {| pred := p; propensity_category := pc; spending_category := sc;
     engagement_score := e |}.

(** [preprocess_prediction_data(df)]. *)
Definition preprocess_prediction_data (df0 : list prediction)
    : result (list preprocessed) :=
  let df := map fill_unknown df0 in
  (pc <- propensity_categories (map propensity_score df) ;;
   sc <- spending_categories (map total_spent df) ;;
   Ok (map mk_preprocessed
         (combine (combine (combine df pc) sc) (engagement_scores df))))%py.

(** A row of the merged table handed to [display_inline_filters]; the
    RFM columns come from a left join and exist only if the table says
    so. *)
Record full_row : Type := {
  pre : preprocessed;
  Recency : num;
  Frequency : num
}.

Record full_data : Type := {
  has_Recency : bool;
  has_Frequency : bool;
  rows : list full_row
}.

(** The values of the filter widgets. *)
Record widgets : Type := {
  selected_category : value;
  selected_product : value;
  propensity_range : Q * Q;
  selected_region : value;
  price_range : Q * Q;
  selected_gender : value;
  selected_spending : value;
  recency_max : Q;
  min_frequency : Q;
  top_n : nat
}.

Definition in_range (x : num) (r : Q * Q) : bool :=
  num_ge x (fst r) && num_le x (snd r).

(** [categorical == text] on one cell. *)
Definition cat_eq (c : option string) (v : value) : bool :=
  match c, v with
  | Some s, VStr t => String.eqb s t
  | _, _ => false
  end.

(** [df[df[col] == selected]] when [selected != 'All']. *)
Definition where_selected {A : Type} (selected : value) (test : A -> bool)
    (l : list A) : list A :=
  if py_ne selected All then filter test l else l.

Definition where_column {A : Type} (present : bool) (test : A -> bool)
    (l : list A) : list A :=
  if present then filter test l else l.

(** Lines 225-265: the chain of row filters. *)
Definition inline_filter_rows (w : widgets) (df : full_data) : list full_row :=
  let col (f : prediction -> value) (r : full_row) := f (pred (pre r)) in
  let s1 := where_selected (selected_category w)
              (fun r => py_eq (col category r) (selected_category w)) (rows df) in
  let s2 := where_selected (selected_product w)
              (fun r => py_eq (col product r) (selected_product w)) s1 in
  let s3 := filter (fun r => in_range (propensity_score (pred (pre r)))
                                      (propensity_range w)) s2 in
  let s4 := where_selected (selected_region w)
              (fun r => py_eq (col region r) (selected_region w)) s3 in
  let s5 := filter (fun r => in_range (price_inr (pred (pre r))) (price_range w)) s4 in
  let s6 := where_selected (selected_gender w)
              (fun r => py_eq (col gender r) (selected_gender w)) s5 in
  let s7 := where_selected (selected_spending w)
              (fun r => cat_eq (spending_category (pre r)) (selected_spending w)) s6 in
  let s8 := where_column (has_Recency df)
              (fun r => num_le (Recency r) (recency_max w)) s7 in
  where_column (has_Frequency df)
    (fun r => num_ge (Frequency r) (min_frequency w)) s8.

(** The table with its rows replaced: the frame a second pass works on. *)
Definition with_full_rows (df : full_data) (l : list full_row) : full_data :=
  {| has_Recency := has_Recency df; has_Frequency := has_Frequency df;
     rows := l |}.

Section Sorted.

(** [DataFrame.sort_values('propensity_score', ascending=False)].  The
    default algorithm is not stable, so the order of equal scores is not
    determined; the sort is a parameter that rearranges its input. *)
Variable sort_values : list full_row -> list full_row.

(** Lines 225-268 of [display_inline_filters]: filter, sort, keep the
    first [top_n] rows. *)
Definition display_inline_filters (w : widgets) (df : full_data) : list full_row :=
  firstn (top_n w) (sort_values (inline_filter_rows w df)).

End Sorted.

(** A stable descending sort by [propensity_score], missing scores last:
    one admissible [sort_values]. *)
Definition score_ge (a b : full_row) : bool :=
  match propensity_score (pred (pre a)), propensity_score (pred (pre b)) with
  | Some x, Some y => Qle_bool y x
  | Some _, None => true
  | None, Some _ => false
  | None, None => true
  end.

Fixpoint insert_desc (x : full_row) (l : list full_row) : list full_row :=
  match l with
  | [] => [x]
  | y :: l' => if score_ge x y then x :: l else y :: insert_desc x l'
  end.

Definition insertion_sort_desc (l : list full_row) : list full_row :=
  fold_right insert_desc [] l.

End Insights.

(* ================================================================== *)
(** * predicted_results.py: synchronised filters and personas *)
(* ================================================================== *)

Module Predicted.

Import Pandas.

(** A row of the merged prediction table. *)
Record row : Type := {
  customer_id : value;
  name : value;
  gender : value;
  state : value;
  city_name : value;
  purchased_products_names : option string;
  Similarity_Score : num;
  total_spent : num;
  days_since_last_visit : num
}.

(** The table; [state], [city_name] and [Similarity_Score] are columns
    the code tests for before use, [days_since_last_visit] is a column
    that only the cards of the results read. *)
Record table : Type := {
  has_state : bool;
  has_city_name : bool;
  has_Similarity_Score : bool;
  has_days_since_last_visit : bool;
  rows : list row
}.

(** [st.session_state.temp_filters]: a dict used with eight fixed keys;
    [None] is an absent key. *)
Record temp_filters : Type := {
  f_customer_id : option value;
  f_name : option value;
  f_gender : option value;
  f_region : option value;
  f_city : option value;
  f_products : option (list string);
  f_similarity : option (Q * Q);
  f_spent : option (Q * Q)
}.

(** [temp_filters = {}]. *)
Definition empty_filters : temp_filters :=
  {| f_customer_id := None; f_name := None; f_gender := None;
     f_region := None; f_city := None; f_products := None;
     f_similarity := None; f_spent := None |}.

(** [temp_filters[key] = v] for the five text keys. *)
Definition set_customer_id (v : value) (t : temp_filters) : temp_filters :=
  {| f_customer_id := Some v; f_name := f_name t; f_gender := f_gender t;
     f_region := f_region t; f_city := f_city t; f_products := f_products t;
     f_similarity := f_similarity t; f_spent := f_spent t |}.

Definition set_name (v : value) (t : temp_filters) : temp_filters :=
  {| f_customer_id := f_customer_id t; f_name := Some v; f_gender := f_gender t;
     f_region := f_region t; f_city := f_city t; f_products := f_products t;
     f_similarity := f_similarity t; f_spent := f_spent t |}.

Definition set_gender (v : value) (t : temp_filters) : temp_filters :=
  {| f_customer_id := f_customer_id t; f_name := f_name t; f_gender := Some v;
     f_region := f_region t; f_city := f_city t; f_products := f_products t;
     f_similarity := f_similarity t; f_spent := f_spent t |}.

Definition set_region (v : value) (t : temp_filters) : temp_filters :=
  {| f_customer_id := f_customer_id t; f_name := f_name t; f_gender := f_gender t;
     f_region := Some v; f_city := f_city t; f_products := f_products t;
     f_similarity := f_similarity t; f_spent := f_spent t |}.

Definition set_city (v : value) (t : temp_filters) : temp_filters :=
  {| f_customer_id := f_customer_id t; f_name := f_name t; f_gender := f_gender t;
     f_region := f_region t; f_city := Some v; f_products := f_products t;
     f_similarity := f_similarity t; f_spent := f_spent t |}.

(** The part of [st.session_state] the filter code uses. *)
Record session : Type := {
  temp : temp_filters;
  last_selected_id : option value;
  last_selected_name : option value;
  filters_applied : bool
}.

(** [df[mask].iloc[0]]: the first selected row, [IndexError] if none. *)
Definition iloc0 (test : row -> bool) (df : table) : result row :=
  match find test (rows df) with
  | Some r => Ok r
  | None => Raise IndexError
  end.

(** Lines 133-137 and 175-179: copy gender, and region and city when the
    table has those columns, from the customer's row. *)
Definition copy_demographics (df : table) (customer_data : row)
    (t : temp_filters) : temp_filters :=
  let t1 := set_gender (gender customer_data) t in
  let t2 := if has_state df then set_region (state customer_data) t1 else t1 in
  if has_city_name df then set_city (city_name customer_data) t2 else t2.

(** Lines 142-145 and 184-187, last three assignments. *)
Definition reset_demographics (t : temp_filters) : temp_filters :=
  set_city All (set_region All (set_gender All t)).

(** Lines 127-145: the customer-identifier select box returned
    [selected].  The boolean of the result says whether the script asks
    for a rerun. *)
Definition customer_id_selected (df : table) (selected : value) (s : session)
    : result (session * bool) :=
  if get_ne (f_customer_id (temp s)) selected then
    let t := set_customer_id selected (temp s) in
    if py_ne selected All then
      (customer_data <- iloc0 (fun r => py_eq (customer_id r) selected) df ;;
       let t' := copy_demographics df customer_data (set_name (name customer_data) t) in
       Ok ({| temp := t'; last_selected_id := Some selected;
              last_selected_name := last_selected_name s;
              filters_applied := filters_applied s |}, true))%py
    else
      Ok ({| temp := reset_demographics (set_name All t);
             last_selected_id := last_selected_id s;
             last_selected_name := last_selected_name s;
             filters_applied := filters_applied s |}, false)
  else Ok (s, false).

(** Lines 169-187: the customer-name select box returned [selected]. *)
Definition name_selected (df : table) (selected : value) (s : session)
    : result (session * bool) :=
  if get_ne (f_name (temp s)) selected then
    let t := set_name selected (temp s) in
    if py_ne selected All then
      (customer_data <- iloc0 (fun r => py_eq (name r) selected) df ;;
       let t' := copy_demographics df customer_data
                   (set_customer_id (customer_id customer_data) t) in
       Ok ({| temp := t'; last_selected_id := last_selected_id s;
              last_selected_name := Some selected;
              filters_applied := filters_applied s |}, true))%py
    else
      Ok ({| temp := reset_demographics (set_customer_id All t);
             last_selected_id := last_selected_id s;
             last_selected_name := last_selected_name s;
             filters_applied := filters_applied s |}, false)
  else Ok (s, false).

(** [series.str.contains(product, case=False, na=False)] on one cell,
    with the compiled pattern. *)
Definition str_contains (pattern : Re.regex) (cell : option string) : bool :=
  match cell with
  | Some s => Re.search pattern s
  | None => false
  end.

(** Lines 341-345: the mask of one row, the disjunction over the selected
    products. *)
Definition product_mask (patterns : list Re.regex) (r : row) : bool :=
  existsb (fun p => str_contains p (purchased_products_names r)) patterns.

(** [col * 100] on one cell: the float64 product. *)
Definition percent (x : num) : Float.float :=
  match x with
  | Some v => Float.round64 (v * 100)
  | None => Float.FNaN
  end.

(** An exact-match filter guarded by [temp_filters.get(key) != "All"]
    (lines 325-332): an absent key passes the guard and fails at the
    subscript. *)
Definition exact_filter (key : option value) (col : row -> value)
    (l : list row) : result (list row) :=
  if get_ne key All then
    (v <- subscript key ;; Ok (filter (fun r => py_eq (col r) v) l))%py
  else Ok l.

(** An exact-match filter guarded by
    [temp_filters.get(key) and temp_filters[key] != "All"] on a column
    that may be absent (lines 334-338). *)
Definition optional_exact_filter (key : option value) (present : bool)
    (col : row -> value) (l : list row) : result (list row) :=
  match key with
  | None => Ok l
  | Some v =>
      if truthy v && py_ne v All then
        if present then Ok (filter (fun r => py_eq (col r) v) l)
        else Raise KeyError
      else Ok l
  end.

(** Lines 340-346. *)
Definition products_filter (key : option (list string)) (l : list row)
    : result (list row) :=
  match key with
  | None | Some [] => Ok l
  | Some products =>
      (patterns <- mapM Re.compile products ;;
       Ok (filter (product_mask patterns) l))%py
  end.

(** Lines 348-358: an inclusive range on a numeric column. *)
Definition range_filter (key : option (Q * Q)) (present : bool)
    (col : row -> Float.float) (l : list row) : result (list row) :=
  match key with
  | None => Ok l
  | Some (low, high) =>
      if present
      then Ok (filter (fun r => Float.fge (col r) low && Float.fle (col r) high) l)
      else Raise KeyError
  end.

(** Lines 325-358: the body of [if st.session_state.filters_applied]. *)
Definition apply_filters (t : temp_filters) (df : table) : result (list row) :=
  (d1 <- exact_filter (f_customer_id t) customer_id (rows df) ;;
   d2 <- exact_filter (f_name t) name d1 ;;
   d3 <- exact_filter (f_gender t) gender d2 ;;
   d4 <- optional_exact_filter (f_region t) (has_state df) state d3 ;;
   d5 <- optional_exact_filter (f_city t) (has_city_name df) city_name d4 ;;
   d6 <- products_filter (f_products t) d5 ;;
   d7 <- range_filter (f_similarity t) (has_Similarity_Score df)
           (fun r => percent (Similarity_Score r)) d6 ;;
   range_filter (f_spent t) true (fun r => Float.of_num (total_spent r)) d7)%py.

(** The table with its rows replaced: the frame a second pass works on. *)
Definition with_rows (df : table) (l : list row) : table :=
  {| has_state := has_state df; has_city_name := has_city_name df;
     has_Similarity_Score := has_Similarity_Score df;
     has_days_since_last_visit := has_days_since_last_visit df; rows := l |}.

(** What [subprocess.run(..., capture_output=True, text=True)] returned;
    a non-zero exit status is not an exception. *)
Record completed_process : Type := {
  stdout : string;
  returncode : Z
}.

(** The persona vocabulary, in the order the loop tries it. *)
Definition personas : list string :=
  ["Champions"; "Loyal Customers"; "Potential Loyalists"; "Big Spenders";
   "New Customers"; "At Risk"; "Hibernating"]%string.

(** Lines 649-660: the first label found in the response. *)
Definition classify (response : string) : string :=
  match find (fun p => Str.icontains p response) personas with
  | Some p => p
  | None => "Unclassified"
  end.

(** [generate_persona(row)], given the outcome of the [subprocess.run]
    call: the call is not wrapped in any handler, so an exception it
    raises leaves the function. *)
Definition generate_persona (run : result completed_process) : result string :=
  (result <- run ;; Ok (classify (stdout result)))%py.

End Predicted.


From Stdlib Require OrderedTypeEx Sorted DecimalString.

Unset Implicit Arguments.

(* ================================================================== *)
(** * predicted_results.py: the paged list of results *)
(* ================================================================== *)

Module Paging.

(** Line 396: [max(1, (total_customers + page_size - 1) // page_size)]. *)
Definition total_pages (total_customers page_size : Z) : Z :=
  Z.max 1 ((total_customers + page_size - 1) / page_size).

(** Lines 399-400: a page number beyond the last page becomes the last
    page. *)
Definition clamp_page (page_number pages : Z) : Z :=
  if (page_number >? pages)%Z then pages else page_number.

(** A Python slice bound on a sequence of length [len]: a negative
    bound counts from the end, and bounds are cut to the sequence. *)
Definition slice_bound (len i : Z) : Z :=
  if (i <? 0)%Z then Z.max (i + len) 0 else Z.min i len.

(** [frame.iloc[start:stop]]. *)
Definition iloc_slice {A : Type} (l : list A) (start stop : Z) : list A :=
  let len := Z.of_nat (List.length l) in
  let a := slice_bound len start in
  let b := slice_bound len stop in
  firstn (Z.to_nat (b - a)) (skipn (Z.to_nat a) l).

(** The buttons under the list. *)
Inductive click : Type := NoClick | Previous | NextPage.

(** What one run of the results column shows and stores. *)
Record view (A : Type) : Type := {
  current_page : list A;      (* [current_page_df] *)
  start_idx : Z;
  end_idx : Z;
  pages : Z;                  (* [total_pages] *)
  page_shown : Z;             (* [page_number] after line 400 *)
  page_stored : Z             (* [page_number] when the run ends *)
}.

Arguments current_page {A} _.
Arguments start_idx {A} _.
Arguments end_idx {A} _.
Arguments pages {A} _.
Arguments page_shown {A} _.
Arguments page_stored {A} _.

(** Lines 383-407 and 449-465: the page of [sorted_filtered] for the
    stored page number (1 when none is stored), and the effect of the
    two buttons; a disabled button cannot be clicked. *)
Definition results_column {A : Type} (sorted_filtered : list A)
    (page_size : Z) (page_number : option Z) (c : click) : view A :=
  let stored := match page_number with Some p => p | None => 1%Z end in
  let total_customers := Z.of_nat (List.length sorted_filtered) in
  let tp := total_pages total_customers page_size in
  let pn := clamp_page stored tp in
  let start := ((pn - 1) * page_size)%Z in
  let stop := Z.min (start + page_size) total_customers in
  {| current_page := iloc_slice sorted_filtered start stop;
     start_idx := start;
     end_idx := stop;
     pages := tp;
     page_shown := pn;
     page_stored :=
       match c with
       | NoClick => pn
       | Previous => if (pn =? 1)%Z then pn else (pn - 1)%Z
       | NextPage => if (pn =? tp)%Z then pn else (pn + 1)%Z
       end |}.

End Paging.

(* ================================================================== *)
(** * predicted_results.py: one run of the predictions page *)
(* ================================================================== *)

Module FilterSection.

Import Pandas Predicted.

(** [temp_filters[key] = v] for the three remaining keys. *)
Definition set_products (v : list string) (t : temp_filters) : temp_filters :=
  {| f_customer_id := f_customer_id t; f_name := f_name t; f_gender := f_gender t;
     f_region := f_region t; f_city := f_city t; f_products := Some v;
     f_similarity := f_similarity t; f_spent := f_spent t |}.

Definition set_similarity (v : Q * Q) (t : temp_filters) : temp_filters :=
  {| f_customer_id := f_customer_id t; f_name := f_name t; f_gender := f_gender t;
     f_region := f_region t; f_city := f_city t; f_products := f_products t;
     f_similarity := Some v; f_spent := f_spent t |}.

Definition set_spent (v : Q * Q) (t : temp_filters) : temp_filters :=
  {| f_customer_id := f_customer_id t; f_name := f_name t; f_gender := f_gender t;
     f_region := f_region t; f_city := f_city t; f_products := f_products t;
     f_similarity := f_similarity t; f_spent := Some v |}.

Definition with_temp (t : temp_filters) (s : session) : session :=
  {| temp := t; last_selected_id := last_selected_id s;
     last_selected_name := last_selected_name s;
     filters_applied := filters_applied s |}.

(** Lines 96-100: the filter state of a first visit. *)
Definition first_visit : session :=
  {| temp := empty_filters; last_selected_id := None;
     last_selected_name := None; filters_applied := false |}.

(** Lines 110-114: when the stored name differs from the name last
    selected, the stored customer identifier is taken from the first row
    that carries the stored name. *)
Definition sync_id_from_name (df : table) (s : session) : result session :=
  match last_selected_name s with
  | None => Ok s
  | Some last =>
      if get_ne (f_name (temp s)) last then
        if get_ne (f_name (temp s)) All then
          (stored <- subscript (f_name (temp s)) ;;
           customer_data <- iloc0 (fun r => py_eq (name r) stored) df ;;
           Ok (with_temp (set_customer_id (customer_id customer_data) (temp s)) s))%py
        else Ok s
      else Ok s
  end.

(** Lines 152-156: the same for the stored name, from the stored
    customer identifier. *)
Definition sync_name_from_id (df : table) (s : session) : result session :=
  match last_selected_id s with
  | None => Ok s
  | Some last =>
      if get_ne (f_customer_id (temp s)) last then
        if get_ne (f_customer_id (temp s)) All then
          (stored <- subscript (f_customer_id (temp s)) ;;
           customer_data <- iloc0 (fun r => py_eq (customer_id r) stored) df ;;
           Ok (with_temp (set_name (name customer_data) (temp s)) s))%py
        else Ok s
      else Ok s
  end.

(** What the widgets of the filter section return in one run. *)
Record filter_widgets : Type := {
  customer_id_box : value;
  name_box : value;
  gender_box : value;
  region_box : value;
  city_box : value;
  products_box : list string;
  similarity_slider : Q * Q;
  spent_slider : Q * Q;
  apply_clicked : bool;
  reset_clicked : bool
}.

(** Lines 263-264: [len(df["Similarity_Score"].dropna()) > 0]. *)
Definition has_valid_scores (df : table) : bool :=
  match dropna (map Similarity_Score (rows df)) with
  | [] => false
  | _ => true
  end.

(** [Series.min()] and [Series.max()]: the least and the greatest
    present value, NaN when there is none. *)
Definition column_min (xs : list num) : num :=
  match dropna xs with
  | [] => None
  | x :: rest => Some (fold_left (fun m y => if Qle_bool y m then y else m) rest x)
  end.

Definition column_max (xs : list num) : num :=
  match dropna xs with
  | [] => None
  | x :: rest => Some (fold_left (fun m y => if Qle_bool m y then y else m) rest x)
  end.

(** Lines 265-266: [float(valid_scores.min() * 100)] and
    [float(valid_scores.max() * 100)]. *)
Definition similarity_bounds (df : table) : Float.float * Float.float :=
  let valid_scores := map Similarity_Score (rows df) in
  (percent (column_min valid_scores), percent (column_max valid_scores)).

(** Lines 283-284: [float(df["total_spent"].min())] and
    [float(df["total_spent"].max())]. *)
Definition spent_bounds (df : table) : Float.float * Float.float :=
  let spent := map total_spent (rows df) in
  (Float.of_num (column_min spent), Float.of_num (column_max spent)).

(** [st.slider(label, min_value=a, max_value=b, value=(a, b), ...)] for
    float bounds with [a <= b], as the page passes them, returning the
    pair [returned].  Streamlit raises [StreamlitAPIException] when the
    two bounds coincide (the minimum must be less than the maximum).
    The widget keeps the pair it returns within the bounds; a pair
    outside them, and bounds that are not numbers, are outside the
    model. *)
Definition slider (bounds : Float.float * Float.float) (returned : Q * Q)
    : result (Q * Q) :=
  match bounds with
  | (Float.FNum a, Float.FNum b) =>
      if Qeq_bool a b then Raise StreamlitAPIException
      else if Qle_bool a (fst returned)
              && Qle_bool (fst returned) (snd returned)
              && Qle_bool (snd returned) b
      then Ok returned
      else OutsideModel
  | _ => OutsideModel
  end.

(** Lines 189-295: the widgets without synchronisation store what they
    return; region, city and similarity only when the table has the
    column (and, for similarity, a score).  The first component is the
    dictionary as the widgets leave it, also when a slider raises. *)
Definition store_widgets (df : table) (w : filter_widgets) (t : temp_filters)
    : temp_filters * result temp_filters :=
  let t1 := set_gender (gender_box w) t in
  let t2 := if has_state df then set_region (region_box w) t1 else t1 in
  let t3 := if has_city_name df then set_city (city_box w) t2 else t2 in
  let t4 := set_products (products_box w) t3 in
  let similarity :=
    if has_Similarity_Score df && has_valid_scores df
    then (v <- slider (similarity_bounds df) (similarity_slider w) ;;
          Ok (set_similarity v t4))%py
    else Ok t4 in
  match similarity with
  | Ok t5 =>
      match slider (spent_bounds df) (spent_slider w) with
      | Ok v => (set_spent v t5, Ok (set_spent v t5))
      | Raise e => (t5, Raise e)
      | OutsideModel => (t5, OutsideModel)
      end
  | Raise e => (t4, Raise e)
  | OutsideModel => (t4, OutsideModel)
  end.

(** The keys of [st.session_state] the page reads and writes, apart from
    those of the offer and persona panels. *)
Record page_state : Type := {
  filters : session;
  page_number : option Z;
  selected_customer_id : option value
}.

Definition with_filters (s : session) (st : page_state) : page_state :=
  {| filters := s; page_number := page_number st;
     selected_customer_id := selected_customer_id st |}.

(** Lines 302-303 and 310-311: [page_number = 1] when it is stored. *)
Definition first_page (p : option Z) : option Z :=
  match p with
  | Some _ => Some 1%Z
  | None => None
  end.

(** A run mutates the session state as it goes, and the mutations made
    before an exception stay: a step is given with the state its
    exception leaves behind. *)
Definition on_ok {A B : Type} (m : result A) (left_behind : page_state)
    (k : A -> page_state * result B) : page_state * result B :=
  match m with
  | Ok a => k a
  | Raise e => (left_behind, Raise e)
  | OutsideModel => (left_behind, OutsideModel)
  end.

(** How the filter section ends when it does not raise. *)
Inductive outcome : Type :=
| Rerun                          (* [st.rerun()] *)
| Stopped                        (* [st.stop()], the results are not shown *)
| Shown (filtered_df : list row).

(** Lines 105-369: synchronisation, the two driver boxes, the other
    widgets, the two buttons, and the filters when they are applied.
    The result is the state the run leaves and how it ends. *)
Definition filter_section (df : table) (w : filter_widgets) (st : page_state)
    : page_state * result outcome :=
  on_ok (sync_id_from_name df (filters st)) st (fun s1 =>
  on_ok (customer_id_selected df (customer_id_box w) s1)
        (with_filters (with_temp (set_customer_id (customer_id_box w) (temp s1)) s1) st)
        (fun r1 =>
  if snd r1 then (with_filters (fst r1) st, Ok Rerun) else
  on_ok (sync_name_from_id df (fst r1)) (with_filters (fst r1) st) (fun s3 =>
  on_ok (name_selected df (name_box w) s3)
        (with_filters (with_temp (set_name (name_box w) (temp s3)) s3) st)
        (fun r2 =>
  if snd r2 then (with_filters (fst r2) st, Ok Rerun) else
  let s4 := fst r2 in
  let stored := store_widgets df w (temp s4) in
  on_ok (snd stored) (with_filters (with_temp (fst stored) s4) st) (fun t =>
  if apply_clicked w then
    ({| filters := {| temp := t;
                      last_selected_id := last_selected_id s4;
                      last_selected_name := last_selected_name s4;
                      filters_applied := true |};
        page_number := first_page (page_number st);
        selected_customer_id := selected_customer_id st |}, Ok Rerun)
  else if reset_clicked w then
    ({| filters := {| temp := empty_filters;
                      last_selected_id := None;
                      last_selected_name := None;
                      filters_applied := false |};
        page_number := first_page (page_number st);
        selected_customer_id := selected_customer_id st |}, Ok Rerun)
  else
    let st' := with_filters (with_temp t s4) st in
    if filters_applied s4 then
      on_ok (apply_filters t df) st' (fun filtered_df =>
        match filtered_df with
        | [] => (st', Ok Stopped)
        | _ => (st', Ok (Shown filtered_df))
        end)
    else (st', Ok Stopped)))))).

(** The page size is 10 (lines 386-387). *)
Definition page_size : Z := 10.

(** What the user does in the results column. *)
Inductive event : Type :=
| Page (c : Paging.click)        (* nothing, or one of the two page buttons *)
| ViewDetails (k : nat).         (* the button of card [k] of the page *)

(** Lines 471-476: the customer of the detail column is the stored
    selection, or else the first of the sorted results, looked up in the
    whole table. *)
Definition detail_customer (df : table) (selected : option value)
    (sorted_filtered : list row) : result row :=
  (selected_customer <-
     match selected with
     | Some id => Ok id
     | None =>
         match sorted_filtered with
         | top :: _ => Ok (customer_id top)
         | [] => Raise IndexError
         end
     end ;;
   iloc0 (fun r => py_eq (customer_id r) selected_customer) df)%py.

(** What a run displays: nothing below the filters, the page of results
    alone when a button of the results column asks for a rerun, or the
    page of results and the customer of the detail column. *)
Inductive display : Type :=
| NoResults
| ResultsOnly (v : Paging.view row)
| WithDetail (v : Paging.view row) (cust_df : row).

(** Lines 418-433: what one card reads from its customer.  The
    recency is shown as [int(customer['days_since_last_visit'])], which
    needs the column and a present value; the city is read without a
    test for its column. *)
Definition card (df : table) (customer : row) : result unit :=
  if has_days_since_last_visit df then
    match days_since_last_visit customer with
    | Some _ => if has_city_name df then Ok tt else Raise KeyError
    | None => Raise ValueError
    end
  else Raise KeyError.

(** [str(v)] of a cell as an f-string prints it: the text itself, the
    digits of an integer, "nan" for a missing cell. *)
Definition str_value (v : value) : string :=
  match v with
  | VStr s => s
  | VInt z => DecimalString.NilZero.string_of_int (Z.to_int z)
  | VNaN => "nan"
  end.

(** Line 440: the key [f"view_{customer['customer_id']}"] of the button
    of a card. *)
Definition view_key (customer : row) : string :=
  ("view_" ++ str_value (customer_id customer))%string.

(** Lines 411-447: the cards of the page in order.  The "View Details"
    button of a card follows what the card shows; Streamlit refuses a
    second widget with a key already used in the run ([seen] holds the
    keys of the cards before), and a click on the button ends the run:
    the result is the customer of the clicked card, if a card was
    clicked. *)
Fixpoint cards (df : table) (seen : list string) (page : list row)
    (clicked : option nat) : result (option row) :=
  match page with
  | [] => Ok None
  | customer :: rest =>
      (shown <- card df customer ;;
       if existsb (String.eqb (view_key customer)) seen
       then Raise StreamlitAPIException
       else match clicked with
            | Some O => Ok (Some customer)
            | Some (S k) => cards df (view_key customer :: seen) rest (Some k)
            | None => cards df (view_key customer :: seen) rest None
            end)%py
  end.

Section Run.

(** [sort_values("total_spent", ascending=False)]; as for the inline
    filters, the sort is a parameter. *)
Variable sort_values : list row -> list row.

(** Lines 379-476: the results column and the lookup that opens the
    detail column. *)
Definition columns (df : table) (ev : event) (filtered_df : list row)
    (st : page_state) : page_state * result display :=
  let sorted_filtered := sort_values filtered_df in
  let c := match ev with Page c => c | ViewDetails _ => Paging.NoClick end in
  let v := Paging.results_column sorted_filtered page_size (page_number st) c in
  let clicked := match ev with
                 | ViewDetails k => Some k
                 | Page _ => None
                 end in
  let shown := {| filters := filters st;
                  page_number := Some (Paging.page_shown v);
                  selected_customer_id := selected_customer_id st |} in
  on_ok (cards df [] (Paging.current_page v) clicked) shown (fun button =>
  match button with
  | Some customer =>
      ({| filters := filters st; page_number := Some (Paging.page_shown v);
          selected_customer_id := Some (customer_id customer) |},
       Ok (ResultsOnly v))
  | None =>
      let st' := {| filters := filters st;
                    page_number := Some (Paging.page_stored v);
                    selected_customer_id := selected_customer_id st |} in
      if (Paging.page_stored v =? Paging.page_shown v)%Z then
        on_ok (detail_customer df (selected_customer_id st) sorted_filtered) st'
              (fun cust_df => (st', Ok (WithDetail v cust_df)))
      else (st', Ok (ResultsOnly v))
  end).

(** Lines 105-476: one run of the page up to the lookup of the detail
    column. *)
Definition page_run (df : table) (w : filter_widgets) (ev : event)
    (st : page_state) : page_state * result display :=
  let (st1, r) := filter_section df w st in
  on_ok r st1 (fun o =>
    match o with
    | Rerun | Stopped => (st1, Ok NoResults)
    | Shown filtered_df => columns df ev filtered_df st1
    end).

End Run.

(** A stable descending sort by [total_spent], missing values last: one
    admissible [sort_values]. *)
Definition spent_ge (a b : row) : bool :=
  match total_spent a, total_spent b with
  | Some x, Some y => Qle_bool y x
  | Some _, None => true
  | None, Some _ => false
  | None, None => true
  end.

Fixpoint insert_by_spent (x : row) (l : list row) : list row :=
  match l with
  | [] => [x]
  | y :: l' => if spent_ge x y then x :: l else y :: insert_by_spent x l'
  end.

Definition sort_by_spent (l : list row) : list row :=
  fold_right insert_by_spent [] l.

(** app.py lines 74-97 and 218: the navigation buttons and the filter
    dialog of the visualisation page write [filters_applied], the only
    key of the page they share. *)
Definition other_page (applied : bool) (st : page_state) : page_state :=
  with_filters {| temp := temp (filters st);
                  last_selected_id := last_selected_id (filters st);
                  last_selected_name := last_selected_name (filters st);
                  filters_applied := applied |} st.

End FilterSection.

(* ================================================================== *)
(** * Python text operations on ASCII text *)
(* ================================================================== *)

Module Text.

(** [c.isspace()] on ASCII: tab to carriage return, the four
    separators 28-31, and the space. *)
Definition is_space (c : ascii) : bool :=
  let n := nat_of_ascii c in
  ((9 <=? n)%nat && (n <=? 13)%nat) || ((28 <=? n)%nat && (n <=? 32)%nat).

(** [s.lstrip()]. *)
Fixpoint lstrip (s : string) : string :=
  match s with
  | EmptyString => EmptyString
  | String c rest => if is_space c then lstrip rest else s
  end.

(** [s.rstrip()]. *)
Fixpoint rstrip (s : string) : string :=
  match s with
  | EmptyString => EmptyString
  | String c rest =>
      match rstrip rest with
      | EmptyString => if is_space c then EmptyString else String c EmptyString
      | kept => String c kept
      end
  end.

(** [s.strip()]. *)
Definition strip (s : string) : string := rstrip (lstrip s).

(** [s.split(sep)] for a separator of one character: the pieces between
    the separators, empty pieces included; never an empty list. *)
Fixpoint split (sep : ascii) (s : string) : list string :=
  match s with
  | EmptyString => [EmptyString]
  | String c rest =>
      if Ascii.eqb c sep then EmptyString :: split sep rest
      else match split sep rest with
           | piece :: pieces => String c piece :: pieces
           | [] => [String c EmptyString]
           end
  end.

Definition comma : ascii := ",".
Definition newline : ascii := "010".

(** Truthiness of a string. *)
Definition nonempty (s : string) : bool :=
  match s with
  | EmptyString => false
  | String _ _ => true
  end.

(** [[p.strip() for p in s.split(",") if p.strip()]] (lines 247,
    552-556, 696-707). *)
Definition items (s : string) : list string :=
  filter nonempty (map strip (split comma s)).

(** [str(cell)]: a missing cell is the float NaN, whose text is
    "nan". *)
Definition str (cell : option string) : string :=
  match cell with
  | Some s => s
  | None => "nan"
  end.

(** [c in s] for a character. *)
Fixpoint has_char (c : ascii) (s : string) : bool :=
  match s with
  | EmptyString => false
  | String d rest => Ascii.eqb d c || has_char c rest
  end.

(** The [re.sub] of lines 685 and 691: square brackets, single quotes
    and double quotes removed. *)
Definition is_bracket_or_quote (c : ascii) : bool :=
  existsb (Ascii.eqb c) ["["; "]"; "'"; "034"]%char.

Fixpoint unquote (s : string) : string :=
  match s with
  | EmptyString => EmptyString
  | String c rest =>
      if is_bracket_or_quote c then unquote rest else String c (unquote rest)
  end.

(** Lines 684-694: the items of a cart cell. *)
Definition cart_items (cell : option string) : list string :=
  map unquote
    (filter (fun p => nonempty p && negb (String.eqb (Str.lower p) "nan"))
       (map strip (split comma (str cell)))).

(** [sorted(list(set(l)))]: the distinct strings in ascending order of
    their characters. *)
Fixpoint insert_unique (p : string) (l : list string) : list string :=
  match l with
  | [] => [p]
  | q :: l' =>
      match OrderedTypeEx.String_as_OT.cmp p q with
      | Lt => p :: l
      | Eq => l
      | Gt => q :: insert_unique p l'
      end
  end.

Definition sorted_set (l : list string) : list string :=
  fold_right insert_unique [] l.

End Text.

(* ================================================================== *)
(** * predicted_results.py: product options, offers *)
(* ================================================================== *)

Module Offers.

Import Pandas Predicted.

(** Lines 245-250: the options of the product multiselect. *)
Definition product_options (df : table) : list string :=
  Text.sorted_set
    (flat_map (fun cell => match cell with
                           | Some products_str => Text.items products_str
                           | None => []
                           end)
       (map purchased_products_names (rows df))).

(** Lines 662-677: [generate_offer_message], given the outcome of the
    [subprocess.run] call: the first line of the stripped output. *)
Definition generate_offer_message (run : result completed_process)
    : result string :=
  (result <- run ;;
   match Text.split Text.newline (Text.strip (stdout result)) with
   | line :: _ => Ok line
   | [] => Raise IndexError
   end)%py.

(** Lines 684-694: the items of a cart cell of the customer in
    detail. *)
Definition cart (cell : option string) : list string := Text.cart_items cell.

(** Lines 552-556 and 696-707: the purchased and the recommended
    products of the customer in detail, from the text of the cell. *)
Definition listed (cell : option string) : list string :=
  Text.items (Text.str cell).

Section Choice.

(** [random.choice]: some element of a non-empty list. *)
Variable choice : list string -> string.

(** Lines 816-823: the product of the offer, chosen when the session
    holds none for the customer ([stored = None]); a stored value, be
    it [None], is kept. *)
Definition offer_product (stored : option (option string))
    (same_category other_categories : option string) : option string :=
  match stored with
  | Some product => product
  | None =>
      match listed same_category with
      | _ :: _ => Some (choice (listed same_category))
      | [] =>
          match listed other_categories with
          | _ :: _ => Some (choice (listed other_categories))
          | [] => None
          end
      end
  end.

End Choice.

(** ** The persona and offer panels of the detail column *)

(** The keys of [st.session_state] the panels use: [persona], and for
    each customer [product_<id>] and [offer_<id>]. *)
Record panels : Type := {
  persona : option string;
  products : string -> option (option string);
  offers : string -> option string
}.

Definition set_key {A : Type} (key : string) (v : A)
    (m : string -> option A) : string -> option A :=
  fun k => if String.eqb k key then Some v else m k.

(** A text that is shown: [if st.session_state.get(key):]. *)
Definition if_truthy (text : option string) : option string :=
  match text with
  | Some EmptyString => None
  | other => other
  end.

(** How a run of the panels ends when nothing raises. *)
Inductive panels_shown : Type :=
| PanelsRerun
| Panels (persona_shown product_shown offer_shown : option string)
         (send_buttons : bool).

Section Panels.

Variable choice : list string -> string.

(** The text of a customer identifier in an f-string. *)
Variable format : value -> string.

(** Lines 679-681, 746-771 and 803-853, 908-917: the "Analyze" button,
    the persona, the product of the offer, the "Generate" button, the
    offer and the send buttons of the customer [cust_df]. *)
Definition detail_panels (cust_df : row)
    (same_category other_categories : option string)
    (analyze_clicked generate_clicked : bool)
    (persona_run offer_run : result completed_process) (st : panels)
    : panels * result panels_shown :=
  if analyze_clicked then
    match generate_persona persona_run with
    | Ok p => ({| persona := Some p; products := products st;
                  offers := offers st |}, Ok PanelsRerun)
    | Raise e => (st, Raise e)
    | OutsideModel => (st, OutsideModel)
    end
  else
    let key := format (customer_id cust_df) in
    let product := offer_product choice (products st key)
                     same_category other_categories in
    let st1 := {| persona := persona st;
                  products := match products st key with
                              | Some _ => products st
                              | None => set_key key product (products st)
                              end;
                  offers := offers st |} in
    if generate_clicked then
      match generate_offer_message offer_run with
      | Ok message =>
          ({| persona := persona st1; products := products st1;
              offers := set_key key message (offers st1) |}, Ok PanelsRerun)
      | Raise e => (st1, Raise e)
      | OutsideModel => (st1, OutsideModel)
      end
    else
      (st1, Ok (Panels (if_truthy (persona st)) (if_truthy product)
                       (if_truthy (offers st key))
                       (match if_truthy (offers st key) with
                        | Some _ => true
                        | None => false
                        end))).

End Panels.

End Offers.

(* ================================================================== *)
(** * customer_prediction_insights.py: merge, summary, priorities *)
(* ================================================================== *)

Module InsightsPage.

Import Pandas Float Insights.

(** ** [merge_customer_data] *)

(** Equality of join keys: unlike [==], a merge and [drop_duplicates]
    take two missing keys as equal. *)
Definition key_eq (a b : value) : bool :=
  match a, b with
  | VNaN, VNaN => true
  | _, _ => py_eq a b
  end.

Section Merge.

Variables L R : Type.
Variable left_key : L -> value.
Variable right_key : R -> value.

(** [left.merge(right, on='customer_id', how='left')]: the rows of the
    left frame in their order, each with every matching row of the
    right frame, or once with missing values when none matches. *)
Definition left_merge (left : list L) (right : list R) : list (L * option R) :=
  flat_map (fun l =>
              match filter (fun r => key_eq (left_key l) (right_key r)) right with
              | [] => [(l, None)]
              | matches => map (fun r => (l, Some r)) matches
              end) left.

(** [right.drop_duplicates('customer_id')]: the first row of each key. *)
Fixpoint drop_duplicates_from (seen : list value) (right : list R) : list R :=
  match right with
  | [] => []
  | r :: rest =>
      if existsb (key_eq (right_key r)) seen then drop_duplicates_from seen rest
      else r :: drop_duplicates_from (right_key r :: seen) rest
  end.

Definition drop_duplicates (right : list R) : list R :=
  drop_duplicates_from [] right.

End Merge.

Arguments left_merge {L R} left_key right_key left right.
Arguments drop_duplicates_from {R} right_key seen right.
Arguments drop_duplicates {R} right_key right.

Section MergeCustomerData.

(** The rows of the three other tables, with their [customer_id]. *)
Variables Purchase Rfm Features : Type.
Variable purchase_id : Purchase -> value.
Variable rfm_id : Rfm -> value.
Variable features_id : Features -> value.

Definition merged_row : Type :=
  ((preprocessed * option Purchase) * option Rfm) * option Features.

Definition prediction_of (m : merged_row) : preprocessed := fst (fst (fst m)).

(** Lines 87-114. *)
Definition merge_customer_data (predictions : list preprocessed)
    (customer_purchases : list Purchase) (customer_rfm : list Rfm)
    (customer_category_features : list Features) : list merged_row :=
  let id (p : preprocessed) := customer_id (pred p) in
  let merged1 := left_merge id purchase_id predictions
                   (drop_duplicates purchase_id customer_purchases) in
  let merged2 := left_merge (fun m => id (fst m)) rfm_id merged1 customer_rfm in
  left_merge (fun m => id (fst (fst m))) features_id merged2
    customer_category_features.

End MergeCustomerData.

Arguments prediction_of {Purchase Rfm Features} m.
Arguments merge_customer_data {Purchase Rfm Features} purchase_id rfm_id
  features_id predictions customer_purchases customer_rfm
  customer_category_features.

(** ** [display_filter_summary] *)

(** The four metrics of lines 276-311. *)
Record summary : Type := {
  original_records : Z;
  filtered_records : Z;
  removed : Z;                 (* shown as the delta "-n" *)
  filter_pct : Q;
  unique_customers : Z
}.

Definition display_filter_summary (original_count filtered_count : Z) : summary :=
  {| original_records := original_count;
     filtered_records := filtered_count;
     removed := (original_count - filtered_count)%Z;
     filter_pct := if (original_count >? 0)%Z
                   then (inject_Z filtered_count / inject_Z original_count * 100)%Q
                   else 0%Q;
     unique_customers := filtered_count |}.

Section Dashboard.

Variable sort_values : list full_row -> list full_row.

(** Lines 1006-1009 of [show_product_based_customer_insights]: the
    summary compares the table with the result of the inline filters. *)
Definition dashboard_summary (w : widgets) (df : full_data) : summary :=
  display_filter_summary
    (Z.of_nat (List.length (rows df)))
    (Z.of_nat (List.length (display_inline_filters sort_values w df))).

End Dashboard.

(** ** [display_actionable_insights] *)

(** [col > q] and [col < q] on one cell; a missing value compares
    false. *)
Definition num_gt (x : num) (q : Q) : bool :=
  match x with
  | Some v => Qlt_bool q v
  | None => false
  end.

Definition num_lt (x : num) (q : Q) : bool :=
  match x with
  | Some v => Qlt_bool v q
  | None => false
  end.

Definition is_high (r : full_row) : bool :=
  num_gt (propensity_score (pred (pre r))) (7 # 10).

Definition is_medium (r : full_row) : bool :=
  num_ge (propensity_score (pred (pre r))) (4 # 10) &&
  num_le (propensity_score (pred (pre r))) (7 # 10).

Definition is_at_risk (with_recency : bool) (r : full_row) : bool :=
  if with_recency
  then num_lt (propensity_score (pred (pre r))) (4 # 10) && num_gt (Recency r) 30
  else num_lt (propensity_score (pred (pre r))) (4 # 10).

(** The three groups of lines 870-876. *)
Record priority_groups : Type := {
  high_prop : list full_row;
  medium_prop : list full_row;
  at_risk : list full_row
}.

Definition display_actionable_insights (df : full_data) : priority_groups :=
  {| high_prop := filter is_high (rows df);
     medium_prop := filter is_medium (rows df);
     at_risk := filter (is_at_risk (has_Recency df)) (rows df) |}.

(** ** [display_top_customers] *)

(** Lines 713-717: the priority score of one row, given the maximum of
    [total_spent]. *)
Definition priority (max_spent : float) (r : full_row) : float :=
  fadd (fadd (fmul (of_num (propensity_score (pred (pre r)))) (FNum (5 # 10)))
             (fmul (engagement_score (pre r)) (FNum (3 # 10))))
       (fmul (fdiv (of_num (total_spent (pred (pre r)))) max_spent)
             (FNum (2 # 10))).

Definition with_priority (l : list full_row) : list (full_row * float) :=
  let max_spent := series_max (map (fun r => total_spent (pred (pre r))) l) in
  map (fun r => (r, priority max_spent r)) l.

Section TopCustomers.

(** [sort_values('priority_score', ascending=False)], a parameter as
    before. *)
Variable sort_values : list (full_row * float) -> list (full_row * float).

(** Lines 711-720. *)
Definition display_top_customers (l : list full_row) : list (full_row * float) :=
  firstn 20 (sort_values (with_priority l)).

End TopCustomers.

End InsightsPage.

(* ================================================================== *)
(** * app.py and home_page_app.py: navigation and the visualisation
      filters *)
(* ================================================================== *)

Module App.

(** A row of [customer_with_purchases]: the order timestamp in
    nanoseconds since the epoch ([None] for NaT), region and gender. *)
Record purchase : Type := {
  order_date : option Z;
  region : value;
  gender : value
}.

Record purchases : Type := {
  has_order_date : bool;
  has_region : bool;
  has_gender : bool;
  rows : list purchase
}.

Definition nanoseconds_per_day : Z := 86400000000000.

(** [pd.Timestamp(d)] for a date [d], counted in days since the epoch:
    midnight of that day. *)
Definition Timestamp (d : Z) : Z := (d * nanoseconds_per_day)%Z.

(** [timestamp.date()]. *)
Definition date_of (t : Z) : Z := (t / nanoseconds_per_day)%Z.

(** Lines 183-186: the mask on one cell; NaT compares false. *)
Definition date_mask (first last : Z) (cell : option Z) : bool :=
  match cell with
  | Some t => (Timestamp first <=? t)%Z && (t <=? Timestamp last)%Z
  | None => false
  end.

(** What the widgets of the filter dialog return; a date input in
    range mode returns the dates picked so far. *)
Record dialog : Type := {
  date_range : list Z;
  selected_region : value;
  selected_gender : value;
  apply_clicked : bool
}.

(** Lines 166-213: [filtered_data] of the dialog. *)
Definition dialog_filters (data : purchases) (w : dialog) : list purchase :=
  let d1 := if has_order_date data then
              match date_range w with
              | [first; last] =>
                  filter (fun r => date_mask first last (order_date r)) (rows data)
              | _ => rows data
              end
            else rows data in
  let d2 := if has_region data && py_ne (selected_region w) All
            then filter (fun r => py_eq (region r) (selected_region w)) d1
            else d1 in
  if has_gender data && py_ne (selected_gender w) All
  then filter (fun r => py_eq (gender r) (selected_gender w)) d2
  else d2.

(** [series.min()] and [series.max()] on the order dates, NaT skipped;
    [None] when there is no date. *)
Definition dates (data : purchases) : list Z :=
  flat_map (fun r => match order_date r with Some t => [t] | None => [] end)
    (rows data).

Definition min_date (data : purchases) : option Z :=
  match dates data with
  | [] => None
  | t :: ts => Some (fold_left Z.min ts t)
  end.

Definition max_date (data : purchases) : option Z :=
  match dates data with
  | [] => None
  | t :: ts => Some (fold_left Z.max ts t)
  end.

(** Lines 172-180: the range the date input starts with, the dates of
    the first and of the last order. *)
Definition default_date_range (data : purchases) : list Z :=
  match min_date data, max_date data with
  | Some lo, Some hi => [date_of lo; date_of hi]
  | _, _ => []
  end.

(** The pages and the keys of [st.session_state] that [main] and the
    pages share. *)
Inductive page_name : Type :=
| Home | Visualizations | Predictions | ProductCustomerInsights.

Record state : Type := {
  page : page_name;
  show_filter_dialog : bool;
  filters_applied : bool;
  filtered_data : option (list purchase)
}.

(** Lines 61-68: the state of a new session. *)
Definition new_session : state :=
  {| page := Home; show_filter_dialog := false; filters_applied := false;
     filtered_data := None |}.

(** The buttons of the sidebar and of the home page. *)
Inductive sidebar_button : Type :=
| NoSidebarButton | HomeButton | VisualizationsButton | PredictionsButton
| InsightsButton.

Inductive home_button : Type :=
| NoHomeButton | ViewAnalytics | CustomerPredictions.

(** What the user does in one run, and what the predictions page, when
    it runs, leaves in [filters_applied], the only shared key it
    writes. *)
Record input : Type := {
  sidebar : sidebar_button;
  on_home : home_button;
  on_dialog : dialog;
  predictions_leaves : bool
}.

(** How a run ends. *)
Inductive outcome : Type :=
| Rerun                                   (* [st.rerun()] *)
| Stop                                    (* the data could not be loaded *)
| HomeShown
| DialogShown (filtered : list purchase)  (* the dialog alone *)
| ChartsShown (data : list purchase)      (* [show_all_visualizations] *)
| NothingShown                            (* neither dialog nor charts *)
| OtherPageShown
| AttributeError.                         (* [filtered_data] read but never set *)

Definition go (p : page_name) (show applied : bool) (st : state) : state :=
  {| page := p; show_filter_dialog := show; filters_applied := applied;
     filtered_data := filtered_data st |}.

(** app.py lines 144-236. *)
Definition display_visualizations_page (data : option purchases) (w : dialog)
    (st : state) : state * outcome :=
  match data with
  | None => (st, Stop)
  | Some customer_with_purchases =>
      if show_filter_dialog st && negb (filters_applied st) then
        let filtered := dialog_filters customer_with_purchases w in
        let st1 := {| page := page st;
                      show_filter_dialog := show_filter_dialog st;
                      filters_applied := filters_applied st;
                      filtered_data := Some filtered |} in
        if apply_clicked w then (go (page st) false true st1, Rerun)
        else (st1, DialogShown filtered)
      else if filters_applied st then
        match filtered_data st with
        | Some shown => (st, ChartsShown shown)
        | None => (st, AttributeError)
        end
      else (st, NothingShown)
  end.

(** home_page_app.py lines 166-176. *)
Definition show_home_page (b : home_button) (st : state) : state * outcome :=
  match b with
  | ViewAnalytics =>
      (go Visualizations true (filters_applied st) st, Rerun)
  | CustomerPredictions =>
      (go Predictions (show_filter_dialog st) (filters_applied st) st, Rerun)
  | NoHomeButton => (st, HomeShown)
  end.

(** app.py lines 56-129: [main]. *)
Definition main (data : option purchases) (i : input) (st : state)
    : state * outcome :=
  match sidebar i with
  | HomeButton => (go Home false false st, Rerun)
  | VisualizationsButton => (go Visualizations true false st, Rerun)
  | PredictionsButton => (go Predictions false false st, Rerun)
  | InsightsButton => (go ProductCustomerInsights false false st, Rerun)
  | NoSidebarButton =>
      match page st with
      | Home => show_home_page (on_home i) st
      | Visualizations => display_visualizations_page data (on_dialog i) st
      | Predictions =>
          (go Predictions (show_filter_dialog st) (predictions_leaves i) st,
           OtherPageShown)
      | ProductCustomerInsights => (st, OtherPageShown)
      end
  end.

End App.

Set Implicit Arguments.

(* ================================================================== *)
(** * Specification-side definitions and sample data *)
(* ================================================================== *)

Import Predicted.

(** The case-insensitive substring test on the product cell of a row. *)
Definition names_product (p : string) (r : row) : bool :=
  match purchased_products_names r with
  | Some s => Str.icontains p s
  | None => false
  end.

Definition bought (products : string) : row :=
  {| customer_id := VInt 1; name := VStr "A"; gender := VStr "F";
     state := VStr "West"; city_name := VStr "Pune";
     purchased_products_names := Some products;
     Similarity_Score := Some (1 # 2); total_spent := Some 100;
     days_since_last_visit := Some 7 |}.


(** Three customers; two of them share a name. *)
Definition customer (id : Z) (nm gd st ct : string) (spent : Q) : row :=
  {| customer_id := VInt id; name := VStr nm; gender := VStr gd;
     state := VStr st; city_name := VStr ct;
     purchased_products_names := Some "Soap, Towel"%string;
     Similarity_Score := Some (1 # 2); total_spent := Some spent;
     days_since_last_visit := Some 7 |}.

Definition sample_rows : list row :=
  [customer 1 "Asha" "F" "West" "Pune" 100;
   customer 2 "Ravi" "M" "South" "Chennai" 250;
   customer 3 "Ravi" "M" "North" "Delhi" 75].

Definition sample_table : table :=
  {| has_state := true; has_city_name := true; has_Similarity_Score := true;
     has_days_since_last_visit := true; rows := sample_rows |}.

(** The session after the first pass of the page: nothing selected. *)
Definition nothing_selected : temp_filters :=
  {| f_customer_id := Some All; f_name := Some All; f_gender := Some All;
     f_region := Some All; f_city := Some All; f_products := Some [];
     f_similarity := None; f_spent := Some (0, 1000) |}.

Definition sample_session : session :=
  {| temp := nothing_selected; last_selected_id := None;
     last_selected_name := None; filters_applied := false |}.

(** ** What a filtered row must satisfy *)

(** A numeric cell is present and lies in the inclusive range. *)
Definition within (x : Pandas.num) (low high : Q) : Prop :=
  exists q, x = Some q /\ (low <= q /\ q <= high)%Q.

(** The similarity score is present and, as a percentage, lies in the
    inclusive range.  The percentage is the float64 nearest to 100 times
    the score: the number the page computes and compares. *)
Definition percent_within (x : Pandas.num) (low high : Q) : Prop :=
  exists score pct,
    x = Some score /\ Float.round64 (score * 100) = Float.FNum pct /\
    (low <= pct /\ pct <= high)%Q.

(** The product cell of the row holds one of the names as a
    case-insensitive substring. *)
Definition has_product (products : list string) (r : row) : Prop :=
  exists p cell,
    In p products /\ purchased_products_names r = Some cell /\
    Str.isubstring p cell.

(** The active predicates of the prediction page, for one row: an
    exact-match criterion is active when it is set to something other
    than "All" (for region and city: to a non-empty value other than
    "All"), the product criterion when the selection is not empty, a
    range criterion when it is set. *)
Definition satisfies (t : temp_filters) (r : row) : Prop :=
  (forall v, f_customer_id t = Some v -> v <> All -> customer_id r = v) /\
  (forall v, f_name t = Some v -> v <> All -> name r = v) /\
  (forall v, f_gender t = Some v -> v <> All -> gender r = v) /\
  (forall v, f_region t = Some v -> truthy v = true -> v <> All -> state r = v) /\
  (forall v, f_city t = Some v -> truthy v = true -> v <> All -> city_name r = v) /\
  (forall products, f_products t = Some products -> products <> [] ->
     has_product products r) /\
  (forall low high, f_similarity t = Some (low, high) ->
     percent_within (Similarity_Score r) low high) /\
  (forall low high, f_spent t = Some (low, high) ->
     within (total_spent r) low high).

(** The criteria without the product selection. *)
Definition without_products (t : temp_filters) : temp_filters :=
  {| f_customer_id := f_customer_id t; f_name := f_name t;
     f_gender := f_gender t; f_region := f_region t; f_city := f_city t;
     f_products := None;
     f_similarity := f_similarity t; f_spent := f_spent t |}.

(** Every selected product name is free of special characters. *)
Definition plain_products (t : temp_filters) : Prop :=
  forall products, f_products t = Some products ->
    forallb Re.plain products = true.

(** Two customers who bought colas of different sizes, and the criteria
    after "Cola 1.5L" was picked from the product options, the two
    sliders at their full ranges. *)
Definition cola_buyer (id : Z) (nm products : string) (similarity spent : Q)
    : row :=
  {| customer_id := VInt id; name := VStr nm; gender := VStr "F";
     state := VStr "West"; city_name := VStr "Pune";
     purchased_products_names := Some products;
     Similarity_Score := Some similarity; total_spent := Some spent;
     days_since_last_visit := Some 7 |}.

Definition asha_cola : row := cola_buyer 1 "Asha" "Cola 1.5L, Soap" (1 # 4) 100.
Definition ravi_cola : row := cola_buyer 2 "Ravi" "Cola 105L, Soap" (1 # 2) 250.

Definition cola_table : table :=
  {| has_state := true; has_city_name := true; has_Similarity_Score := true;
     has_days_since_last_visit := true;
     rows := [asha_cola; ravi_cola] |}.

Definition cola_selected : temp_filters :=
  {| f_customer_id := Some All; f_name := Some All; f_gender := Some All;
     f_region := Some All; f_city := Some All;
     f_products := Some ["Cola 1.5L"%string];
     f_similarity := Some (25, 50); f_spent := Some (100, 250) |}.

(** ** Float64 values of the examples *)

Definition hundred : PrimFloat.float := PrimFloat.of_uint63 (Uint63.of_Z 100).

Definition same_float (a b : Float.float) : bool :=
  match a, b with
  | Float.FNum x, Float.FNum y => Qeq_bool x y
  | Float.FInf s, Float.FInf t => Bool.eqb s t
  | Float.FNaN, Float.FNaN => true
  | _, _ => false
  end.

(** [round64] of the exact product with 100 is the product that the
    processor computes. *)
Definition product_matches (x : PrimFloat.float) : bool :=
  match Float.of_prim x with
  | Float.FNum q =>
      same_float (Float.round64 (q * 100))
                 (Float.of_prim (PrimFloat.mul x hundred))
  | _ => false
  end.

(** The scores 0.00, 0.01, ..., 1.00, the scores 0.000, 0.001, ...,
    0.199 and the fractions 1/1, 1/2, ..., 1/100, as float64 values. *)
Definition score_samples : list PrimFloat.float :=
  map (fun n => Float.decimal (Z.of_nat n) 100) (seq 0 101) ++
  map (fun n => Float.decimal (Z.of_nat n) 1000) (seq 0 200) ++
  map (fun n => Float.decimal 1 (Z.of_nat n)) (seq 1 100).

(** Two customers with the similarity scores 0.07 and 0.57, and the
    criteria with a similarity range only. *)
Definition similar (id : Z) (score : Q) (spent : Q) : row :=
  {| customer_id := VInt id; name := VStr "A"; gender := VStr "F";
     state := VStr "West"; city_name := VStr "Pune";
     purchased_products_names := Some "Soap"%string;
     Similarity_Score := Some score; total_spent := Some spent;
     days_since_last_visit := Some 7 |}.

Definition two_scores : table :=
  {| has_state := true; has_city_name := true; has_Similarity_Score := true;
     has_days_since_last_visit := true;
     rows := [similar 1 (Float.double 7 100) 100;
              similar 2 (Float.double 57 100) 250] |}.

Definition similarity_between (low high : Q) : temp_filters :=
  {| f_customer_id := Some All; f_name := Some All; f_gender := Some All;
     f_region := Some All; f_city := Some All; f_products := Some [];
     f_similarity := Some (low, high); f_spent := None |}.

(** ** The filter chain as one row test *)

(** The row test of a filter step, or the exception of the step; it
    depends on the criteria and on the columns of the table, not on the
    rows. *)
Definition row_test : Type := result (row -> bool).

Definition pass_all : row -> bool := fun _ => true.

Definition exact_test (key : option value) (col : row -> value) : row_test :=
  if get_ne key All then
    (v <- subscript key ;; Ok (fun r => py_eq (col r) v))%py
  else Ok pass_all.

Definition optional_exact_test (key : option value) (present : bool)
    (col : row -> value) : row_test :=
  match key with
  | None => Ok pass_all
  | Some v =>
      if truthy v && py_ne v All then
        if present then Ok (fun r => py_eq (col r) v) else Raise KeyError
      else Ok pass_all
  end.

Definition products_test (key : option (list string)) : row_test :=
  match key with
  | None | Some [] => Ok pass_all
  | Some products =>
      (patterns <- mapM Re.compile products ;; Ok (product_mask patterns))%py
  end.

Definition range_test (key : option (Q * Q)) (present : bool)
    (col : row -> Float.float) : row_test :=
  match key with
  | None => Ok pass_all
  | Some (low, high) =>
      if present then Ok (fun r => Float.fge (col r) low && Float.fle (col r) high)
      else Raise KeyError
  end.

(** Both tests, the exception of the first one that fails. *)
Definition both (a b : row_test) : row_test :=
  (p <- a ;; q <- b ;; Ok (fun r => p r && q r))%py.

Definition filters_test (t : temp_filters) (df : table) : row_test :=
  both (exact_test (f_customer_id t) customer_id)
  (both (exact_test (f_name t) name)
  (both (exact_test (f_gender t) gender)
  (both (optional_exact_test (f_region t) (has_state df) state)
  (both (optional_exact_test (f_city t) (has_city_name df) city_name)
  (both (products_test (f_products t))
  (both (range_test (f_similarity t) (has_Similarity_Score df)
           (fun r => percent (Similarity_Score r)))
        (range_test (f_spent t) true
           (fun r => Float.of_num (total_spent r))))))))).

(** A filter step computes the rows that pass a row test. *)
Definition step_of (f : list row -> result (list row)) (test : row_test) : Prop :=
  forall l, f l = (p <- test ;; Ok (filter p l))%py.

(** ** The inline filters of the insights page *)

(** The active predicates of [display_inline_filters], for one row. *)
Definition inline_satisfies (w : Insights.widgets) (df : Insights.full_data)
    (r : Insights.full_row) : Prop :=
  let p := Insights.pred (Insights.pre r) in
  (Insights.selected_category w <> All ->
     Insights.category p = Insights.selected_category w) /\
  (Insights.selected_product w <> All ->
     Insights.product p = Insights.selected_product w) /\
  within (Insights.propensity_score p)
         (fst (Insights.propensity_range w)) (snd (Insights.propensity_range w)) /\
  (Insights.selected_region w <> All ->
     Insights.region p = Insights.selected_region w) /\
  within (Insights.price_inr p)
         (fst (Insights.price_range w)) (snd (Insights.price_range w)) /\
  (Insights.selected_gender w <> All ->
     Insights.gender p = Insights.selected_gender w) /\
  (Insights.selected_spending w <> All ->
     exists s, Insights.spending_category (Insights.pre r) = Some s /\
               Insights.selected_spending w = VStr s) /\
  (Insights.has_Recency df = true ->
     exists q, Insights.Recency r = Some q /\ (q <= Insights.recency_max w)%Q) /\
  (Insights.has_Frequency df = true ->
     exists q, Insights.Frequency r = Some q /\ (Insights.min_frequency w <= q)%Q).

(** A test that applies only when its guard holds. *)
Definition guarded {A : Type} (active : bool) (test : A -> bool) (r : A) : bool :=
  if active then test r else true.

(** The chain of inline filters as one row test. *)
Definition inline_test (w : Insights.widgets) (df : Insights.full_data)
    (r : Insights.full_row) : bool :=
  let p := Insights.pred (Insights.pre r) in
  guarded (py_ne (Insights.selected_category w) All)
    (fun r => py_eq (Insights.category (Insights.pred (Insights.pre r)))
                    (Insights.selected_category w)) r
  && guarded (py_ne (Insights.selected_product w) All)
    (fun r => py_eq (Insights.product (Insights.pred (Insights.pre r)))
                    (Insights.selected_product w)) r
  && Insights.in_range (Insights.propensity_score p) (Insights.propensity_range w)
  && guarded (py_ne (Insights.selected_region w) All)
    (fun r => py_eq (Insights.region (Insights.pred (Insights.pre r)))
                    (Insights.selected_region w)) r
  && Insights.in_range (Insights.price_inr p) (Insights.price_range w)
  && guarded (py_ne (Insights.selected_gender w) All)
    (fun r => py_eq (Insights.gender (Insights.pred (Insights.pre r)))
                    (Insights.selected_gender w)) r
  && guarded (py_ne (Insights.selected_spending w) All)
    (fun r => Insights.cat_eq (Insights.spending_category (Insights.pre r))
                              (Insights.selected_spending w)) r
  && guarded (Insights.has_Recency df)
    (fun r => Pandas.num_le (Insights.Recency r) (Insights.recency_max w)) r
  && guarded (Insights.has_Frequency df)
    (fun r => Pandas.num_ge (Insights.Frequency r) (Insights.min_frequency w)) r.

(** Sample rows of the insights page. *)
Definition insight (cat prod reg : string) (score price : Q) (rec freq : Q)
    : Insights.full_row :=
  {| Insights.pre :=
       {| Insights.pred :=
            {| Insights.customer_id := VInt 1;
               Insights.category := VStr cat;
               Insights.product := VStr prod;
               Insights.region := VStr reg;
               Insights.city := VStr "Pune";
               Insights.gender := VStr "F";
               Insights.propensity_score := Some score;
               Insights.embedding_similarity := Some (1 # 2);
               Insights.price_inr := Some price;
               Insights.total_spent := Some 100;
               Insights.total_transactions := Some 3 |};
          Insights.propensity_category := Some "High"%string;
          Insights.spending_category := Some "Low Spender"%string;
          Insights.engagement_score := Float.FNum (1 # 2) |};
     Insights.Recency := Some rec;
     Insights.Frequency := Some freq |}.

Definition sample_insights : Insights.full_data :=
  {| Insights.has_Recency := true; Insights.has_Frequency := true;
     Insights.rows :=
       [insight "Hair" "Shampoo" "West" (7 # 10) 120 30 4;
        insight "Hair" "Conditioner" "West" (9 # 10) 150 10 6;
        insight "Bath" "Soap" "East" (8 # 10) 40 400 1] |}.

Definition sample_widgets : Insights.widgets :=
  {| Insights.selected_category := VStr "Hair";
     Insights.selected_product := All;
     Insights.propensity_range := (0, 1);
     Insights.selected_region := VStr "West";
     Insights.price_range := (40, 150);
     Insights.selected_gender := All;
     Insights.selected_spending := All;
     Insights.recency_max := 365;
     Insights.min_frequency := 0;
     Insights.top_n := 10%nat |}.

(** Criteria of the prediction page: region "South", Soap among the
    products, spending between 50 and 500. *)
Definition south_soap : temp_filters :=
  {| f_customer_id := Some All; f_name := Some All; f_gender := Some All;
     f_region := Some (VStr "South"); f_city := Some All;
     f_products := Some ["Soap"%string];
     f_similarity := Some (0, 100); f_spent := Some (50, 500) |}.

(** ** RFM scoring *)

(** What the specification asks of one scored customer: the three scores
    are quartile scores, the total is their sum, and the segment follows
    the threshold table read in priority order. *)
Definition well_scored (s : SourceData.scored_row) : Prop :=
  let total := SourceData.RFM_Score s in
  In (SourceData.R_Score s) [1; 2; 3; 4]%Z /\
  In (SourceData.F_Score s) [1; 2; 3; 4]%Z /\
  In (SourceData.M_Score s) [1; 2; 3; 4]%Z /\
  total = (SourceData.R_Score s + SourceData.F_Score s + SourceData.M_Score s)%Z /\
  (3 <= total <= 12)%Z /\
  (10 <= total -> SourceData.Segment s = "Champions"%string)%Z /\
  (8 <= total < 10 -> SourceData.Segment s = "Loyal Customers"%string)%Z /\
  (6 <= total < 8 -> SourceData.Segment s = "Potential Loyalists"%string)%Z /\
  (5 <= total < 6 -> SourceData.Segment s = "At Risk"%string)%Z /\
  (total < 5 -> SourceData.Segment s = "Lost"%string)%Z.

Definition rfm_customer (recency frequency monetary : Z) : SourceData.rfm_row :=
  {| SourceData.Recency := inject_Z recency;
     SourceData.Frequency := inject_Z frequency;
     SourceData.Monetary := inject_Z monetary |}.

(** The three customers of the specification's scenario. *)
Definition three_customers : list SourceData.rfm_row :=
  [rfm_customer 5 10 1000; rfm_customer 50 5 500; rfm_customer 100 1 100].

Definition three_customers_scored : list SourceData.scored_row :=
  [ {| SourceData.rfm := rfm_customer 5 10 1000;
       SourceData.R_Score := 4; SourceData.F_Score := 4; SourceData.M_Score := 4;
       SourceData.RFM_Score := 12; SourceData.Segment := "Champions" |};
    {| SourceData.rfm := rfm_customer 50 5 500;
       SourceData.R_Score := 3; SourceData.F_Score := 2; SourceData.M_Score := 2;
       SourceData.RFM_Score := 7; SourceData.Segment := "Potential Loyalists" |};
    {| SourceData.rfm := rfm_customer 100 1 100;
       SourceData.R_Score := 1; SourceData.F_Score := 1; SourceData.M_Score := 1;
       SourceData.RFM_Score := 3; SourceData.Segment := "Lost" |} ].

(** Four customers who all bought five days ago. *)
Definition same_recency : list SourceData.rfm_row :=
  [rfm_customer 5 10 1000; rfm_customer 5 5 500; rfm_customer 5 1 100;
   rfm_customer 5 7 300].

(** Four customers who all spent the same amount. *)
Definition same_monetary : list SourceData.rfm_row :=
  [rfm_customer 5 10 200; rfm_customer 50 5 200; rfm_customer 100 1 200;
   rfm_customer 70 7 200].

(** Every value of the list is the number [v]. *)
Definition all_are (v : Q) (l : list Q) : Prop := Forall (fun x => x == v) l.

(** ** Derived scores of the insights page *)

(** The category of a propensity score as the specification words it:
    the score lies in (0, 1], and the three intervals are closed on the
    right. *)
Definition category_of (score : Pandas.num) (cell : option string) : Prop :=
  match score with
  | None => cell = None
  | Some q =>
      (0 < q /\ q <= 1)%Q ->
      (cell = Some "Low"%string <-> (q <= 3 # 10)%Q) /\
      (cell = Some "Medium"%string <-> (3 # 10 < q /\ q <= 6 # 10)%Q) /\
      (cell = Some "High"%string <-> (6 # 10 < q)%Q)
  end.

(** [propensity_category] of one cell. *)
Definition propensity_category_of (score : Pandas.num) : option string :=
  Pandas.take_label ["Low"; "Medium"; "High"]%string
    (Pandas.bin_id [0; 3 # 10; 6 # 10; 1]%Q false score).

(** A prediction row with the inputs of the derived scores. *)
Definition prediction_with (propensity similarity spent transactions : Q)
    : Insights.prediction :=
  {| Insights.customer_id := VInt 1;
     Insights.category := VStr "Hair";
     Insights.product := VStr "Shampoo";
     Insights.region := VStr "West";
     Insights.city := VNaN;
     Insights.gender := VStr "F";
     Insights.propensity_score := Some propensity;
     Insights.embedding_similarity := Some similarity;
     Insights.price_inr := Some 120;
     Insights.total_spent := Some spent;
     Insights.total_transactions := Some transactions |}.

(** A population without any transaction. *)
Definition no_transactions : list Insights.prediction :=
  [prediction_with (8 # 10) (1 # 2) 100 0;
   prediction_with (2 # 10) (9 # 10) 200 0;
   prediction_with (5 # 10) (3 # 10) 300 0].

Definition no_transactions_preprocessed : list Insights.preprocessed :=
  [ {| Insights.pred := Insights.fill_unknown (prediction_with (8 # 10) (1 # 2) 100 0);
       Insights.propensity_category := Some "High"%string;
       Insights.spending_category := Some "Low Spender"%string;
       Insights.engagement_score := Float.FNaN |};
    {| Insights.pred := Insights.fill_unknown (prediction_with (2 # 10) (9 # 10) 200 0);
       Insights.propensity_category := Some "Low"%string;
       Insights.spending_category := Some "Medium Spender"%string;
       Insights.engagement_score := Float.FNaN |};
    {| Insights.pred := Insights.fill_unknown (prediction_with (5 # 10) (3 # 10) 300 0);
       Insights.propensity_category := Some "Medium"%string;
       Insights.spending_category := Some "High Spender"%string;
       Insights.engagement_score := Float.FNaN |} ].

(** The list is in ascending order. *)
Fixpoint ascending (l : list Q) : Prop :=
  match l with
  | [] => True
  | x :: l' => (forall y, In y l' -> x <= y) /\ ascending l'
  end.

(** The five quartile edges of the values are pairwise distinct. *)
Definition distinct_edges (xs : list Q) : Prop :=
  List.length (Pandas.unique (Pandas.quantile_edges xs 4)) = 5%nat.

(** The rows are in descending order of propensity score, missing scores
    last. *)
Fixpoint descending (l : list Insights.full_row) : Prop :=
  match l with
  | [] => True
  | x :: l' => (forall y, In y l' -> Insights.score_ge x y = true) /\ descending l'
  end.

(** Three customers who all spent the same amount. *)
Definition same_spent : list Insights.prediction :=
  [prediction_with (8 # 10) (1 # 2) 200 3;
   prediction_with (2 # 10) (9 # 10) 200 1;
   prediction_with (5 # 10) (3 # 10) 200 7].

(** Criteria as the prediction page holds them when the filters are
    applied: the first pass of the page has stored the three text
    criteria, the table has the columns the active criteria read, and
    the selected product names contain no special character. *)
Definition applicable (t : temp_filters) (df : table) : Prop :=
  f_customer_id t <> None /\ f_name t <> None /\ f_gender t <> None /\
  has_state df = true /\ has_city_name df = true /\
  (f_similarity t <> None -> has_Similarity_Score df = true) /\
  (forall products, f_products t = Some products ->
     forallb Re.plain products = true).

(* ================================================================== *)
(** * Further specification-side definitions and sample data *)
(* ================================================================== *)

Unset Implicit Arguments.

(** The quartile label of one value of a column: the label of the bin in
    which the value falls. *)
Definition quartile_score (labels : list Z) (xs : list Q) (a : Q) : Z :=
  nth (Pandas.bin_id (Pandas.quantile_edges xs 4) true (Some a) - 1) labels 0%Z.

(** The first and the last row of the scored scenario. *)
Definition best_scored : SourceData.scored_row :=
  {| SourceData.rfm := rfm_customer 5 10 1000;
     SourceData.R_Score := 4; SourceData.F_Score := 4; SourceData.M_Score := 4;
     SourceData.RFM_Score := 12; SourceData.Segment := "Champions" |}.

Definition worst_scored : SourceData.scored_row :=
  {| SourceData.rfm := rfm_customer 100 1 100;
     SourceData.R_Score := 1; SourceData.F_Score := 1; SourceData.M_Score := 1;
     SourceData.RFM_Score := 3; SourceData.Segment := "Lost" |}.

(** The page numbers 1 .. [n]. *)
Definition page_numbers (n : Z) : list Z :=
  map Z.of_nat (seq 1 (Z.to_nat n)).

(** The rows shown on page [p] of a list. *)
Definition page_of {A : Type} (l : list A) (page_size p : Z) : list A :=
  Paging.current_page (Paging.results_column l page_size (Some p) Paging.NoClick).

(** ** The predictions page over a session *)

(** The state of a first visit of the predictions page. *)
Definition first_state : FilterSection.page_state :=
  {| FilterSection.filters := FilterSection.first_visit;
     FilterSection.page_number := None;
     FilterSection.selected_customer_id := None |}.

(** The states a session can reach: by runs of the page, whatever the
    user does within [allowed] and however the run ends, and by writes
    of the other pages in between. *)
Inductive reachable (sort_values : list Predicted.row -> list Predicted.row)
    (allowed : FilterSection.filter_widgets -> Prop) (df : Predicted.table)
    : FilterSection.page_state -> Prop :=
| reach_first_visit : reachable sort_values allowed df first_state
| reach_run st w ev :
    reachable sort_values allowed df st -> allowed w ->
    reachable sort_values allowed df
      (fst (FilterSection.page_run sort_values df w ev st))
| reach_other_page st applied :
    reachable sort_values allowed df st ->
    reachable sort_values allowed df (FilterSection.other_page applied st).


(** The keys the page subscripts are there when it subscripts them. *)
Definition keys_present (df : Predicted.table) (s : Predicted.session) : Prop :=
  (Predicted.last_selected_name s <> None ->
   Predicted.f_name (Predicted.temp s) <> None) /\
  (Predicted.has_state df = false ->
   Predicted.f_region (Predicted.temp s) = None \/
   Predicted.f_region (Predicted.temp s) = Some Py.All) /\
  (Predicted.has_city_name df = false ->
   Predicted.f_city (Predicted.temp s) = None \/
   Predicted.f_city (Predicted.temp s) = Some Py.All) /\
  (Predicted.f_similarity (Predicted.temp s) <> None ->
   Predicted.has_Similarity_Score df = true).

Definition well_formed (df : Predicted.table) (st : FilterSection.page_state)
    : Prop :=
  keys_present df (FilterSection.filters st) /\
  forall p, FilterSection.page_number st = Some p -> (1 <= p)%Z.

(** No customer of the table lacks an identifier or a name. *)
Definition identified (df : Predicted.table) : Prop :=
  forall r, In r (Predicted.rows df) ->
    Predicted.customer_id r <> Py.VNaN /\ Predicted.name r <> Py.VNaN.

(** The two bounds of a slider are the same number. *)
Definition coincide (bounds : Float.float * Float.float) : Prop :=
  exists a b, bounds = (Float.FNum a, Float.FNum b) /\ (a == b)%Q.

(** A slider has two different numbers as bounds and returns a pair
    within them. *)
Definition returned_within (bounds : Float.float * Float.float)
    (v : Q * Q) : Prop :=
  exists a b,
    bounds = (Float.FNum a, Float.FNum b) /\ ~ (a == b)%Q /\
    (a <= fst v)%Q /\ (fst v <= snd v)%Q /\ (snd v <= b)%Q.

(** The sliders of the page can be drawn and return pairs within their
    bounds; the similarity slider is there when the table has a
    score. *)
Definition sliders_return (df : Predicted.table)
    (w : FilterSection.filter_widgets) : Prop :=
  (Predicted.has_Similarity_Score df && FilterSection.has_valid_scores df = true ->
   returned_within (FilterSection.similarity_bounds df)
     (FilterSection.similarity_slider w)) /\
  returned_within (FilterSection.spent_bounds df)
    (FilterSection.spent_slider w).

(** The widgets return what they offer: the two driver boxes one of
    their options (lines 107 and 149: "All", an identifier of the table,
    a name of the table), the two sliders a pair within their bounds. *)
Definition offered (df : Predicted.table) (w : FilterSection.filter_widgets)
    : Prop :=
  (FilterSection.customer_id_box w = Py.All \/
   In (FilterSection.customer_id_box w)
      (map Predicted.customer_id (Predicted.rows df))) /\
  (FilterSection.name_box w = Py.All \/
   In (FilterSection.name_box w) (map Predicted.name (Predicted.rows df))) /\
  sliders_return df w.

(** No two rows of the list give their "View Details" button the same
    key. *)
Definition distinct_keys (l : list Predicted.row) : Prop :=
  NoDup (map FilterSection.view_key l).

(** The table has the two columns the cards read without a test, every
    customer has a recency, and no two rows share the key of their
    button. *)
Definition complete_cards (df : Predicted.table) : Prop :=
  Predicted.has_days_since_last_visit df = true /\
  Predicted.has_city_name df = true /\
  (forall r, In r (Predicted.rows df) ->
     Predicted.days_since_last_visit r <> None) /\
  distinct_keys (Predicted.rows df).

(** What a run of the page can raise, and on which tables. *)
Definition page_exception (df : Predicted.table) (e : Py.exn) : Prop :=
  e = Py.IndexError \/
  e = Py.ReError \/
  (e = Py.StreamlitAPIException /\
   (coincide (FilterSection.similarity_bounds df) \/
    coincide (FilterSection.spent_bounds df) \/
    ~ distinct_keys (Predicted.rows df))) \/
  (e = Py.KeyError /\
   (Predicted.has_days_since_last_visit df = false \/
    Predicted.has_city_name df = false)) \/
  (e = Py.ValueError /\
   exists r, In r (Predicted.rows df) /\
             Predicted.days_since_last_visit r = None).

(** The stored identifier and name are "All" or belong to customers of
    the table, and so does the customer selected for the detail
    column. *)
Definition known_filters (df : Predicted.table) (t : Predicted.temp_filters)
    : Prop :=
  (forall v, Predicted.f_name t = Some v ->
     v = Py.All \/ In v (map Predicted.name (Predicted.rows df))) /\
  (forall v, Predicted.f_customer_id t = Some v ->
     v = Py.All \/ In v (map Predicted.customer_id (Predicted.rows df))).

Definition known_customers (df : Predicted.table)
    (st : FilterSection.page_state) : Prop :=
  known_filters df (Predicted.temp (FilterSection.filters st)) /\
  (forall v, FilterSection.selected_customer_id st = Some v ->
     In v (map Predicted.customer_id (Predicted.rows df))).

(** The dictionary that the widgets leave: the keys they do not touch,
    and the keys that are there afterwards. *)
Definition stored_keys (df : Predicted.table)
    (w : FilterSection.filter_widgets) (t t' : Predicted.temp_filters)
    : Prop :=
  Predicted.f_customer_id t' = Predicted.f_customer_id t /\
  Predicted.f_name t' = Predicted.f_name t /\
  Predicted.f_gender t' <> None /\
  Predicted.f_products t' = Some (FilterSection.products_box w) /\
  (Predicted.has_state df = false ->
   Predicted.f_region t' = Predicted.f_region t) /\
  (Predicted.has_city_name df = false ->
   Predicted.f_city t' = Predicted.f_city t) /\
  (Predicted.f_similarity t' <> None ->
   Predicted.f_similarity t <> None \/
   Predicted.has_Similarity_Score df = true).

(** The selected product names are not all free of special characters. *)
Definition some_product_special (key : option (list string)) : Prop :=
  exists products, key = Some products /\ forallb Re.plain products = false.

(** The keys and columns the filters read are there. *)
Definition filters_ready (t : Predicted.temp_filters) (df : Predicted.table)
    : Prop :=
  Predicted.f_customer_id t <> None /\ Predicted.f_name t <> None /\
  Predicted.f_gender t <> None /\
  (Predicted.has_state df = false ->
   Predicted.f_region t = None \/ Predicted.f_region t = Some Py.All) /\
  (Predicted.has_city_name df = false ->
   Predicted.f_city t = None \/ Predicted.f_city t = Some Py.All) /\
  (Predicted.f_similarity t <> None -> Predicted.has_Similarity_Score df = true).

(** Widget values for the scenarios: the two driver boxes and the
    "Apply Filters" button vary, the other widgets keep their
    defaults. *)
Definition widgets_with (id nm : Py.value) (products : list string)
    (apply : bool) : FilterSection.filter_widgets :=
  {| FilterSection.customer_id_box := id;
     FilterSection.name_box := nm;
     FilterSection.gender_box := Py.All;
     FilterSection.region_box := Py.All;
     FilterSection.city_box := Py.All;
     FilterSection.products_box := products;
     FilterSection.similarity_slider := (25, 75);
     FilterSection.spent_slider := (75, 250);
     FilterSection.apply_clicked := apply;
     FilterSection.reset_clicked := false |}.

(** Three customers with different similarity scores. *)
Definition visitor (id : Z) (nm st ct products : string) (similarity spent : Q)
    : Predicted.row :=
  {| Predicted.customer_id := Py.VInt id; Predicted.name := Py.VStr nm;
     Predicted.gender := Py.VStr "M"; Predicted.state := Py.VStr st;
     Predicted.city_name := Py.VStr ct;
     Predicted.purchased_products_names := Some products;
     Predicted.Similarity_Score := Some similarity;
     Predicted.total_spent := Some spent;
     Predicted.days_since_last_visit := Some 12 |}.

Definition shop_table : Predicted.table :=
  {| Predicted.has_state := true; Predicted.has_city_name := true;
     Predicted.has_Similarity_Score := true;
     Predicted.has_days_since_last_visit := true;
     Predicted.rows :=
       [visitor 1 "Asha" "West" "Pune" "Soap, Towel" (1 # 4) 100;
        visitor 2 "Ravi" "South" "Chennai" "Soap, Brush" (1 # 2) 250;
        visitor 3 "Ravi" "North" "Delhi" "Brush" (3 # 4) 75] |}.

(** Criteria as the page stores them over these customers: the region
    "South", "Soap" among the products, the two sliders at their full
    ranges. *)
Definition shop_south_soap : Predicted.temp_filters :=
  {| Predicted.f_customer_id := Some Py.All; Predicted.f_name := Some Py.All;
     Predicted.f_gender := Some Py.All;
     Predicted.f_region := Some (Py.VStr "South");
     Predicted.f_city := Some Py.All;
     Predicted.f_products := Some ["Soap"%string];
     Predicted.f_similarity := Some (25, 75);
     Predicted.f_spent := Some (75, 250) |}.

(** The session after "Apply Filters" on a first visit with nothing
    selected. *)
Definition applied_state : FilterSection.page_state :=
  fst (FilterSection.page_run FilterSection.sort_by_spent shop_table
         (widgets_with Py.All Py.All [] true)
         (FilterSection.Page Paging.NoClick) first_state).

(** The session after "View Details" on the second card of the
    results, the card of the first customer. *)
Definition details_selected : FilterSection.page_state :=
  fst (FilterSection.page_run FilterSection.sort_by_spent shop_table
         (widgets_with Py.All Py.All [] false)
         (FilterSection.ViewDetails 1) applied_state).

(** The same customers in tables on which the cards fail: without the
    city column, without the recency column, with a customer without
    recency, and with two customers under the same identifier. *)
Definition shop_without_city : Predicted.table :=
  {| Predicted.has_state := true; Predicted.has_city_name := false;
     Predicted.has_Similarity_Score := true;
     Predicted.has_days_since_last_visit := true;
     Predicted.rows := Predicted.rows shop_table |}.

Definition shop_without_recency : Predicted.table :=
  {| Predicted.has_state := true; Predicted.has_city_name := true;
     Predicted.has_Similarity_Score := true;
     Predicted.has_days_since_last_visit := false;
     Predicted.rows := Predicted.rows shop_table |}.

Definition never_seen : Predicted.row :=
  {| Predicted.customer_id := Py.VInt 3; Predicted.name := Py.VStr "Ravi";
     Predicted.gender := Py.VStr "M"; Predicted.state := Py.VStr "North";
     Predicted.city_name := Py.VStr "Delhi";
     Predicted.purchased_products_names := Some "Brush"%string;
     Predicted.Similarity_Score := Some (3 # 4);
     Predicted.total_spent := Some 75;
     Predicted.days_since_last_visit := None |}.

Definition shop_with_unseen : Predicted.table :=
  Predicted.with_rows shop_table
    [visitor 1 "Asha" "West" "Pune" "Soap, Towel" (1 # 4) 100;
     visitor 2 "Ravi" "South" "Chennai" "Soap, Brush" (1 # 2) 250;
     never_seen].

Definition shop_with_twins : Predicted.table :=
  Predicted.with_rows shop_table
    [visitor 1 "Asha" "West" "Pune" "Soap, Towel" (1 # 4) 100;
     visitor 1 "Asha" "South" "Chennai" "Soap, Brush" (1 # 2) 250;
     visitor 3 "Ravi" "North" "Delhi" "Brush" (3 # 4) 75].

(** A first visit that ends with "Apply Filters", and the run that
    follows it, nothing selected. *)
Definition run_after_apply (df : Predicted.table)
    : Py.result FilterSection.display :=
  snd (FilterSection.page_run FilterSection.sort_by_spent df
         (widgets_with Py.All Py.All [] false)
         (FilterSection.Page Paging.NoClick)
         (fst (FilterSection.page_run FilterSection.sort_by_spent df
                 (widgets_with Py.All Py.All [] true)
                 (FilterSection.Page Paging.NoClick) first_state))).

(** A customer without a name, and a table that holds one. *)
Definition unnamed_customer : Predicted.row :=
  {| Predicted.customer_id := Py.VInt 9; Predicted.name := Py.VNaN;
     Predicted.gender := Py.VStr "F"; Predicted.state := Py.VStr "West";
     Predicted.city_name := Py.VStr "Pune";
     Predicted.purchased_products_names := None;
     Predicted.Similarity_Score := None; Predicted.total_spent := Some 40;
     Predicted.days_since_last_visit := Some 7 |}.

Definition table_with_unnamed : Predicted.table :=
  {| Predicted.has_state := true; Predicted.has_city_name := true;
     Predicted.has_Similarity_Score := true;
     Predicted.has_days_since_last_visit := true;
     Predicted.rows := sample_rows ++ [unnamed_customer] |}.

(** The session after the name "Asha" was selected in the name box. *)
Definition asha_selected : FilterSection.page_state :=
  fst (FilterSection.page_run (fun l => l) table_with_unnamed
         (widgets_with Py.All (Py.VStr "Asha") [] false)
         (FilterSection.Page Paging.NoClick) first_state).

(** The page of results a run displays, if any. *)
Definition view_of (d : FilterSection.display)
    : option (Paging.view Predicted.row) :=
  match d with
  | FilterSection.NoResults => None
  | FilterSection.ResultsOnly v => Some v
  | FilterSection.WithDetail v _ => Some v
  end.

(** A row meets what the widgets of the filter section returned: the
    name, gender, region and city boxes when not on "All" (region and
    city when the table has the column), the selected products when
    their names hold no special character, the two sliders. *)
Definition meets_widgets (df : Predicted.table)
    (w : FilterSection.filter_widgets) (r : Predicted.row) : Prop :=
  (FilterSection.name_box w <> Py.All ->
   Predicted.name r = FilterSection.name_box w) /\
  (FilterSection.gender_box w <> Py.All ->
   Predicted.gender r = FilterSection.gender_box w) /\
  (Predicted.has_state df = true ->
   Py.truthy (FilterSection.region_box w) = true ->
   FilterSection.region_box w <> Py.All ->
   Predicted.state r = FilterSection.region_box w) /\
  (Predicted.has_city_name df = true ->
   Py.truthy (FilterSection.city_box w) = true ->
   FilterSection.city_box w <> Py.All ->
   Predicted.city_name r = FilterSection.city_box w) /\
  (FilterSection.products_box w <> [] ->
   forallb Re.plain (FilterSection.products_box w) = true ->
   has_product (FilterSection.products_box w) r) /\
  (Predicted.has_Similarity_Score df && FilterSection.has_valid_scores df = true ->
   percent_within (Predicted.Similarity_Score r)
     (fst (FilterSection.similarity_slider w))
     (snd (FilterSection.similarity_slider w))) /\
  within (Predicted.total_spent r)
    (fst (FilterSection.spent_slider w)) (snd (FilterSection.spent_slider w)).

(** ** The insights page *)

(** The number of copies of a row a left merge makes: one for each
    matching row of the other table, and one when none matches. *)
Definition copies {R : Type} (right_key : R -> Py.value) (right : list R)
    (key : Py.value) : nat :=
  Nat.max 1 (List.length
               (filter (fun r => InsightsPage.key_eq key (right_key r)) right)).

Definition value_eq_dec (a b : Py.value) : {a = b} + {a <> b}.
Proof.
  decide equality; [apply string_dec | apply Z.eq_dec].
Defined.

(** The number of distinct customers among rows. *)
Definition distinct_customers (l : list Insights.full_row) : Z :=
  Z.of_nat (List.length
              (nodup value_eq_dec
                 (map (fun r => Insights.customer_id (Insights.pred (Insights.pre r))) l))).

(** The order of [sort_values(ascending=False)] on scores: descending,
    missing scores last. *)
Definition priority_ge (a b : Float.float) : bool :=
  match a, b with
  | _, Float.FNaN => true
  | Float.FNaN, _ => false
  | Float.FInf false, _ => true
  | _, Float.FInf true => true
  | Float.FNum x, Float.FNum y => Qle_bool y x
  | _, _ => false
  end.

Definition by_priority (a b : Insights.full_row * Float.float) : Prop :=
  priority_ge (snd a) (snd b) = true.

(** Two rows of the sample, the better one first. *)
Definition two_insights : list Insights.full_row :=
  [insight "Hair" "Conditioner" "West" (9 # 10) 150 10 6;
   insight "Hair" "Shampoo" "West" (7 # 10) 120 30 4].

(** ** The application over a session *)

(** The states of the shared keys a session can reach. *)
Inductive app_reachable (data : option App.purchases) : App.state -> Prop :=
| app_new_session : app_reachable data App.new_session
| app_run st i :
    app_reachable data st -> app_reachable data (fst (App.main data i st)).

(** What holds of the shared keys between runs. *)
Definition app_invariant (data : option App.purchases) (st : App.state) : Prop :=
  match App.page st with
  | App.Home =>
      App.filters_applied st = false /\ App.show_filter_dialog st = false
  | App.Visualizations =>
      App.show_filter_dialog st = negb (App.filters_applied st) /\
      (App.filters_applied st = true -> App.filtered_data st <> None)
  | App.Predictions | App.ProductCustomerInsights =>
      App.show_filter_dialog st = false
  end /\
  forall shown, App.filtered_data st = Some shown ->
    exists table w, data = Some table /\ shown = App.dialog_filters table w.

(** A purchase row meets what the dialog returned. *)
Definition meets_dialog (data : App.purchases) (w : App.dialog)
    (r : App.purchase) : Prop :=
  (App.has_order_date data = true ->
   forall first last, App.date_range w = [first; last] ->
     exists t, App.order_date r = Some t /\
               (App.Timestamp first <= t <= App.Timestamp last)%Z) /\
  (App.has_region data = true -> App.selected_region w <> Py.All ->
   App.region r = App.selected_region w) /\
  (App.has_gender data = true -> App.selected_gender w <> Py.All ->
   App.gender r = App.selected_gender w).

(** Orders of two days, the last one placed at noon. *)
Definition noon_orders : App.purchases :=
  {| App.has_order_date := true; App.has_region := true;
     App.has_gender := true;
     App.rows :=
       [ {| App.order_date := Some (3 * App.nanoseconds_per_day)%Z;
            App.region := Py.VStr "West"; App.gender := Py.VStr "F" |};
         {| App.order_date := Some (4 * App.nanoseconds_per_day
                                    + 43200000000000)%Z;
            App.region := Py.VStr "East"; App.gender := Py.VStr "M" |} ] |}.

Definition default_dialog (data : App.purchases) : App.dialog :=
  {| App.date_range := App.default_date_range data;
     App.selected_region := Py.All; App.selected_gender := Py.All;
     App.apply_clicked := true |}.

(** ** Ranks *)

(** How many values of a list lie below a value, and how many equal
    it. *)
Definition count_below (l : list Q) (x : Q) : nat :=
  List.length (filter (fun y => Pandas.Qlt_bool y x) l).

Definition count_equal (l : list Q) (x : Q) : nat :=
  List.length (filter (fun y => Qeq_bool y x) l).

(** The ranks of [rank(method="first")] as natural numbers. *)
Fixpoint ranks_from (seen rest all : list Q) : list nat :=
  match rest with
  | [] => []
  | x :: rest' =>
      (1 + count_below all x + count_equal seen x)%nat
      :: ranks_from (seen ++ [x]) rest' all
  end.

Definition number (n : nat) : Q := inject_Z (Z.of_nat n).

(** Four customers with the same frequency, and their scores. *)
Definition equal_frequency : list SourceData.rfm_row :=
  [rfm_customer 5 3 1000; rfm_customer 50 3 500; rfm_customer 100 3 100;
   rfm_customer 70 3 300].

Definition first_of_equal : SourceData.scored_row :=
  {| SourceData.rfm := rfm_customer 5 3 1000;
     SourceData.R_Score := 4; SourceData.F_Score := 1; SourceData.M_Score := 4;
     SourceData.RFM_Score := 9; SourceData.Segment := "Loyal Customers" |}.

Definition last_of_equal : SourceData.scored_row :=
  {| SourceData.rfm := rfm_customer 70 3 300;
     SourceData.R_Score := 2; SourceData.F_Score := 4; SourceData.M_Score := 2;
     SourceData.RFM_Score := 8; SourceData.Segment := "Loyal Customers" |}.

Definition equal_frequency_scored : list SourceData.scored_row :=
  [ first_of_equal;
    {| SourceData.rfm := rfm_customer 50 3 500;
       SourceData.R_Score := 3; SourceData.F_Score := 2; SourceData.M_Score := 3;
       SourceData.RFM_Score := 8; SourceData.Segment := "Loyal Customers" |};
    {| SourceData.rfm := rfm_customer 100 3 100;
       SourceData.R_Score := 1; SourceData.F_Score := 3; SourceData.M_Score := 1;
       SourceData.RFM_Score := 5; SourceData.Segment := "At Risk" |};
    last_of_equal ].

(** A formatting of the identifiers of the sample customers. *)
Definition sample_format (v : Py.value) : string :=
  match v with
  | Py.VInt 1 => "1"
  | Py.VInt 2 => "2"
  | Py.VInt 3 => "3"
  | _ => "nan"
  end.

(** Panels of a session in which nothing has been stored. *)
Definition no_panels : Offers.panels :=
  {| Offers.persona := None;
     Offers.products := fun _ => None;
     Offers.offers := fun _ => None |}.

Set Implicit Arguments.
(* ================================================================== *)
(** * Facts about text and patterns *)
(* ================================================================== *)

Lemma startswith_spec (p s : string) :
  Str.startswith p s = true <-> exists t, s = (p ++ t)%string.
Proof.
  revert s; induction p as [|a p IH]; intros s; simpl.
  - split; [intros _; now exists s | reflexivity].
  - destruct s as [|b s].
    + split; [discriminate | intros [t Ht]; discriminate].
    + rewrite andb_true_iff, Ascii.eqb_eq, IH. split.
      * intros [-> [t ->]]. now exists t.
      * intros [t Ht]. injection Ht as -> ->. split; [reflexivity | now exists t].
Qed.

Lemma contains_spec (p s : string) :
  Str.contains p s = true <-> exists a b, s = (a ++ p ++ b)%string.
Proof.
  induction s as [|c s IH].
  - simpl. rewrite orb_false_r, startswith_spec. split.
    + intros [t Ht]. now exists EmptyString, t.
    + intros [a [b H]]. destruct a; simpl in H; [now exists b | discriminate].
  - cbn [Str.contains]. rewrite orb_true_iff, startswith_spec, IH. split.
    + intros [[t Ht] | [a [b H]]].
      * now exists EmptyString, t.
      * exists (String c a), b. simpl. now rewrite H.
    + intros [a [b H]]. destruct a as [|c' a]; simpl in H.
      * left. now exists b.
      * right. injection H as _ H. now exists a, b.
Qed.

Lemma icontains_spec (p s : string) :
  Str.icontains p s = true <-> Str.isubstring p s.
Proof. apply contains_spec. Qed.

Lemma match_here_literal (p s : string) :
  Re.match_here (Re.literal p) s = Str.startswith (Str.lower p) (Str.lower s).
Proof.
  revert s; induction p as [|a p IH]; intros s; [reflexivity|].
  destruct s as [|b s]; [reflexivity|].
  change (Re.match_here (Re.literal (String a p)) (String b s))
    with (Re.atom_ok (Re.Lit a) b && Re.match_here (Re.literal p) s).
  now rewrite IH.
Qed.

Lemma search_literal (p s : string) :
  Re.search (Re.literal p) s = Str.icontains p s.
Proof.
  unfold Str.icontains.
  induction s as [|b s IH].
  - cbn [Re.search Str.lower Str.contains]. now rewrite match_here_literal.
  - cbn [Re.search Str.lower Str.contains]. now rewrite match_here_literal, IH.
Qed.

Lemma rep_of_special (c : ascii) (r : Re.rep) :
  Re.rep_of c = Some r -> Re.is_special c = true.
Proof.
  unfold Re.rep_of.
  destruct (Ascii.eqb_spec c "*") as [->|_]; [reflexivity|].
  destruct (Ascii.eqb_spec c "+") as [->|_]; [reflexivity|].
  destruct (Ascii.eqb_spec c "?") as [->|_]; [reflexivity|discriminate].
Qed.

Lemma rep_of_plain (c : ascii) :
  Re.is_special c = false -> Re.rep_of c = None.
Proof.
  intros H. destruct (Re.rep_of c) eqn:E; [|reflexivity].
  apply rep_of_special in E. congruence.
Qed.

Lemma atom_of_plain (c : ascii) :
  Re.is_special c = false -> Re.atom_of c = Some (Re.Lit c).
Proof.
  intros H. unfold Re.atom_of.
  destruct (Ascii.eqb_spec c ".") as [->|_]; [discriminate H|].
  now rewrite H.
Qed.

Lemma parse_items_plain (p : string) :
  Re.plain p = true -> Re.parse_items p = Ok (Re.literal p).
Proof.
  induction p as [|c p IH]; [reflexivity|].
  unfold Re.plain. cbn [list_ascii_of_string forallb].
  rewrite andb_true_iff, negb_true_iff. intros [Hc Hp].
  cbn [Re.parse_items]. rewrite (atom_of_plain _ Hc).
  destruct p as [|q p]; [reflexivity|].
  assert (Hq : Re.is_special q = false).
  { cbn [list_ascii_of_string forallb] in Hp.
    apply andb_true_iff in Hp. now apply negb_true_iff. }
  rewrite (rep_of_plain _ Hq), (IH Hp). reflexivity.
Qed.

(** A product name without special characters compiles to the pattern
    that matches it literally. *)
Lemma compile_plain (p : string) :
  Re.plain p = true -> Re.compile p = Ok (Re.literal p).
Proof.
  intros H. destruct p as [|c p]; [reflexivity|].
  unfold Re.compile.
  assert (Hc : Re.is_special c = false).
  { unfold Re.plain in H. cbn [list_ascii_of_string forallb] in H.
    apply andb_true_iff in H. now apply negb_true_iff. }
  rewrite (rep_of_plain _ Hc). now apply parse_items_plain.
Qed.

Lemma mapM_compile_plain (products : list string) :
  forallb Re.plain products = true ->
  mapM Re.compile products = Ok (map Re.literal products).
Proof.
  induction products as [|p ps IH]; [reflexivity|].
  cbn [forallb]. rewrite andb_true_iff. intros [Hp Hps].
  cbn [mapM map]. rewrite (compile_plain _ Hp). cbn [bind].
  now rewrite (IH Hps).
Qed.

(* ================================================================== *)
(** * The product filter *)
(* ================================================================== *)

Lemma product_mask_literal (products : list string) (r : row) :
  product_mask (map Re.literal products) r = existsb (fun p => names_product p r) products.
Proof.
  unfold product_mask, names_product, str_contains.
  induction products as [|p ps IH]; [reflexivity|].
  cbn [map existsb]. rewrite IH.
  destruct (purchased_products_names r); [now rewrite search_literal | reflexivity].
Qed.

(** For product names free of special characters the product filter is
    the substring filter with OR semantics: a row passes if and only if
    some selected name is a case-insensitive substring of its product
    cell. *)
Lemma products_filter_plain (products : list string) (l : list row) (r : row) :
  products <> [] ->
  forallb Re.plain products = true ->
  exists out,
    products_filter (Some products) l = Ok out /\
    (In r out <->
     In r l /\ exists p s, In p products /\ purchased_products_names r = Some s
                           /\ Str.isubstring p s).
Proof.
  intros Hne Hplain.
  exists (filter (fun r => existsb (fun p => names_product p r) products) l).
  split.
  - unfold products_filter. destruct products as [|p ps]; [congruence|].
    rewrite (mapM_compile_plain _ Hplain). cbn [bind].
    f_equal. apply filter_ext. intros a. apply product_mask_literal.
  - rewrite filter_In, existsb_exists. split.
    + intros [Hin [p [Hp Hn]]]. split; [assumption|].
      unfold names_product in Hn.
      destruct (purchased_products_names r) as [s|]; [|discriminate].
      exists p, s. now rewrite <- icontains_spec.
    + intros [Hin [p [s [Hp [Hs Hsub]]]]]. split; [assumption|].
      exists p. split; [assumption|].
      unfold names_product. rewrite Hs. now apply icontains_spec.
Qed.

(** The scenario of the specification: Shampoo or Soap selected. *)
Example products_filter_shampoo_soap :
  products_filter (Some ["Shampoo"; "Soap"]%string)
    [bought "Shampoo, Conditioner"; bought "Soap, Towel"; bought "Brush"]
  = Ok [bought "Shampoo, Conditioner"; bought "Soap, Towel"].
Proof. reflexivity. Qed.

(** C4 (the code departs from it).  The product filter should pass a row
    exactly when a selected product name is a case-insensitive substring
    of its product cell.  The selected name is handed to [str.contains]
    as a regular expression: the name "Vitamin C+E Serum" is a substring
    of the cell "Vitamin C+E Serum, Soap", and the filter removes that
    row, because the pattern asks for one or more "C" followed by "E". *)
Theorem C4_product_name_read_as_pattern :
  Str.isubstring "Vitamin C+E Serum" "Vitamin C+E Serum, Soap" /\
  products_filter (Some ["Vitamin C+E Serum"%string])
    [bought "Vitamin C+E Serum, Soap"] = Ok [].
Proof.
  split; [apply icontains_spec|]; reflexivity.
Qed.

(** A name that starts with a repetition sign does not compile: the
    filter raises instead of returning rows. *)
Example products_filter_bad_pattern :
  products_filter (Some ["+1 Free Refill"%string]) [bought "+1 Free Refill"]
  = Raise ReError.
Proof. reflexivity. Qed.

(* ================================================================== *)
(** * Persona classification *)
(* ================================================================== *)

Lemma find_first {A : Type} (f : A -> bool) (l : list A) (x : A) :
  find f l = Some x ->
  exists before after,
    l = before ++ x :: after /\ f x = true /\
    forall y, In y before -> f y = false.
Proof.
  induction l as [|a l IH]; [discriminate|].
  cbn [find]. destruct (f a) eqn:Fa.
  - intros [= ->]. exists [], l. repeat split; [assumption | intros y []].
  - intros H. destruct (IH H) as [before [after [-> [Fx Hb]]]].
    exists (a :: before), after. repeat split; [assumption|].
    intros y [<- | Hy]; [assumption | now apply Hb].
Qed.

Lemma classify_spec (response : string) :
  (exists before after,
      personas = before ++ classify response :: after /\
      Str.isubstring (classify response) response /\
      forall p, In p before -> ~ Str.isubstring p response)
  \/ (classify response = "Unclassified"%string /\
      forall p, In p personas -> ~ Str.isubstring p response).
Proof.
  unfold classify.
  destruct (find (fun p => Str.icontains p response) personas) as [p|] eqn:F.
  - left. destruct (find_first _ _ F) as [before [after [E [Hp Hb]]]].
    exists before, after. split; [assumption|]. split.
    + now apply icontains_spec.
    + intros q Hq Hsub. apply icontains_spec in Hsub.
      rewrite (Hb q Hq) in Hsub. discriminate.
  - right. split; [reflexivity|].
    intros q Hq Hsub. apply icontains_spec in Hsub.
    pose proof (find_none _ _ F q Hq) as Hn. cbn beta in Hn. congruence.
Qed.

(** C9 (as stated, refuted).  A failure to start the external program
    is an exception of [subprocess.run]; [generate_persona] has no
    handler, so the caller receives the exception, not "Unclassified". *)
Lemma C9_launch_failure_not_unclassified :
  generate_persona (Raise OSError) = Raise OSError /\
  generate_persona (Raise OSError) <> Ok "Unclassified"%string.
Proof. split; [reflexivity | discriminate]. Qed.

(** C9 (amended).  For every response text of an external call that
    completed, with any exit status, the classification is the first
    label of the seven-label vocabulary, in the order of the list, that
    the response contains as a case-insensitive substring, and
    "Unclassified" when it contains none; free text containing "loyal
    customers section" yields "Loyal Customers", unrelated text yields
    "Unclassified", and so does a call that ended with a failure status
    and printed nothing. *)
Theorem C9_persona_classification :
  (forall (response : string) (status : Z),
      exists label,
        generate_persona (Ok {| stdout := response; returncode := status |}) = Ok label /\
        ((exists before after,
             personas = before ++ label :: after /\
             Str.isubstring label response /\
             forall p, In p before -> ~ Str.isubstring p response)
         \/ (label = "Unclassified"%string /\
             forall p, In p personas -> ~ Str.isubstring p response))) /\
  generate_persona
    (Ok {| stdout := "See the loyal customers section of the report";
           returncode := 0 |}) = Ok "Loyal Customers"%string /\
  generate_persona
    (Ok {| stdout := "I cannot help with that request"; returncode := 0 |})
    = Ok "Unclassified"%string /\
  (forall status,
      generate_persona (Ok {| stdout := EmptyString; returncode := status |})
      = Ok "Unclassified"%string).
Proof.
  split; [|repeat split].
  intros response status. exists (classify response).
  split; [reflexivity | apply classify_spec].
Qed.

(* ================================================================== *)
(** * Synchronised driver fields *)
(* ================================================================== *)

Lemma find_of_first {A : Type} (f : A -> bool) (before after : list A) (x : A) :
  f x = true ->
  (forall y, In y before -> f y = false) ->
  find f (before ++ x :: after) = Some x.
Proof.
  intros Fx. induction before as [|a before IH]; intros Hb; cbn [app find].
  - now rewrite Fx.
  - rewrite (Hb a (or_introl eq_refl)). apply IH.
    intros y Hy. apply Hb. now right.
Qed.

Lemma iloc0_first (f : row -> bool) (df : table) (before after : list row) (r : row) :
  rows df = before ++ r :: after ->
  f r = true ->
  (forall y, In y before -> f y = false) ->
  iloc0 f df = Ok r.
Proof.
  intros E Fr Hb. unfold iloc0. rewrite E.
  now rewrite (find_of_first f before after r Fr Hb).
Qed.

Lemma copy_demographics_spec (df : table) (r : row) (t : temp_filters) :
  let t' := copy_demographics df r t in
  f_customer_id t' = f_customer_id t /\
  f_name t' = f_name t /\
  f_gender t' = Some (gender r) /\
  (has_state df = true -> f_region t' = Some (state r)) /\
  (has_city_name df = true -> f_city t' = Some (city_name r)).
Proof.
  unfold copy_demographics.
  destruct (has_state df), (has_city_name df); cbn; repeat split;
    intros; try reflexivity; discriminate.
Qed.

(** C3.  Auto-sync of the two driver fields.  When the customer
    identifier (or the name) select box changes to a value other than
    "All" that occurs in the table, the criteria hold that value, and the
    other driver and gender hold the values of the first row that
    carries it; so do region and city, which the code copies when the
    table has those columns.  When a driver changes back to "All", the
    other driver, gender, region and city are all "All". *)
Theorem C3_auto_sync (df : table) (s : session) :
  (forall selected r before after,
      py_ne selected All = true ->
      get_ne (f_customer_id (temp s)) selected = true ->
      rows df = before ++ r :: after ->
      py_eq (customer_id r) selected = true ->
      (forall x, In x before -> py_eq (customer_id x) selected = false) ->
      exists s',
        customer_id_selected df selected s = Ok (s', true) /\
        f_customer_id (temp s') = Some selected /\
        f_name (temp s') = Some (name r) /\
        f_gender (temp s') = Some (gender r) /\
        (has_state df = true -> f_region (temp s') = Some (state r)) /\
        (has_city_name df = true -> f_city (temp s') = Some (city_name r))) /\
  (forall selected r before after,
      py_ne selected All = true ->
      get_ne (f_name (temp s)) selected = true ->
      rows df = before ++ r :: after ->
      py_eq (name r) selected = true ->
      (forall x, In x before -> py_eq (name x) selected = false) ->
      exists s',
        name_selected df selected s = Ok (s', true) /\
        f_name (temp s') = Some selected /\
        f_customer_id (temp s') = Some (customer_id r) /\
        f_gender (temp s') = Some (gender r) /\
        (has_state df = true -> f_region (temp s') = Some (state r)) /\
        (has_city_name df = true -> f_city (temp s') = Some (city_name r))) /\
  (get_ne (f_customer_id (temp s)) All = true ->
   exists s',
     customer_id_selected df All s = Ok (s', false) /\
     f_customer_id (temp s') = Some All /\
     f_name (temp s') = Some All /\
     f_gender (temp s') = Some All /\
     f_region (temp s') = Some All /\
     f_city (temp s') = Some All) /\
  (get_ne (f_name (temp s)) All = true ->
   exists s',
     name_selected df All s = Ok (s', false) /\
     f_name (temp s') = Some All /\
     f_customer_id (temp s') = Some All /\
     f_gender (temp s') = Some All /\
     f_region (temp s') = Some All /\
     f_city (temp s') = Some All).
Proof.
  split; [|split; [|split]].
  - intros selected r before after Hsel Hchg E Fr Hb.
    unfold customer_id_selected. rewrite Hchg, Hsel.
    rewrite (iloc0_first _ df before after r E Fr Hb). cbn [bind].
    eexists. split; [reflexivity|]. cbn [temp].
    destruct (copy_demographics_spec df r
                (set_name (name r) (set_customer_id selected (temp s))))
      as [H1 [H2 [H3 [H4 H5]]]].
    rewrite H1, H2. repeat split; assumption.
  - intros selected r before after Hsel Hchg E Fr Hb.
    unfold name_selected. rewrite Hchg, Hsel.
    rewrite (iloc0_first _ df before after r E Fr Hb). cbn [bind].
    eexists. split; [reflexivity|]. cbn [temp].
    destruct (copy_demographics_spec df r
                (set_customer_id (customer_id r) (set_name selected (temp s))))
      as [H1 [H2 [H3 [H4 H5]]]].
    rewrite H1, H2. repeat split; assumption.
  - intros Hchg. unfold customer_id_selected. rewrite Hchg.
    eexists. split; [reflexivity|]. repeat split.
  - intros Hchg. unfold name_selected. rewrite Hchg.
    eexists. split; [reflexivity|]. repeat split.
Qed.

(** Selecting the name "Ravi", which two customers carry, fills the
    criteria from the first of them. *)
Lemma C3_auto_sync_witness :
  exists s',
    name_selected sample_table (VStr "Ravi") sample_session = Ok (s', true) /\
    f_name (temp s') = Some (VStr "Ravi") /\
    f_customer_id (temp s') = Some (VInt 2) /\
    f_gender (temp s') = Some (VStr "M") /\
    (has_state sample_table = true -> f_region (temp s') = Some (VStr "South")) /\
    (has_city_name sample_table = true -> f_city (temp s') = Some (VStr "Chennai")).
Proof.
  refine (proj1 (proj2 (C3_auto_sync sample_table sample_session))
            (VStr "Ravi") (customer 2 "Ravi" "M" "South" "Chennai" 250)
            [customer 1 "Asha" "F" "West" "Pune" 100]
            [customer 3 "Ravi" "M" "North" "Delhi" 75] _ _ _ _ _);
    try reflexivity.
  intros x [<- | []]. reflexivity.
Defined.

(* ================================================================== *)
(** * The filters of the prediction page *)
(* ================================================================== *)

(** ** The float64 product *)

(** On the sample scores [round64] gives the product of the
    processor. *)
Example round64_is_the_float64_product :
  forallb product_matches score_samples = true.
Proof. vm_compute. reflexivity. Qed.

(** The score 0.57 times 100 is 56.99999999999999, and the score 0.07
    times 100 is 7.000000000000001. *)
Example percent_is_rounded :
  percent (Some (Float.double 57 100))
  = Float.FNum (8022036836253695 # 140737488355328) /\
  (8022036836253695 # 140737488355328 < 57)%Q /\
  percent (Some (Float.double 7 100))
  = Float.FNum (7881299347898369 # 1125899906842624) /\
  (7 < 7881299347898369 # 1125899906842624)%Q.
Proof. repeat split. Qed.

(** With the similarity slider at its full range, whose bounds are the
    float64 products of the least and the greatest score with 100, both
    customers are kept, although 100 times the least score lies below
    the lower bound: the page compares the rounded product.  Between 57
    and 100 per cent the customer with the score 0.57 is not kept. *)
Example similarity_boundary_rows :
  FilterSection.similarity_bounds two_scores
  = (Float.FNum (7881299347898369 # 1125899906842624),
     Float.FNum (8022036836253695 # 140737488355328)) /\
  apply_filters
    (similarity_between (7881299347898369 # 1125899906842624)
                        (8022036836253695 # 140737488355328))
    two_scores = Ok (rows two_scores) /\
  (Float.double 7 100 * 100 < 7881299347898369 # 1125899906842624)%Q /\
  apply_filters (similarity_between 57 100) two_scores = Ok [].
Proof. repeat split; vm_compute; reflexivity. Qed.

Lemma filter_pass_all (l : list row) : filter pass_all l = l.
Proof.
  induction l as [|a l IH]; [reflexivity|]. cbn. now rewrite IH.
Qed.

Lemma filter_andb {A : Type} (p q : A -> bool) (l : list A) :
  filter q (filter p l) = filter (fun r => p r && q r) l.
Proof.
  induction l as [|a l IH]; [reflexivity|].
  cbn [filter]. destruct (p a); cbn [filter andb]; [|assumption].
  destruct (q a); now rewrite IH.
Qed.

Lemma filter_all {A : Type} (p : A -> bool) (l : list A) :
  (forall r, In r l -> p r = true) -> filter p l = l.
Proof.
  induction l as [|a l IH]; intros H; [reflexivity|].
  cbn [filter]. rewrite (H a (or_introl eq_refl)). f_equal.
  apply IH. intros r Hr. apply H. now right.
Qed.

Lemma filter_idem {A : Type} (p : A -> bool) (l : list A) :
  filter p (filter p l) = filter p l.
Proof.
  apply filter_all. intros r Hr. now apply filter_In in Hr.
Qed.

Lemma filter_length_le {A : Type} (p : A -> bool) (l : list A) :
  (List.length (filter p l) <= List.length l)%nat.
Proof.
  induction l as [|a l IH]; [apply Nat.le_refl|].
  cbn [filter]. destruct (p a); cbn [List.length]; lia.
Qed.

Lemma py_eq_true (a b : value) : py_eq a b = true -> a = b.
Proof.
  destruct a, b; cbn; try discriminate.
  - intros H. apply String.eqb_eq in H. now subst.
  - intros H. apply Z.eqb_eq in H. now subst.
Qed.

Lemma py_ne_All (v : value) : v <> All -> py_ne v All = true.
Proof.
  intros H. unfold py_ne, All in *. destruct v as [|s|z]; cbn; try reflexivity.
  destruct (String.eqb_spec s "All") as [->|_]; [now destruct H | reflexivity].
Qed.

Lemma exact_filter_step (key : option value) (col : row -> value) :
  step_of (exact_filter key col) (exact_test key col).
Proof.
  intros l. unfold exact_filter, exact_test.
  destruct (get_ne key All).
  - destruct key; reflexivity.
  - cbn. now rewrite filter_pass_all.
Qed.

Lemma optional_exact_filter_step (key : option value) (present : bool)
    (col : row -> value) :
  step_of (optional_exact_filter key present col)
          (optional_exact_test key present col).
Proof.
  intros l. unfold optional_exact_filter, optional_exact_test.
  destruct key as [v|]; [|cbn; now rewrite filter_pass_all].
  destruct (truthy v && py_ne v All); [|cbn; now rewrite filter_pass_all].
  destruct present; reflexivity.
Qed.

Lemma products_filter_step (key : option (list string)) :
  step_of (products_filter key) (products_test key).
Proof.
  intros l. unfold products_filter, products_test.
  destruct key as [[|p ps]|]; try (cbn; now rewrite filter_pass_all).
  destruct (mapM Re.compile (p :: ps)); reflexivity.
Qed.

Lemma range_filter_step (key : option (Q * Q)) (present : bool)
    (col : row -> Float.float) :
  step_of (range_filter key present col) (range_test key present col).
Proof.
  intros l. unfold range_filter, range_test.
  destruct key as [[low high]|]; [|cbn; now rewrite filter_pass_all].
  destruct present; reflexivity.
Qed.

Lemma step_of_chain (f g : list row -> result (list row)) (a b : row_test) :
  step_of f a -> step_of g b ->
  step_of (fun l => (d <- f l ;; g d)%py) (both a b).
Proof.
  intros Hf Hg l. rewrite Hf. unfold both.
  destruct a as [p| |]; cbn [bind]; try reflexivity.
  rewrite Hg. destruct b as [q| |]; cbn [bind]; try reflexivity.
  now rewrite filter_andb.
Qed.

(** The whole chain keeps the rows that pass [filters_test], and raises
    what [filters_test] raises. *)
Lemma apply_filters_test (t : temp_filters) (df : table) :
  apply_filters t df = (p <- filters_test t df ;; Ok (filter p (rows df)))%py.
Proof.
  unfold apply_filters, filters_test.
  refine (step_of_chain (exact_filter_step _ _)
         (step_of_chain (exact_filter_step _ _)
         (step_of_chain (exact_filter_step _ _)
         (step_of_chain (optional_exact_filter_step _ _ _)
         (step_of_chain (optional_exact_filter_step _ _ _)
         (step_of_chain (products_filter_step _)
         (step_of_chain (range_filter_step _ _ _)
                        (range_filter_step _ _ _))))))) (rows df)).
Qed.

Lemma apply_filters_keeps (t : temp_filters) (df : table) (out : list row) :
  apply_filters t df = Ok out ->
  exists p, filters_test t df = Ok p /\ out = filter p (rows df).
Proof.
  rewrite apply_filters_test.
  destruct (filters_test t df) as [p| |]; cbn [bind]; try discriminate.
  intros [= <-]. now exists p.
Qed.

Lemma both_ok (a b : row_test) (p : row -> bool) :
  both a b = Ok p ->
  exists pa pb, a = Ok pa /\ b = Ok pb /\ forall r, p r = pa r && pb r.
Proof.
  unfold both. destruct a as [pa| |]; cbn [bind]; try discriminate.
  destruct b as [pb| |]; cbn [bind]; try discriminate.
  intros [= <-]. now exists pa, pb.
Qed.

Lemma exact_test_sound (key : option value) (col : row -> value)
    (p : row -> bool) (r : row) :
  exact_test key col = Ok p -> p r = true ->
  forall v, key = Some v -> v <> All -> col r = v.
Proof.
  unfold exact_test. intros E Hp v -> Hv.
  cbn [get_ne] in E. rewrite (py_ne_All Hv) in E. cbn in E.
  injection E as <-. now apply py_eq_true.
Qed.

Lemma optional_exact_test_sound (key : option value) (present : bool)
    (col : row -> value) (p : row -> bool) (r : row) :
  optional_exact_test key present col = Ok p -> p r = true ->
  forall v, key = Some v -> truthy v = true -> v <> All -> col r = v.
Proof.
  unfold optional_exact_test. intros E Hp v -> Ht Hv.
  rewrite Ht, (py_ne_All Hv) in E. cbn [andb] in E.
  destruct present; [|discriminate].
  injection E as <-. now apply py_eq_true.
Qed.

Lemma mapM_existsb {A B : Type} (f : A -> result B) (g : B -> bool)
    (l : list A) (bs : list B) :
  mapM f l = Ok bs -> existsb g bs = true ->
  exists a b, In a l /\ f a = Ok b /\ g b = true.
Proof.
  revert bs; induction l as [|a l IH]; intros bs.
  - intros [= <-]. discriminate.
  - cbn [mapM]. destruct (f a) as [b| |] eqn:Fa; cbn [bind]; try discriminate.
    destruct (mapM f l) as [bs'| |]; cbn [bind]; try discriminate.
    intros [= <-]. cbn [existsb]. rewrite orb_true_iff. intros [Hg | Hg].
    + exists a, b. repeat split; [now left | assumption | assumption].
    + destruct (IH bs' eq_refl Hg) as [a' [b' [Hin [Hf Hgb]]]].
      exists a', b'. repeat split; [now right | assumption | assumption].
Qed.

Lemma products_test_sound (key : option (list string)) (p : row -> bool) (r : row) :
  products_test key = Ok p -> p r = true ->
  forall products, key = Some products -> products <> [] ->
  forallb Re.plain products = true ->
  has_product products r.
Proof.
  unfold products_test. intros E Hp products -> Hne Hplain.
  destruct products as [|x xs]; [congruence|].
  rewrite (mapM_compile_plain _ Hplain) in E. cbn [bind] in E.
  injection E as <-.
  change (Re.literal x :: map Re.literal xs) with (map Re.literal (x :: xs)) in Hp.
  rewrite product_mask_literal in Hp.
  apply existsb_exists in Hp. destruct Hp as [q [Hq Hn]].
  unfold names_product in Hn.
  destruct (purchased_products_names r) as [cell|] eqn:Ec; [|discriminate].
  exists q, cell. split; [exact Hq|]. split; [exact Ec|].
  now apply icontains_spec.
Qed.

Lemma range_test_passes (key : option (Q * Q)) (present : bool)
    (col : row -> Float.float) (p : row -> bool) (r : row) :
  range_test key present col = Ok p -> p r = true ->
  forall low high, key = Some (low, high) ->
  Float.fge (col r) low = true /\ Float.fle (col r) high = true.
Proof.
  unfold range_test. intros E Hp low high ->.
  destruct present; [|discriminate]. injection E as <-.
  now apply andb_true_iff in Hp.
Qed.

Lemma percent_range_sound (x : Pandas.num) (low high : Q) :
  Float.fge (percent x) low = true -> Float.fle (percent x) high = true ->
  percent_within x low high.
Proof.
  unfold percent. destruct x as [score|]; [|discriminate].
  destruct (Float.round64 (score * 100)) as [pct|negative|] eqn:E;
    cbn [Float.fge Float.fle].
  - intros Hge Hle. exists score, pct. split; [reflexivity|].
    split; [exact E|]. split; now apply Qle_bool_iff.
  - destruct negative; discriminate.
  - discriminate.
Qed.

Lemma num_range_sound (x : Pandas.num) (low high : Q) :
  Float.fge (Float.of_num x) low = true ->
  Float.fle (Float.of_num x) high = true ->
  within x low high.
Proof.
  destruct x as [q|]; cbn [Float.of_num Float.fge Float.fle]; [|discriminate].
  intros Hge Hle. exists q. split; [reflexivity|].
  split; now apply Qle_bool_iff.
Qed.

(** A row that passes the chain meets every criterion other than the
    product selection, and the product selection too when the selected
    names are free of special characters. *)
Lemma filters_test_sound (t : temp_filters) (df : table) (p : row -> bool) (r : row) :
  filters_test t df = Ok p -> p r = true ->
  satisfies (without_products t) r /\ (plain_products t -> satisfies t r).
Proof.
  unfold filters_test. intros E Hp.
  repeat match type of E with
  | both _ _ = Ok ?p =>
      let pa := fresh "pa" in let pb := fresh "pb" in
      let Ea := fresh "Ea" in let Hpp := fresh "Hpp" in
      destruct (both_ok _ _ E) as [pa [pb [Ea [E' Hpp]]]];
      clear E; rename E' into E;
      rewrite Hpp in Hp; apply andb_true_iff in Hp;
      let Ha := fresh "Ha" in destruct Hp as [Ha Hp]
  end.
  assert (S1 : forall v, f_customer_id t = Some v -> v <> All -> customer_id r = v)
    by (eapply exact_test_sound; eassumption).
  assert (S2 : forall v, f_name t = Some v -> v <> All -> name r = v)
    by (eapply exact_test_sound; eassumption).
  assert (S3 : forall v, f_gender t = Some v -> v <> All -> gender r = v)
    by (eapply exact_test_sound; eassumption).
  assert (S4 : forall v, f_region t = Some v -> truthy v = true -> v <> All ->
                         state r = v)
    by (eapply optional_exact_test_sound; eassumption).
  assert (S5 : forall v, f_city t = Some v -> truthy v = true -> v <> All ->
                         city_name r = v)
    by (eapply optional_exact_test_sound; eassumption).
  assert (S7 : forall low high, f_similarity t = Some (low, high) ->
                 percent_within (Similarity_Score r) low high).
  { intros low high K.
    destruct (@range_test_passes _ _ _ _ r Ea5 Ha5 low high K) as [G L].
    now apply percent_range_sound. }
  assert (S8 : forall low high, f_spent t = Some (low, high) ->
                 within (total_spent r) low high).
  { intros low high K.
    destruct (@range_test_passes _ _ _ _ r E Hp low high K) as [G L].
    now apply num_range_sound. }
  split.
  - unfold satisfies, without_products. cbn.
    repeat split; try assumption. discriminate.
  - intros Hplain. unfold satisfies. repeat split; try assumption.
    intros products K Hne.
    exact (@products_test_sound _ _ r Ea4 Ha4 products K Hne (Hplain products K)).
Qed.

(** On the criteria the page holds, the filters return rows: no
    exception, whatever the rows are. *)
Lemma apply_filters_returns (t : temp_filters) (df : table) :
  applicable t df -> exists out, apply_filters t df = Ok out.
Proof.
  intros [Hc [Hn [Hg [Hs [Hy [Hsim Hprod]]]]]].
  rewrite apply_filters_test.
  assert (E : exists p, filters_test t df = Ok p); [|destruct E as [p ->]; now eexists].
  unfold filters_test, both, exact_test, optional_exact_test, products_test,
    range_test.
  rewrite Hs, Hy.
  destruct (f_customer_id t) as [c|]; [|congruence].
  destruct (f_name t) as [n|]; [|congruence].
  destruct (f_gender t) as [g|]; [|congruence].
  destruct (get_ne (Some c) All), (get_ne (Some n) All), (get_ne (Some g) All);
    cbn [subscript bind];
    destruct (f_region t) as [rg|]; try destruct (truthy rg && py_ne rg All);
    cbn [bind];
    destruct (f_city t) as [ct|]; try destruct (truthy ct && py_ne ct All);
    cbn [bind];
    (destruct (f_products t) as [[|p ps]|] eqn:Ep;
     [ | rewrite (mapM_compile_plain _ (Hprod _ eq_refl)) | ]);
    cbn [bind];
    (destruct (f_similarity t) as [[lo hi]|];
     [rewrite (Hsim ltac:(discriminate)) | ]);
    destruct (f_spent t) as [[lo' hi']|]; cbn [bind]; eauto.
Qed.

(* ================================================================== *)
(** * The inline filters of the insights page *)
(* ================================================================== *)

Lemma where_selected_filter {A : Type} (selected : value) (test : A -> bool)
    (l : list A) :
  Insights.where_selected selected test l
  = filter (guarded (py_ne selected All) test) l.
Proof.
  unfold Insights.where_selected, guarded.
  destruct (py_ne selected All); [reflexivity|].
  symmetry. now apply filter_all.
Qed.

Lemma where_column_filter {A : Type} (present : bool) (test : A -> bool)
    (l : list A) :
  Insights.where_column present test l = filter (guarded present test) l.
Proof.
  unfold Insights.where_column, guarded.
  destruct present; [reflexivity|].
  symmetry. now apply filter_all.
Qed.

Lemma inline_filter_rows_test (w : Insights.widgets) (df : Insights.full_data) :
  Insights.inline_filter_rows w df = filter (inline_test w df) (Insights.rows df).
Proof.
  unfold Insights.inline_filter_rows. cbv zeta.
  rewrite !where_selected_filter, !where_column_filter, !filter_andb.
  apply filter_ext. intros r. unfold inline_test. cbv zeta.
  now rewrite !andb_assoc.
Qed.

Lemma guarded_true {A : Type} (active : bool) (test : A -> bool) (r : A) :
  guarded active test r = true -> active = true -> test r = true.
Proof. intros H ->. exact H. Qed.

Lemma in_range_within (x : Pandas.num) (range : Q * Q) :
  Insights.in_range x range = true -> within x (fst range) (snd range).
Proof.
  unfold Insights.in_range, Pandas.num_ge, Pandas.num_le.
  destruct x as [q|]; [|discriminate].
  rewrite andb_true_iff, !Qle_bool_iff. intros H. now exists q.
Qed.

Lemma inline_test_sound (w : Insights.widgets) (df : Insights.full_data)
    (r : Insights.full_row) :
  inline_test w df r = true -> inline_satisfies w df r.
Proof.
  unfold inline_test. cbv zeta. rewrite !andb_true_iff.
  intros [[[[[[[[H1 H2] H3] H4] H5] H6] H7] H8] H9].
  unfold inline_satisfies. cbv zeta. repeat split.
  - intros Hs. apply py_eq_true. apply (@guarded_true _ _ _ _ H1). now apply py_ne_All.
  - intros Hs. apply py_eq_true. apply (@guarded_true _ _ _ _ H2). now apply py_ne_All.
  - now apply in_range_within.
  - intros Hs. apply py_eq_true. apply (@guarded_true _ _ _ _ H4). now apply py_ne_All.
  - now apply in_range_within.
  - intros Hs. apply py_eq_true. apply (@guarded_true _ _ _ _ H6). now apply py_ne_All.
  - intros Hs. pose proof (@guarded_true _ _ _ _ H7 (py_ne_All Hs)) as Hc.
    cbn beta in Hc. unfold Insights.cat_eq in Hc.
    destruct (Insights.spending_category (Insights.pre r)) as [s|]; [|discriminate].
    destruct (Insights.selected_spending w) as [|s'|]; try discriminate.
    apply String.eqb_eq in Hc. subst. now exists s'.
  - intros Hc. pose proof (@guarded_true _ _ _ _ H8 Hc) as Hr. cbn beta in Hr.
    unfold Pandas.num_le in Hr.
    destruct (Insights.Recency r) as [q|]; [|discriminate].
    exists q. split; [reflexivity | now apply Qle_bool_iff].
  - intros Hc. pose proof (@guarded_true _ _ _ _ H9 Hc) as Hr. cbn beta in Hr.
    unfold Pandas.num_ge in Hr.
    destruct (Insights.Frequency r) as [q|]; [|discriminate].
    exists q. split; [reflexivity | now apply Qle_bool_iff].
Qed.

Lemma In_firstn {A : Type} (n : nat) (l : list A) (x : A) :
  In x (firstn n l) -> In x l.
Proof.
  intros H. rewrite <- (firstn_skipn n l). apply in_or_app. now left.
Qed.

Lemma insert_desc_perm (x : Insights.full_row) (l : list Insights.full_row) :
  Permutation (x :: l) (Insights.insert_desc x l).
Proof.
  induction l as [|y l IH]; [apply Permutation_refl|].
  cbn [Insights.insert_desc]. destruct (Insights.score_ge x y).
  - apply Permutation_refl.
  - eapply perm_trans; [apply perm_swap|]. now apply perm_skip.
Qed.

(** The stable insertion sort is an admissible [sort_values]. *)
Lemma insertion_sort_desc_perm (l : list Insights.full_row) :
  Permutation l (Insights.insertion_sort_desc l).
Proof.
  induction l as [|x l IH]; [apply perm_nil|].
  unfold Insights.insertion_sort_desc. cbn [fold_right].
  eapply perm_trans; [|apply insert_desc_perm]. now apply perm_skip.
Qed.

Section InlineFacts.

Variable sort_values : list Insights.full_row -> list Insights.full_row.
Hypothesis sort_values_perm : forall l, Permutation l (sort_values l).

Lemma displayed_row_passes (w : Insights.widgets) (df : Insights.full_data)
    (r : Insights.full_row) :
  In r (Insights.display_inline_filters sort_values w df) ->
  In r (Insights.rows df) /\ inline_test w df r = true.
Proof.
  unfold Insights.display_inline_filters. intros H.
  apply In_firstn in H.
  apply (Permutation_in _ (Permutation_sym (sort_values_perm _))) in H.
  rewrite inline_filter_rows_test in H. now apply filter_In in H.
Qed.

Lemma display_inline_filters_again (w : Insights.widgets) (df : Insights.full_data) :
  Insights.display_inline_filters sort_values w
    (Insights.with_full_rows df (Insights.display_inline_filters sort_values w df))
  = sort_values (Insights.display_inline_filters sort_values w df).
Proof.
  set (out := Insights.display_inline_filters sort_values w df).
  unfold Insights.display_inline_filters at 1.
  rewrite inline_filter_rows_test. cbn [Insights.rows Insights.with_full_rows].
  assert (E : filter (inline_test w (Insights.with_full_rows df out)) out = out).
  { apply filter_all. intros r Hr.
    now destruct (displayed_row_passes w df r Hr). }
  rewrite E. apply firstn_all2.
  rewrite <- (Permutation_length (sort_values_perm out)).
  apply firstn_le_length.
Qed.

Lemma display_inline_filters_drawn (w : Insights.widgets) (df : Insights.full_data) :
  exists dropped,
    Permutation (filter (inline_test w df) (Insights.rows df))
                (Insights.display_inline_filters sort_values w df ++ dropped).
Proof.
  unfold Insights.display_inline_filters. rewrite inline_filter_rows_test.
  set (kept := filter (inline_test w df) (Insights.rows df)).
  exists (skipn (Insights.top_n w) (sort_values kept)).
  rewrite firstn_skipn. apply sort_values_perm.
Qed.

End InlineFacts.

(** ** The stable sort leaves a sorted list as it is *)

Lemma score_ge_total (x y : Insights.full_row) :
  Insights.score_ge x y = false -> Insights.score_ge y x = true.
Proof.
  unfold Insights.score_ge.
  destruct (Insights.propensity_score (Insights.pred (Insights.pre x))) as [a|],
           (Insights.propensity_score (Insights.pred (Insights.pre y))) as [b|];
    try discriminate; try reflexivity.
  intros H. apply Qle_bool_iff.
  apply Qlt_le_weak, Qnot_le_lt. intros C. apply Qle_bool_iff in C. congruence.
Qed.

Lemma score_ge_trans (x y z : Insights.full_row) :
  Insights.score_ge x y = true -> Insights.score_ge y z = true ->
  Insights.score_ge x z = true.
Proof.
  unfold Insights.score_ge.
  destruct (Insights.propensity_score (Insights.pred (Insights.pre x))) as [a|],
           (Insights.propensity_score (Insights.pred (Insights.pre y))) as [b|],
           (Insights.propensity_score (Insights.pred (Insights.pre z))) as [c|];
    try discriminate; try reflexivity.
  rewrite !Qle_bool_iff. intros H1 H2. now apply Qle_trans with b.
Qed.

Lemma insert_desc_In (x a : Insights.full_row) (l : list Insights.full_row) :
  In a (Insights.insert_desc x l) <-> a = x \/ In a l.
Proof.
  induction l as [|y l IH]; cbn [Insights.insert_desc].
  - cbn. intuition.
  - destruct (Insights.score_ge x y); cbn [In]; [intuition|].
    rewrite IH. intuition.
Qed.

Lemma insert_desc_descending (x : Insights.full_row) (l : list Insights.full_row) :
  descending l -> descending (Insights.insert_desc x l).
Proof.
  induction l as [|y l IH]; intros Hl; cbn [Insights.insert_desc].
  - cbn. intuition.
  - destruct Hl as [Hy Hl]. destruct (Insights.score_ge x y) eqn:E.
    + cbn [descending]. repeat split; try assumption.
      intros z [<- | Hz]; [assumption|].
      apply score_ge_trans with y; auto.
    + cbn [descending]. split; [|now apply IH].
      intros z Hz. apply insert_desc_In in Hz.
      destruct Hz as [-> | Hz]; [now apply score_ge_total | auto].
Qed.

Lemma insertion_sort_desc_descending (l : list Insights.full_row) :
  descending (Insights.insertion_sort_desc l).
Proof.
  induction l as [|x l IH]; [exact I|].
  unfold Insights.insertion_sort_desc in *. cbn [fold_right].
  now apply insert_desc_descending.
Qed.

Lemma firstn_descending (n : nat) (l : list Insights.full_row) :
  descending l -> descending (firstn n l).
Proof.
  revert n; induction l as [|x l IH]; intros [|n] Hl; try exact I.
  destruct Hl as [Hx Hl]. cbn [firstn descending]. split; [|now apply IH].
  intros y Hy. apply Hx. now apply In_firstn in Hy.
Qed.

Lemma insertion_sort_desc_sorted (l : list Insights.full_row) :
  descending l -> Insights.insertion_sort_desc l = l.
Proof.
  induction l as [|x l IH]; [reflexivity|].
  intros [Hx Hl]. unfold Insights.insertion_sort_desc in *. cbn [fold_right].
  rewrite (IH Hl). destruct l as [|y l]; [reflexivity|].
  cbn [Insights.insert_desc]. now rewrite (Hx y (or_introl eq_refl)).
Qed.

(** With the stable sort a second pass returns the very same list. *)
Lemma display_inline_filters_stable (w : Insights.widgets) (df : Insights.full_data) :
  Insights.display_inline_filters Insights.insertion_sort_desc w
    (Insights.with_full_rows df
       (Insights.display_inline_filters Insights.insertion_sort_desc w df))
  = Insights.display_inline_filters Insights.insertion_sort_desc w df.
Proof.
  rewrite (display_inline_filters_again _ insertion_sort_desc_perm).
  apply insertion_sort_desc_sorted.
  unfold Insights.display_inline_filters.
  apply firstn_descending, insertion_sort_desc_descending.
Qed.

(* ================================================================== *)
(** * The filter claims *)
(* ================================================================== *)

(** C2 (the code departs from it).  Every row that the prediction page
    keeps should satisfy every active predicate of the criteria, the
    product predicate being that the product cell holds a selected name
    as a case-insensitive substring.  With "Cola 1.5L" picked from the
    product options, the page keeps the customer who bought "Cola 105L"
    as well, whose cell does not hold the name "Cola 1.5L": the name is
    read as a regular expression, in which the point stands for any
    character.  Everything else of the claim holds: every kept row
    satisfies the criteria other than the product selection -- it
    carries the selected customer identifier, name, gender, region and
    city wherever such a selection is active, and its similarity score
    (as the float64 percentage the page computes) and its total spent
    lie in the inclusive ranges -- and it satisfies the product
    selection too when the selected names hold no special character.
    Every row that the inline filters of the insights page keep, after
    sorting and truncation, satisfies the selected category, product,
    region, gender and spending level, lies in the inclusive propensity
    and price ranges, and respects the recency ceiling and the frequency
    floor when those columns exist. *)
Theorem C2_product_pattern_keeps_other_rows :
  (apply_filters cola_selected cola_table = Ok [asha_cola; ravi_cola] /\
   ~ has_product ["Cola 1.5L"%string] ravi_cola /\
   ~ Forall (satisfies cola_selected) [asha_cola; ravi_cola]) /\
  (forall (t : temp_filters) (df : table) (out : list row),
      apply_filters t df = Ok out ->
      Forall (satisfies (without_products t)) out /\
      (plain_products t -> Forall (satisfies t) out)) /\
  (forall sort_values : list Insights.full_row -> list Insights.full_row,
      (forall l, Permutation l (sort_values l)) ->
      forall (w : Insights.widgets) (df : Insights.full_data),
        Forall (inline_satisfies w df)
               (Insights.display_inline_filters sort_values w df)).
Proof.
  assert (Hcola : ~ has_product ["Cola 1.5L"%string] ravi_cola).
  { intros [p [cell [[<-|[]] [[= <-] Hsub]]]].
    apply icontains_spec in Hsub. discriminate Hsub. }
  split; [|split].
  - split; [reflexivity|]. split; [exact Hcola|].
    intros H. inversion H as [|? ? _ H2]; subst.
    inversion H2 as [|? ? H3 _]; subst.
    destruct H3 as [_ [_ [_ [_ [_ [P _]]]]]].
    apply Hcola. apply (P _ eq_refl). discriminate.
  - intros t df out H.
    destruct (apply_filters_keeps _ _ H) as [p [Hp ->]].
    split; [|intros Hplain]; apply Forall_forall; intros r Hr;
      apply filter_In in Hr;
      destruct (filters_test_sound _ _ _ Hp (proj2 Hr)) as [S1 S2]; auto.
  - intros sort_values Hperm w df. apply Forall_forall. intros r Hr.
    apply inline_test_sound.
    exact (proj2 (displayed_row_passes sort_values Hperm w df r Hr)).
Qed.

(** With the region "South" and the product "Soap" selected only the
    customer from the South is kept, and meets every criterion; with
    category "Hair" and region "West" the two hair products are kept,
    the higher propensity first. *)
Lemma C2_product_pattern_keeps_other_rows_witness :
  (Forall (satisfies (without_products shop_south_soap))
          [visitor 2 "Ravi" "South" "Chennai" "Soap, Brush" (1 # 2) 250] /\
   (plain_products shop_south_soap ->
    Forall (satisfies shop_south_soap)
           [visitor 2 "Ravi" "South" "Chennai" "Soap, Brush" (1 # 2) 250])) /\
  Forall (inline_satisfies sample_widgets sample_insights)
         (Insights.display_inline_filters Insights.insertion_sort_desc
            sample_widgets sample_insights).
Proof.
  split.
  - apply (proj1 (proj2 C2_product_pattern_keeps_other_rows)
             shop_south_soap shop_table).
    reflexivity.
  - apply (proj2 (proj2 C2_product_pattern_keeps_other_rows)
             _ insertion_sort_desc_perm).
Defined.

(** C8.  Idempotence.  Filtering the result of the prediction-page
    filters again with the same criteria returns the same list of rows.
    Filtering, sorting and truncating the result of the inline filters
    again with the same widget values returns the same rows, whatever
    the sort does with equal scores, and the very same list when the
    sort is stable. *)
Theorem C8_filters_idempotent :
  (forall (t : temp_filters) (df : table) (out : list row),
      apply_filters t df = Ok out ->
      apply_filters t (with_rows df out) = Ok out) /\
  (forall sort_values : list Insights.full_row -> list Insights.full_row,
      (forall l, Permutation l (sort_values l)) ->
      forall (w : Insights.widgets) (df : Insights.full_data),
        Permutation
          (Insights.display_inline_filters sort_values w
             (Insights.with_full_rows df
                (Insights.display_inline_filters sort_values w df)))
          (Insights.display_inline_filters sort_values w df)) /\
  (forall (w : Insights.widgets) (df : Insights.full_data),
      Insights.display_inline_filters Insights.insertion_sort_desc w
        (Insights.with_full_rows df
           (Insights.display_inline_filters Insights.insertion_sort_desc w df))
      = Insights.display_inline_filters Insights.insertion_sort_desc w df).
Proof.
  split; [|split].
  - intros t df out H.
    destruct (apply_filters_keeps _ _ H) as [p [Hp ->]].
    rewrite apply_filters_test.
    change (filters_test t (with_rows df (filter p (rows df))))
      with (filters_test t df).
    rewrite Hp. cbn [bind rows with_rows]. now rewrite filter_idem.
  - intros sort_values Hperm w df.
    rewrite (display_inline_filters_again sort_values Hperm).
    apply Permutation_sym, Hperm.
  - apply display_inline_filters_stable.
Qed.

Lemma C8_filters_idempotent_witness :
  apply_filters south_soap
    (with_rows sample_table [customer 2 "Ravi" "M" "South" "Chennai" 250])
  = Ok [customer 2 "Ravi" "M" "South" "Chennai" 250] /\
  Permutation
    (Insights.display_inline_filters Insights.insertion_sort_desc sample_widgets
       (Insights.with_full_rows sample_insights
          (Insights.display_inline_filters Insights.insertion_sort_desc
             sample_widgets sample_insights)))
    (Insights.display_inline_filters Insights.insertion_sort_desc
       sample_widgets sample_insights).
Proof.
  split.
  - apply (proj1 C8_filters_idempotent south_soap sample_table). reflexivity.
  - apply (proj1 (proj2 C8_filters_idempotent) _ insertion_sort_desc_perm).
Defined.

(** C10.  Filtering only removes rows.  The rows the prediction page
    keeps are rows of the base table, unchanged and in their order: the
    result is the base list with the rows failing a row test taken out,
    so it is no longer than the base list; the same criteria applied to
    any other rows of the same table, also rows none of which passes,
    return a list and raise nothing.  The rows the inline filters keep
    are drawn from the rows passing a row test, each at most as often as
    it occurs there, and are no more than the base rows. *)
Theorem C10_filtering_only_removes_rows :
  (forall (t : temp_filters) (df : table) (out : list row),
      apply_filters t df = Ok out ->
      (exists keep : row -> bool,
          out = filter keep (rows df) /\
          forall l, apply_filters t (with_rows df l) = Ok (filter keep l)) /\
      (forall r, In r out -> In r (rows df)) /\
      (List.length out <= List.length (rows df))%nat) /\
  (forall sort_values : list Insights.full_row -> list Insights.full_row,
      (forall l, Permutation l (sort_values l)) ->
      forall (w : Insights.widgets) (df : Insights.full_data),
        let out := Insights.display_inline_filters sort_values w df in
        (exists (keep : Insights.full_row -> bool) dropped,
            Permutation (filter keep (Insights.rows df)) (out ++ dropped)) /\
        (forall r, In r out -> In r (Insights.rows df)) /\
        (List.length out <= List.length (Insights.rows df))%nat).
Proof.
  split.
  - intros t df out H.
    destruct (apply_filters_keeps _ _ H) as [p [Hp ->]].
    split; [|split].
    + exists p. split; [reflexivity|]. intros l.
      rewrite apply_filters_test.
      change (filters_test t (with_rows df l)) with (filters_test t df).
      now rewrite Hp.
    + intros r Hr. now apply filter_In in Hr.
    + apply filter_length_le.
  - intros sort_values Hperm w df out.
    destruct (display_inline_filters_drawn sort_values Hperm w df) as [dropped Hd].
    split; [|split].
    + now exists (inline_test w df), dropped.
    + intros r Hr. exact (proj1 (displayed_row_passes sort_values Hperm w df r Hr)).
    + apply Nat.le_trans with (List.length (filter (inline_test w df) (Insights.rows df))).
      * rewrite (Permutation_length Hd), length_app. fold out. lia.
      * apply filter_length_le.
Qed.

(** No row of the sample table is from "Goa": the result is empty, and
    it is a result. *)
Example apply_filters_no_match :
  apply_filters
    {| f_customer_id := Some All; f_name := Some All; f_gender := Some All;
       f_region := Some (VStr "Goa"); f_city := Some All;
       f_products := Some []; f_similarity := None; f_spent := None |}
    sample_table = Ok [].
Proof. reflexivity. Qed.

Lemma C10_filtering_only_removes_rows_witness :
  ((exists keep : row -> bool,
       [customer 2 "Ravi" "M" "South" "Chennai" 250] = filter keep (rows sample_table) /\
       forall l, apply_filters south_soap (with_rows sample_table l) = Ok (filter keep l)) /\
   (forall r, In r [customer 2 "Ravi" "M" "South" "Chennai" 250] ->
              In r (rows sample_table)) /\
   (List.length [customer 2 "Ravi" "M" "South" "Chennai" 250]
    <= List.length (rows sample_table))%nat) /\
  (let out := Insights.display_inline_filters Insights.insertion_sort_desc
                sample_widgets sample_insights in
   (exists (keep : Insights.full_row -> bool) dropped,
       Permutation (filter keep (Insights.rows sample_insights)) (out ++ dropped)) /\
   (forall r, In r out -> In r (Insights.rows sample_insights)) /\
   (List.length out <= List.length (Insights.rows sample_insights))%nat).
Proof.
  split.
  - apply (proj1 C10_filtering_only_removes_rows south_soap sample_table).
    reflexivity.
  - apply (proj2 C10_filtering_only_removes_rows _ insertion_sort_desc_perm).
Defined.

(* ================================================================== *)
(** * RFM scores and segments *)
(* ================================================================== *)

Lemma take_label_In {L : Type} (labels : list L) (i : nat) (l : L) :
  Pandas.take_label labels i = Some l -> In l labels.
Proof.
  destruct i as [|j]; [discriminate|]. cbn. apply nth_error_In.
Qed.

(** Binning returns one cell per input cell, and every label it returns
    is one of the labels given. *)
Lemma bins_to_cuts_labels {L : Type} (x : list Pandas.num) (bins : list Q)
    (labels : list L) (lowest : bool) (dup : Pandas.duplicates)
    (cells : list (option L)) :
  Pandas.bins_to_cuts x bins labels lowest dup = Ok cells ->
  List.length cells = List.length x /\
  Forall (fun c => forall l, c = Some l -> In l labels) cells.
Proof.
  unfold Pandas.bins_to_cuts.
  match goal with
  | |- context [bind ?chosen _] => destruct chosen as [bins'| |]
  end; cbn [bind]; try discriminate.
  destruct (negb _); [discriminate|]. intros [= <-].
  split; [apply length_map|].
  apply Forall_forall. intros c Hc. apply in_map_iff in Hc.
  destruct Hc as [v [<- _]]. intros l. apply take_label_In.
Qed.

Lemma qcut_labels {L : Type} (x : list Pandas.num) (q : nat) (labels : list L)
    (dup : Pandas.duplicates) (cells : list (option L)) :
  Pandas.qcut x q labels dup = Ok cells ->
  List.length cells = List.length x /\
  Forall (fun c => forall l, c = Some l -> In l labels) cells.
Proof.
  unfold Pandas.qcut. destruct (Pandas.dropna x); [discriminate|].
  apply bins_to_cuts_labels.
Qed.

Lemma mapM_astype_int (cells : list (option Z)) (ints : list Z) :
  mapM Pandas.astype_int cells = Ok ints -> cells = map Some ints.
Proof.
  revert ints; induction cells as [|c cells IH]; intros ints.
  - now intros [= <-].
  - cbn [mapM]. destruct c as [z|]; cbn [Pandas.astype_int bind]; [|discriminate].
    destruct (mapM Pandas.astype_int cells) as [zs| |]; cbn [bind]; try discriminate.
    intros [= <-]. cbn [map]. now rewrite (IH zs eq_refl).
Qed.

(** A scored column: one integer per customer, each among the labels. *)
Lemma scored_column (x : list Pandas.num) (labels : list Z)
    (cells : list (option Z)) (ints : list Z) :
  Pandas.qcut x 4 labels Pandas.DupRaise = Ok cells ->
  mapM Pandas.astype_int cells = Ok ints ->
  List.length ints = List.length x /\ forall z, In z ints -> In z labels.
Proof.
  intros Hq Hm. apply mapM_astype_int in Hm. subst cells.
  destruct (qcut_labels _ _ _ _ Hq) as [Hlen Hall].
  rewrite length_map in Hlen. split; [assumption|].
  intros z Hz. rewrite Forall_forall in Hall.
  apply (Hall (Some z)); [now apply in_map | reflexivity].
Qed.

Lemma map_fst_combine {A B : Type} (l : list A) (l' : list B) :
  List.length l = List.length l' -> map fst (combine l l') = l.
Proof.
  revert l'; induction l as [|a l IH]; intros [|b l'] H; try discriminate;
    [reflexivity|].
  cbn. f_equal. apply IH. now injection H.
Qed.

Lemma segment_customer_table (total : Z) :
  (10 <= total -> SourceData.segment_customer total = "Champions"%string)%Z /\
  (8 <= total < 10 -> SourceData.segment_customer total = "Loyal Customers"%string)%Z /\
  (6 <= total < 8 -> SourceData.segment_customer total = "Potential Loyalists"%string)%Z /\
  (5 <= total < 6 -> SourceData.segment_customer total = "At Risk"%string)%Z /\
  (total < 5 -> SourceData.segment_customer total = "Lost"%string)%Z.
Proof.
  unfold SourceData.segment_customer.
  destruct (Z.geb_spec total 10), (Z.geb_spec total 8),
           (Z.geb_spec total 6), (Z.geb_spec total 5);
    repeat split; intros; try reflexivity; lia.
Qed.

Lemma mk_scored_well_scored (row : SourceData.rfm_row) (r f m : Z) :
  In r [4; 3; 2; 1]%Z -> In f [1; 2; 3; 4]%Z -> In m [1; 2; 3; 4]%Z ->
  well_scored (SourceData.mk_scored (row, r, f, m)).
Proof.
  intros Hr Hf Hm. unfold well_scored. cbn.
  pose proof (segment_customer_table (r + f + m)) as [T1 [T2 [T3 [T4 T5]]]].
  assert (1 <= r <= 4 /\ 1 <= f <= 4 /\ 1 <= m <= 4)%Z as [Br [Bf Bm]].
  { cbn in Hr, Hf, Hm. lia. }
  repeat split; try assumption; lia.
Qed.

Lemma rank_first_from_length (seen rest all : list Q) :
  List.length (Pandas.rank_first_from seen rest all) = List.length rest.
Proof.
  revert seen; induction rest as [|x rest IH]; intros seen; [reflexivity|].
  cbn [Pandas.rank_first_from List.length]. now rewrite IH.
Qed.

Lemma bind_ok {A B : Type} (m : result A) (k : A -> result B) (b : B) :
  bind m k = Ok b -> exists a, m = Ok a /\ k a = Ok b.
Proof.
  destruct m as [a| |]; cbn [bind]; try discriminate. intros H. now exists a.
Qed.

(** C1.  RFM scoring.  Whenever [show_rfm_analysis] scores a population,
    every customer of the population is scored; each of R_Score, F_Score
    and M_Score is one of 1, 2, 3, 4; RFM_Score is their sum and lies
    between 3 and 12; and the segment is the one the threshold table
    gives in priority order: at least 10 "Champions", at least 8 "Loyal
    Customers", at least 6 "Potential Loyalists", at least 5 "At Risk",
    otherwise "Lost".  At the boundaries: 10 is "Champions", 9 is "Loyal
    Customers", 5 is "At Risk", 4 is "Lost". *)
Theorem C1_rfm_scores_and_segments (population : list SourceData.rfm_row)
    (scored : list SourceData.scored_row) :
  SourceData.show_rfm_analysis population = Some (Ok scored) ->
  map SourceData.rfm scored = population /\
  Forall well_scored scored /\
  SourceData.segment_customer 10 = "Champions"%string /\
  SourceData.segment_customer 9 = "Loyal Customers"%string /\
  SourceData.segment_customer 5 = "At Risk"%string /\
  SourceData.segment_customer 4 = "Lost"%string.
Proof.
  intros H.
  assert (Hs : SourceData.score_rfm population = Ok scored).
  { destruct population; [discriminate | now injection H]. }
  clear H. unfold SourceData.score_rfm in Hs.
  apply bind_ok in Hs. destruct Hs as [r [Qr Hs]].
  apply bind_ok in Hs. destruct Hs as [f [Qf Hs]].
  apply bind_ok in Hs. destruct Hs as [m [Qm Hs]].
  apply bind_ok in Hs. destruct Hs as [ri [Mr Hs]].
  apply bind_ok in Hs. destruct Hs as [fi [Mf Hs]].
  apply bind_ok in Hs. destruct Hs as [mi [Mm Hs]].
  injection Hs as <-.
  destruct (scored_column _ _ Qr Mr) as [Lr Ir].
  destruct (scored_column _ _ Qf Mf) as [Lf If].
  destruct (scored_column _ _ Qm Mm) as [Lm Im].
  rewrite !length_map in Lr, Lf, Lm.
  unfold Pandas.rank_first in Lf.
  rewrite rank_first_from_length, length_map in Lf.
  split; [|split; [|repeat split]].
  - rewrite map_map.
    transitivity (map fst (map fst (map fst
                   (combine (combine (combine population ri) fi) mi)))).
    { rewrite !map_map. apply map_ext. now intros [[[row a] b] c]. }
    rewrite !map_fst_combine; rewrite ?length_combine; try reflexivity; lia.
  - apply Forall_forall. intros s Hs. apply in_map_iff in Hs.
    destruct Hs as [[[[row a] b] c] [<- Hin]].
    pose proof (in_combine_r _ _ _ _ Hin) as Hc.
    apply in_combine_l in Hin.
    pose proof (in_combine_r _ _ _ _ Hin) as Hb.
    apply in_combine_l in Hin. apply in_combine_r in Hin.
    apply mk_scored_well_scored; auto.
Qed.

(** The scenario of the specification: three customers, the first one
    best on all three dimensions. *)
Lemma C1_rfm_scores_witness :
  map SourceData.rfm three_customers_scored = three_customers /\
  Forall well_scored three_customers_scored /\
  SourceData.segment_customer 10 = "Champions"%string /\
  SourceData.segment_customer 9 = "Loyal Customers"%string /\
  SourceData.segment_customer 5 = "At Risk"%string /\
  SourceData.segment_customer 4 = "Lost"%string.
Proof.
  apply (C1_rfm_scores_and_segments three_customers). reflexivity.
Defined.

(* ================================================================== *)
(** * Degenerate distributions *)
(* ================================================================== *)

Section AllEqual.

Variable v : Q.

Lemma insert_sorted_all_are (x : Q) (l : list Q) :
  x == v -> all_are v l -> all_are v (Pandas.insert_sorted x l).
Proof.
  intros Hx Hl. induction Hl as [|y l Hy Hl IH]; cbn [Pandas.insert_sorted].
  - now constructor.
  - destruct (Qle_bool x y); repeat constructor; assumption.
Qed.

Lemma sort_asc_all_are (l : list Q) : all_are v l -> all_are v (Pandas.sort_asc l).
Proof.
  intros Hl. induction Hl as [|x l Hx Hl IH]; [constructor|].
  now apply insert_sorted_all_are.
Qed.

Lemma insert_sorted_length (x : Q) (l : list Q) :
  List.length (Pandas.insert_sorted x l) = S (List.length l).
Proof.
  induction l as [|y l IH]; [reflexivity|].
  cbn [Pandas.insert_sorted]. destruct (Qle_bool x y); cbn [List.length]; congruence.
Qed.

Lemma sort_asc_length (l : list Q) :
  List.length (Pandas.sort_asc l) = List.length l.
Proof.
  induction l as [|x l IH]; [reflexivity|].
  unfold Pandas.sort_asc in *. cbn [fold_right].
  now rewrite insert_sorted_length, IH.
Qed.

Lemma nth_all_are (l : list Q) (n : nat) (d : Q) :
  all_are v l -> d == v -> nth n l d == v.
Proof.
  intros Hl Hd. revert n. induction Hl as [|x l Hx Hl IH]; intros [|n]; cbn;
    auto.
Qed.

Lemma quantile_all_are (xs : list Q) (k m : nat) :
  xs <> [] -> (k <= m)%nat -> all_are v xs -> Pandas.quantile xs k m == v.
Proof.
  intros Hne Hk Hxs. unfold Pandas.quantile. cbv zeta.
  pose proof (sort_asc_all_are Hxs) as Hs.
  set (s := Pandas.sort_asc xs) in *.
  set (j := (((List.length xs - 1) * k) / m)%nat).
  assert (Hj : (j < List.length s)%nat).
  { unfold s. rewrite sort_asc_length.
    assert (0 < List.length xs)%nat by (destruct xs; [congruence | cbn; lia]).
    apply Nat.le_lt_trans with (List.length xs - 1)%nat; [|lia].
    apply Nat.Div0.div_le_upper_bound. nia. }
  assert (Hlo : nth j s 0 == v).
  { assert (Hin : In (nth j s 0) s) by now apply nth_In.
    unfold all_are in Hs. rewrite Forall_forall in Hs. now apply Hs. }
  assert (Hhi : nth (S j) s (nth j s 0) == v) by now apply nth_all_are.
  rewrite Hhi, Hlo. ring.
Qed.

Lemma quantile_edges_all_are (xs : list Q) (q : nat) :
  xs <> [] -> all_are v xs -> all_are v (Pandas.quantile_edges xs q).
Proof.
  intros Hne Hxs. unfold Pandas.quantile_edges, all_are.
  apply Forall_forall. intros e He. apply in_map_iff in He.
  destruct He as [k [<- Hk]]. apply in_seq in Hk.
  apply quantile_all_are; [assumption | lia | assumption].
Qed.

Lemma unique_all_are (l : list Q) : all_are v l -> all_are v (Pandas.unique l).
Proof.
  intros Hl. induction Hl as [|x l Hx Hl IH]; [constructor|].
  cbn [Pandas.unique]. constructor; [assumption|].
  unfold all_are in *. rewrite Forall_forall in *.
  intros y Hy. apply filter_In in Hy. now apply IH.
Qed.

(** Edges that are all equal collapse to one edge. *)
Lemma unique_all_are_length (l : list Q) :
  l <> [] -> all_are v l -> List.length (Pandas.unique l) = 1%nat.
Proof.
  intros Hne Hl. destruct Hl as [|x l Hx Hl]; [congruence|].
  cbn [Pandas.unique List.length]. f_equal.
  pose proof (unique_all_are Hl) as Hu.
  induction Hu as [|y u Hy Hu IH]; [reflexivity|].
  cbn [filter]. rewrite (Qeq_eq_bool x y); [exact IH|].
  now rewrite Hx, Hy.
Qed.

(** Binning over three or more equal edges with at least one label is an
    error, whether duplicate edges are refused or dropped. *)
Lemma bins_to_cuts_all_are {L : Type} (x : list Pandas.num) (bins : list Q)
    (labels : list L) (lowest : bool) (dup : Pandas.duplicates) :
  (3 <= List.length bins)%nat -> labels <> [] -> all_are v bins ->
  Pandas.bins_to_cuts x bins labels lowest dup = Raise ValueError.
Proof.
  intros Hlen Hlab Hb. unfold Pandas.bins_to_cuts.
  assert (Hne : bins <> []) by (destruct bins; [cbn in Hlen; lia | congruence]).
  pose proof (unique_all_are_length Hne Hb) as Hu. rewrite Hu.
  assert (E1 : (1 <? List.length bins)%nat = true) by (apply Nat.ltb_lt; lia).
  assert (E2 : (List.length bins =? 2)%nat = false) by (apply Nat.eqb_neq; lia).
  rewrite E1, E2. cbn [andb negb].
  destruct dup; cbn [bind]; [reflexivity|].
  rewrite Hu. destruct labels; [congruence | reflexivity].
Qed.

Lemma qcut_all_are {L : Type} (x : list Pandas.num) (q : nat)
    (labels : list L) (dup : Pandas.duplicates) :
  (2 <= q)%nat -> labels <> [] ->
  Pandas.dropna x <> [] -> all_are v (Pandas.dropna x) ->
  Pandas.qcut x q labels dup = Raise ValueError.
Proof.
  intros Hq Hlab Hne Hx. unfold Pandas.qcut.
  destruct (Pandas.dropna x) as [|a present] eqn:E; [congruence|].
  apply bins_to_cuts_all_are; try assumption.
  - unfold Pandas.quantile_edges. rewrite length_map, length_seq. lia.
  - now apply quantile_edges_all_are.
Qed.

End AllEqual.

Lemma bins_to_cuts_outcome {L : Type} (x : list Pandas.num) (bins : list Q)
    (labels : list L) (lowest : bool) (dup : Pandas.duplicates) :
  (exists cells, Pandas.bins_to_cuts x bins labels lowest dup = Ok cells) \/
  Pandas.bins_to_cuts x bins labels lowest dup = Raise ValueError.
Proof.
  unfold Pandas.bins_to_cuts.
  destruct (_ && _); [destruct dup|]; cbn [bind]; auto;
    destruct (negb _); eauto.
Qed.

(** [qcut] returns cells or raises [ValueError]; nothing else. *)
Lemma qcut_outcome {L : Type} (x : list Pandas.num) (q : nat) (labels : list L)
    (dup : Pandas.duplicates) :
  (exists cells, Pandas.qcut x q labels dup = Ok cells) \/
  Pandas.qcut x q labels dup = Raise ValueError.
Proof.
  unfold Pandas.qcut. destruct (Pandas.dropna x); [now right|].
  apply bins_to_cuts_outcome.
Qed.

Lemma dropna_map_Some {A : Type} (f : A -> Q) (l : list A) :
  Pandas.dropna (map (fun c => Some (f c)) l) = map f l.
Proof.
  induction l as [|a l IH]; [reflexivity|]. cbn. now rewrite IH.
Qed.

Lemma column_all_are {A : Type} (f : A -> Q) (l : list A) (v : Q) :
  (forall c, In c l -> f c == v) -> all_are v (map f l).
Proof.
  intros H. apply Forall_forall. intros x Hx. apply in_map_iff in Hx.
  destruct Hx as [c [<- Hc]]. now apply H.
Qed.

(** The propensity bins are fixed and distinct: the cut never fails. *)
Lemma propensity_categories_cells (scores : list Pandas.num) :
  Insights.propensity_categories scores = Ok (map propensity_category_of scores).
Proof. reflexivity. Qed.

Lemma dropna_all_are (v : Q) (xs : list Pandas.num) :
  xs <> [] ->
  (forall x, In x xs -> exists q, x = Some q /\ q == v) ->
  all_are v (Pandas.dropna xs) /\ Pandas.dropna xs <> [].
Proof.
  intros Hne Hz. destruct xs as [|x xs]; [congruence|]. split.
  - clear Hne. induction (x :: xs) as [|y l IH]; [constructor|].
    destruct (Hz y (or_introl eq_refl)) as [q [-> Hq]].
    cbn [Pandas.dropna]. constructor; [assumption|].
    apply IH. intros z Hin. apply Hz. now right.
  - destruct (Hz x (or_introl eq_refl)) as [q [-> _]]. discriminate.
Qed.

(** Tertile categories of a column that holds one value only. *)
Lemma spending_categories_identical (v : Q) (spent : list Pandas.num) :
  spent <> [] ->
  (forall x, In x spent -> exists q, x = Some q /\ q == v) ->
  Insights.spending_categories spent = Raise ValueError.
Proof.
  intros Hne Hv. destruct (dropna_all_are Hne Hv) as [Hall Hd].
  unfold Insights.spending_categories.
  apply (@qcut_all_are v); [lia | discriminate | assumption | assumption].
Qed.

(** C7 (the code departs from it).  Degenerate distributions should be
    tolerated by collapsing duplicate bin edges.  The code raises
    instead: the Recency and Monetary quartiles are cut without the
    option that drops duplicate edges, so a population that shares one
    Recency value, or one Monetary value, ends in [ValueError]; and the
    spending tertiles drop duplicate edges but keep their three labels,
    so preprocessing a population that shares one [total_spent] value
    ends in [ValueError] as well. *)
Theorem C7_identical_values_raise :
  (forall (population : list SourceData.rfm_row) (v : Q),
      population <> [] ->
      (forall c, In c population -> SourceData.Recency c == v) ->
      SourceData.score_rfm population = Raise ValueError) /\
  (forall (population : list SourceData.rfm_row) (v : Q),
      population <> [] ->
      (forall c, In c population -> SourceData.Monetary c == v) ->
      SourceData.score_rfm population = Raise ValueError) /\
  (forall (df : list Insights.prediction) (v : Q),
      df <> [] ->
      (forall p, In p df -> exists q, Insights.total_spent p = Some q /\ q == v) ->
      Insights.preprocess_prediction_data df = Raise ValueError).
Proof.
  split; [|split].
  - intros population v Hne Hv. unfold SourceData.score_rfm.
    rewrite (@qcut_all_are v); [reflexivity | lia | discriminate | |];
      rewrite dropna_map_Some.
    + destruct population; [congruence | discriminate].
    + now apply column_all_are.
  - intros population v Hne Hv. unfold SourceData.score_rfm.
    assert (Hm : Pandas.qcut (map (fun c => Some (SourceData.Monetary c)) population)
                   4 [1; 2; 3; 4]%Z Pandas.DupRaise = Raise ValueError).
    { apply (@qcut_all_are v); [lia | discriminate | |];
        rewrite dropna_map_Some.
      - destruct population; [congruence | discriminate].
      - now apply column_all_are. }
    rewrite Hm.
    destruct (qcut_outcome (map (fun c => Some (SourceData.Recency c)) population)
                4 [4; 3; 2; 1]%Z Pandas.DupRaise) as [[r ->] | ->];
      [|reflexivity].
    destruct (qcut_outcome
                (map Some (Pandas.rank_first (map SourceData.Frequency population)))
                4 [1; 2; 3; 4]%Z Pandas.DupRaise) as [[f ->] | ->];
      reflexivity.
  - intros df v Hne Hv. unfold Insights.preprocess_prediction_data.
    rewrite propensity_categories_cells. cbn [bind].
    rewrite (@spending_categories_identical v); [reflexivity | |].
    + destruct df; [congruence | discriminate].
    + intros x Hx. apply in_map_iff in Hx. destruct Hx as [p [<- Hp]].
      apply in_map_iff in Hp. destruct Hp as [p0 [<- Hp0]].
      exact (Hv p0 Hp0).
Qed.

Lemma C7_identical_values_witness :
  SourceData.score_rfm same_recency = Raise ValueError /\
  SourceData.score_rfm same_monetary = Raise ValueError /\
  Insights.preprocess_prediction_data same_spent = Raise ValueError.
Proof.
  destruct C7_identical_values_raise as [HR [HM HS]].
  split; [|split].
  - apply (HR same_recency 5); [discriminate|].
    intros c Hc. cbn in Hc.
    destruct Hc as [<- | [<- | [<- | [<- | []]]]]; reflexivity.
  - apply (HM same_monetary 200); [discriminate|].
    intros c Hc. cbn in Hc.
    destruct Hc as [<- | [<- | [<- | [<- | []]]]]; reflexivity.
  - apply (HS same_spent 200); [discriminate|].
    intros p Hp. cbn in Hp.
    destruct Hp as [<- | [<- | [<- | []]]]; exists 200; split; reflexivity.
Defined.

(** Fewer than four distinct values are enough for the failure: with
    Recency 1, 1, 1, 2 the first two quartile edges coincide. *)
Example score_rfm_three_equal :
  SourceData.score_rfm
    [rfm_customer 1 10 100; rfm_customer 1 5 200; rfm_customer 1 1 300;
     rfm_customer 2 7 400] = Raise ValueError.
Proof. reflexivity. Qed.

(** Tertiles with one repeated edge: the edge is dropped, two bins are
    left for three labels. *)
Example spending_categories_repeated_edge :
  Insights.spending_categories [Some 10; Some 20; Some 30; Some 30]%Q
  = Raise ValueError.
Proof. reflexivity. Qed.

(* ================================================================== *)
(** * Propensity categories *)
(* ================================================================== *)

Lemma Qlt_bool_iff (a b : Q) : Pandas.Qlt_bool a b = true <-> a < b.
Proof.
  unfold Pandas.Qlt_bool. rewrite negb_true_iff.
  destruct (Qle_bool b a) eqn:E.
  - apply Qle_bool_iff in E. split; [discriminate | intros; lra].
  - split; [intros _ | reflexivity].
    apply Qnot_le_lt. intros H. apply Qle_bool_iff in H. congruence.
Qed.

Lemma propensity_category_of_spec (score : Pandas.num) :
  category_of score (propensity_category_of score).
Proof.
  destruct score as [q|]; [|reflexivity].
  unfold category_of, propensity_category_of, Pandas.bin_id,
    Pandas.searchsorted_left.
  intros [Hpos Hone]. cbn [filter andb].
  assert (H0 : Pandas.Qlt_bool 0 q = true) by now apply Qlt_bool_iff.
  assert (H1 : Pandas.Qlt_bool 1 q = false).
  { destruct (Pandas.Qlt_bool 1 q) eqn:E; [|reflexivity].
    apply Qlt_bool_iff in E. lra. }
  rewrite H0, H1.
  destruct (Pandas.Qlt_bool (3 # 10) q) eqn:E3;
    destruct (Pandas.Qlt_bool (6 # 10) q) eqn:E6;
    cbn;
    try (apply Qlt_bool_iff in E3);
    try (apply Qlt_bool_iff in E6);
    try (assert (~ 3 # 10 < q)
           by (intros C; apply Qlt_bool_iff in C; congruence));
    try (assert (~ 6 # 10 < q)
           by (intros C; apply Qlt_bool_iff in C; congruence));
    repeat split; intros; try discriminate; try reflexivity; try lra.
Qed.

(** C6 (as stated, refuted).  A score of exactly 0.3 is not categorised
    "Medium": the bins are closed on the right, so 0.3 is the top of
    "Low".  A score of exactly 0 is not categorised "Low" either: it
    lies below the first bin and gets no category. *)
Lemma C6_boundaries_not_as_claimed :
  Insights.propensity_categories [Some (3 # 10)] <> Ok [Some "Medium"%string] /\
  Insights.propensity_categories [Some 0] <> Ok [Some "Low"%string].
Proof. split; discriminate. Qed.

(** C6 (amended).  For every prediction row with propensity_score in
    (0, 1], the derived propensity_category is "Low" exactly when the
    score is in (0, 0.3], "Medium" exactly when it is in (0.3, 0.6], and
    "High" exactly when it is in (0.6, 1.0]; a missing score has no
    category; in particular a score of exactly 0.3 is categorised "Low"
    and a score of exactly 0.6 "Medium". *)
Theorem C6_propensity_category_right_closed :
  (forall scores : list Pandas.num,
      exists cells,
        Insights.propensity_categories scores = Ok cells /\
        Forall2 category_of scores cells) /\
  Insights.propensity_categories [Some (3 # 10); Some (6 # 10); Some 1]
  = Ok [Some "Low"; Some "Medium"; Some "High"]%string.
Proof.
  split; [|reflexivity].
  intros scores. exists (map propensity_category_of scores).
  split; [apply propensity_categories_cells|].
  induction scores as [|s scores IH]; constructor;
    [apply propensity_category_of_spec | assumption].
Qed.

Lemma C6_propensity_category_witness :
  exists cells,
    Insights.propensity_categories [Some (3 # 10); Some (45 # 100); None] = Ok cells /\
    Forall2 category_of [Some (3 # 10); Some (45 # 100); None] cells.
Proof.
  exact (proj1 C6_propensity_category_right_closed
           [Some (3 # 10); Some (45 # 100); None]).
Defined.

(* ================================================================== *)
(** * Engagement score *)
(* ================================================================== *)

Lemma fold_max_all_are (v : Q) (rest : list Q) (x : Q) :
  x == v -> all_are v rest ->
  fold_left (fun m y => if Qle_bool m y then y else m) rest x == v.
Proof.
  intros Hx Hr. revert x Hx.
  induction Hr as [|y rest Hy Hr IH]; intros x Hx; [assumption|].
  cbn [fold_left]. apply IH. now destruct (Qle_bool x y).
Qed.

Lemma series_max_all_zero (xs : list Pandas.num) :
  xs <> [] ->
  (forall x, In x xs -> exists q, x = Some q /\ q == 0) ->
  exists m, Float.series_max xs = Float.FNum m /\ m == 0.
Proof.
  intros Hne Hz. unfold Float.series_max.
  pose proof (dropna_all_are Hne Hz) as Hd.
  destruct Hd as [Hall Hd].
  destruct (Pandas.dropna xs) as [|a rest]; [congruence|].
  eexists. split; [reflexivity|].
  inversion Hall; subst. now apply fold_max_all_are.
Qed.

Lemma fadd_nan_r (a : Float.float) : Float.fadd a Float.FNaN = Float.FNaN.
Proof. now destruct a. Qed.

Lemma engagement_scores_all_zero (df : list Insights.prediction) :
  df <> [] ->
  (forall p, In p df ->
     exists q, Insights.total_transactions p = Some q /\ q == 0) ->
  forall e, In e (Insights.engagement_scores df) -> e = Float.FNaN.
Proof.
  intros Hne Hz. unfold Insights.engagement_scores.
  destruct (@series_max_all_zero (map Insights.total_transactions df))
    as [m [-> Hm]].
  - destruct df; [congruence | discriminate].
  - intros x Hx. apply in_map_iff in Hx. destruct Hx as [p [<- Hp]].
    now apply Hz.
  - intros e He. apply in_map_iff in He.
    destruct He as [p [<- Hp]]. destruct (Hz p Hp) as [q [Hq Hq0]].
    unfold Insights.engagement. rewrite Hq. cbn [Float.of_num Float.fdiv].
    unfold Float.is_zero. rewrite (Qeq_eq_bool _ _ Hm), (Qeq_eq_bool _ _ Hq0).
    cbn [Float.fmul]. apply fadd_nan_r.
Qed.

(** C5 (the code departs from it).  When every total_transactions of the
    population is 0, the normalised term should be 0 and the engagement
    score a number.  The code divides by the population maximum, which
    is 0: the term is 0/0, not-a-number, and so is the engagement score
    of every row that [preprocess_prediction_data] returns. *)
Theorem C5_engagement_all_zero_is_nan (df : list Insights.prediction)
    (out : list Insights.preprocessed) :
  (forall p, In p df ->
     exists q, Insights.total_transactions p = Some q /\ q == 0) ->
  Insights.preprocess_prediction_data df = Ok out ->
  List.length out = List.length df /\
  Forall (fun r => Insights.engagement_score r = Float.FNaN) out.
Proof.
  intros Hz H. unfold Insights.preprocess_prediction_data in H.
  apply bind_ok in H. destruct H as [pc [Hpc H]].
  apply bind_ok in H. destruct H as [sc [Hsc H]].
  injection H as <-.
  set (df' := map Insights.fill_unknown df) in *.
  assert (Hne : df' <> []).
  { unfold Insights.spending_categories, Pandas.qcut in Hsc.
    intros E. rewrite E in Hsc. discriminate Hsc. }
  assert (Hz' : forall p, In p df' ->
            exists q, Insights.total_transactions p = Some q /\ q == 0).
  { intros p Hp. apply in_map_iff in Hp. destruct Hp as [p0 [<- Hp0]].
    exact (Hz p0 Hp0). }
  split.
  - unfold Insights.propensity_categories, Pandas.cut in Hpc.
    destruct (bins_to_cuts_labels _ _ _ _ _ Hpc) as [Lpc _].
    unfold Insights.spending_categories in Hsc.
    destruct (qcut_labels _ _ _ _ Hsc) as [Lsc _].
    rewrite length_map in Lpc, Lsc.
    rewrite length_map, !length_combine.
    unfold Insights.engagement_scores. rewrite length_map.
    assert (List.length df' = List.length df) by (unfold df'; apply length_map).
    lia.
  - apply Forall_forall. intros r Hr. apply in_map_iff in Hr.
    destruct Hr as [[[[p c1] c2] e] [<- Hin]].
    apply in_combine_r in Hin. cbn.
    exact (engagement_scores_all_zero Hne Hz' e Hin).
Qed.

(** Three customers with distinct spending and no transaction at all:
    preprocessing succeeds and every engagement score is not-a-number. *)
Lemma C5_engagement_all_zero_witness :
  List.length no_transactions_preprocessed = List.length no_transactions /\
  Forall (fun r => Insights.engagement_score r = Float.FNaN)
         no_transactions_preprocessed.
Proof.
  apply (@C5_engagement_all_zero_is_nan no_transactions).
  - intros p Hp. cbn in Hp.
    destruct Hp as [<- | [<- | [<- | []]]]; exists 0; split; reflexivity.
  - reflexivity.
Defined.

(** With a positive maximum the same computation gives numbers. *)
Example engagement_scores_positive :
  Insights.engagement_scores
    [prediction_with (1 # 2) (1 # 2) 100 2; prediction_with 1 1 200 4]
  = [Float.FNum ((1 # 2) * (4 # 10) + (1 # 2) * (3 # 10) + 2 / 4 * (3 # 10));
     Float.FNum (1 * (4 # 10) + 1 * (3 # 10) + 4 / 4 * (3 # 10))].
Proof. reflexivity. Qed.

(* ================================================================== *)
(** * When a population is scored *)
(* ================================================================== *)

Lemma insert_sorted_In (x a : Q) (l : list Q) :
  In a (Pandas.insert_sorted x l) <-> a = x \/ In a l.
Proof.
  induction l as [|y l IH]; cbn [Pandas.insert_sorted].
  - cbn. intuition.
  - destruct (Qle_bool x y); cbn [In]; [intuition|].
    rewrite IH. intuition.
Qed.

Lemma sort_asc_In (a : Q) (l : list Q) : In a (Pandas.sort_asc l) <-> In a l.
Proof.
  induction l as [|x l IH]; [reflexivity|].
  unfold Pandas.sort_asc in *. cbn [fold_right].
  rewrite insert_sorted_In, IH. cbn. intuition.
Qed.

Lemma insert_sorted_ascending (x : Q) (l : list Q) :
  ascending l -> ascending (Pandas.insert_sorted x l).
Proof.
  induction l as [|y l IH]; intros Hl; cbn [Pandas.insert_sorted].
  - cbn. intuition.
  - destruct Hl as [Hy Hl]. destruct (Qle_bool x y) eqn:E.
    + apply Qle_bool_iff in E. cbn [ascending]. repeat split; try assumption.
      intros z [<- | Hz]; [assumption|].
      apply Qle_trans with y; auto.
    + assert (Hyx : y <= x).
      { apply Qlt_le_weak, Qnot_le_lt. intros C.
        apply Qle_bool_iff in C. congruence. }
      cbn [ascending]. split; [|now apply IH].
      intros z Hz. apply insert_sorted_In in Hz.
      destruct Hz as [-> | Hz]; auto.
Qed.

Lemma sort_asc_ascending (l : list Q) : ascending (Pandas.sort_asc l).
Proof.
  induction l as [|x l IH]; [exact I|].
  unfold Pandas.sort_asc in *. cbn [fold_right].
  now apply insert_sorted_ascending.
Qed.

Lemma ascending_first_least (l : list Q) (a d : Q) :
  ascending l -> In a l -> nth 0 l d <= a.
Proof.
  destruct l as [|x l]; [intros _ []|].
  intros [Hx _] [<- | Ha]; cbn; [apply Qle_refl | auto].
Qed.

Lemma ascending_last_greatest (l : list Q) (d : Q) :
  ascending l -> forall a, In a l -> a <= nth (List.length l - 1) l d.
Proof.
  induction l as [|x l IH]; [intros _ a []|].
  intros [Hx Hl] a Ha. destruct l as [|y l].
  - destruct Ha as [<- | []]. cbn. apply Qle_refl.
  - remember (y :: l) as t eqn:Et.
    assert (Hpos : (0 < List.length t)%nat) by (subst t; cbn; lia).
    replace (List.length (x :: t) - 1)%nat with (S (List.length t - 1))
      by (cbn [List.length]; lia).
    cbn [nth]. destruct Ha as [<- | Ha].
    + apply Hx. apply nth_In. lia.
    + now apply IH.
Qed.

(** The lowest edge is the least value, the highest edge the greatest. *)
Lemma quantile_lowest (xs : list Q) (a : Q) (m : nat) :
  In a xs -> Pandas.quantile xs 0 m <= a.
Proof.
  intros Ha. unfold Pandas.quantile. cbv zeta.
  rewrite Nat.mul_0_r, Nat.Div0.div_0_l, Nat.Div0.mod_0_l.
  assert (Hlo : nth 0 (Pandas.sort_asc xs) 0 <= a).
  { apply ascending_first_least; [apply sort_asc_ascending|].
    now apply sort_asc_In. }
  set (lo := nth 0 (Pandas.sort_asc xs) 0) in *.
  set (hi := nth 1 (Pandas.sort_asc xs) lo).
  assert (E : lo + (hi - lo) * (inject_Z (Z.of_nat 0) / inject_Z (Z.of_nat m)) == lo).
  { cbn [Z.of_nat]. unfold Qdiv. change (inject_Z 0) with 0. ring. }
  now rewrite E.
Qed.

Lemma quantile_highest (xs : list Q) (a : Q) (m : nat) :
  m <> 0%nat -> In a xs -> a <= Pandas.quantile xs m m.
Proof.
  intros Hm Ha. unfold Pandas.quantile. cbv zeta.
  rewrite (Nat.div_mul _ _ Hm), Nat.Div0.mod_mul.
  assert (Hhi : a <= nth (List.length xs - 1) (Pandas.sort_asc xs) 0).
  { rewrite <- (sort_asc_length xs).
    apply ascending_last_greatest; [apply sort_asc_ascending|].
    now apply sort_asc_In. }
  set (lo := nth (List.length xs - 1) (Pandas.sort_asc xs) 0) in *.
  set (hi := nth (S (List.length xs - 1)) (Pandas.sort_asc xs) lo).
  assert (E : lo + (hi - lo) * (inject_Z (Z.of_nat 0) / inject_Z (Z.of_nat m)) == lo).
  { cbn [Z.of_nat]. unfold Qdiv. change (inject_Z 0) with 0. ring. }
  now rewrite E.
Qed.

(** With quartile edges taken from the column itself, every value of the
    column falls into one of the four bins. *)
Lemma bin_id_quartile (xs : list Q) (a : Q) :
  In a xs ->
  In (Pandas.bin_id (Pandas.quantile_edges xs 4) true (Some a))
     [1; 2; 3; 4]%nat.
Proof.
  intros Ha.
  pose proof (@quantile_lowest xs a 4 Ha) as Hlow.
  pose proof (@quantile_highest xs a 4 ltac:(discriminate) Ha) as Hhigh.
  unfold Pandas.quantile_edges. cbn [seq map].
  set (e0 := Pandas.quantile xs 0 4) in *.
  set (e4 := Pandas.quantile xs 4 4) in *.
  unfold Pandas.bin_id, Pandas.searchsorted_left. cbn [andb].
  destruct (Qeq_bool a e0) eqn:E0; [cbn; auto|].
  assert (H0 : Pandas.Qlt_bool e0 a = true).
  { apply Qlt_bool_iff. apply Qeq_bool_neq in E0.
    apply Qle_lteq in Hlow. destruct Hlow as [Hlt | Heq]; [assumption|].
    exfalso. apply E0. now symmetry. }
  assert (H4 : Pandas.Qlt_bool e4 a = false).
  { destruct (Pandas.Qlt_bool e4 a) eqn:E; [|reflexivity].
    apply Qlt_bool_iff in E. lra. }
  cbn [filter]. rewrite H0, H4.
  destruct (Pandas.Qlt_bool (Pandas.quantile xs 1 4) a),
           (Pandas.Qlt_bool (Pandas.quantile xs 2 4) a),
           (Pandas.Qlt_bool (Pandas.quantile xs 3 4) a); cbn; auto.
Qed.

Lemma unique_length_le (l : list Q) :
  (List.length (Pandas.unique l) <= List.length l)%nat.
Proof.
  induction l as [|x l IH]; [apply Nat.le_refl|].
  cbn [Pandas.unique List.length].
  pose proof (filter_length_le (fun y => negb (Qeq_bool x y)) (Pandas.unique l)).
  lia.
Qed.

Lemma quantile_edges_length (xs : list Q) (q : nat) :
  List.length (Pandas.quantile_edges xs q) = S q.
Proof.
  unfold Pandas.quantile_edges. now rewrite length_map, length_seq.
Qed.

Lemma distinct_edges_nonempty (xs : list Q) : distinct_edges xs -> xs <> [].
Proof. intros H ->. discriminate H. Qed.

Lemma mapM_astype_int_Some (ints : list Z) :
  mapM Pandas.astype_int (map Some ints) = Ok ints.
Proof.
  induction ints as [|z ints IH]; [reflexivity|].
  cbn [map mapM Pandas.astype_int bind]. now rewrite IH.
Qed.

(** Quartile scoring of a column without missing values succeeds exactly
    when the five edges are distinct, and then labels every value. *)
Lemma qcut_quartiles (xs : list Q) (labels : list Z) :
  List.length labels = 4%nat ->
  (distinct_edges xs ->
   exists ints, Pandas.qcut (map Some xs) 4 labels Pandas.DupRaise
                = Ok (map Some ints)) /\
  (~ distinct_edges xs ->
   Pandas.qcut (map Some xs) 4 labels Pandas.DupRaise = Raise ValueError).
Proof.
  intros Hlab. unfold Pandas.qcut.
  rewrite (dropna_map_Some (fun x => x)), map_id.
  split.
  - intros Hd. pose proof (distinct_edges_nonempty Hd) as Hne.
    destruct xs as [|x0 xs0] eqn:Exs; [congruence|]. rewrite <- Exs in *.
    unfold Pandas.bins_to_cuts. unfold distinct_edges in Hd.
    rewrite Hd, quantile_edges_length. cbn [Nat.ltb Nat.leb andb bind].
    rewrite quantile_edges_length, Hlab. cbn [Nat.eqb negb].
    exists (map (fun a => nth (Pandas.bin_id (Pandas.quantile_edges xs 4) true (Some a) - 1)
                              labels 0%Z) xs).
    f_equal. rewrite !map_map. apply map_ext_in. intros a Ha.
    pose proof (bin_id_quartile xs a Ha) as Hi.
    set (i := Pandas.bin_id (Pandas.quantile_edges xs 4) true (Some a)) in *.
    clearbody i.
    destruct labels as [|l1 [|l2 [|l3 [|l4 [|l5 rest]]]]]; try discriminate Hlab.
    cbn [In] in Hi. destruct Hi as [<- | [<- | [<- | [<- | []]]]]; reflexivity.
  - intros Hd.
    destruct xs as [|x0 xs0] eqn:Exs; [reflexivity|]. rewrite <- Exs in *.
    unfold Pandas.bins_to_cuts. unfold distinct_edges in Hd.
    pose proof (unique_length_le (Pandas.quantile_edges xs 4)) as Hle.
    rewrite quantile_edges_length in *.
    assert (E : (List.length (Pandas.unique (Pandas.quantile_edges xs 4)) <? 5)%nat = true)
      by (apply Nat.ltb_lt; lia).
    rewrite E. reflexivity.
Qed.

(** The populations that [score_rfm] scores are exactly those whose
    Recency values, Frequency ranks and Monetary values each have five
    distinct quartile edges; all others end in [ValueError]. *)
Theorem score_rfm_scored_iff (population : list SourceData.rfm_row) :
  ((exists scored, SourceData.score_rfm population = Ok scored) <->
   distinct_edges (map SourceData.Recency population) /\
   distinct_edges (Pandas.rank_first (map SourceData.Frequency population)) /\
   distinct_edges (map SourceData.Monetary population)) /\
  ((exists scored, SourceData.score_rfm population = Ok scored) \/
   SourceData.score_rfm population = Raise ValueError).
Proof.
  unfold SourceData.score_rfm.
  rewrite <- (map_map SourceData.Recency Some population),
          <- (map_map SourceData.Monetary Some population).
  destruct (@qcut_quartiles (map SourceData.Recency population) [4; 3; 2; 1]%Z eq_refl)
    as [Rok Rbad].
  destruct (@qcut_quartiles (Pandas.rank_first (map SourceData.Frequency population))
              [1; 2; 3; 4]%Z eq_refl) as [Fok Fbad].
  destruct (@qcut_quartiles (map SourceData.Monetary population) [1; 2; 3; 4]%Z eq_refl)
    as [Mok Mbad].
  assert (Dec : forall xs, distinct_edges xs \/ ~ distinct_edges xs).
  { intros xs. unfold distinct_edges.
    destruct (Nat.eq_dec (List.length (Pandas.unique (Pandas.quantile_edges xs 4))) 5);
      auto. }
  destruct (Dec (map SourceData.Recency population)) as [DR | DR].
  2:{ rewrite (Rbad DR). cbn [bind]. split; [|now right].
      split; [intros [s Hs]; discriminate | intros [C _]; contradiction]. }
  destruct (Rok DR) as [ri ->]. cbn [bind].
  destruct (Dec (Pandas.rank_first (map SourceData.Frequency population))) as [DF | DF].
  2:{ rewrite (Fbad DF). cbn [bind]. split; [|now right].
      split; [intros [s Hs]; discriminate | intros [_ [C _]]; contradiction]. }
  destruct (Fok DF) as [fi ->]. cbn [bind].
  destruct (Dec (map SourceData.Monetary population)) as [DM | DM].
  2:{ rewrite (Mbad DM). cbn [bind]. split; [|now right].
      split; [intros [s Hs]; discriminate | intros [_ [_ C]]; contradiction]. }
  destruct (Mok DM) as [mi ->]. cbn [bind].
  rewrite !mapM_astype_int_Some. cbn [bind].
  split; [|left; eauto]. split; [auto | eauto].
Qed.

(* ================================================================== *)
(** * Order properties of the RFM scores *)
(* ================================================================== *)

Unset Implicit Arguments.

Lemma bin_id_quartile_eq (xs : list Q) (a : Q) :
  In a xs ->
  Pandas.bin_id (Pandas.quantile_edges xs 4) true (Some a)
  = if Qeq_bool a (Pandas.quantile xs 0 4) then 1%nat
    else Pandas.searchsorted_left (Pandas.quantile_edges xs 4) a.
Proof.
  intros Ha. pose proof (bin_id_quartile xs a Ha) as Hin.
  unfold Pandas.bin_id in *. unfold Pandas.quantile_edges in *.
  cbn [seq map andb] in *.
  set (raw := if Qeq_bool a (Pandas.quantile xs 0 4) then 1%nat else _) in *.
  destruct (_ || _); [|reflexivity].
  cbn in Hin. intuition discriminate.
Qed.

Lemma searchsorted_left_mono (bins : list Q) (a b : Q) :
  a <= b ->
  (Pandas.searchsorted_left bins a <= Pandas.searchsorted_left bins b)%nat.
Proof.
  intros Hab. unfold Pandas.searchsorted_left.
  induction bins as [|e bins IH]; [apply Nat.le_refl|].
  cbn [filter]. destruct (Pandas.Qlt_bool e a) eqn:Ea.
  - apply Qlt_bool_iff in Ea.
    assert (Eb : Pandas.Qlt_bool e b = true) by (apply Qlt_bool_iff; lra).
    rewrite Eb. cbn [List.length]. lia.
  - destruct (Pandas.Qlt_bool e b); cbn [List.length]; lia.
Qed.

(** The bin of a value grows with the value. *)
Lemma bin_id_quartile_mono (xs : list Q) (a b : Q) :
  In a xs -> In b xs -> a <= b ->
  (Pandas.bin_id (Pandas.quantile_edges xs 4) true (Some a)
   <= Pandas.bin_id (Pandas.quantile_edges xs 4) true (Some b))%nat.
Proof.
  intros Ha Hb Hab.
  pose proof (bin_id_quartile xs b Hb) as Hbin.
  rewrite (bin_id_quartile_eq xs a Ha).
  destruct (Qeq_bool a (Pandas.quantile xs 0 4)) eqn:Ea.
  - set (j := Pandas.bin_id _ _ (Some b)) in *. clearbody j.
    cbn [In] in Hbin. lia.
  - rewrite (bin_id_quartile_eq xs b Hb).
    destruct (Qeq_bool b (Pandas.quantile xs 0 4)) eqn:Eb.
    + exfalso. apply Qeq_bool_neq in Ea. apply Qeq_bool_iff in Eb.
      pose proof (@quantile_lowest xs a 4 Ha) as Hlow. apply Ea.
      apply Qle_antisym; [now rewrite <- Eb | exact Hlow].
    + now apply searchsorted_left_mono.
Qed.

Lemma quartile_score_ascending (xs : list Q) (a b : Q) :
  In a xs -> In b xs -> a <= b ->
  (quartile_score [1; 2; 3; 4]%Z xs a <= quartile_score [1; 2; 3; 4]%Z xs b)%Z.
Proof.
  intros Ha Hb Hab. unfold quartile_score.
  pose proof (bin_id_quartile_mono xs a b Ha Hb Hab) as Hm.
  pose proof (bin_id_quartile xs a Ha) as Ia.
  pose proof (bin_id_quartile xs b Hb) as Ib.
  set (i := Pandas.bin_id _ _ (Some a)) in *.
  set (j := Pandas.bin_id _ _ (Some b)) in *.
  clearbody i j. cbn [In] in Ia, Ib.
  destruct Ia as [<- | [<- | [<- | [<- | []]]]];
    destruct Ib as [<- | [<- | [<- | [<- | []]]]]; cbn; lia.
Qed.

Lemma quartile_score_descending (xs : list Q) (a b : Q) :
  In a xs -> In b xs -> a <= b ->
  (quartile_score [4; 3; 2; 1]%Z xs b <= quartile_score [4; 3; 2; 1]%Z xs a)%Z.
Proof.
  intros Ha Hb Hab. unfold quartile_score.
  pose proof (bin_id_quartile_mono xs a b Ha Hb Hab) as Hm.
  pose proof (bin_id_quartile xs a Ha) as Ia.
  pose proof (bin_id_quartile xs b Hb) as Ib.
  set (i := Pandas.bin_id _ _ (Some a)) in *.
  set (j := Pandas.bin_id _ _ (Some b)) in *.
  clearbody i j. cbn [In] in Ia, Ib.
  destruct Ia as [<- | [<- | [<- | [<- | []]]]];
    destruct Ib as [<- | [<- | [<- | [<- | []]]]]; cbn; lia.
Qed.

(** The cells of a successful quartile cut, spelled out. *)
Lemma qcut_quartiles_cells (xs : list Q) (labels : list Z) :
  List.length labels = 4%nat ->
  distinct_edges xs ->
  Pandas.qcut (map Some xs) 4 labels Pandas.DupRaise
  = Ok (map Some (map (quartile_score labels xs) xs)).
Proof.
  intros Hlab Hd. unfold Pandas.qcut.
  rewrite (dropna_map_Some (fun x => x)), map_id.
  pose proof (distinct_edges_nonempty Hd) as Hne.
  destruct xs as [|x0 xs0] eqn:Exs; [congruence|]. rewrite <- Exs in *.
  unfold Pandas.bins_to_cuts. unfold distinct_edges in Hd.
  rewrite Hd, quantile_edges_length. cbn [Nat.ltb Nat.leb andb bind].
  rewrite quantile_edges_length, Hlab. cbn [Nat.eqb negb].
  f_equal. rewrite !map_map. apply map_ext_in. intros a Ha.
  unfold quartile_score.
  pose proof (bin_id_quartile xs a Ha) as Hi.
  set (i := Pandas.bin_id (Pandas.quantile_edges xs 4) true (Some a)) in *.
  clearbody i.
  destruct labels as [|l1 [|l2 [|l3 [|l4 [|l5 rest]]]]]; try discriminate Hlab.
  cbn [In] in Hi. destruct Hi as [<- | [<- | [<- | [<- | []]]]]; reflexivity.
Qed.

Lemma combine_columns {A B C D : Type} (f : A -> B) (h : A -> D)
    (l : list A) (g : list C) :
  combine (combine (combine l (map f l)) g) (map h l)
  = map (fun p => (fst p, f (fst p), snd p, h (fst p))) (combine l g).
Proof.
  revert g; induction l as [|a l IH]; intros [|c g]; try reflexivity.
  cbn. f_equal. apply IH.
Qed.

(** Every scored row carries the customer's own Recency and Monetary
    quartile labels. *)
Lemma score_rfm_rows (population : list SourceData.rfm_row)
    (scored : list SourceData.scored_row) (s : SourceData.scored_row) :
  SourceData.score_rfm population = Ok scored ->
  In s scored ->
  In (SourceData.rfm s) population /\
  SourceData.R_Score s
  = quartile_score [4; 3; 2; 1]%Z (map SourceData.Recency population)
      (SourceData.Recency (SourceData.rfm s)) /\
  SourceData.M_Score s
  = quartile_score [1; 2; 3; 4]%Z (map SourceData.Monetary population)
      (SourceData.Monetary (SourceData.rfm s)).
Proof.
  intros H Hs.
  destruct (proj1 (proj1 (score_rfm_scored_iff population)) (ex_intro _ scored H))
    as [DR [DF DM]].
  unfold SourceData.score_rfm in H.
  rewrite <- (map_map SourceData.Recency Some population),
          <- (map_map SourceData.Monetary Some population) in H.
  rewrite (qcut_quartiles_cells _ [4; 3; 2; 1]%Z eq_refl DR) in H.
  rewrite (qcut_quartiles_cells _ [1; 2; 3; 4]%Z eq_refl DF) in H.
  rewrite (qcut_quartiles_cells _ [1; 2; 3; 4]%Z eq_refl DM) in H.
  cbn [bind] in H. rewrite !mapM_astype_int_Some in H. cbn [bind] in H.
  injection H as <-.
  rewrite !(map_map _ (quartile_score _ _)) in Hs.
  rewrite combine_columns in Hs. rewrite map_map in Hs.
  apply in_map_iff in Hs. destruct Hs as [[c z] [<- Hin]].
  apply in_combine_l in Hin. cbn. auto.
Qed.

(** X1.  The quartile scores follow the values.  In a scored population,
    a customer whose Recency is not larger than another's has an R_Score
    that is not smaller, and a customer whose Monetary is not larger
    than another's has an M_Score that is not larger. *)
Theorem X1_rfm_scores_follow_values (population : list SourceData.rfm_row)
    (scored : list SourceData.scored_row) (a b : SourceData.scored_row) :
  SourceData.score_rfm population = Ok scored ->
  In a scored -> In b scored ->
  (SourceData.Recency (SourceData.rfm a) <= SourceData.Recency (SourceData.rfm b) ->
   (SourceData.R_Score b <= SourceData.R_Score a)%Z) /\
  (SourceData.Monetary (SourceData.rfm a) <= SourceData.Monetary (SourceData.rfm b) ->
   (SourceData.M_Score a <= SourceData.M_Score b)%Z).
Proof.
  intros H Ha Hb.
  destruct (score_rfm_rows _ _ _ H Ha) as [Ia [Ra Ma]].
  destruct (score_rfm_rows _ _ _ H Hb) as [Ib [Rb Mb]].
  rewrite Ra, Rb, Ma, Mb. split; intros Hle.
  - apply quartile_score_descending; try assumption; now apply in_map.
  - apply quartile_score_ascending; try assumption; now apply in_map.
Qed.

Lemma X1_rfm_scores_follow_values_witness :
  (SourceData.Recency (SourceData.rfm best_scored)
   <= SourceData.Recency (SourceData.rfm worst_scored) ->
   (SourceData.R_Score worst_scored <= SourceData.R_Score best_scored)%Z) /\
  (SourceData.Monetary (SourceData.rfm best_scored)
   <= SourceData.Monetary (SourceData.rfm worst_scored) ->
   (SourceData.M_Score best_scored <= SourceData.M_Score worst_scored)%Z).
Proof.
  apply (X1_rfm_scores_follow_values three_customers three_customers_scored).
  - reflexivity.
  - cbn. auto.
  - cbn. auto.
Defined.

(** ** The extreme customers *)

Lemma quantile_zero (xs : list Q) (m : nat) :
  Pandas.quantile xs 0 m == nth 0 (Pandas.sort_asc xs) 0.
Proof.
  unfold Pandas.quantile. cbv zeta.
  rewrite Nat.mul_0_r, Nat.Div0.div_0_l, Nat.Div0.mod_0_l.
  cbn [Z.of_nat]. unfold Qdiv. change (inject_Z 0) with 0. ring.
Qed.

Lemma quantile_last (xs : list Q) (m : nat) :
  m <> 0%nat ->
  Pandas.quantile xs m m == nth (List.length xs - 1) (Pandas.sort_asc xs) 0.
Proof.
  intros Hm. unfold Pandas.quantile. cbv zeta.
  rewrite (Nat.div_mul _ _ Hm), Nat.Div0.mod_mul.
  cbn [Z.of_nat]. unfold Qdiv. change (inject_Z 0) with 0. ring.
Qed.

Lemma ascending_nth_le (l : list Q) (d : Q) :
  ascending l ->
  forall i j, (i <= j < List.length l)%nat -> nth i l d <= nth j l d.
Proof.
  induction l as [|x l IH]; intros Hl i j Hij; [cbn in Hij; lia|].
  destruct Hl as [Hx Hl]. destruct i as [|i], j as [|j]; cbn [nth].
  - apply Qle_refl.
  - apply Hx. apply nth_In. cbn in Hij. lia.
  - lia.
  - apply IH; [assumption | cbn in Hij; lia].
Qed.

(** No quartile edge lies above the greatest value. *)
Lemma quantile_le_greatest (xs : list Q) (k m : nat) (top : Q) :
  xs <> [] -> m <> 0%nat -> (k <= m)%nat ->
  (forall x, In x xs -> x <= top) ->
  Pandas.quantile xs k m <= top.
Proof.
  intros Hne Hm0 Hk Htop. unfold Pandas.quantile. cbv zeta.
  set (s := Pandas.sort_asc xs).
  set (h := ((List.length xs - 1) * k)%nat).
  set (j := (h / m)%nat).
  assert (Hlen : List.length s = List.length xs) by apply sort_asc_length.
  assert (Hpos : (0 < List.length xs)%nat) by (destruct xs; [congruence | cbn; lia]).
  assert (Hj : (j < List.length s)%nat).
  { rewrite Hlen. apply Nat.le_lt_trans with (List.length xs - 1)%nat; [|lia].
    apply Nat.Div0.div_le_upper_bound. unfold h. nia. }
  assert (Hs : forall x, In x s -> x <= top).
  { intros x Hx. apply Htop. now apply sort_asc_In. }
  assert (Hlo : nth j s 0 <= top) by (apply Hs, nth_In, Hj).
  assert (Hhi : nth (S j) s (nth j s 0) <= top).
  { destruct (nth_in_or_default (S j) s (nth j s 0)) as [Hin | ->]; auto. }
  assert (Hord : nth j s 0 <= nth (S j) s (nth j s 0)).
  { destruct (Nat.lt_ge_cases (S j) (List.length s)) as [Hlt | Hge].
    - rewrite (nth_indep s (nth j s 0) 0 Hlt).
      apply ascending_nth_le; [apply sort_asc_ascending | lia].
    - rewrite (nth_overflow s (nth j s 0) Hge). apply Qle_refl. }
  set (lo := nth j s 0) in *. set (hi := nth (S j) s lo) in *.
  set (g := inject_Z (Z.of_nat (h mod m)) / inject_Z (Z.of_nat m)).
  assert (Hg : 0 <= g /\ g <= 1).
  { unfold g. destruct m as [|m'].
    - congruence.
    - assert (Hmod : (h mod S m' < S m')%nat) by (apply Nat.mod_upper_bound; lia).
      set (r := (h mod S m')%nat) in *.
      assert (Hden : 0 < inject_Z (Z.of_nat (S m'))).
      { unfold Qlt, inject_Z. cbn [Qnum Qden]. lia. }
      split.
      + apply Qle_shift_div_l; [assumption|]. rewrite Qmult_0_l.
        unfold Qle, inject_Z. cbn [Qnum Qden]. lia.
      + apply Qle_shift_div_r; [assumption|]. rewrite Qmult_1_l.
        unfold Qle, inject_Z. cbn [Qnum Qden]. lia. }
  destruct Hg as [Hg0 Hg1].
  assert (Hmul : (hi - lo) * g <= hi - lo).
  { rewrite <- (Qmult_1_r (hi - lo)) at 2.
    rewrite (Qmult_comm (hi - lo) g), (Qmult_comm (hi - lo) 1).
    apply Qmult_le_compat_r; [assumption | lra]. }
  lra.
Qed.

Lemma filter_length_all {A : Type} (f : A -> bool) (l : list A) :
  List.length (filter f l) = List.length l -> forall x, In x l -> f x = true.
Proof.
  induction l as [|a l IH]; intros Hlen x Hx; [destruct Hx|].
  cbn [filter] in Hlen. pose proof (filter_length_le f l) as Hle.
  destruct (f a) eqn:Fa; cbn [List.length] in Hlen; [|lia].
  destruct Hx as [<- | Hx]; [assumption|]. apply IH; [lia | assumption].
Qed.

(** Edges that survive [unique] unchanged in number are pairwise
    different. *)
Lemma unique_full_distinct (l : list Q) :
  List.length (Pandas.unique l) = List.length l ->
  Pandas.unique l = l /\ ForallOrdPairs (fun x y => ~ x == y) l.
Proof.
  induction l as [|x l IH]; intros Hlen; [split; [reflexivity | constructor]|].
  cbn [Pandas.unique List.length] in Hlen.
  pose proof (filter_length_le (fun y => negb (Qeq_bool x y)) (Pandas.unique l)) as H1.
  pose proof (unique_length_le l) as H2.
  assert (Hu : List.length (Pandas.unique l) = List.length l) by lia.
  destruct (IH Hu) as [Eu Hpairs].
  assert (Hf : List.length (filter (fun y => negb (Qeq_bool x y)) (Pandas.unique l))
               = List.length (Pandas.unique l)) by lia.
  pose proof (filter_length_all _ _ Hf) as Hall. rewrite Eu in Hall.
  split.
  - cbn [Pandas.unique]. rewrite Eu. f_equal. now apply filter_all.
  - constructor; [|assumption].
    apply Forall_forall. intros y Hy Hxy.
    specialize (Hall y Hy). cbn beta in Hall.
    rewrite (Qeq_eq_bool _ _ Hxy) in Hall. discriminate.
Qed.

(** The least value of a column falls into the first bin, the greatest
    into the fourth. *)
Lemma bin_id_least (xs : list Q) (a : Q) :
  In a xs -> (forall x, In x xs -> a <= x) ->
  Pandas.bin_id (Pandas.quantile_edges xs 4) true (Some a) = 1%nat.
Proof.
  intros Ha Hmin. rewrite (bin_id_quartile_eq xs a Ha).
  assert (E : a == Pandas.quantile xs 0 4).
  { apply Qle_antisym; [|apply quantile_lowest; assumption].
    rewrite quantile_zero. apply Hmin. apply sort_asc_In, nth_In.
    rewrite sort_asc_length. destruct xs; [destruct Ha | cbn; lia]. }
  now rewrite (Qeq_eq_bool _ _ E).
Qed.

Lemma bin_id_greatest (xs : list Q) (b : Q) :
  distinct_edges xs ->
  In b xs -> (forall x, In x xs -> x <= b) ->
  Pandas.bin_id (Pandas.quantile_edges xs 4) true (Some b) = 4%nat.
Proof.
  intros Hd Hb Hmax.
  assert (Hne : xs <> []) by (intros ->; destruct Hb).
  rewrite (bin_id_quartile_eq xs b Hb).
  unfold distinct_edges in Hd.
  assert (Hlen : List.length (Pandas.unique (Pandas.quantile_edges xs 4))
                 = List.length (Pandas.quantile_edges xs 4))
    by (rewrite quantile_edges_length; exact Hd).
  destruct (unique_full_distinct _ Hlen) as [_ Hpairs].
  unfold Pandas.quantile_edges in *. cbn [seq map] in *.
  set (e0 := Pandas.quantile xs 0 4) in *.
  set (e1 := Pandas.quantile xs 1 4) in *.
  set (e2 := Pandas.quantile xs 2 4) in *.
  set (e3 := Pandas.quantile xs 3 4) in *.
  set (e4 := Pandas.quantile xs 4 4) in *.
  assert (E4 : e4 == b).
  { apply Qle_antisym; [|apply (@quantile_highest xs b 4); [discriminate | assumption]].
    unfold e4. apply quantile_le_greatest; [assumption | discriminate | lia | assumption]. }
  assert (H0 : e0 <= b) by (apply quantile_le_greatest; [assumption | discriminate | lia | assumption]).
  assert (H1 : e1 <= b) by (apply quantile_le_greatest; [assumption | discriminate | lia | assumption]).
  assert (H2 : e2 <= b) by (apply quantile_le_greatest; [assumption | discriminate | lia | assumption]).
  assert (H3 : e3 <= b) by (apply quantile_le_greatest; [assumption | discriminate | lia | assumption]).
  inversion Hpairs as [|? ? F0 P0]; subst.
  inversion P0 as [|? ? F1 P1]; subst.
  inversion P1 as [|? ? F2 P2]; subst.
  inversion P2 as [|? ? F3 P3]; subst.
  rewrite Forall_forall in F0, F1, F2, F3.
  assert (N0 : ~ e0 == e4) by (apply F0; cbn; auto).
  assert (N1 : ~ e1 == e4) by (apply F1; cbn; auto).
  assert (N2 : ~ e2 == e4) by (apply F2; cbn; auto).
  assert (N3 : ~ e3 == e4) by (apply F3; cbn; auto).
  assert (L0 : e0 < b) by (apply Qle_lteq in H0; destruct H0 as [?|E]; [assumption | exfalso; apply N0; now rewrite E4]).
  assert (L1 : e1 < b) by (apply Qle_lteq in H1; destruct H1 as [?|E]; [assumption | exfalso; apply N1; now rewrite E4]).
  assert (L2 : e2 < b) by (apply Qle_lteq in H2; destruct H2 as [?|E]; [assumption | exfalso; apply N2; now rewrite E4]).
  assert (L3 : e3 < b) by (apply Qle_lteq in H3; destruct H3 as [?|E]; [assumption | exfalso; apply N3; now rewrite E4]).
  assert (Q0 : Qeq_bool b e0 = false).
  { destruct (Qeq_bool b e0) eqn:E; [|reflexivity].
    apply Qeq_bool_iff in E. lra. }
  rewrite Q0. unfold Pandas.searchsorted_left. cbn [filter].
  rewrite (proj2 (Qlt_bool_iff e0 b) L0), (proj2 (Qlt_bool_iff e1 b) L1),
          (proj2 (Qlt_bool_iff e2 b) L2), (proj2 (Qlt_bool_iff e3 b) L3).
  destruct (Pandas.Qlt_bool e4 b) eqn:E; [|reflexivity].
  apply Qlt_bool_iff in E. lra.
Qed.

(** X2.  The extreme customers of a scored population get the extreme
    scores: the customer with the least Recency has R_Score 4 and the
    one with the greatest Recency has R_Score 1; the customer with the
    least Monetary has M_Score 1 and the one with the greatest Monetary
    has M_Score 4. *)
Theorem X2_rfm_extreme_customers (population : list SourceData.rfm_row)
    (scored : list SourceData.scored_row) (s : SourceData.scored_row) :
  SourceData.score_rfm population = Ok scored ->
  In s scored ->
  ((forall c, In c population ->
      SourceData.Recency (SourceData.rfm s) <= SourceData.Recency c) ->
   SourceData.R_Score s = 4%Z) /\
  ((forall c, In c population ->
      SourceData.Recency c <= SourceData.Recency (SourceData.rfm s)) ->
   SourceData.R_Score s = 1%Z) /\
  ((forall c, In c population ->
      SourceData.Monetary (SourceData.rfm s) <= SourceData.Monetary c) ->
   SourceData.M_Score s = 1%Z) /\
  ((forall c, In c population ->
      SourceData.Monetary c <= SourceData.Monetary (SourceData.rfm s)) ->
   SourceData.M_Score s = 4%Z).
Proof.
  intros H Hs.
  destruct (proj1 (proj1 (score_rfm_scored_iff population)) (ex_intro _ scored H))
    as [DR [_ DM]].
  destruct (score_rfm_rows _ _ _ H Hs) as [Hin [-> ->]].
  unfold quartile_score.
  assert (Col : forall (f : SourceData.rfm_row -> Q) (P : Q -> Prop),
            (forall c, In c population -> P (f c)) ->
            forall x, In x (map f population) -> P x).
  { intros f P HP x Hx. apply in_map_iff in Hx.
    destruct Hx as [c [<- Hc]]. now apply HP. }
  repeat split; intros Hext.
  - rewrite bin_id_least; [reflexivity | now apply in_map |].
    apply (Col SourceData.Recency (fun x => _ <= x)), Hext.
  - rewrite bin_id_greatest; [reflexivity | assumption | now apply in_map |].
    apply (Col SourceData.Recency (fun x => x <= _)), Hext.
  - rewrite bin_id_least; [reflexivity | now apply in_map |].
    apply (Col SourceData.Monetary (fun x => _ <= x)), Hext.
  - rewrite bin_id_greatest; [reflexivity | assumption | now apply in_map |].
    apply (Col SourceData.Monetary (fun x => x <= _)), Hext.
Qed.

Lemma X2_rfm_extreme_customers_witness :
  SourceData.R_Score best_scored = 4%Z /\ SourceData.M_Score worst_scored = 1%Z.
Proof.
  split.
  - apply (X2_rfm_extreme_customers three_customers three_customers_scored best_scored).
    + reflexivity.
    + cbn. auto.
    + intros c Hc. cbn in Hc.
      destruct Hc as [<- | [<- | [<- | []]]]; cbn; discriminate.
  - apply (X2_rfm_extreme_customers three_customers three_customers_scored worst_scored).
    + reflexivity.
    + cbn. auto.
    + intros c Hc. cbn in Hc.
      destruct Hc as [<- | [<- | [<- | []]]]; cbn; discriminate.
Defined.

(* ================================================================== *)
(** * The paged list of results *)
(* ================================================================== *)

Lemma total_pages_bounds (total page_size : Z) :
  (0 < page_size)%Z -> (0 < total)%Z ->
  let tp := Paging.total_pages total page_size in
  (1 <= tp)%Z /\ ((tp - 1) * page_size < total)%Z /\ (total <= tp * page_size)%Z.
Proof.
  intros Hps Ht tp. unfold tp, Paging.total_pages.
  set (q := ((total + page_size - 1) / page_size)%Z).
  assert (Hq1 : (page_size * q <= total + page_size - 1)%Z)
    by (apply Z.mul_div_le; lia).
  assert (Hq2 : (total + page_size - 1 < page_size * (q + 1))%Z).
  { unfold q. pose proof (Z.mul_succ_div_gt (total + page_size - 1) page_size Hps).
    lia. }
  assert (Hq : (1 <= q)%Z) by nia.
  rewrite Z.max_r by lia. nia.
Qed.

Lemma iloc_slice_inside {A : Type} (l : list A) (start stop : Z) :
  (0 <= start <= stop)%Z -> (stop <= Z.of_nat (List.length l))%Z ->
  Paging.iloc_slice l start stop
  = firstn (Z.to_nat (stop - start)) (skipn (Z.to_nat start) l).
Proof.
  intros H1 H2. unfold Paging.iloc_slice, Paging.slice_bound. cbv zeta.
  assert (E1 : (start <? 0)%Z = false) by (apply Z.ltb_ge; lia).
  assert (E2 : (stop <? 0)%Z = false) by (apply Z.ltb_ge; lia).
  rewrite E1, E2, !Z.min_l by lia. reflexivity.
Qed.

(** X3.  The page that is shown.  For a non-empty result list, a
    positive page size and a stored page number of at least 1 (or none),
    the page shown is not empty, has at most [page_size] rows, is the
    stretch of the sorted list from position [start_idx + 1] to
    [end_idx], and the caption "Showing start+1 - end of total" names
    positions inside the list. *)
Theorem X3_page_shown {A : Type} (l : list A) (page_size : Z)
    (page_number : option Z) (c : Paging.click) :
  l <> [] -> (0 < page_size)%Z ->
  (forall p, page_number = Some p -> 1 <= p)%Z ->
  let v := Paging.results_column l page_size page_number c in
  let total := Z.of_nat (List.length l) in
  Paging.current_page v <> [] /\
  (Z.of_nat (List.length (Paging.current_page v)) <= page_size)%Z /\
  (1 <= Paging.start_idx v + 1 <= Paging.end_idx v)%Z /\
  (Paging.end_idx v <= total)%Z /\
  Z.of_nat (List.length (Paging.current_page v))
  = (Paging.end_idx v - Paging.start_idx v)%Z /\
  exists before after,
    l = before ++ Paging.current_page v ++ after /\
    Z.of_nat (List.length before) = Paging.start_idx v.
Proof.
  intros Hne Hps Hpn v total.
  assert (Htot : (0 < total)%Z) by (unfold total; destruct l; [congruence | cbn; lia]).
  pose proof (total_pages_bounds total page_size Hps Htot) as [Htp1 [Htp2 Htp3]].
  cbv zeta in Htp1, Htp2, Htp3.
  unfold v, Paging.results_column. cbv zeta. cbn [Paging.current_page
    Paging.start_idx Paging.end_idx]. fold total.
  set (tp := Paging.total_pages total page_size) in *.
  set (stored := match page_number with Some p => p | None => 1%Z end).
  assert (Hst : (1 <= stored)%Z).
  { unfold stored. destruct page_number as [p|]; [now apply Hpn | lia]. }
  set (pn := Paging.clamp_page stored tp).
  assert (Hpn' : (1 <= pn <= tp)%Z).
  { unfold pn, Paging.clamp_page. destruct (Z.gtb_spec stored tp); lia. }
  set (start := ((pn - 1) * page_size)%Z).
  set (stop := Z.min (start + page_size) total).
  assert (Hs : (0 <= start < total)%Z) by (unfold start; nia).
  assert (Hstop : (start < stop <= total)%Z /\ (stop - start <= page_size)%Z)
    by (unfold stop; lia).
  rewrite iloc_slice_inside by (unfold total in *; lia).
  set (page := firstn (Z.to_nat (stop - start)) (skipn (Z.to_nat start) l)).
  assert (Hlen : List.length page = Z.to_nat (stop - start)).
  { unfold page. rewrite length_firstn, length_skipn. unfold total in *. lia. }
  repeat split; try lia.
  - intros E. rewrite E in Hlen. cbn in Hlen. lia.
  - exists (firstn (Z.to_nat start) l),
           (skipn (Z.to_nat (stop - start)) (skipn (Z.to_nat start) l)).
    split.
    + unfold page. now rewrite firstn_skipn, firstn_skipn.
    + rewrite length_firstn. unfold total in *. lia.
Qed.

Lemma X3_page_shown_witness :
  let v := Paging.results_column [1; 2; 3; 4; 5; 6; 7]%nat 3 (Some 9%Z) Paging.NoClick in
  let total := Z.of_nat (List.length [1; 2; 3; 4; 5; 6; 7]%nat) in
  Paging.current_page v <> [] /\
  (Z.of_nat (List.length (Paging.current_page v)) <= 3)%Z /\
  (1 <= Paging.start_idx v + 1 <= Paging.end_idx v)%Z /\
  (Paging.end_idx v <= total)%Z /\
  Z.of_nat (List.length (Paging.current_page v))
  = (Paging.end_idx v - Paging.start_idx v)%Z /\
  exists before after,
    [1; 2; 3; 4; 5; 6; 7]%nat = before ++ Paging.current_page v ++ after /\
    Z.of_nat (List.length before) = Paging.start_idx v.
Proof.
  apply (X3_page_shown [1; 2; 3; 4; 5; 6; 7]%nat 3 (Some 9%Z) Paging.NoClick).
  - discriminate.
  - lia.
  - intros p [= <-]. lia.
Defined.

(** X4.  The page number stays valid.  When the stored page number is at
    least 1 (or absent), the page shown and the page number stored at
    the end of the run, whatever button was clicked, lie between 1 and
    the number of pages. *)
Theorem X4_page_number_valid {A : Type} (l : list A) (page_size : Z)
    (page_number : option Z) (c : Paging.click) :
  (forall p, page_number = Some p -> 1 <= p)%Z ->
  let v := Paging.results_column l page_size page_number c in
  (1 <= Paging.page_shown v <= Paging.pages v)%Z /\
  (1 <= Paging.page_stored v <= Paging.pages v)%Z.
Proof.
  intros Hpn v. unfold v, Paging.results_column. cbv zeta.
  cbn [Paging.page_shown Paging.page_stored Paging.pages].
  set (tp := Paging.total_pages _ page_size).
  assert (Htp : (1 <= tp)%Z) by (unfold tp, Paging.total_pages; lia).
  set (stored := match page_number with Some p => p | None => 1%Z end).
  assert (Hst : (1 <= stored)%Z).
  { unfold stored. destruct page_number as [p|]; [now apply Hpn | lia]. }
  set (pn := Paging.clamp_page stored tp).
  assert (Hpn' : (1 <= pn <= tp)%Z).
  { unfold pn, Paging.clamp_page. destruct (Z.gtb_spec stored tp); lia. }
  split; [assumption|].
  destruct c; [assumption | |].
  - destruct (Z.eqb_spec pn 1); lia.
  - destruct (Z.eqb_spec pn tp); lia.
Qed.

Lemma X4_page_number_valid_witness :
  let v := Paging.results_column [1; 2; 3; 4; 5; 6; 7]%nat 3 (Some 3%Z) Paging.NextPage in
  (1 <= Paging.page_shown v <= Paging.pages v)%Z /\
  (1 <= Paging.page_stored v <= Paging.pages v)%Z.
Proof.
  apply (X4_page_number_valid [1; 2; 3; 4; 5; 6; 7]%nat 3 (Some 3%Z) Paging.NextPage).
  intros p [= <-]. lia.
Defined.

Lemma chunks_cover {A : Type} (size : nat) (k : nat) (l : list A) :
  (List.length l <= k * size)%nat ->
  List.concat (map (fun i => firstn size (skipn (i * size) l)) (seq 0 k)) = l.
Proof.
  revert l; induction k as [|k IH]; intros l Hlen.
  - destruct l; [reflexivity | cbn in Hlen; lia].
  - cbn [seq map List.concat]. rewrite <- seq_shift, map_map.
    assert (E : map (fun i => firstn size (skipn (S i * size) l)) (seq 0 k)
                = map (fun i => firstn size (skipn (i * size) (skipn size l)))
                      (seq 0 k)).
    { apply map_ext. intros i. rewrite skipn_skipn. do 2 f_equal. lia. }
    rewrite E, IH.
    + cbn [Nat.mul skipn]. apply firstn_skipn.
    + rewrite length_skipn. cbn in Hlen. lia.
Qed.

Lemma page_of_chunk {A : Type} (l : list A) (page_size : Z) (i : nat) :
  (0 < page_size)%Z ->
  (Z.of_nat i < Paging.total_pages (Z.of_nat (List.length l)) page_size)%Z ->
  page_of l page_size (Z.of_nat (S i))
  = firstn (Z.to_nat page_size) (skipn (i * Z.to_nat page_size) l).
Proof.
  intros Hps Hi. unfold page_of, Paging.results_column. cbv zeta.
  cbn [Paging.current_page].
  set (total := Z.of_nat (List.length l)) in *.
  set (tp := Paging.total_pages total page_size) in *.
  assert (Hc : Paging.clamp_page (Z.of_nat (S i)) tp = Z.of_nat (S i)).
  { unfold Paging.clamp_page. destruct (Z.gtb_spec (Z.of_nat (S i)) tp); lia. }
  rewrite Hc.
  replace ((Z.of_nat (S i) - 1) * page_size)%Z with (Z.of_nat i * page_size)%Z by lia.
  set (start := (Z.of_nat i * page_size)%Z).
  assert (Hstart : (0 <= start <= total)%Z).
  { unfold start. split; [nia|].
    destruct (Z.eq_dec total 0) as [E | E].
    - unfold tp, Paging.total_pages in Hi. rewrite E in Hi.
      assert ((0 + page_size - 1) / page_size = 0)%Z by (apply Z.div_small; lia).
      nia.
    - assert (Ht : (0 < total)%Z) by (unfold total in *; lia).
      pose proof (total_pages_bounds total page_size Hps Ht) as [_ [Hb _]].
      cbv zeta in Hb. fold tp in Hb. nia. }
  rewrite iloc_slice_inside by (fold total; lia).
  replace (Z.to_nat start) with (i * Z.to_nat page_size)%nat by (unfold start; nia).
  set (rest := skipn (i * Z.to_nat page_size) l).
  assert (Hrest : Z.of_nat (List.length rest) = (total - start)%Z).
  { unfold rest. rewrite length_skipn. unfold total, start in *. nia. }
  destruct (Z.le_gt_cases (start + page_size) total) as [Hle | Hgt].
  - rewrite Z.min_l by lia. f_equal. lia.
  - rewrite Z.min_r by lia.
    rewrite !firstn_all2; [reflexivity | lia | lia].
Qed.

(** X5.  The pages cover the list.  For a positive page size, the pages
    1 to [total_pages], one after the other, are exactly the sorted
    list: paging shows every row once and in order. *)
Theorem X5_pages_cover_list {A : Type} (l : list A) (page_size : Z) :
  (0 < page_size)%Z ->
  List.concat (map (page_of l page_size)
              (page_numbers (Paging.total_pages (Z.of_nat (List.length l)) page_size)))
  = l.
Proof.
  intros Hps. unfold page_numbers.
  set (tp := Paging.total_pages (Z.of_nat (List.length l)) page_size).
  assert (Htp : (1 <= tp)%Z) by (unfold tp, Paging.total_pages; lia).
  rewrite <- seq_shift, !map_map.
  transitivity (List.concat (map (fun i => firstn (Z.to_nat page_size)
                                        (skipn (i * Z.to_nat page_size) l))
                            (seq 0 (Z.to_nat tp)))).
  - f_equal. apply map_ext_in. intros i Hi. apply in_seq in Hi.
    apply page_of_chunk; [assumption | fold tp; lia].
  - apply chunks_cover.
    destruct (Nat.eq_dec (List.length l) 0) as [E | E]; [lia|].
    assert (Ht : (0 < Z.of_nat (List.length l))%Z) by lia.
    pose proof (total_pages_bounds _ page_size Hps Ht) as [_ [_ Hb]].
    cbv zeta in Hb. fold tp in Hb. nia.
Qed.

Lemma X5_pages_cover_list_witness :
  List.concat (map (page_of [1; 2; 3; 4; 5; 6; 7]%nat 3)
              (page_numbers (Paging.total_pages
                               (Z.of_nat (List.length [1; 2; 3; 4; 5; 6; 7]%nat)) 3)))
  = [1; 2; 3; 4; 5; 6; 7]%nat.
Proof.
  apply (X5_pages_cover_list [1; 2; 3; 4; 5; 6; 7]%nat 3). lia.
Defined.

(* ================================================================== *)
(** * The predictions page over a session *)
(* ================================================================== *)

Import Py Predicted FilterSection.

(** ** The steps of the filter section: which keys they need and set *)

Lemma on_ok_cases {A B : Type} (P : page_state * result B -> Prop)
    (m : result A) (left_behind : page_state)
    (k : A -> page_state * result B) :
  (forall a, m = Ok a -> P (k a)) ->
  (forall e, m = Raise e -> P (left_behind, Raise e)) ->
  (m = OutsideModel -> P (left_behind, OutsideModel)) ->
  P (on_ok m left_behind k).
Proof.
  intros H1 H2 H3. destruct m as [a|e|]; cbn [on_ok]; auto.
Qed.

Lemma iloc0_outcome (test : row -> bool) (df : table) :
  (exists r, iloc0 test df = Ok r /\ In r (rows df) /\ test r = true) \/
  (iloc0 test df = Raise IndexError /\
   forall r, In r (rows df) -> test r = false).
Proof.
  unfold iloc0. destruct (find test (rows df)) as [r|] eqn:E.
  - left. exists r. apply find_some in E. tauto.
  - right. split; [reflexivity|]. intros r Hr. now apply (find_none _ _ E).
Qed.

Lemma sync_id_from_name_outcome (df : table) (s : session) :
  keys_present df s ->
  (exists s', sync_id_from_name df s = Ok s' /\ keys_present df s' /\
     last_selected_id s' = last_selected_id s /\
     last_selected_name s' = last_selected_name s /\
     filters_applied s' = filters_applied s /\
     f_name (temp s') = f_name (temp s)) \/
  sync_id_from_name df s = Raise IndexError.
Proof.
  intros K. unfold sync_id_from_name.
  destruct (last_selected_name s) as [last|] eqn:El; [|left; exists s; tauto].
  destruct (get_ne (f_name (temp s)) last); [|left; exists s; tauto].
  destruct (get_ne (f_name (temp s)) All); [|left; exists s; tauto].
  destruct K as [K1 K]. rewrite El in K1.
  destruct (f_name (temp s)) as [stored|] eqn:En;
    [|exfalso; apply K1; [discriminate | reflexivity]].
  cbn [subscript bind].
  destruct (iloc0_outcome (fun r => py_eq (name r) stored) df)
    as [[r [-> _]] | [-> _]]; [|now right].
  left. cbn [bind]. eexists. split; [reflexivity|].
  unfold keys_present. cbn. rewrite En, El.
  repeat split; first [discriminate | tauto].
Qed.

Lemma copy_demographics_keys (df : table) (r : row) (t : temp_filters) :
  f_customer_id (copy_demographics df r t) = f_customer_id t /\
  f_name (copy_demographics df r t) = f_name t /\
  f_similarity (copy_demographics df r t) = f_similarity t /\
  (has_state df = false -> f_region (copy_demographics df r t) = f_region t) /\
  (has_city_name df = false -> f_city (copy_demographics df r t) = f_city t).
Proof.
  unfold copy_demographics.
  destruct (has_state df), (has_city_name df); cbn; repeat split; congruence.
Qed.

Lemma customer_id_selected_outcome (df : table) (selected : value) (s : session) :
  keys_present df s ->
  (exists s' b, customer_id_selected df selected s = Ok (s', b) /\
     keys_present df s' /\ f_customer_id (temp s') <> None /\
     filters_applied s' = filters_applied s) \/
  (customer_id_selected df selected s = Raise IndexError /\
   keys_present df (with_temp (set_customer_id selected (temp s)) s)).
Proof.
  intros K. unfold customer_id_selected.
  destruct (get_ne (f_customer_id (temp s)) selected) eqn:Eg.
  - destruct (py_ne selected All).
    + destruct (iloc0_outcome (fun r => py_eq (customer_id r) selected) df)
        as [[r [-> _]] | [-> _]].
      * left. cbn [bind]. do 2 eexists. split; [reflexivity|].
        destruct (copy_demographics_keys df r
                    (set_name (name r) (set_customer_id selected (temp s))))
          as [C1 [C2 [C3 [C4 C5]]]].
        unfold keys_present. cbn [temp last_selected_name filters_applied].
        rewrite C1, C2, C3. cbn [f_customer_id f_name f_similarity set_name
          set_customer_id].
        destruct K as [K1 [K2 [K3 K4]]].
        repeat split; try discriminate; try assumption.
        -- intros H. rewrite (C4 H). now apply K2.
        -- intros H. rewrite (C5 H). now apply K3.
      * right. split; [reflexivity|]. unfold keys_present in *. cbn. tauto.
    + left. do 2 eexists. split; [reflexivity|].
      unfold keys_present in *. cbn. repeat split; try discriminate; tauto.
  - left. exists s, false. split; [reflexivity|]. split; [exact K|].
    split; [|reflexivity]. intros H. rewrite H in Eg. discriminate Eg.
Qed.

Lemma sync_name_from_id_outcome (df : table) (s : session) :
  keys_present df s -> f_customer_id (temp s) <> None ->
  (exists s', sync_name_from_id df s = Ok s' /\ keys_present df s' /\
     f_customer_id (temp s') <> None /\
     filters_applied s' = filters_applied s) \/
  sync_name_from_id df s = Raise IndexError.
Proof.
  intros K Hc. unfold sync_name_from_id.
  destruct (last_selected_id s) as [last|]; [|left; exists s; tauto].
  destruct (get_ne (f_customer_id (temp s)) last); [|left; exists s; tauto].
  destruct (get_ne (f_customer_id (temp s)) All); [|left; exists s; tauto].
  destruct (f_customer_id (temp s)) as [stored|] eqn:Ec; [|congruence].
  cbn [subscript bind].
  destruct (iloc0_outcome (fun r => py_eq (customer_id r) stored) df)
    as [[r [-> _]] | [-> _]]; [|now right].
  left. cbn [bind]. eexists. split; [reflexivity|].
  unfold keys_present in *. cbn. rewrite Ec.
  repeat split; try discriminate; tauto.
Qed.

Lemma name_selected_outcome (df : table) (selected : value) (s : session) :
  keys_present df s -> f_customer_id (temp s) <> None ->
  (exists s' b, name_selected df selected s = Ok (s', b) /\
     keys_present df s' /\ f_customer_id (temp s') <> None /\
     f_name (temp s') <> None /\
     filters_applied s' = filters_applied s) \/
  (name_selected df selected s = Raise IndexError /\
   keys_present df (with_temp (set_name selected (temp s)) s)).
Proof.
  intros K Hc. unfold name_selected.
  destruct (get_ne (f_name (temp s)) selected) eqn:Eg.
  - destruct (py_ne selected All).
    + destruct (iloc0_outcome (fun r => py_eq (name r) selected) df)
        as [[r [-> _]] | [-> _]].
      * left. cbn [bind]. do 2 eexists. split; [reflexivity|].
        destruct (copy_demographics_keys df r
                    (set_customer_id (customer_id r) (set_name selected (temp s))))
          as [C1 [C2 [C3 [C4 C5]]]].
        unfold keys_present. cbn [temp last_selected_name filters_applied].
        rewrite C1, C2, C3. cbn [f_customer_id f_name f_similarity set_name
          set_customer_id].
        destruct K as [K1 [K2 [K3 K4]]].
        repeat split; try discriminate; try assumption.
        -- intros H. rewrite (C4 H). now apply K2.
        -- intros H. rewrite (C5 H). now apply K3.
      * right. split; [reflexivity|]. unfold keys_present in *. cbn.
        repeat split; try discriminate; tauto.
    + left. do 2 eexists. split; [reflexivity|].
      unfold keys_present in *. cbn. repeat split; try discriminate; tauto.
  - left. exists s, false. split; [reflexivity|]. split; [exact K|].
    split; [exact Hc|]. split; [|reflexivity].
    intros H. rewrite H in Eg. discriminate Eg.
Qed.

Lemma coincide_not_returned (bounds : Float.float * Float.float) (v : Q * Q) :
  coincide bounds -> ~ returned_within bounds v.
Proof.
  intros [a [b [E H]]] [a' [b' [E' [N _]]]].
  rewrite E in E'. injection E' as <- <-. contradiction.
Qed.

Lemma slider_outcome (bounds : Float.float * Float.float) (v : Q * Q) :
  match slider bounds v with
  | Ok v' => v' = v /\ returned_within bounds v
  | Raise e => e = StreamlitAPIException /\ coincide bounds
  | OutsideModel => ~ returned_within bounds v
  end.
Proof.
  unfold slider. destruct bounds as [[a| |] [b| |]];
    try (intros [a' [b' [[=] _]]]).
  destruct (Qeq_bool a b) eqn:Eab.
  - split; [reflexivity|]. exists a, b. split; [reflexivity|].
    now apply Qeq_bool_iff.
  - destruct (Qle_bool a (fst v) && Qle_bool (fst v) (snd v)
              && Qle_bool (snd v) b) eqn:Ev.
    + split; [reflexivity|]. exists a, b. split; [reflexivity|].
      apply andb_true_iff in Ev. destruct Ev as [Ev E3].
      apply andb_true_iff in Ev. destruct Ev as [E1 E2].
      split; [|repeat split; now apply Qle_bool_iff].
      intros H. apply Qeq_bool_iff in H. congruence.
    + intros [a' [b' [[= <- <-] [_ [H1 [H2 H3]]]]]].
      apply Qle_bool_iff in H1, H2, H3. rewrite H1, H2, H3 in Ev.
      discriminate.
Qed.

Lemma slider_returns (bounds : Float.float * Float.float) (v : Q * Q) :
  returned_within bounds v -> slider bounds v = Ok v.
Proof.
  intros H. pose proof (slider_outcome bounds v) as O.
  destruct (slider bounds v) as [v'|e|].
  - now destruct O as [-> _].
  - destruct O as [_ C]. now apply coincide_not_returned in H.
  - contradiction.
Qed.

Lemma store_widgets_keys (df : table) (w : filter_widgets) (t : temp_filters) :
  let run := store_widgets df w t in
  stored_keys df w t (fst run) /\
  match snd run with
  | Ok t' => t' = fst run
  | Raise e =>
      e = StreamlitAPIException /\
      (coincide (similarity_bounds df) \/ coincide (spent_bounds df)) /\
      ~ sliders_return df w
  | OutsideModel => ~ sliders_return df w
  end.
Proof.
  cbv zeta. unfold store_widgets, stored_keys, sliders_return.
  pose proof (slider_outcome (similarity_bounds df) (similarity_slider w)) as O1.
  pose proof (slider_outcome (spent_bounds df) (spent_slider w)) as O2.
  destruct (has_Similarity_Score df && has_valid_scores df) eqn:Ev.
  - apply andb_true_iff in Ev. destruct Ev as [Ev _].
    destruct (slider (similarity_bounds df) (similarity_slider w)) as [v1|e1|];
      cbn [bind].
    + destruct (slider (spent_bounds df) (spent_slider w)) as [v2|e2|];
        cbn [fst snd].
      * split; [|reflexivity].
        destruct (has_state df), (has_city_name df); cbn;
          repeat split; first [discriminate | congruence | tauto].
      * split; [destruct (has_state df), (has_city_name df); cbn;
                repeat split; first [discriminate | congruence | tauto]|].
        destruct O2 as [-> C]. split; [reflexivity|]. split; [now right|].
        intros [_ H]. now apply coincide_not_returned in H.
      * split; [destruct (has_state df), (has_city_name df); cbn;
                repeat split; first [discriminate | congruence | tauto]|].
        tauto.
    + cbn [fst snd].
      split; [destruct (has_state df), (has_city_name df); cbn;
              repeat split; first [discriminate | congruence | tauto]|].
      destruct O1 as [-> C]. split; [reflexivity|]. split; [now left|].
      intros [H _]. specialize (H eq_refl). now apply coincide_not_returned in H.
    + cbn [fst snd].
      split; [destruct (has_state df), (has_city_name df); cbn;
              repeat split; first [discriminate | congruence | tauto]|].
      intros [H _]. now apply O1, H.
  - destruct (slider (spent_bounds df) (spent_slider w)) as [v2|e2|];
      cbn [fst snd].
    + split; [|reflexivity].
      destruct (has_state df), (has_city_name df); cbn;
        repeat split; first [discriminate | congruence | tauto].
    + split; [destruct (has_state df), (has_city_name df); cbn;
              repeat split; first [discriminate | congruence | tauto]|].
      destruct O2 as [-> C]. split; [reflexivity|]. split; [now right|].
      intros [_ H]. now apply coincide_not_returned in H.
    + split; [destruct (has_state df), (has_city_name df); cbn;
              repeat split; first [discriminate | congruence | tauto]|].
      tauto.
Qed.

Lemma stored_keys_present (df : table) (w : filter_widgets) (s : session)
    (t' : temp_filters) :
  keys_present df s -> stored_keys df w (temp s) t' ->
  keys_present df (with_temp t' s).
Proof.
  intros [A [B [C D]]] [W1 [W2 [W3 [W4 [W5 [W6 W7]]]]]].
  unfold keys_present. cbn [temp with_temp last_selected_name].
  rewrite W2. repeat split.
  - exact A.
  - intros H. rewrite (W5 H). now apply B.
  - intros H. rewrite (W6 H). now apply C.
  - intros H. destruct (W7 H); auto.
Qed.

Lemma stored_keys_ready (df : table) (w : filter_widgets) (s : session)
    (t' : temp_filters) :
  keys_present df s ->
  f_customer_id (temp s) <> None -> f_name (temp s) <> None ->
  stored_keys df w (temp s) t' ->
  filters_ready t' df.
Proof.
  intros K Hc Hn W.
  destruct (stored_keys_present df w s t' K W) as [_ [B [C D]]].
  destruct W as [W1 [W2 [W3 _]]].
  cbn [temp with_temp] in B, C, D.
  unfold filters_ready. rewrite W1, W2. repeat split; assumption.
Qed.

(** ** The filters: what they raise, and when *)

Lemma incl_filter {A : Type} (f : A -> bool) (l : list A) : incl (filter f l) l.
Proof. intros x H. apply filter_In in H. tauto. Qed.

Lemma exact_filter_present (key : option value) (col : row -> value)
    (l : list row) :
  key <> None -> exists l', exact_filter key col l = Ok l' /\ incl l' l.
Proof.
  intros H. destruct key as [v|]; [|congruence]. unfold exact_filter.
  destruct (get_ne (Some v) All); cbn [subscript bind]; eexists; split;
    try reflexivity; [apply incl_filter | apply incl_refl].
Qed.

Lemma optional_exact_filter_guarded (key : option value) (present : bool)
    (col : row -> value) (l : list row) :
  (present = false -> key = None \/ key = Some All) ->
  exists l', optional_exact_filter key present col l = Ok l' /\ incl l' l.
Proof.
  intros H. unfold optional_exact_filter.
  destruct key as [v|]; [|exists l; split; [reflexivity | apply incl_refl]].
  destruct (truthy v && py_ne v All) eqn:E;
    [|exists l; split; [reflexivity | apply incl_refl]].
  destruct present; [eexists; split; [reflexivity | apply incl_filter]|].
  exfalso. destruct (H eq_refl) as [H'|H']; [discriminate|].
  injection H' as ->. cbn in E. discriminate.
Qed.

Lemma range_filter_guarded (key : option (Q * Q)) (present : bool)
    (col : row -> Float.float) (l : list row) :
  (key <> None -> present = true) ->
  exists l', range_filter key present col l = Ok l' /\ incl l' l.
Proof.
  intros H. unfold range_filter.
  destruct key as [[low high]|]; [|exists l; split; [reflexivity | apply incl_refl]].
  rewrite H by discriminate. eexists; split; [reflexivity | apply incl_filter].
Qed.

Lemma parse_items_never_raises (p : string) (e : exn) :
  Re.parse_items p <> Raise e.
Proof.
  remember (String.length p) as n eqn:En. revert p En.
  induction n as [n IH] using lt_wf_ind. intros p En.
  destruct p as [|c rest]; [discriminate|]. cbn [Re.parse_items].
  destruct (Re.atom_of c); [|discriminate].
  destruct rest as [|q rest']; [discriminate|].
  destruct (Re.rep_of q).
  - destruct rest' as [|q2 rest'']; [discriminate|].
    destruct (Re.rep_of q2); [discriminate|].
    pose proof (IH (String.length (String q2 rest''))
                  ltac:(subst n; cbn; lia) _ eq_refl) as H.
    destruct (Re.parse_items (String q2 rest'')); cbn; congruence.
  - pose proof (IH (String.length (String q rest'))
                  ltac:(subst n; cbn; lia) _ eq_refl) as H.
    destruct (Re.parse_items (String q rest')); cbn; congruence.
Qed.

Lemma compile_raises (p : string) (e : exn) :
  Re.compile p = Raise e -> e = ReError.
Proof.
  unfold Re.compile. destruct p as [|c rest]; [discriminate|].
  destruct (Re.rep_of c); [congruence|].
  intros H. now apply parse_items_never_raises in H.
Qed.

Lemma mapM_compile_raises (products : list string) (e : exn) :
  mapM Re.compile products = Raise e -> e = ReError.
Proof.
  induction products as [|p ps IH]; [discriminate|]. cbn [mapM].
  destruct (Re.compile p) as [r|e'|] eqn:E; cbn [bind]; try discriminate.
  - destruct (mapM Re.compile ps) as [rs|e'|]; cbn [bind]; try discriminate.
    intros [= <-]. now apply IH.
  - intros [= <-]. now apply compile_raises in E.
Qed.

Lemma products_filter_outcome (key : option (list string)) (l : list row) :
  match products_filter key l with
  | Ok l' => incl l' l
  | Raise e => e = ReError /\ some_product_special key
  | OutsideModel => some_product_special key
  end.
Proof.
  unfold products_filter. destruct key as [[|p ps]|]; try apply incl_refl.
  destruct (forallb Re.plain (p :: ps)) eqn:Ep.
  - rewrite (mapM_compile_plain _ Ep). cbn [bind]. apply incl_filter.
  - destruct (mapM Re.compile (p :: ps)) as [rs|e|] eqn:E; cbn [bind].
    + apply incl_filter.
    + split; [now apply mapM_compile_raises in E | now exists (p :: ps)].
    + now exists (p :: ps).
Qed.

Lemma apply_filters_outcome (t : temp_filters) (df : table) :
  filters_ready t df ->
  match apply_filters t df with
  | Ok l => incl l (rows df)
  | Raise e => e = ReError /\ some_product_special (f_products t)
  | OutsideModel => some_product_special (f_products t)
  end.
Proof.
  intros [H1 [H2 [H3 [H4 [H5 H6]]]]]. unfold apply_filters.
  destruct (exact_filter_present (f_customer_id t) customer_id (rows df) H1)
    as [d1 [-> I1]]. cbn [bind].
  destruct (exact_filter_present (f_name t) name d1 H2) as [d2 [-> I2]].
  cbn [bind].
  destruct (exact_filter_present (f_gender t) gender d2 H3) as [d3 [-> I3]].
  cbn [bind].
  destruct (optional_exact_filter_guarded (f_region t) (has_state df) state d3 H4)
    as [d4 [-> I4]]. cbn [bind].
  destruct (optional_exact_filter_guarded (f_city t) (has_city_name df)
              city_name d4 H5) as [d5 [-> I5]]. cbn [bind].
  pose proof (products_filter_outcome (f_products t) d5) as P.
  destruct (products_filter (f_products t) d5) as [d6|e|]; cbn [bind];
    [|exact P|exact P].
  destruct (range_filter_guarded (f_similarity t) (has_Similarity_Score df)
              (fun r => percent (Similarity_Score r)) d6 H6) as [d7 [-> I7]].
  cbn [bind].
  destruct (range_filter_guarded (f_spent t) true
              (fun r => Float.of_num (total_spent r)) d7
              (fun _ => eq_refl)) as [d8 [-> I8]].
  intros r Hr. auto 10.
Qed.

(** ** One run of the filter section *)

Lemma filter_section_outcome (df : table) (w : filter_widgets) (st : page_state) :
  well_formed df st ->
  let run := filter_section df w st in
  well_formed df (fst run) /\
  selected_customer_id (fst run) = selected_customer_id st /\
  match snd run with
  | Ok (Shown l) =>
      l <> [] /\ incl l (rows df) /\ exists keep, l = filter keep (rows df)
  | Ok _ => True
  | Raise e =>
      e = IndexError \/
      (e = ReError /\ some_product_special (Some (products_box w))) \/
      (e = StreamlitAPIException /\
       (coincide (similarity_bounds df) \/ coincide (spent_bounds df)) /\
       ~ sliders_return df w)
  | OutsideModel =>
      some_product_special (Some (products_box w)) \/ ~ sliders_return df w
  end.
Proof.
  intros [K Hp]. cbv zeta. unfold filter_section.
  assert (Hfirst : forall p, first_page (page_number st) = Some p -> (1 <= p)%Z).
  { intros p. destruct (page_number st); cbn; intros [= <-]. lia. }
  destruct (sync_id_from_name_outcome df (filters st) K)
    as [[s1 [E1 [K1 _]]] | E1]; rewrite E1; cbn [on_ok fst snd];
    [|split; [split; assumption | split; [reflexivity | now left]]].
  destruct (customer_id_selected_outcome df (customer_id_box w) s1 K1)
    as [[s2 [b2 [E2 [K2 [C2 F2]]]]] | [E2 K2]]; rewrite E2; cbn [on_ok fst snd];
    [|split; [split; [exact K2 | exact Hp] | split; [reflexivity | now left]]].
  destruct b2;
    [split; [split; [exact K2 | exact Hp] | split; [reflexivity | exact I]]|].
  destruct (sync_name_from_id_outcome df s2 K2 C2)
    as [[s3 [E3 [K3 [C3 F3]]]] | E3]; rewrite E3; cbn [on_ok fst snd];
    [|split; [split; [exact K2 | exact Hp] | split; [reflexivity | now left]]].
  destruct (name_selected_outcome df (name_box w) s3 K3 C3)
    as [[s4 [b4 [E4 [K4 [C4 [N4 F4]]]]]] | [E4 K4]]; rewrite E4;
    cbn [on_ok fst snd];
    [|split; [split; [exact K4 | exact Hp] | split; [reflexivity | now left]]].
  destruct b4;
    [split; [split; [exact K4 | exact Hp] | split; [reflexivity | exact I]]|].
  destruct (store_widgets_keys df w (temp s4)) as [W O]. cbv zeta in W, O.
  destruct (store_widgets df w (temp s4)) as [t stored]. cbn [fst snd] in W, O |- *.
  pose proof (stored_keys_present df w s4 t K4 W) as Kl.
  pose proof (stored_keys_ready df w s4 t K4 C4 N4 W) as Rt.
  destruct W as [W1 [W2 [W3 [W4 [W5 [W6 W7]]]]]].
  assert (Kt : forall s, last_selected_name s = last_selected_name s4 ->
                         temp s = t -> keys_present df s).
  { intros s L T. destruct K4 as [A [B [C D]]]. unfold keys_present.
    rewrite L, T, W2. repeat split.
    - exact A.
    - intros H. rewrite (W5 H). now apply B.
    - intros H. rewrite (W6 H). now apply C.
    - intros H. destruct (W7 H); auto. }
  destruct stored as [t'|e|]; cbn [on_ok fst snd];
    [subst t'
    |split; [split; [exact Kl | exact Hp] | split; [reflexivity | tauto]]
    |split; [split; [exact Kl | exact Hp] | split; [reflexivity | tauto]]].
  destruct (apply_clicked w).
  { cbn [fst snd]. split; [split; [now apply Kt | exact Hfirst]|].
    split; [reflexivity | exact I]. }
  destruct (reset_clicked w).
  { cbn [fst snd]. split; [split; [|exact Hfirst]|split; [reflexivity | exact I]].
    unfold keys_present. cbn. repeat split; auto; congruence. }
  assert (Wf : well_formed df (with_filters (with_temp t s4) st)).
  { split; [now apply Kt | exact Hp]. }
  destruct (filters_applied s4);
    [|cbn [fst snd]; split; [exact Wf | split; [reflexivity | exact I]]].
  pose proof (apply_filters_outcome t df Rt) as A. rewrite W4 in A.
  destruct (apply_filters t df) as [l|e|] eqn:Ea; cbn [on_ok].
  - destruct (apply_filters_keeps t df Ea) as [keep [_ Ekeep]].
    destruct l as [|r l]; cbn [fst snd];
      (split; [exact Wf | split; [reflexivity|]]); [exact I|].
    split; [discriminate | split; [exact A | now exists keep]].
  - cbn [fst snd]. split; [exact Wf | split; [reflexivity | tauto]].
  - cbn [fst snd]. split; [exact Wf | split; [reflexivity | tauto]].
Qed.

(** ** The results column and the detail lookup *)

Lemma iloc_slice_incl {A : Type} (l : list A) (start stop : Z) :
  incl (Paging.iloc_slice l start stop) l.
Proof.
  unfold Paging.iloc_slice. cbv zeta. intros x H.
  set (n := Z.to_nat _) in H. set (m := Z.to_nat _) in H.
  rewrite <- (firstn_skipn m l). apply in_or_app. right.
  rewrite <- (firstn_skipn n (skipn m l)). apply in_or_app. now left.
Qed.

Lemma results_column_sound {A : Type} (l : list A) (page_number : option Z)
    (c : Paging.click) :
  l <> [] -> (forall p, page_number = Some p -> 1 <= p)%Z ->
  let v := Paging.results_column l page_size page_number c in
  Paging.current_page v <> [] /\
  incl (Paging.current_page v) l /\
  (1 <= Paging.page_shown v <= Paging.pages v)%Z /\
  (1 <= Paging.page_stored v <= Paging.pages v)%Z.
Proof.
  intros Hne Hpn v.
  assert (Htot : (0 < Z.of_nat (List.length l))%Z)
    by (destruct l; [congruence | cbn; lia]).
  pose proof (total_pages_bounds _ page_size eq_refl Htot) as [T1 [T2 T3]].
  cbv zeta in T1, T2, T3.
  unfold v, Paging.results_column. cbv zeta.
  cbn [Paging.current_page Paging.page_shown Paging.page_stored Paging.pages].
  set (tp := Paging.total_pages _ page_size) in *.
  set (stored := match page_number with Some p => p | None => 1%Z end).
  assert (Hst : (1 <= stored)%Z).
  { unfold stored. destruct page_number as [p|]; [now apply Hpn | lia]. }
  set (pn := Paging.clamp_page stored tp).
  assert (Hpn' : (1 <= pn <= tp)%Z).
  { unfold pn, Paging.clamp_page. destruct (Z.gtb_spec stored tp); lia. }
  split; [|split; [apply iloc_slice_incl | split; [exact Hpn'|]]].
  - unfold page_size in *. rewrite iloc_slice_inside by lia.
    intros E. apply (f_equal (@List.length A)) in E.
    rewrite length_firstn, length_skipn in E. cbn [List.length] in E. lia.
  - destruct c; [exact Hpn' | |].
    + destruct (Z.eqb_spec pn 1); lia.
    + destruct (Z.eqb_spec pn tp); lia.
Qed.

Lemma distinct_keys_filter (keep : row -> bool) (l : list row) :
  distinct_keys l -> distinct_keys (filter keep l).
Proof.
  unfold distinct_keys. induction l as [|r l IH]; [trivial|].
  cbn [map filter]. intros H. apply NoDup_cons_iff in H. destruct H as [N H].
  destruct (keep r); [|now apply IH]. cbn [map]. constructor; [|now apply IH].
  intros Hin. apply N. apply in_map_iff in Hin. destruct Hin as [x [Ex Hx]].
  apply filter_In in Hx. rewrite <- Ex. apply in_map. tauto.
Qed.

Lemma distinct_keys_slice (l : list row) (start stop : Z) :
  distinct_keys l -> distinct_keys (Paging.iloc_slice l start stop).
Proof.
  unfold distinct_keys, Paging.iloc_slice. cbv zeta. intros H.
  set (n := Z.to_nat _). set (m := Z.to_nat _).
  rewrite <- (firstn_skipn m l), map_app in H.
  apply NoDup_app_remove_l in H.
  rewrite <- (firstn_skipn n (skipn m l)), map_app in H.
  now apply NoDup_app_remove_r in H.
Qed.

Lemma distinct_keys_sorted (sort_values : list row -> list row) (l : list row) :
  (forall l, Permutation (sort_values l) l) ->
  distinct_keys l -> distinct_keys (sort_values l).
Proof.
  unfold distinct_keys. intros Hsort H.
  apply (Permutation_NoDup (l := map view_key l)); [|exact H].
  apply Permutation_map, Permutation_sym, Hsort.
Qed.

Lemma cards_outcome (df : table) (page : list row) (seen : list string)
    (clicked : option nat) :
  match cards df seen page clicked with
  | Ok button =>
      button = match clicked with
               | Some k => nth_error page k
               | None => None
               end
  | Raise e =>
      (e = KeyError /\
       (has_days_since_last_visit df = false \/ has_city_name df = false)) \/
      (e = ValueError /\
       exists r, In r page /\ days_since_last_visit r = None) \/
      (e = StreamlitAPIException /\ ~ NoDup (seen ++ map view_key page))
  | OutsideModel => False
  end.
Proof.
  revert seen clicked. induction page as [|customer rest IH]; intros seen clicked.
  - cbn. now destruct clicked as [[|k]|].
  - cbn [cards]. unfold card.
    destruct (has_days_since_last_visit df); [|cbn; left; tauto].
    destruct (days_since_last_visit customer) as [days|] eqn:Ed;
      [|cbn; right; left; split; [reflexivity|]; exists customer; split;
        [now left | exact Ed]].
    destruct (has_city_name df); [|cbn; left; tauto].
    cbn [bind].
    destruct (existsb (String.eqb (view_key customer)) seen) eqn:Ek.
    { right. right. split; [reflexivity|]. intros N.
      apply existsb_exists in Ek. destruct Ek as [k [Hk Ek]].
      apply String.eqb_eq in Ek. subst k. cbn [map] in N.
      apply NoDup_remove_2 in N. apply N. apply in_or_app. now left. }
    assert (Step : forall e,
      (e = KeyError /\ (true = false \/ true = false)) \/
      (e = ValueError /\
       exists r, In r rest /\ days_since_last_visit r = None) \/
      (e = StreamlitAPIException /\
       ~ NoDup ((view_key customer :: seen) ++ map view_key rest)) ->
      (e = KeyError /\ (true = false \/ true = false)) \/
      (e = ValueError /\
       exists r, In r (customer :: rest) /\ days_since_last_visit r = None) \/
      (e = StreamlitAPIException /\
       ~ NoDup (seen ++ map view_key (customer :: rest)))).
    { intros e [H|[[H [r [Hr Er]]]|[H N]]].
      - now left.
      - right. left. split; [exact H|]. exists r.
        split; [now right | exact Er].
      - right. right. split; [exact H|]. intros N'. apply N.
        cbn [map] in N'. cbn [app].
        apply (Permutation_NoDup
                 (l := seen ++ view_key customer :: map view_key rest));
          [|exact N'].
        apply Permutation_sym, Permutation_middle. }
    destruct clicked as [[|k]|]; [reflexivity| |].
    + specialize (IH (view_key customer :: seen) (Some k)).
      destruct (cards df (view_key customer :: seen) rest (Some k))
        as [button|e|]; [exact IH| |exact IH].
      now apply Step.
    + specialize (IH (view_key customer :: seen) None).
      destruct (cards df (view_key customer :: seen) rest None)
        as [button|e|]; [exact IH| |exact IH].
      now apply Step.
Qed.

Lemma cards_complete (df : table) (page : list row) (clicked : option nat) :
  complete_cards df -> incl page (rows df) -> distinct_keys page ->
  cards df [] page clicked
  = Ok match clicked with
       | Some k => nth_error page k
       | None => None
       end.
Proof.
  intros [Hd [Hc [Hall _]]] Hin Hkeys.
  pose proof (cards_outcome df page [] clicked) as O.
  destruct (cards df [] page clicked) as [button|e|].
  - now rewrite O.
  - exfalso. destruct O as [[_ [H|H]]|[[_ [r [Hr Er]]]|[_ N]]]; try congruence.
    + exact (Hall r (Hin r Hr) Er).
    + now apply N.
  - contradiction.
Qed.

Lemma columns_well_formed (sort_values : list row -> list row) (df : table)
    (ev : event) (l : list row) (st : page_state) :
  (forall l, Permutation (sort_values l) l) ->
  well_formed df st -> l <> [] ->
  let run := columns sort_values df ev l st in
  well_formed df (fst run) /\
  match snd run with
  | Ok NoResults => False
  | Ok (ResultsOnly v) | Ok (WithDetail v _) =>
      Paging.current_page v <> [] /\
      incl (Paging.current_page v) l /\
      (1 <= Paging.page_shown v <= Paging.pages v)%Z
  | Raise e =>
      e = IndexError \/
      (e = KeyError /\
       (has_days_since_last_visit df = false \/ has_city_name df = false)) \/
      (e = ValueError /\
       exists r, In r l /\ days_since_last_visit r = None) \/
      (e = StreamlitAPIException /\ ~ distinct_keys l)
  | OutsideModel => False
  end.
Proof.
  intros Hsort [K Hp] Hne. cbv zeta. unfold columns. cbv zeta.
  set (c := match ev with Page c => c | ViewDetails _ => Paging.NoClick end).
  assert (Hs : sort_values l <> []).
  { intros E. apply Hne. apply Permutation_nil. rewrite <- E. apply Hsort. }
  destruct (results_column_sound (sort_values l) (page_number st) c Hs Hp)
    as [V1 [V2 [V3 V4]]]. cbv zeta in V1, V2, V3, V4.
  set (v := Paging.results_column (sort_values l) page_size (page_number st) c) in *.
  assert (V2' : incl (Paging.current_page v) l).
  { intros x Hx. apply (Permutation_in x (Hsort l)). now apply V2. }
  assert (Wshown : forall sel,
             well_formed df {| filters := filters st;
                               page_number := Some (Paging.page_shown v);
                               selected_customer_id := sel |}).
  { intros sel. split; [exact K|]. cbn [page_number].
    intros p [= <-]. exact (proj1 V3). }
  set (clicked := match ev with ViewDetails k => Some k | Page _ => None end).
  pose proof (cards_outcome df (Paging.current_page v) [] clicked) as C.
  destruct (cards df [] (Paging.current_page v) clicked) as [button|e|];
    cbn [on_ok]; [| |contradiction].
  2:{ cbn [fst snd]. split; [apply Wshown|]. right.
      destruct C as [C|[[C [r [Hr Er]]]|[C N]]]; [now left| |].
      - right. left. split; [exact C|]. exists r.
        split; [now apply V2' | exact Er].
      - right. right. split; [exact C|]. intros D. apply N. cbn [app].
        apply distinct_keys_slice. now apply distinct_keys_sorted. }
  destruct button as [customer|].
  - cbn [fst snd]. split; [apply Wshown | auto].
  - assert (Wf : well_formed df
                   {| filters := filters st;
                      page_number := Some (Paging.page_stored v);
                      selected_customer_id := selected_customer_id st |}).
    { split; [exact K|]. cbn [page_number]. intros p [= <-]. exact (proj1 V4). }
    destruct (Paging.page_stored v =? Paging.page_shown v)%Z;
      [|cbn [fst snd]; auto].
    unfold detail_customer.
    destruct (match selected_customer_id st with
              | Some id => Ok id
              | None => match sort_values l with
                        | [] => Raise IndexError
                        | top :: _ => Ok (customer_id top)
                        end
              end) as [id|e|] eqn:E; cbn [bind on_ok].
    + destruct (iloc0_outcome (fun r => py_eq (customer_id r) id) df)
        as [[r [-> _]] | [-> _]]; cbn [on_ok fst snd]; auto.
    + cbn [fst snd]. split; [exact Wf|]. left.
      destruct (selected_customer_id st); [discriminate|].
      destruct (sort_values l); congruence.
    + exfalso. destruct (selected_customer_id st); [discriminate|].
      destruct (sort_values l); discriminate.
Qed.

Lemma page_run_well_formed (sort_values : list row -> list row) (df : table)
    (w : filter_widgets) (ev : event) (st : page_state) :
  (forall l, Permutation (sort_values l) l) ->
  well_formed df st ->
  let run := page_run sort_values df w ev st in
  well_formed df (fst run) /\
  match snd run with
  | Ok NoResults => True
  | Ok (ResultsOnly v) | Ok (WithDetail v _) =>
      Paging.current_page v <> [] /\
      incl (Paging.current_page v) (rows df) /\
      (1 <= Paging.page_shown v <= Paging.pages v)%Z
  | Raise e =>
      page_exception df e /\
      (e = ReError -> some_product_special (Some (products_box w))) /\
      (e = StreamlitAPIException ->
       ~ sliders_return df w \/ ~ distinct_keys (rows df))
  | OutsideModel =>
      some_product_special (Some (products_box w)) \/ ~ sliders_return df w
  end.
Proof.
  intros Hsort Wf. cbv zeta. unfold page_run.
  destruct (filter_section_outcome df w st Wf) as [Wf1 [_ O]].
  cbv zeta in Wf1, O.
  destruct (filter_section df w st) as [st1 r]. cbn [fst snd] in Wf1, O.
  destruct r as [[| |l]|e|]; cbn [on_ok fst snd]; auto.
  2:{ split; [exact Wf1|]. unfold page_exception.
      destruct O as [->|[[-> O]|[-> [O N]]]].
      - split; [now left|]. split; discriminate.
      - split; [right; now left|]. split; [auto | discriminate].
      - split; [right; right; left; tauto|]. split; [discriminate | auto]. }
  destruct O as [Hne [Hin [keep Ekeep]]].
  destruct (columns_well_formed sort_values df ev l st1 Hsort Wf1 Hne) as [Wf2 C].
  cbv zeta in Wf2, C. split; [exact Wf2|].
  destruct (snd (columns sort_values df ev l st1)) as [[|v|v r]|e|];
    try contradiction.
  - destruct C as [C1 [C2 C3]]. repeat split; try tauto.
    intros x Hx. auto.
  - destruct C as [C1 [C2 C3]]. repeat split; try tauto.
    intros x Hx. auto.
  - unfold page_exception.
    destruct C as [->|[[-> C]|[[-> [r [Hr Er]]]|[-> N]]]].
    + split; [now left|]. split; discriminate.
    + split; [right; right; right; left; tauto|]. split; discriminate.
    + split; [|split; discriminate].
      right; right; right; right. split; [reflexivity|].
      exists r. split; [now apply Hin | exact Er].
    + split; [|split; [discriminate|]].
      * right; right; left. split; [reflexivity|]. right; right.
        intros D. apply N. rewrite Ekeep. now apply distinct_keys_filter.
      * intros _. right. intros D. apply N. rewrite Ekeep.
        now apply distinct_keys_filter.
Qed.

Lemma insert_by_spent_perm (x : row) (l : list row) :
  Permutation (insert_by_spent x l) (x :: l).
Proof.
  induction l as [|y l IH]; [apply Permutation_refl|].
  cbn [insert_by_spent]. destruct (spent_ge x y); [apply Permutation_refl|].
  eapply perm_trans; [apply perm_skip, IH | apply perm_swap].
Qed.

(** The insertion sort by [total_spent] is an admissible [sort_values]. *)
Lemma sort_by_spent_perm (l : list row) : Permutation (sort_by_spent l) l.
Proof.
  induction l as [|x l IH]; [apply perm_nil|].
  unfold sort_by_spent. cbn [fold_right].
  eapply perm_trans; [apply insert_by_spent_perm|]. now apply perm_skip.
Qed.

Lemma first_state_well_formed (df : table) : well_formed df first_state.
Proof.
  split; [|discriminate]. unfold keys_present. cbn.
  repeat split; auto; congruence.
Qed.

Lemma reachable_well_formed (sort_values : list row -> list row)
    (allowed : filter_widgets -> Prop) (df : table) (st : page_state) :
  (forall l, Permutation (sort_values l) l) ->
  reachable sort_values allowed df st -> well_formed df st.
Proof.
  intros Hsort R. induction R as [|st w ev R IH _|st applied R IH].
  - apply first_state_well_formed.
  - now apply page_run_well_formed.
  - exact IH.
Qed.



(** Each of these exceptions occurs: on the sample table, whose
    customers share one similarity score, the similarity slider raises
    already on the first visit; without the city or the recency column
    the first card raises [KeyError]; a customer without recency raises
    [ValueError]; two customers under one identifier raise at the second
    of their buttons; on the complete table the results are shown. *)
Example page_exceptions_occur :
  snd (page_run sort_by_spent sample_table
         (widgets_with All All [] false) (Page Paging.NoClick) first_state)
  = Raise StreamlitAPIException /\
  run_after_apply shop_without_city = Raise KeyError /\
  run_after_apply shop_without_recency = Raise KeyError /\
  run_after_apply shop_with_unseen = Raise ValueError /\
  run_after_apply shop_with_twins = Raise StreamlitAPIException /\
  exists v customer, run_after_apply shop_table = Ok (WithDetail v customer).
Proof.
  repeat split; try (vm_compute; reflexivity).
  do 2 eexists. vm_compute. reflexivity.
Qed.

(** ** Lookups on tables without missing identifiers or names *)

Lemma py_eq_refl (v : value) : v <> VNaN -> py_eq v v = true.
Proof.
  destruct v as [|s|z]; cbn; intros H; [congruence | apply String.eqb_refl
    | apply Z.eqb_refl].
Qed.

Lemma lookup_found (col : row -> value) (df : table) (v : value) :
  (forall r, In r (rows df) -> col r <> VNaN) ->
  In v (map col (rows df)) ->
  exists r, iloc0 (fun r => py_eq (col r) v) df = Ok r /\
            In r (rows df) /\ col r = v.
Proof.
  intros Hid Hv. apply in_map_iff in Hv. destruct Hv as [r0 [E0 H0]].
  destruct (iloc0_outcome (fun r => py_eq (col r) v) df)
    as [[r [E [Hr T]]] | [_ Hnone]].
  - exists r. repeat split; auto. now apply py_eq_true.
  - specialize (Hnone r0 H0). cbn in Hnone. rewrite E0 in Hnone.
    rewrite py_eq_refl in Hnone; [discriminate|].
    rewrite <- E0. now apply Hid.
Qed.

Lemma py_ne_not_All (v : value) : py_ne v All = true -> v <> All.
Proof.
  intros H ->. discriminate H.
Qed.

Lemma py_ne_is_All (v : value) : py_ne v All = false -> v = All.
Proof.
  unfold py_ne. intros H. apply negb_false_iff in H. now apply py_eq_true.
Qed.

Lemma sync_id_from_name_known (df : table) (s : session) :
  identified df -> known_filters df (temp s) ->
  sync_id_from_name df s <> Raise IndexError /\
  forall s', sync_id_from_name df s = Ok s' -> known_filters df (temp s').
Proof.
  intros Hid [Jn Jc]. unfold sync_id_from_name.
  destruct (last_selected_name s) as [last|];
    [|split; [discriminate | intros s' [= <-]; now split]].
  destruct (get_ne (f_name (temp s)) last);
    [|split; [discriminate | intros s' [= <-]; now split]].
  destruct (get_ne (f_name (temp s)) All) eqn:Ea;
    [|split; [discriminate | intros s' [= <-]; now split]].
  destruct (f_name (temp s)) as [stored|] eqn:En;
    [|cbn; split; [discriminate | discriminate]].
  cbn [subscript bind]. cbn [get_ne] in Ea.
  destruct (Jn stored eq_refl) as [->|Hin]; [discriminate Ea|].
  destruct (lookup_found name df stored (fun r Hr => proj2 (Hid r Hr)) Hin)
    as [r [-> [Hr _]]].
  cbn [bind]. split; [discriminate|]. intros s' [= <-]. cbn.
  split; cbn.
  - rewrite En. exact Jn.
  - intros v [= <-]. right. now apply in_map.
Qed.

Lemma sync_name_from_id_known (df : table) (s : session) :
  identified df -> known_filters df (temp s) ->
  sync_name_from_id df s <> Raise IndexError /\
  forall s', sync_name_from_id df s = Ok s' -> known_filters df (temp s').
Proof.
  intros Hid [Jn Jc]. unfold sync_name_from_id.
  destruct (last_selected_id s) as [last|];
    [|split; [discriminate | intros s' [= <-]; now split]].
  destruct (get_ne (f_customer_id (temp s)) last);
    [|split; [discriminate | intros s' [= <-]; now split]].
  destruct (get_ne (f_customer_id (temp s)) All) eqn:Ea;
    [|split; [discriminate | intros s' [= <-]; now split]].
  destruct (f_customer_id (temp s)) as [stored|] eqn:Ec;
    [|cbn; split; [discriminate | discriminate]].
  cbn [subscript bind]. cbn [get_ne] in Ea.
  destruct (Jc stored eq_refl) as [->|Hin]; [discriminate Ea|].
  destruct (lookup_found customer_id df stored (fun r Hr => proj1 (Hid r Hr)) Hin)
    as [r [-> [Hr _]]].
  cbn [bind]. split; [discriminate|]. intros s' [= <-]. cbn.
  split; cbn.
  - intros v [= <-]. right. now apply in_map.
  - rewrite Ec. exact Jc.
Qed.

Lemma customer_id_selected_known (df : table) (selected : value) (s : session) :
  identified df -> known_filters df (temp s) ->
  selected = All \/ In selected (map customer_id (rows df)) ->
  customer_id_selected df selected s <> Raise IndexError /\
  forall s' b, customer_id_selected df selected s = Ok (s', b) ->
    known_filters df (temp s').
Proof.
  intros Hid [Jn Jc] Hsel. unfold customer_id_selected.
  destruct (get_ne (f_customer_id (temp s)) selected);
    [|split; [discriminate | intros s' b [= <- _]; now split]].
  destruct (py_ne selected All) eqn:Ea.
  - destruct Hsel as [->|Hin]; [discriminate Ea|].
    destruct (lookup_found customer_id df selected
                (fun r Hr => proj1 (Hid r Hr)) Hin) as [r [-> [Hr _]]].
    cbn [bind]. split; [discriminate|]. intros s' b [= <- _].
    cbn [temp].
    destruct (copy_demographics_keys df r
                (set_name (name r) (set_customer_id selected (temp s))))
      as [C1 [C2 _]].
    unfold known_filters. rewrite C1, C2. cbn. split.
    + intros v [= <-]. right. now apply in_map.
    + intros v [= <-]. now right.
  - apply py_ne_is_All in Ea. subst selected.
    split; [discriminate|]. intros s' b [= <- _]. cbn.
    split; cbn; intros v [= <-]; now left.
Qed.

Lemma name_selected_known (df : table) (selected : value) (s : session) :
  identified df -> known_filters df (temp s) ->
  selected = All \/ In selected (map name (rows df)) ->
  name_selected df selected s <> Raise IndexError /\
  forall s' b, name_selected df selected s = Ok (s', b) ->
    known_filters df (temp s').
Proof.
  intros Hid [Jn Jc] Hsel. unfold name_selected.
  destruct (get_ne (f_name (temp s)) selected);
    [|split; [discriminate | intros s' b [= <- _]; now split]].
  destruct (py_ne selected All) eqn:Ea.
  - destruct Hsel as [->|Hin]; [discriminate Ea|].
    destruct (lookup_found name df selected
                (fun r Hr => proj2 (Hid r Hr)) Hin) as [r [-> [Hr _]]].
    cbn [bind]. split; [discriminate|]. intros s' b [= <- _].
    cbn [temp].
    destruct (copy_demographics_keys df r
                (set_customer_id (customer_id r) (set_name selected (temp s))))
      as [C1 [C2 _]].
    unfold known_filters. rewrite C1, C2. cbn. split.
    + intros v [= <-]. now right.
    + intros v [= <-]. right. now apply in_map.
  - apply py_ne_is_All in Ea. subst selected.
    split; [discriminate|]. intros s' b [= <- _]. cbn.
    split; cbn; intros v [= <-]; now left.
Qed.

Lemma filter_section_known (df : table) (w : filter_widgets) (st : page_state) :
  identified df -> offered df w ->
  well_formed df st -> known_customers df st ->
  let run := filter_section df w st in
  known_customers df (fst run) /\ snd run <> Raise IndexError.
Proof.
  intros Hid [Oc [On Os]] [K Hp] [J Jsel]. cbv zeta. unfold filter_section.
  assert (Keep : forall s, known_filters df (temp s) ->
                           known_customers df (with_filters s st)).
  { intros s Hs. split; [exact Hs | exact Jsel]. }
  destruct (sync_id_from_name_known df (filters st) Hid J) as [N1 J1].
  destruct (sync_id_from_name_outcome df (filters st) K)
    as [[s1 [E1 [K1 _]]] | E1]; [|contradiction].
  rewrite E1. cbn [on_ok]. specialize (J1 s1 E1).
  destruct (customer_id_selected_known df (customer_id_box w) s1 Hid J1 Oc)
    as [N2 J2].
  destruct (customer_id_selected_outcome df (customer_id_box w) s1 K1)
    as [[s2 [b2 [E2 [K2 [C2 _]]]]] | [E2 _]]; [|contradiction].
  rewrite E2. cbn [on_ok fst snd]. specialize (J2 s2 b2 E2).
  destruct b2; [split; [now apply Keep | discriminate]|].
  destruct (sync_name_from_id_known df s2 Hid J2) as [N3 J3].
  destruct (sync_name_from_id_outcome df s2 K2 C2)
    as [[s3 [E3 [K3 [C3 _]]]] | E3]; [|contradiction].
  rewrite E3. cbn [on_ok]. specialize (J3 s3 E3).
  destruct (name_selected_known df (name_box w) s3 Hid J3 On) as [N4 J4].
  destruct (name_selected_outcome df (name_box w) s3 K3 C3)
    as [[s4 [b4 [E4 [K4 [C4 [F4 _]]]]]] | [E4 _]]; [|contradiction].
  rewrite E4. cbn [on_ok fst snd]. specialize (J4 s4 b4 E4).
  destruct b4; [split; [now apply Keep | discriminate]|].
  destruct (store_widgets_keys df w (temp s4)) as [W O]. cbv zeta in W, O.
  destruct (store_widgets df w (temp s4)) as [t stored].
  cbn [fst snd] in W, O |- *.
  pose proof (stored_keys_ready df w s4 t K4 C4 F4 W) as Rt.
  destruct W as [W1 [W2 _]].
  assert (Jt : known_filters df t).
  { destruct J4 as [A B]. unfold known_filters. now rewrite W1, W2. }
  destruct stored as [t'|e|]; cbn [on_ok fst snd];
    [subst t'
    |split; [now apply Keep | destruct O as [-> _]; discriminate]
    |split; [now apply Keep | discriminate]].
  destruct (apply_clicked w).
  { cbn [fst snd]. split; [split; [exact Jt | exact Jsel] | discriminate]. }
  destruct (reset_clicked w).
  { cbn [fst snd]. split; [split; [|exact Jsel] | discriminate].
    split; cbn; discriminate. }
  destruct (filters_applied s4);
    [|cbn [fst snd]; split; [now apply Keep | discriminate]].
  pose proof (apply_filters_outcome t df Rt) as A.
  destruct (apply_filters t df) as [l|e|]; cbn [on_ok].
  - destruct l; cbn [fst snd]; (split; [now apply Keep | discriminate]).
  - cbn [fst snd]. split; [now apply Keep|]. destruct A as [-> _]. discriminate.
  - cbn [fst snd]. split; [now apply Keep | discriminate].
Qed.

Lemma columns_known (sort_values : list row -> list row) (df : table)
    (ev : event) (l : list row) (st : page_state) :
  (forall l, Permutation (sort_values l) l) ->
  identified df -> complete_cards df -> known_customers df st ->
  incl l (rows df) -> distinct_keys l -> l <> [] ->
  let run := columns sort_values df ev l st in
  known_customers df (fst run) /\
  snd run <> Raise IndexError /\
  forall v cust_df, snd run = Ok (WithDetail v cust_df) ->
    In cust_df (rows df) /\
    (forall id, selected_customer_id st = Some id -> customer_id cust_df = id) /\
    (selected_customer_id st = None ->
     exists top rest, sort_values l = top :: rest /\
                      customer_id cust_df = customer_id top).
Proof.
  intros Hsort Hid Hcards [J Jsel] Hin Hkeys Hne. cbv zeta.
  unfold columns. cbv zeta.
  set (c := match ev with Page c => c | ViewDetails _ => Paging.NoClick end).
  set (v := Paging.results_column (sort_values l) page_size (page_number st) c).
  assert (Hv : incl (Paging.current_page v) (rows df)).
  { intros x Hx. apply Hin. apply (Permutation_in x (Hsort l)).
    revert Hx. apply iloc_slice_incl. }
  assert (Ec : cards df [] (Paging.current_page v)
                 match ev with ViewDetails k => Some k | Page _ => None end
               = Ok match ev with
                    | ViewDetails k => nth_error (Paging.current_page v) k
                    | Page _ => None
                    end).
  { rewrite (cards_complete df _ _ Hcards Hv);
      [now destruct ev|].
    apply distinct_keys_slice. now apply distinct_keys_sorted. }
  rewrite Ec. cbn [on_ok].
  destruct (match ev with
            | Page _ => None
            | ViewDetails k => nth_error (Paging.current_page v) k
            end) as [customer|] eqn:Ev.
  - cbn [fst snd]. split; [|split; [discriminate | discriminate]].
    split; [exact J|]. cbn [selected_customer_id]. intros id [= <-].
    apply in_map. apply Hv. destruct ev as [|k]; [discriminate|].
    now apply nth_error_In in Ev.
  - set (st' := {| filters := filters st;
                   page_number := Some (Paging.page_stored v);
                   selected_customer_id := selected_customer_id st |}).
    assert (J' : known_customers df st') by (split; [exact J | exact Jsel]).
    destruct (Paging.page_stored v =? Paging.page_shown v)%Z;
      [|cbn [fst snd]; split; [exact J' | split; discriminate]].
    unfold detail_customer.
    destruct (selected_customer_id st) as [id|] eqn:Es.
    + cbn [bind].
      destruct (lookup_found customer_id df id (fun r Hr => proj1 (Hid r Hr))
                  (Jsel id eq_refl)) as [r [-> [Hr Er]]].
      cbn [on_ok fst snd]. split; [exact J' | split; [discriminate|]].
      intros v0 cust [= _ <-]. split; [exact Hr|]. split; [|discriminate].
      intros id' [= <-]. exact Er.
    + destruct (sort_values l) as [|top rest] eqn:El.
      { exfalso. apply Hne. apply Permutation_nil. rewrite <- El. apply Hsort. }
      cbn [bind].
      assert (Htop : In (customer_id top) (map customer_id (rows df))).
      { apply in_map. apply Hin. apply (Permutation_in top (Hsort l)).
        rewrite El. now left. }
      destruct (lookup_found customer_id df (customer_id top)
                  (fun r Hr => proj1 (Hid r Hr)) Htop) as [r [-> [Hr Er]]].
      cbn [on_ok fst snd]. split; [exact J' | split; [discriminate|]].
      intros v0 cust [= _ <-]. split; [exact Hr|]. split; [discriminate|].
      intros _. now exists top, rest.
Qed.

Lemma page_run_known (sort_values : list row -> list row) (df : table)
    (w : filter_widgets) (ev : event) (st : page_state) :
  (forall l, Permutation (sort_values l) l) ->
  identified df -> complete_cards df -> offered df w ->
  well_formed df st -> known_customers df st ->
  let run := page_run sort_values df w ev st in
  known_customers df (fst run) /\
  snd run <> Raise IndexError /\
  forall v cust_df, snd run = Ok (WithDetail v cust_df) ->
    In cust_df (rows df) /\
    forall id, selected_customer_id st = Some id -> customer_id cust_df = id.
Proof.
  intros Hsort Hid Hcards Hoff Wf J. cbv zeta. unfold page_run.
  destruct (filter_section_outcome df w st Wf) as [Wf1 [S1 O]].
  destruct (filter_section_known df w st Hid Hoff Wf J) as [J1 N1].
  cbv zeta in Wf1, S1, O, J1, N1.
  destruct (filter_section df w st) as [st1 r]. cbn [fst snd] in *.
  destruct r as [[| |l]|e|]; cbn [on_ok fst snd];
    try (split; [exact J1 | split; [|discriminate]];
         first [discriminate | intros [= ->]; now apply N1]).
  destruct O as [Hne [Hin [keep Ekeep]]].
  assert (Hkeys : distinct_keys l).
  { rewrite Ekeep. apply distinct_keys_filter. apply Hcards. }
  destruct (columns_known sort_values df ev l st1 Hsort Hid Hcards J1 Hin Hkeys Hne)
    as [J2 [N2 D2]]. cbv zeta in J2, N2, D2.
  split; [exact J2 | split; [exact N2|]].
  intros v cust E. destruct (D2 v cust E) as [D [D' _]].
  split; [exact D|]. rewrite <- S1. exact D'.
Qed.

Lemma reachable_known (sort_values : list row -> list row)
    (df : table) (st : page_state) :
  (forall l, Permutation (sort_values l) l) ->
  identified df -> complete_cards df ->
  reachable sort_values (offered df) df st ->
  well_formed df st /\ known_customers df st.
Proof.
  intros Hsort Hid Hcards R.
  split; [exact (reachable_well_formed sort_values _ df st Hsort R)|].
  induction R as [|st w ev R IH Hw|st applied R IH].
  - split; [split|]; cbn; discriminate.
  - apply page_run_known; auto.
    exact (reachable_well_formed sort_values _ df st Hsort R).
  - exact IH.
Qed.

(** X7.  A table that is complete.  When every customer of the table
    has an identifier, a name and a recency, no two customers get the
    same key for their button, the table has the recency and city
    columns, and the widgets return what they offer -- the two driver
    boxes one of their options, the sliders a pair within their two
    different bounds -- then in every state the session can reach a
    run of the page raises nothing but the [re.error] of a selected
    product name: with product names free of special characters every
    run completes.  The customer of the detail column is then a customer
    of the table, the one selected with "View Details" if there is
    one. *)
Theorem X7_identified_table_runs (sort_values : list row -> list row)
    (df : table) (st : page_state) (w : filter_widgets) (ev : event) :
  (forall l, Permutation (sort_values l) l) ->
  identified df -> complete_cards df ->
  reachable sort_values (offered df) df st ->
  offered df w ->
  match snd (page_run sort_values df w ev st) with
  | Ok (WithDetail v cust_df) =>
      In cust_df (rows df) /\
      forall id, selected_customer_id st = Some id -> customer_id cust_df = id
  | Ok _ => True
  | Raise e => e = ReError /\ forallb Re.plain (products_box w) = false
  | OutsideModel => forallb Re.plain (products_box w) = false
  end.
Proof.
  intros Hsort Hid Hcards R Hw.
  destruct (reachable_known sort_values df st Hsort Hid Hcards R) as [Wf J].
  destruct (page_run_well_formed sort_values df w ev st Hsort Wf) as [_ O].
  destruct (page_run_known sort_values df w ev st Hsort Hid Hcards Hw Wf J)
    as [_ [N D]]. cbv zeta in O, N, D.
  assert (Special : some_product_special (Some (products_box w)) ->
                    forallb Re.plain (products_box w) = false).
  { intros [ps [[= <-] Hps]]. exact Hps. }
  destruct (snd (page_run sort_values df w ev st)) as [[|v|v r]|e|];
    try exact I.
  - now apply (D v r).
  - destruct O as [O [Ore Osl]]. destruct Hcards as [Hd [Hc [Hall Hkeys]]].
    destruct O as [->|[->|[[-> _]|[[_ [H|H]]|[_ [r [Hr Er]]]]]]].
    + contradiction.
    + split; [reflexivity | now apply Special, Ore].
    + exfalso. destruct (Osl eq_refl) as [Q|Q]; [apply Q, Hw | now apply Q].
    + congruence.
    + congruence.
    + exfalso. exact (Hall r Hr Er).
  - destruct O as [O|O]; [now apply Special|].
    exfalso. apply O. apply Hw.
Qed.

(** After "View Details" on the second card, the card of the first
    customer, the detail column shows the first customer. *)
Lemma X7_identified_table_runs_witness :
  match snd (page_run sort_by_spent shop_table
               (widgets_with All All ["Soap"%string] false)
               (Page Paging.NoClick) details_selected) with
  | Ok (WithDetail v cust_df) =>
      In cust_df (rows shop_table) /\
      forall id, selected_customer_id details_selected = Some id ->
                 customer_id cust_df = id
  | Ok _ => True
  | Raise e =>
      e = ReError /\
      forallb Re.plain
        (products_box (widgets_with All All ["Soap"%string] false)) = false
  | OutsideModel =>
      forallb Re.plain
        (products_box (widgets_with All All ["Soap"%string] false)) = false
  end.
Proof.
  assert (Hs : forall id nm products apply,
             offered shop_table (widgets_with id nm products apply) <->
             (id = All \/ In id (map customer_id (rows shop_table))) /\
             (nm = All \/ In nm (map name (rows shop_table)))).
  { intros id nm products apply. unfold offered. cbn [customer_id_box name_box
      widgets_with]. split; [tauto|]. intros [H1 H2].
    split; [exact H1|]. split; [exact H2|]. split.
    - intros _. exists 25, 75. split; [reflexivity|].
      repeat split; discriminate.
    - exists 75, 250. split; [reflexivity|].
      repeat split; discriminate. }
  apply (X7_identified_table_runs sort_by_spent shop_table details_selected
           (widgets_with All All ["Soap"%string] false) (Page Paging.NoClick)).
  - exact sort_by_spent_perm.
  - intros r [<-|[<-|[<-|[]]]]; split; discriminate.
  - split; [reflexivity|]. split; [reflexivity|]. split.
    + intros r [<-|[<-|[<-|[]]]]; discriminate.
    + unfold distinct_keys. cbn. repeat constructor; cbn;
        intuition discriminate.
  - unfold details_selected, applied_state.
    apply reach_run; [apply reach_run; [apply reach_first_visit|]|];
      apply Hs; split; left; reflexivity.
  - apply Hs; split; left; reflexivity.
Defined.

(** ** A customer without a name *)

Lemma py_eq_nan (a : value) : py_eq a VNaN = false.
Proof. now destruct a. Qed.

(** X8.  A customer without a name blocks the page.  Once a name has
    been selected in the name box, selecting in the identifier box a
    customer whose name is missing stores the missing name and asks for
    a rerun; from then on every run of the page, whatever the widgets
    return, raises [IndexError] in the lookup of line 113 and leaves the
    session as it is -- "Reset Filters" is never reached. *)
Theorem X8_missing_name_blocks_page (sort_values : list row -> list row)
    (df : table) (st : page_state) (w : filter_widgets) (ev : event)
    (last : value) (customer_data : row) :
  last_selected_name (filters st) = Some last ->
  f_name (temp (filters st)) = Some last -> last <> VNaN ->
  get_ne (f_customer_id (temp (filters st))) (customer_id_box w) = true ->
  customer_id_box w <> All ->
  iloc0 (fun r => py_eq (customer_id r) (customer_id_box w)) df
  = Ok customer_data ->
  name customer_data = VNaN ->
  let blocked := fst (page_run sort_values df w ev st) in
  snd (page_run sort_values df w ev st) = Ok NoResults /\
  f_name (temp (filters blocked)) = Some VNaN /\
  forall w' ev',
    page_run sort_values df w' ev' blocked = (blocked, Raise IndexError).
Proof.
  intros Hl Hn Hlast Hne HAll Hrow Hnan. cbv zeta.
  assert (Hsel : py_ne (customer_id_box w) All = true).
  { unfold py_ne. destruct (py_eq (customer_id_box w) All) eqn:E; [|reflexivity].
    apply py_eq_true in E. contradiction. }
  assert (E1 : filter_section df w st
               = (with_filters
                    {| temp := copy_demographics df customer_data
                                 (set_name (name customer_data)
                                    (set_customer_id (customer_id_box w)
                                       (temp (filters st))));
                       last_selected_id := Some (customer_id_box w);
                       last_selected_name := last_selected_name (filters st);
                       filters_applied := filters_applied (filters st) |} st,
                  Ok Rerun)).
  { unfold filter_section, sync_id_from_name. rewrite Hl, Hn. cbn [get_ne].
    unfold py_ne at 1. rewrite (py_eq_refl last Hlast). cbn [negb on_ok].
    unfold customer_id_selected.
    rewrite Hne, Hsel, Hrow. cbn [bind on_ok fst snd]. now rewrite ?Hl. }
  unfold page_run. rewrite E1. cbn [on_ok fst snd].
  split; [reflexivity|].
  destruct (copy_demographics_keys df customer_data
              (set_name (name customer_data)
                 (set_customer_id (customer_id_box w) (temp (filters st)))))
    as [_ [C2 _]].
  cbn [f_name set_name] in C2. rewrite Hnan in C2.
  split; [cbn; rewrite Hnan; exact C2|].
  intros w' ev'. unfold filter_section, sync_id_from_name.
  cbn [filters with_filters last_selected_name temp].
  rewrite Hl, Hnan, C2. cbn [get_ne py_ne py_eq negb subscript bind].
  replace (py_ne VNaN last) with true by (now destruct last).
  destruct (iloc0_outcome (fun r => py_eq (name r) VNaN) df)
    as [[r [_ [_ T]]] | [-> _]]; [now rewrite py_eq_nan in T|].
  reflexivity.
Qed.

Lemma X8_missing_name_blocks_page_witness :
  let w := widgets_with (VInt 9) (VStr "Asha") [] false in
  let blocked := fst (page_run (fun l => l) table_with_unnamed w
                        (Page Paging.NoClick) asha_selected) in
  snd (page_run (fun l => l) table_with_unnamed w (Page Paging.NoClick)
         asha_selected) = Ok NoResults /\
  f_name (temp (filters blocked)) = Some VNaN /\
  forall w' ev',
    page_run (fun l => l) table_with_unnamed w' ev' blocked
    = (blocked, Raise IndexError).
Proof.
  apply (X8_missing_name_blocks_page (fun l => l) table_with_unnamed
           asha_selected (widgets_with (VInt 9) (VStr "Asha") [] false)
           (Page Paging.NoClick) (VStr "Asha") unnamed_customer).
  - reflexivity.
  - reflexivity.
  - discriminate.
  - reflexivity.
  - discriminate.
  - reflexivity.
  - reflexivity.
Defined.

(** ** The results follow the widgets *)

Lemma name_selected_no_rerun (df : table) (selected : value) (s s' : session) :
  name_selected df selected s = Ok (s', false) ->
  f_name (temp s') = Some selected.
Proof.
  unfold name_selected.
  destruct (get_ne (f_name (temp s)) selected) eqn:Eg.
  - destruct (py_ne selected All).
    + destruct (iloc0 _ df); cbn [bind]; discriminate.
    + intros [= <-]. reflexivity.
  - intros [= <-]. destruct (f_name (temp s)) as [a|]; [|discriminate].
    cbn [get_ne] in Eg. unfold py_ne in Eg. apply negb_false_iff in Eg.
    now rewrite (py_eq_true _ _ Eg).
Qed.

Lemma store_widgets_fields (df : table) (w : filter_widgets)
    (t t' : temp_filters) :
  snd (store_widgets df w t) = Ok t' ->
  f_name t' = f_name t /\
  f_gender t' = Some (gender_box w) /\
  (has_state df = true -> f_region t' = Some (region_box w)) /\
  (has_city_name df = true -> f_city t' = Some (city_box w)) /\
  f_products t' = Some (products_box w) /\
  (has_Similarity_Score df && has_valid_scores df = true ->
   f_similarity t' = Some (similarity_slider w)) /\
  f_spent t' = Some (spent_slider w).
Proof.
  unfold store_widgets.
  pose proof (slider_outcome (similarity_bounds df) (similarity_slider w)) as O1.
  pose proof (slider_outcome (spent_bounds df) (spent_slider w)) as O2.
  destruct (slider (spent_bounds df) (spent_slider w)) as [v2|e2|];
    [destruct O2 as [-> _]| |];
    (destruct (has_Similarity_Score df && has_valid_scores df);
     [destruct (slider (similarity_bounds df) (similarity_slider w))
        as [v1|e1|]; [destruct O1 as [-> _]| |]|]);
    cbn [bind fst snd]; try discriminate;
    intros [= <-];
    destruct (has_state df), (has_city_name df); cbn;
    repeat split; congruence.
Qed.

Lemma filter_section_shown (df : table) (w : filter_widgets) (st : page_state)
    (l : list row) :
  snd (filter_section df w st) = Ok (Shown l) ->
  exists t0 t, f_name t0 = Some (name_box w) /\
               snd (store_widgets df w t0) = Ok t /\
               apply_filters t df = Ok l.
Proof.
  unfold filter_section.
  destruct (sync_id_from_name df (filters st)) as [s1|e|]; cbn [on_ok snd];
    try discriminate.
  destruct (customer_id_selected df (customer_id_box w) s1) as [[s2 b2]|e|];
    cbn [on_ok fst snd]; try discriminate.
  destruct b2; [discriminate|].
  destruct (sync_name_from_id df s2) as [s3|e|]; cbn [on_ok snd];
    try discriminate.
  destruct (name_selected df (name_box w) s3) as [[s4 b4]|e|] eqn:E4;
    cbn [on_ok fst snd]; try discriminate.
  destruct b4; [discriminate|].
  destruct (snd (store_widgets df w (temp s4))) as [t|e|] eqn:Es;
    cbn [on_ok snd]; try discriminate.
  destruct (apply_clicked w); [discriminate|].
  destruct (reset_clicked w); [discriminate|].
  destruct (filters_applied s4); [|discriminate].
  destruct (apply_filters t df) as [out|e|] eqn:Ea;
    cbn [on_ok snd]; try discriminate.
  destruct out as [|r out]; [discriminate|]. intros [= <-].
  exists (temp s4), t.
  split; [now apply name_selected_no_rerun in E4 | split; [exact Es | exact Ea]].
Qed.

Lemma columns_view (sort_values : list row -> list row) (df : table)
    (ev : event) (l : list row) (st : page_state) (d : display) :
  snd (columns sort_values df ev l st) = Ok d ->
  exists v, view_of d = Some v /\
            incl (Paging.current_page v) (sort_values l).
Proof.
  unfold columns. cbv zeta.
  set (c := match ev with Page c => c | ViewDetails _ => Paging.NoClick end).
  set (v := Paging.results_column (sort_values l) page_size (page_number st) c).
  assert (Hv : incl (Paging.current_page v) (sort_values l))
    by apply iloc_slice_incl.
  destruct (cards df [] (Paging.current_page v)
              match ev with ViewDetails k => Some k | Page _ => None end)
    as [[customer|]|e|]; cbn [on_ok snd]; try discriminate.
  - intros [= <-]. now exists v.
  - destruct (Paging.page_stored v =? Paging.page_shown v)%Z.
    + destruct (detail_customer df (selected_customer_id st) (sort_values l));
        cbn [on_ok snd]; try discriminate.
      intros [= <-]. now exists v.
    + intros [= <-]. now exists v.
Qed.

(** X9.  The results follow the widgets.  Whenever a run displays a page
    of results, every row of that page meets what the widgets returned
    in this very run -- the name, gender, region and city boxes, the
    selected products when their names hold no special character, the
    similarity slider (against the float64 percentage of the score) and
    the spent slider: once the filters have been applied, a change of a
    widget changes the results without another click on "Apply
    Filters". *)
Theorem X9_results_follow_widgets (sort_values : list row -> list row)
    (df : table) (w : filter_widgets) (ev : event) (st : page_state)
    (d : display) (v : Paging.view row) (r : row) :
  (forall l, Permutation (sort_values l) l) ->
  snd (page_run sort_values df w ev st) = Ok d ->
  view_of d = Some v ->
  In r (Paging.current_page v) ->
  meets_widgets df w r.
Proof.
  intros Hsort E Hd Hr. unfold page_run in E.
  destruct (filter_section df w st) as [st1 o] eqn:Ef.
  destruct o as [[| |l]|e|]; cbn [on_ok snd] in E; try discriminate;
    try (injection E as <-; discriminate Hd).
  destruct (columns_view sort_values df ev l st1 d E) as [v' [Hv' Hin]].
  rewrite Hd in Hv'. injection Hv' as <-.
  assert (Hl : In r l).
  { apply (Permutation_in r (Hsort l)). now apply Hin. }
  destruct (filter_section_shown df w st l) as [t0 [t [Hn [Es Ea]]]];
    [now rewrite Ef|].
  destruct (apply_filters_keeps _ _ Ea) as [p [Ep ->]].
  apply filter_In in Hl. destruct Hl as [_ Hp].
  destruct (filters_test_sound _ _ _ Ep Hp) as [Sother Sall].
  destruct Sother as [_ [S2 [S3 [S4 [S5 [_ [S7 S8]]]]]]].
  cbn [without_products f_name f_gender f_region f_city f_similarity f_spent]
    in S2, S3, S4, S5, S7, S8.
  destruct (store_widgets_fields df w t0 t Es) as [W1 [W2 [W3 [W4 [W5 [W6 W7]]]]]].
  unfold meets_widgets. repeat split.
  - intros H. apply S2; [now rewrite W1|exact H].
  - intros H. now apply S3.
  - intros Hs Ht H. apply S4; auto.
  - intros Hs Ht H. apply S5; auto.
  - intros Hne Hplain.
    assert (Pl : plain_products t).
    { intros products K. rewrite W5 in K. now injection K as <-. }
    destruct (Sall Pl) as [_ [_ [_ [_ [_ [S6 _]]]]]]. now apply S6.
  - intros H. apply S7. rewrite (W6 H). now destruct (similarity_slider w).
  - apply S8. rewrite W7. now destruct (spent_slider w).
Qed.

(** With the filters applied and "Soap" selected, the second customer,
    who spent most, is the first on the page shown. *)
Lemma X9_results_follow_widgets_witness :
  meets_widgets shop_table (widgets_with All All ["Soap"%string] false)
    (visitor 2 "Ravi" "South" "Chennai" "Soap, Brush" (1 # 2) 250).
Proof.
  eapply (X9_results_follow_widgets sort_by_spent shop_table
            (widgets_with All All ["Soap"%string] false)
            (Page Paging.NoClick) applied_state).
  - exact sort_by_spent_perm.
  - vm_compute. reflexivity.
  - reflexivity.
  - cbn. left. reflexivity.
Defined.

(* ================================================================== *)
(** * Text operations: pieces, stripping, product options *)
(* ================================================================== *)

Lemma split_nonempty (sep : ascii) (s : string) : Text.split sep s <> [].
Proof.
  induction s as [|c s IH]; cbn [Text.split]; [discriminate|].
  destruct (Ascii.eqb c sep); [discriminate|].
  destruct (Text.split sep s); [contradiction | discriminate].
Qed.

Lemma split_head (sep : ascii) (s : string) :
  exists piece pieces b,
    Text.split sep s = piece :: pieces /\ s = (piece ++ b)%string.
Proof.
  induction s as [|c s IH]; cbn [Text.split].
  - now exists EmptyString, [], EmptyString.
  - destruct (Ascii.eqb c sep).
    + now exists EmptyString, (Text.split sep s), (String c s).
    + destruct IH as [piece [pieces [b [-> E]]]].
      exists (String c piece), pieces, b. split; [reflexivity|].
      cbn. now rewrite <- E.
Qed.

Lemma split_substring (sep : ascii) (s p : string) :
  In p (Text.split sep s) -> exists a b, s = (a ++ p ++ b)%string.
Proof.
  revert p. induction s as [|c s IH]; intros p; cbn [Text.split].
  - intros [<-|[]]. now exists EmptyString, EmptyString.
  - destruct (Ascii.eqb c sep).
    + intros [<-|H].
      * now exists EmptyString, (String c s).
      * destruct (IH p H) as [a [b ->]]. now exists (String c a), b.
    + destruct (split_head sep s) as [piece [pieces [b [E Es]]]].
      rewrite E in IH |- *. intros [<-|H].
      * exists EmptyString, b. cbn. now rewrite <- Es.
      * destruct (IH p (or_intror H)) as [a [b' ->]]. now exists (String c a), b'.
Qed.

Lemma has_char_app (c : ascii) (a b : string) :
  Text.has_char c (a ++ b) = Text.has_char c a || Text.has_char c b.
Proof.
  induction a as [|d a IH]; [reflexivity|]. cbn. now rewrite IH, orb_assoc.
Qed.

Lemma split_no_sep (sep : ascii) (s p : string) :
  In p (Text.split sep s) -> Text.has_char sep p = false.
Proof.
  revert p. induction s as [|c s IH]; intros p; cbn [Text.split].
  - now intros [<-|[]].
  - destruct (Ascii.eqb c sep) eqn:Ec.
    + intros [<-|H]; [reflexivity | now apply IH].
    + destruct (Text.split sep s) as [|piece pieces].
      * intros [<-|[]]. cbn. now rewrite Ec.
      * intros [<-|H].
        -- cbn. rewrite Ec. apply IH. now left.
        -- apply IH. now right.
Qed.

(** ** Stripping *)

Lemma lstrip_suffix (s : string) : exists a, s = (a ++ Text.lstrip s)%string.
Proof.
  induction s as [|c s [a IH]]; [now exists EmptyString|]. cbn [Text.lstrip].
  destruct (Text.is_space c).
  - exists (String c a). cbn. now rewrite <- IH.
  - now exists EmptyString.
Qed.

Lemma rstrip_prefix (s : string) : exists b, s = (Text.rstrip s ++ b)%string.
Proof.
  induction s as [|c s [b IH]]; [now exists EmptyString|]. cbn [Text.rstrip].
  destruct (Text.rstrip s) as [|d kept].
  - destruct (Text.is_space c).
    + now exists (String c s).
    + exists s. reflexivity.
  - exists b. cbn. cbn in IH. now rewrite <- IH.
Qed.

Lemma append_assoc (a b c : string) :
  ((a ++ b) ++ c = a ++ (b ++ c))%string.
Proof. induction a as [|x a IH]; [reflexivity|]. cbn. now rewrite IH. Qed.

Lemma strip_substring (s : string) :
  exists a b, s = (a ++ Text.strip s ++ b)%string.
Proof.
  destruct (lstrip_suffix s) as [a Ea].
  destruct (rstrip_prefix (Text.lstrip s)) as [b Eb].
  exists a, b. unfold Text.strip. now rewrite <- Eb.
Qed.

Lemma lstrip_head (s : string) (c : ascii) (r : string) :
  Text.lstrip s = String c r -> Text.is_space c = false.
Proof.
  induction s as [|d s IH]; [discriminate|]. cbn [Text.lstrip].
  destruct (Text.is_space d) eqn:Ed; [exact IH|]. now intros [= <- _].
Qed.

Lemma lstrip_fixed (c : ascii) (r : string) :
  Text.is_space c = false -> Text.lstrip (String c r) = String c r.
Proof. intros H. cbn. now rewrite H. Qed.

Lemma rstrip_head (c : ascii) (r : string) :
  Text.is_space c = false ->
  exists kept, Text.rstrip (String c r) = String c kept.
Proof.
  intros H. cbn [Text.rstrip]. destruct (Text.rstrip r).
  - rewrite H. now exists EmptyString.
  - now eexists.
Qed.

Lemma rstrip_idempotent (s : string) :
  Text.rstrip (Text.rstrip s) = Text.rstrip s.
Proof.
  induction s as [|c s IH]; [reflexivity|]. cbn [Text.rstrip].
  destruct (Text.rstrip s) as [|d kept] eqn:E.
  - destruct (Text.is_space c) eqn:Ec; [reflexivity|]. cbn. now rewrite Ec.
  - cbn [Text.rstrip]. cbn [Text.rstrip] in IH. now rewrite IH.
Qed.

Lemma strip_idempotent (s : string) : Text.strip (Text.strip s) = Text.strip s.
Proof.
  unfold Text.strip. destruct (Text.lstrip s) as [|c r] eqn:E; [reflexivity|].
  pose proof (lstrip_head s c r E) as Hc.
  destruct (rstrip_head c r Hc) as [kept Ek]. rewrite Ek.
  rewrite (lstrip_fixed c kept Hc), <- Ek. apply rstrip_idempotent.
Qed.

Lemma has_char_substring (c : ascii) (a p b : string) :
  Text.has_char c (a ++ p ++ b) = false -> Text.has_char c p = false.
Proof.
  rewrite !has_char_app. intros H.
  apply orb_false_iff in H. destruct H as [_ H].
  apply orb_false_iff in H. tauto.
Qed.

Lemma nonempty_true (s : string) : Text.nonempty s = true <-> s <> EmptyString.
Proof. destruct s; cbn; split; congruence. Qed.

(** The items of a cell: well formed, and parts of the cell. *)
Lemma items_spec (s p : string) :
  In p (Text.items s) ->
  p <> EmptyString /\ Text.strip p = p /\
  Text.has_char Text.comma p = false /\
  exists a b, s = (a ++ p ++ b)%string.
Proof.
  unfold Text.items. intros H. apply filter_In in H. destruct H as [H Hne].
  apply in_map_iff in H. destruct H as [piece [<- Hp]].
  split; [now apply nonempty_true|]. split; [apply strip_idempotent|].
  destruct (strip_substring piece) as [a [b E]].
  split.
  - apply (has_char_substring _ a _ b). rewrite <- E.
    now apply (split_no_sep Text.comma s).
  - destruct (split_substring _ _ _ Hp) as [a' [b' ->]].
    exists (a' ++ a)%string, (b ++ b')%string.
    rewrite E at 1. now rewrite !append_assoc.
Qed.

(** ** Sorted sets of strings *)

Lemma insert_unique_In (p : string) (l : list string) (x : string) :
  In x (Text.insert_unique p l) <-> x = p \/ In x l.
Proof.
  induction l as [|q l IH]; cbn [Text.insert_unique].
  - cbn. intuition congruence.
  - destruct (OrderedTypeEx.String_as_OT.cmp p q) eqn:E.
    + apply OrderedTypeEx.String_as_OT.cmp_eq in E. subst q. cbn. intuition.
    + cbn. intuition congruence.
    + cbn [In]. rewrite IH. intuition.
Qed.

Lemma sorted_set_In (l : list string) (x : string) :
  In x (Text.sorted_set l) <-> In x l.
Proof.
  induction l as [|p l IH]; [reflexivity|].
  cbn [Text.sorted_set fold_right]. fold (Text.sorted_set l).
  rewrite insert_unique_In, IH. cbn. intuition congruence.
Qed.

Lemma insert_unique_sorted (p : string) (l : list string) :
  Sorted.StronglySorted OrderedTypeEx.String_as_OT.lt l ->
  Sorted.StronglySorted OrderedTypeEx.String_as_OT.lt (Text.insert_unique p l).
Proof.
  induction 1 as [|q l Hs IH Hall]; cbn [Text.insert_unique].
  - constructor; constructor.
  - destruct (OrderedTypeEx.String_as_OT.cmp p q) eqn:E.
    + now constructor.
    + apply OrderedTypeEx.String_as_OT.cmp_lt in E.
      constructor; [now constructor|]. constructor; [exact E|].
      rewrite Forall_forall in Hall |- *. intros y Hy.
      exact (OrderedTypeEx.String_as_OT.lt_trans _ _ _ E (Hall y Hy)).
    + constructor; [exact IH|].
      rewrite Forall_forall in Hall |- *. intros y Hy.
      apply insert_unique_In in Hy. destruct Hy as [->|Hy]; [|now apply Hall].
      apply OrderedTypeEx.String_as_OT.cmp_lt.
      rewrite OrderedTypeEx.String_as_OT.cmp_antisym, E. reflexivity.
Qed.

Lemma sorted_set_sorted (l : list string) :
  Sorted.StronglySorted OrderedTypeEx.String_as_OT.lt (Text.sorted_set l).
Proof.
  induction l as [|p l IH]; [constructor|].
  cbn [Text.sorted_set fold_right]. now apply insert_unique_sorted.
Qed.

(** ** The options of the product filter *)

Lemma product_options_In (df : Predicted.table) (p : string) :
  In p (Offers.product_options df) <->
  exists r s, In r (Predicted.rows df) /\
              Predicted.purchased_products_names r = Some s /\
              In p (Text.items s).
Proof.
  unfold Offers.product_options. rewrite sorted_set_In, in_flat_map. split.
  - intros [cell [Hc Hp]]. apply in_map_iff in Hc. destruct Hc as [r [<- Hr]].
    destruct (Predicted.purchased_products_names r) as [s|] eqn:E; [|contradiction].
    now exists r, s.
  - intros [r [s [Hr [E Hp]]]]. exists (Some s). split; [|exact Hp].
    rewrite <- E. now apply in_map.
Qed.

(** X10.  The options of the product filter.  The multiselect offers
    exactly the items of the product cells of the table -- the pieces
    between commas, stripped, the blank ones left out -- each once and
    in ascending order. *)
Theorem X10_product_options (df : Predicted.table) :
  Sorted.StronglySorted OrderedTypeEx.String_as_OT.lt (Offers.product_options df) /\
  NoDup (Offers.product_options df) /\
  forall p, In p (Offers.product_options df) <->
    exists r s, In r (Predicted.rows df) /\
                Predicted.purchased_products_names r = Some s /\
                exists piece, In piece (Text.split Text.comma s) /\
                              Text.strip piece = p /\ p <> EmptyString.
Proof.
  assert (S : Sorted.StronglySorted OrderedTypeEx.String_as_OT.lt
                (Offers.product_options df)) by apply sorted_set_sorted.
  split; [exact S|]. split.
  - induction S as [|q l Hs IH Hall]; constructor; [|exact IH].
    intros Hq. rewrite Forall_forall in Hall.
    apply (OrderedTypeEx.String_as_OT.lt_not_eq _ _ (Hall q Hq)). reflexivity.
  - intros p. rewrite product_options_In. split.
    + intros [r [s [Hr [E Hp]]]]. exists r, s. split; [exact Hr|].
      split; [exact E|]. unfold Text.items in Hp. apply filter_In in Hp.
      destruct Hp as [Hp Hne]. apply in_map_iff in Hp.
      destruct Hp as [piece [Ep Hpiece]]. exists piece.
      split; [exact Hpiece|]. split; [exact Ep|]. now apply nonempty_true.
    + intros [r [s [Hr [E [piece [Hpiece [Ep Hne]]]]]]]. exists r, s.
      split; [exact Hr|]. split; [exact E|]. unfold Text.items.
      apply filter_In. split; [|now apply nonempty_true].
      apply in_map_iff. now exists piece.
Qed.

Lemma lower_app (a b : string) :
  Str.lower (a ++ b) = (Str.lower a ++ Str.lower b)%string.
Proof. induction a as [|c a IH]; [reflexivity|]. cbn. now rewrite IH. Qed.

(** X11.  An option selects the customers that offered it.  Every
    option of the product multiselect is a non-empty text without comma
    and without surrounding white space; when it has no special
    character, selecting it alone raises nothing and keeps every
    customer whose product cell holds it as an item, so the product
    filter alone never empties the results. *)
Theorem X11_option_selects_its_customers (df : Predicted.table) (p : string) :
  In p (Offers.product_options df) ->
  p <> EmptyString /\ Text.strip p = p /\
  Text.has_char Text.comma p = false /\
  (Re.plain p = true ->
   exists out,
     Predicted.products_filter (Some [p]) (Predicted.rows df) = Ok out /\
     out <> [] /\
     forall r s, In r (Predicted.rows df) ->
       Predicted.purchased_products_names r = Some s ->
       In p (Text.items s) -> In r out).
Proof.
  intros Hp. apply product_options_In in Hp.
  destruct Hp as [r0 [s0 [Hr0 [E0 Hi0]]]].
  destruct (items_spec s0 p Hi0) as [Hne [Hs [Hc _]]].
  split; [exact Hne|]. split; [exact Hs|]. split; [exact Hc|].
  intros Hplain.
  assert (Hpl : forallb Re.plain [p] = true) by (cbn; now rewrite Hplain).
  assert (Hkeep : forall out r s,
             Predicted.products_filter (Some [p]) (Predicted.rows df) = Ok out ->
             In r (Predicted.rows df) ->
             Predicted.purchased_products_names r = Some s ->
             In p (Text.items s) -> In r out).
  { intros out r s Eo Hr E Hi.
    destruct (@products_filter_plain [p] (Predicted.rows df) r
                ltac:(discriminate) Hpl) as [out' [Eo' Hiff]].
    rewrite Eo in Eo'. injection Eo' as <-. apply Hiff.
    split; [exact Hr|]. exists p, s. split; [now left|]. split; [exact E|].
    destruct (items_spec s p Hi) as [_ [_ [_ [a [b ->]]]]].
    exists (Str.lower a), (Str.lower b). now rewrite !lower_app. }
  destruct (@products_filter_plain [p] (Predicted.rows df) r0
              ltac:(discriminate) Hpl) as [out [Eo _]].
  exists out. split; [exact Eo|]. split.
  - intros ->. exact (Hkeep [] r0 s0 Eo Hr0 E0 Hi0).
  - intros r s. now apply Hkeep.
Qed.

Lemma X11_option_selects_its_customers_witness :
  "Soap"%string <> EmptyString /\ Text.strip "Soap" = "Soap"%string /\
  Text.has_char Text.comma "Soap" = false /\
  (Re.plain "Soap" = true ->
   exists out,
     Predicted.products_filter (Some ["Soap"%string])
       (Predicted.rows sample_table) = Ok out /\
     out <> [] /\
     forall r s, In r (Predicted.rows sample_table) ->
       Predicted.purchased_products_names r = Some s ->
       In "Soap"%string (Text.items s) -> In r out).
Proof.
  apply (X11_option_selects_its_customers sample_table "Soap").
  vm_compute. left. reflexivity.
Defined.

(** ** The offer message *)

Lemma split_head_no_sep (sep : ascii) (s : string) :
  exists line rest b,
    Text.split sep s = line :: rest /\ s = (line ++ b)%string /\
    Text.has_char sep line = false.
Proof.
  destruct (split_head sep s) as [line [rest [b [E Es]]]].
  exists line, rest, b. split; [exact E|]. split; [exact Es|].
  apply (split_no_sep sep s). rewrite E. now left.
Qed.

Lemma strip_head (s : string) (c : ascii) (r : string) :
  Text.strip s = String c r -> Text.is_space c = false.
Proof.
  unfold Text.strip. destruct (Text.lstrip s) as [|d k] eqn:E; [discriminate|].
  pose proof (lstrip_head s d k E) as Hd.
  destruct (rstrip_head d k Hd) as [kept ->]. now intros [= <- _].
Qed.

(** X12.  The offer message.  [generate_offer_message] fails only when
    the model could not be started; otherwise it returns the first line
    of the stripped output: a text without line feed that does not
    start with white space, and that is empty only when the whole
    output is blank. *)
Theorem X12_offer_message_first_line (run : result Predicted.completed_process) :
  match Offers.generate_offer_message run with
  | Ok line =>
      exists result rest,
        run = Ok result /\
        Text.strip (Predicted.stdout result) = (line ++ rest)%string /\
        Text.has_char Text.newline line = false /\
        Text.lstrip line = line /\
        (line = EmptyString -> Text.strip (Predicted.stdout result) = EmptyString)
  | Raise e => run = Raise e
  | OutsideModel => run = OutsideModel
  end.
Proof.
  destruct run as [result|e|]; cbn [Offers.generate_offer_message bind];
    try reflexivity.
  destruct (split_head_no_sep Text.newline (Text.strip (Predicted.stdout result)))
    as [line [pieces [b [E [Es Hn]]]]].
  rewrite E. exists result, b. split; [reflexivity|]. split; [exact Es|].
  split; [exact Hn|]. split.
  - destruct line as [|c k]; [reflexivity|]. apply lstrip_fixed.
    rewrite Es in *. cbn in Es. now apply (strip_head _ _ _ Es).
  - intros ->. cbn in Es. rewrite Es.
    destruct b as [|c k]; [reflexivity|]. exfalso.
    pose proof (strip_head _ _ _ Es) as Hc.
    assert (Hsep : c = Text.newline).
    { rewrite Es in E. cbn [Text.split] in E.
      destruct (Ascii.eqb c Text.newline) eqn:Ec; [now apply Ascii.eqb_eq|].
      destruct (Text.split Text.newline k); discriminate. }
    subst c. discriminate Hc.
Qed.

(** ** The product of the offer and the cart *)

Lemma listed_missing : Offers.listed None = ["nan"%string].
Proof. reflexivity. Qed.

(** X21.  The product of the offer.  Whatever [random.choice] picks,
    the product chosen for a customer is an item of the same-category
    recommendations when there is one, else of the other-category
    ones: a non-empty text without surrounding white space.  None is
    chosen only when both cells hold text without any item; a missing
    cell reads "nan", so that a customer without same-category
    recommendations is offered the product "nan". *)
Theorem X21_offer_product (choice : list string -> string)
    (same_category other_categories : option string) :
  (forall l, l <> [] -> In (choice l) l) ->
  match Offers.offer_product choice None same_category other_categories with
  | Some product =>
      product <> EmptyString /\ Text.strip product = product /\
      (In product (Offers.listed same_category) \/
       (Offers.listed same_category = [] /\
        In product (Offers.listed other_categories)))
  | None =>
      Offers.listed same_category = [] /\ Offers.listed other_categories = [] /\
      same_category <> None /\ other_categories <> None
  end /\
  (same_category = None ->
   Offers.offer_product choice None same_category other_categories
   = Some "nan"%string).
Proof.
  intros Hc. split.
  - unfold Offers.offer_product.
    destruct (Offers.listed same_category) as [|a l] eqn:Es.
    + destruct (Offers.listed other_categories) as [|b k] eqn:Eo.
      * repeat split; try reflexivity.
        -- intros ->. discriminate Es.
        -- intros ->. discriminate Eo.
      * rewrite <- Eo.
        assert (Hin : In (choice (Offers.listed other_categories))
                         (Offers.listed other_categories))
          by (apply Hc; rewrite Eo; discriminate).
        destruct (items_spec _ _ Hin) as [H1 [H2 _]].
        split; [exact H1|]. split; [exact H2|]. right. now split.
    + rewrite <- Es.
      assert (Hin : In (choice (Offers.listed same_category))
                       (Offers.listed same_category))
        by (apply Hc; rewrite Es; discriminate).
      destruct (items_spec _ _ Hin) as [H1 [H2 _]].
      split; [exact H1|]. split; [exact H2|]. now left.
  - intros ->. unfold Offers.offer_product. rewrite listed_missing.
    assert (Hin : In (choice ["nan"%string]) ["nan"%string])
      by (apply Hc; discriminate).
    destruct Hin as [<-|[]]. reflexivity.
Qed.

Lemma X21_offer_product_witness :
  match Offers.offer_product (hd EmptyString) None (Some "Soap, Towel"%string)
          None with
  | Some product =>
      product <> EmptyString /\ Text.strip product = product /\
      (In product (Offers.listed (Some "Soap, Towel"%string)) \/
       (Offers.listed (Some "Soap, Towel"%string) = [] /\
        In product (Offers.listed None)))
  | None =>
      Offers.listed (Some "Soap, Towel"%string) = [] /\ Offers.listed None = [] /\
      Some "Soap, Towel"%string <> None /\ @None string <> None
  end /\
  (Some "Soap, Towel"%string = None ->
   Offers.offer_product (hd EmptyString) None (Some "Soap, Towel"%string) None
   = Some "nan"%string).
Proof.
  apply (X21_offer_product (hd EmptyString) (Some "Soap, Towel"%string) None).
  intros [|a l] H; [congruence | now left].
Defined.

Lemma unquote_clean (c : ascii) (s : string) :
  Text.is_bracket_or_quote c = true -> Text.has_char c (Text.unquote s) = false.
Proof.
  intros Hc. induction s as [|d s IH]; [reflexivity|]. cbn [Text.unquote].
  destruct (Text.is_bracket_or_quote d) eqn:Ed; [exact IH|].
  cbn [Text.has_char]. rewrite IH, orb_false_r.
  destruct (Ascii.eqb d c) eqn:E; [|reflexivity].
  apply Ascii.eqb_eq in E. congruence.
Qed.

(** X22.  The items of the cart.  No item of the cart holds a bracket
    or a quote; the cart has at most as many items as the cell lists,
    and none for a missing cell (which, read as a list of products,
    gives the one item "nan").  An item is empty exactly when a listed
    piece other than "nan" consists of brackets and quotes only -- the
    text of an empty list counts as one item. *)
Theorem X22_cart_items (cell : option string) :
  (forall item c, In item (Offers.cart cell) ->
     Text.is_bracket_or_quote c = true -> Text.has_char c item = false) /\
  (List.length (Offers.cart cell) <= List.length (Offers.listed cell))%nat /\
  (Offers.cart None = [] /\ Offers.listed None = ["nan"%string]) /\
  (In EmptyString (Offers.cart cell) <->
   exists p, In p (Offers.listed cell) /\
             String.eqb (Str.lower p) "nan" = false /\
             Text.unquote p = EmptyString).
Proof.
  unfold Offers.cart, Text.cart_items, Offers.listed, Text.items.
  set (pieces := map Text.strip (Text.split Text.comma (Text.str cell))).
  split; [|split; [|split]].
  - intros item c Hi Hc. apply in_map_iff in Hi. destruct Hi as [p [<- _]].
    now apply unquote_clean.
  - rewrite length_map. clear. induction pieces as [|p l IH]; [apply Nat.le_refl|].
    cbn [filter]. destruct (Text.nonempty p); cbn [andb].
    + destruct (negb _); cbn [List.length]; lia.
    + cbn [List.length]. exact IH.
  - split; reflexivity.
  - rewrite in_map_iff. split.
    + intros [p [Eu Hp]]. apply filter_In in Hp. destruct Hp as [Hp T].
      apply andb_true_iff in T. destruct T as [T1 T2].
      exists p. split; [apply filter_In; now split|].
      split; [now apply negb_true_iff in T2 | exact Eu].
    + intros [p [Hp [Hn Eu]]]. apply filter_In in Hp. destruct Hp as [Hp T].
      exists p. split; [exact Eu|]. apply filter_In. split; [exact Hp|].
      now rewrite T, Hn.
Qed.

(** ** The panels of the detail column *)

Lemma classify_nonempty (response : string) :
  Predicted.classify response <> EmptyString.
Proof.
  unfold Predicted.classify.
  destruct (find (fun p => Str.icontains p response) Predicted.personas) as [p|] eqn:E;
    [|discriminate].
  apply find_some in E. destruct E as [Hin _]. unfold Predicted.personas in Hin.
  cbn [In] in Hin. intuition (subst; discriminate).
Qed.

Lemma set_key_other {A : Type} (key k : string) (v : A)
    (m : string -> option A) :
  k <> key -> Offers.set_key key v m k = m k.
Proof.
  intros H. unfold Offers.set_key. apply String.eqb_neq in H. now rewrite H.
Qed.

Lemma set_key_same {A : Type} (key : string) (v : A) (m : string -> option A) :
  Offers.set_key key v m key = Some v.
Proof. unfold Offers.set_key. now rewrite String.eqb_refl. Qed.

Lemma generate_offer_message_returns (r : Predicted.completed_process) :
  exists line, Offers.generate_offer_message (Ok r) = Ok line.
Proof.
  unfold Offers.generate_offer_message. cbn [bind].
  destruct (split_head Text.newline (Text.strip (Predicted.stdout r)))
    as [line [rest [b [-> _]]]].
  now exists line.
Qed.

(** X25.  The persona is shared, the offers are not.  After "Analyze"
    and then "Generate" for one customer, the panels of another
    customer show the persona of the first one -- the session holds one
    persona for all customers -- but the offer that was stored for the
    second customer before, if any: the generated offer is kept under
    the first customer's key. *)
Theorem X25_persona_is_shared (choice : list string -> string)
    (format : value -> string) (first second : Predicted.row)
    (same1 other1 same2 other2 : option string)
    (persona_out offer_out : Predicted.completed_process)
    (r1 r2 r3 r4 : result Predicted.completed_process) (st : Offers.panels) :
  format (Predicted.customer_id first) <> format (Predicted.customer_id second) ->
  let analyzed := fst (Offers.detail_panels choice format first same1 other1
                         true false (Ok persona_out) r1 st) in
  let generated := fst (Offers.detail_panels choice format first same1 other1
                          false true r2 (Ok offer_out) analyzed) in
  let run := Offers.detail_panels choice format second same2 other2
               false false r3 r4 generated in
  (exists product send,
     snd run = Ok (Offers.Panels
                     (Some (Predicted.classify (Predicted.stdout persona_out)))
                     product
                     (Offers.if_truthy
                        (Offers.offers st (format (Predicted.customer_id second))))
                     send)) /\
  (exists message,
     Offers.generate_offer_message (Ok offer_out) = Ok message /\
     Offers.offers (fst run) (format (Predicted.customer_id first)) = Some message) /\
  Offers.offers (fst run) (format (Predicted.customer_id second))
  = Offers.offers st (format (Predicted.customer_id second)).
Proof.
  intros Hne. cbv zeta.
  destruct (generate_offer_message_returns offer_out) as [message Em].
  assert (Ek : forall m : string -> option string,
             Offers.set_key (format (Predicted.customer_id first)) message m
               (format (Predicted.customer_id second))
             = m (format (Predicted.customer_id second))).
  { intros m. apply set_key_other. congruence. }
  assert (E1 : fst (Offers.detail_panels choice format first same1 other1
                      true false (Ok persona_out) r1 st)
               = {| Offers.persona :=
                      Some (Predicted.classify (Predicted.stdout persona_out));
                    Offers.products := Offers.products st;
                    Offers.offers := Offers.offers st |}) by reflexivity.
  rewrite E1. clear E1.
  set (analyzed := {| Offers.persona :=
                        Some (Predicted.classify (Predicted.stdout persona_out));
                      Offers.products := Offers.products st;
                      Offers.offers := Offers.offers st |}).
  assert (E2 : exists products,
             fst (Offers.detail_panels choice format first same1 other1
                    false true r2 (Ok offer_out) analyzed)
             = {| Offers.persona :=
                    Some (Predicted.classify (Predicted.stdout persona_out));
                  Offers.products := products;
                  Offers.offers :=
                    Offers.set_key (format (Predicted.customer_id first)) message
                      (Offers.offers st) |}).
  { unfold Offers.detail_panels. cbv zeta. rewrite Em. cbn [fst].
    eexists. reflexivity. }
  destruct E2 as [products E2]. rewrite E2. clear E2.
  unfold Offers.detail_panels. cbv zeta.
  cbn [fst snd Offers.persona Offers.products Offers.offers].
  rewrite !Ek.
  split; [|split].
  - do 2 eexists. f_equal. f_equal.
    pose proof (classify_nonempty (Predicted.stdout persona_out)) as Hc.
    cbn [Offers.if_truthy].
    destruct (Predicted.classify (Predicted.stdout persona_out));
      [congruence | reflexivity].
  - exists message. split; [exact Em|]. apply set_key_same.
  - reflexivity.
Qed.

Lemma X25_persona_is_shared_witness :
  let first := customer 1 "Asha" "F" "West" "Pune" 100 in
  let second := customer 2 "Ravi" "M" "South" "Chennai" 250 in
  let persona_out := {| Predicted.stdout := "Champions"%string;
                        Predicted.returncode := 0%Z |} in
  let offer_out := {| Predicted.stdout := "Buy Soap now"%string;
                      Predicted.returncode := 0%Z |} in
  let analyzed := fst (Offers.detail_panels (hd EmptyString) sample_format first
                         None None true false (Ok persona_out)
                         (Raise OSError) no_panels) in
  let generated := fst (Offers.detail_panels (hd EmptyString) sample_format first
                          None None false true (Raise OSError) (Ok offer_out)
                          analyzed) in
  let run := Offers.detail_panels (hd EmptyString) sample_format second
               None None false false (Raise OSError) (Raise OSError) generated in
  (exists product send,
     snd run = Ok (Offers.Panels
                     (Some (Predicted.classify (Predicted.stdout persona_out)))
                     product
                     (Offers.if_truthy
                        (Offers.offers no_panels
                           (sample_format (Predicted.customer_id second))))
                     send)) /\
  (exists message,
     Offers.generate_offer_message (Ok offer_out) = Ok message /\
     Offers.offers (fst run) (sample_format (Predicted.customer_id first))
     = Some message) /\
  Offers.offers (fst run) (sample_format (Predicted.customer_id second))
  = Offers.offers no_panels (sample_format (Predicted.customer_id second)).
Proof.
  apply (X25_persona_is_shared (hd EmptyString) sample_format
           (customer 1 "Asha" "F" "West" "Pune" 100)
           (customer 2 "Ravi" "M" "South" "Chennai" 250)
           None None None None
           {| Predicted.stdout := "Champions"%string; Predicted.returncode := 0%Z |}
           {| Predicted.stdout := "Buy Soap now"%string; Predicted.returncode := 0%Z |}
           (Raise OSError) (Raise OSError) (Raise OSError) (Raise OSError)
           no_panels).
  discriminate.
Defined.

(* ================================================================== *)
(** * The insights page: merge, summary, priority groups *)
(* ================================================================== *)

(** ** Left merges *)

Lemma map_const_repeat {A B : Type} (c : B) (l : list A) :
  map (fun _ => c) l = repeat c (List.length l).
Proof. induction l as [|a l IH]; [reflexivity|]. cbn. now rewrite IH. Qed.

Lemma flat_map_step {A B : Type} (f : A -> list B) (a : A) (l : list A) :
  flat_map f (a :: l) = f a ++ flat_map f l.
Proof. reflexivity. Qed.

Lemma left_merge_rows {L R X : Type} (f : L -> X) (key : X -> Py.value)
    (right_key : R -> Py.value) (left : list L) (right : list R) :
  map (fun m => f (fst m))
      (InsightsPage.left_merge (fun l => key (f l)) right_key left right)
  = flat_map (fun x => repeat x (copies right_key right (key x))) (map f left).
Proof.
  unfold InsightsPage.left_merge.
  induction left as [|l left IH]; [reflexivity|].
  rewrite map_cons, !flat_map_step, map_app, IH. f_equal.
  unfold copies.
  destruct (filter (fun r => InsightsPage.key_eq (key (f l)) (right_key r)) right)
    as [|r ms]; [reflexivity|].
  rewrite map_map. cbn [fst].
  rewrite (map_const_repeat (f l) (r :: ms)). cbn [List.length].
  now rewrite Nat.max_r by lia.
Qed.

Lemma key_eq_true (a b : Py.value) : InsightsPage.key_eq a b = true <-> a = b.
Proof.
  destruct a as [|s|z], b as [|t|y]; cbn; split; try congruence;
    try discriminate.
  - intros H. apply String.eqb_eq in H. now subst.
  - intros [= ->]. apply String.eqb_refl.
  - intros H. apply Z.eqb_eq in H. now subst.
  - intros [= ->]. apply Z.eqb_refl.
Qed.

Lemma drop_duplicates_from_matches {R : Type} (right_key : R -> Py.value)
    (key : Py.value) (seen : list Py.value) (right : list R) :
  let kept := filter (fun r => InsightsPage.key_eq key (right_key r))
                (InsightsPage.drop_duplicates_from right_key seen right) in
  (List.length kept <= 1)%nat /\ (In key seen -> kept = []).
Proof.
  cbv zeta. revert seen. induction right as [|r rest IH]; intros seen.
  - cbn. split; [lia | reflexivity].
  - cbn [InsightsPage.drop_duplicates_from].
    destruct (existsb (InsightsPage.key_eq (right_key r)) seen) eqn:E;
      [apply IH|].
    cbn [filter].
    destruct (IH (right_key r :: seen)) as [IH1 IH2].
    destruct (InsightsPage.key_eq key (right_key r)) eqn:Ek.
    + apply key_eq_true in Ek. subst key. rewrite IH2 by now left.
      split; [cbn; lia|]. intros Hin. exfalso.
      assert (Hex : existsb (InsightsPage.key_eq (right_key r)) seen = true).
      { apply existsb_exists. exists (right_key r). split; [exact Hin|].
        now apply key_eq_true. }
      congruence.
    + split; [exact IH1|]. intros Hin. apply IH2. now right.
Qed.

Lemma copies_drop_duplicates {R : Type} (right_key : R -> Py.value)
    (right : list R) (key : Py.value) :
  copies right_key (InsightsPage.drop_duplicates right_key right) key = 1%nat.
Proof.
  unfold copies, InsightsPage.drop_duplicates.
  destruct (drop_duplicates_from_matches right_key key [] right) as [H _].
  cbv zeta in H. lia.
Qed.

Lemma flat_map_repeat_one {A : Type} (l : list A) :
  flat_map (fun x => repeat x 1) l = l.
Proof.
  induction l as [|a l IH]; [reflexivity|]. rewrite flat_map_step, IH.
  reflexivity.
Qed.

Lemma flat_map_repeat_twice {A : Type} (m n : A -> nat) (l : list A) :
  flat_map (fun x => repeat x (n x)) (flat_map (fun x => repeat x (m x)) l)
  = flat_map (fun x => repeat x (m x * n x)) l.
Proof.
  induction l as [|a l IH]; [reflexivity|].
  rewrite !flat_map_step, flat_map_app, IH. f_equal.
  induction (m a) as [|k IHk]; [reflexivity|].
  cbn [repeat Nat.mul]. rewrite flat_map_step, IHk, repeat_app. reflexivity.
Qed.

Lemma flat_map_repeat_length {A : Type} (m : A -> nat) (l : list A) :
  (forall x, 1 <= m x)%nat ->
  (List.length l <= List.length (flat_map (fun x => repeat x (m x)) l))%nat.
Proof.
  intros Hm. induction l as [|a l IH]; [cbn; lia|].
  rewrite flat_map_step, length_app, repeat_length. cbn [List.length].
  specialize (Hm a). lia.
Qed.

(** X13.  What the merge does to the predictions.  [merge_customer_data]
    keeps the prediction rows in their order; the purchases, reduced to
    one row per customer, never repeat a prediction, but the RFM table
    and the category features repeat it once for each of their rows
    with the customer's identifier.  No prediction is lost, and the
    merged table has as many rows as the predictions exactly when those
    products of copies are all 1. *)
Theorem X13_merge_keeps_predictions {Purchase Rfm Features : Type}
    (purchase_id : Purchase -> Py.value) (rfm_id : Rfm -> Py.value)
    (features_id : Features -> Py.value)
    (predictions : list Insights.preprocessed)
    (customer_purchases : list Purchase) (customer_rfm : list Rfm)
    (customer_category_features : list Features) :
  let merged := InsightsPage.merge_customer_data purchase_id rfm_id features_id
                  predictions customer_purchases customer_rfm
                  customer_category_features in
  let id p := Insights.customer_id (Insights.pred p) in
  map InsightsPage.prediction_of merged
  = flat_map (fun p => repeat p (copies rfm_id customer_rfm (id p) *
                                 copies features_id customer_category_features (id p)))
      predictions /\
  (List.length predictions <= List.length merged)%nat.
Proof.
  cbv zeta.
  assert (E : map InsightsPage.prediction_of
                (InsightsPage.merge_customer_data purchase_id rfm_id features_id
                   predictions customer_purchases customer_rfm
                   customer_category_features)
              = flat_map
                  (fun p => repeat p
                     (copies rfm_id customer_rfm
                        (Insights.customer_id (Insights.pred p)) *
                      copies features_id customer_category_features
                        (Insights.customer_id (Insights.pred p))))
                  predictions).
  { unfold InsightsPage.merge_customer_data. cbv zeta.
    set (id := fun p => Insights.customer_id (Insights.pred p)).
    set (m1 := InsightsPage.left_merge _ purchase_id predictions _).
    set (m2 := InsightsPage.left_merge _ rfm_id m1 _).
    assert (E1 : map fst m1 = predictions).
    { pose proof (left_merge_rows (fun p : Insights.preprocessed => p) id
                    purchase_id predictions
                    (InsightsPage.drop_duplicates purchase_id customer_purchases))
        as H.
      rewrite map_id in H.
      rewrite (flat_map_ext _ (fun x => repeat x 1)), flat_map_repeat_one in H
        by (intros p; now rewrite copies_drop_duplicates).
      exact H. }
    assert (E2 : map (fun m : Insights.preprocessed * option Purchase
                              * option Rfm => fst (fst m)) m2
                 = flat_map (fun x => repeat x (copies rfm_id customer_rfm (id x)))
                     (map fst m1))
      by exact (left_merge_rows fst id rfm_id m1 customer_rfm).
    assert (E3 : map InsightsPage.prediction_of
                   (InsightsPage.left_merge
                      (fun m : Insights.preprocessed * option Purchase
                               * option Rfm => id (fst (fst m)))
                      features_id m2 customer_category_features)
                 = flat_map (fun x => repeat x
                               (copies features_id customer_category_features (id x)))
                     (map (fun m : Insights.preprocessed * option Purchase
                                   * option Rfm => fst (fst m)) m2))
      by exact (left_merge_rows (fun m => fst (fst m)) id features_id m2
                  customer_category_features).
    etransitivity; [exact E3|]. rewrite E2, E1. apply flat_map_repeat_twice. }
  split; [exact E|].
  rewrite <- (length_map InsightsPage.prediction_of), E.
  apply flat_map_repeat_length. intros p. unfold copies. nia.
Qed.

(** ** The filter summary *)

Lemma nodup_length_le {A : Type} (dec : forall a b : A, {a = b} + {a <> b})
    (l : list A) :
  (List.length (nodup dec l) <= List.length l)%nat.
Proof.
  induction l as [|a l IH]; [apply Nat.le_refl|].
  cbn [nodup]. destruct (in_dec dec a l); cbn [List.length]; lia.
Qed.

Lemma nodup_length_eq {A : Type} (dec : forall a b : A, {a = b} + {a <> b})
    (l : list A) :
  List.length (nodup dec l) = List.length l <-> NoDup l.
Proof.
  split.
  - intros E. apply (Permutation_NoDup (l := nodup dec l)); [|apply NoDup_nodup].
    apply NoDup_Permutation_bis; [apply NoDup_nodup | lia |].
    intros x Hx. now apply nodup_In in Hx.
  - intros H. now rewrite (nodup_fixed_point dec H).
Qed.

Lemma display_inline_filters_length (sort_values : list Insights.full_row ->
                                                   list Insights.full_row)
    (w : Insights.widgets) (df : Insights.full_data) :
  (forall l, Permutation (sort_values l) l) ->
  (List.length (Insights.display_inline_filters sort_values w df)
   <= List.length (Insights.rows df))%nat.
Proof.
  intros Hsort. unfold Insights.display_inline_filters.
  rewrite length_firstn, (Permutation_length (Hsort _)), inline_filter_rows_test.
  pose proof (filter_length_le (inline_test w df) (Insights.rows df)). lia.
Qed.

(** X14.  The filter summary.  For the table and the result of the
    inline filters, the summary never shows a negative number of removed
    records, and the share of retained records lies between 0 and 100
    (it is 0 for an empty table); the metric labelled "Unique Customers"
    is the number of displayed records, which is the number of distinct
    customers exactly when no customer has two displayed rows. *)
Theorem X14_filter_summary (sort_values : list Insights.full_row ->
                                          list Insights.full_row)
    (w : Insights.widgets) (df : Insights.full_data) :
  (forall l, Permutation (sort_values l) l) ->
  let s := InsightsPage.dashboard_summary sort_values w df in
  let shown := Insights.display_inline_filters sort_values w df in
  (0 <= InsightsPage.removed s)%Z /\
  (0 <= InsightsPage.filter_pct s /\ InsightsPage.filter_pct s <= 100)%Q /\
  (Insights.rows df = [] -> InsightsPage.filter_pct s == 0)%Q /\
  (distinct_customers shown <= InsightsPage.unique_customers s)%Z /\
  (InsightsPage.unique_customers s = distinct_customers shown <->
   NoDup (map (fun r => Insights.customer_id (Insights.pred (Insights.pre r)))
            shown)).
Proof.
  intros Hsort. cbv zeta.
  pose proof (display_inline_filters_length sort_values w df Hsort) as Hle.
  unfold InsightsPage.dashboard_summary, InsightsPage.display_filter_summary.
  cbn [InsightsPage.removed InsightsPage.filter_pct InsightsPage.unique_customers].
  set (shown := Insights.display_inline_filters sort_values w df) in *.
  set (f := Z.of_nat (List.length shown)).
  set (o := Z.of_nat (List.length (Insights.rows df))).
  assert (Hf : (0 <= f <= o)%Z) by (unfold f, o; lia).
  split; [lia|]. split; [|split; [|split]].
  - destruct (Z.gtb_spec o 0) as [Ho|Ho]; [|split; [apply Qle_refl | discriminate]].
    assert (Hq : (0 <= inject_Z f / inject_Z o /\ inject_Z f / inject_Z o <= 1)%Q).
    { split.
      - apply Qle_shift_div_l; [rewrite <- (Zlt_Qlt 0); lia|].
        rewrite Qmult_0_l, <- (Zle_Qle 0). lia.
      - apply Qle_shift_div_r; [rewrite <- (Zlt_Qlt 0); lia|].
        rewrite Qmult_1_l, <- Zle_Qle. lia. }
    destruct Hq as [H0 H1]. split; lra.
  - intros E. unfold o. rewrite E. cbn. apply Qeq_refl.
  - unfold distinct_customers, f.
    pose proof (nodup_length_le value_eq_dec
                  (map (fun r => Insights.customer_id (Insights.pred (Insights.pre r)))
                     shown)) as H.
    rewrite length_map in H. lia.
  - rewrite <- (nodup_length_eq value_eq_dec), length_map.
    unfold distinct_customers, f. lia.
Qed.

Lemma X14_filter_summary_witness :
  let s := InsightsPage.dashboard_summary Insights.insertion_sort_desc
             sample_widgets sample_insights in
  let shown := Insights.display_inline_filters Insights.insertion_sort_desc
                 sample_widgets sample_insights in
  (0 <= InsightsPage.removed s)%Z /\
  (0 <= InsightsPage.filter_pct s /\ InsightsPage.filter_pct s <= 100)%Q /\
  (Insights.rows sample_insights = [] -> InsightsPage.filter_pct s == 0)%Q /\
  (distinct_customers shown <= InsightsPage.unique_customers s)%Z /\
  (InsightsPage.unique_customers s = distinct_customers shown <->
   NoDup (map (fun r => Insights.customer_id (Insights.pred (Insights.pre r)))
            shown)).
Proof.
  apply (X14_filter_summary Insights.insertion_sort_desc sample_widgets
           sample_insights).
  intros l. apply Permutation_sym. apply insertion_sort_desc_perm.
Defined.

(** ** The priority groups *)

Lemma Qlt_bool_false_iff (a b : Q) : Pandas.Qlt_bool a b = false <-> b <= a.
Proof.
  unfold Pandas.Qlt_bool. rewrite negb_false_iff. apply Qle_bool_iff.
Qed.

Lemma Qle_bool_false_iff (a b : Q) : Qle_bool a b = false <-> b < a.
Proof.
  destruct (Qle_bool a b) eqn:E.
  - apply Qle_bool_iff in E. split; [discriminate | intros; lra].
  - split; [intros _ | reflexivity].
    destruct (Qlt_le_dec b a) as [H|H]; [exact H|].
    apply Qle_bool_iff in H. congruence.
Qed.

(** The group of a row, read off its propensity score. *)
Lemma group_tests (with_recency : bool) (r : Insights.full_row) :
  match Insights.propensity_score (Insights.pred (Insights.pre r)) with
  | None =>
      InsightsPage.is_high r = false /\ InsightsPage.is_medium r = false /\
      InsightsPage.is_at_risk with_recency r = false
  | Some q =>
      (InsightsPage.is_high r = true <-> 7 # 10 < q) /\
      (InsightsPage.is_medium r = true <-> 4 # 10 <= q /\ q <= 7 # 10) /\
      (InsightsPage.is_at_risk with_recency r = true <->
       q < 4 # 10 /\
       (with_recency = true -> InsightsPage.num_gt (Insights.Recency r) 30 = true))
  end.
Proof.
  unfold InsightsPage.is_high, InsightsPage.is_medium, InsightsPage.is_at_risk.
  destruct (Insights.propensity_score (Insights.pred (Insights.pre r))) as [q|].
  - cbn [InsightsPage.num_gt InsightsPage.num_lt Pandas.num_ge Pandas.num_le].
    rewrite andb_true_iff, Qlt_bool_iff, !Qle_bool_iff.
    split; [reflexivity|]. split; [reflexivity|].
    destruct with_recency.
    + rewrite andb_true_iff, Qlt_bool_iff. tauto.
    + rewrite Qlt_bool_iff. split; [intros H; split; [exact H | discriminate] | tauto].
  - cbn. now destruct with_recency.
Qed.

Lemma exclusive_filters_length {A : Type} (a b c : A -> bool) (l : list A) :
  (forall x, In x l ->
     (a x = true -> b x = false /\ c x = false) /\ (b x = true -> c x = false)) ->
  (List.length (filter a l) + List.length (filter b l) +
   List.length (filter c l) <= List.length l)%nat /\
  ((forall x, In x l -> a x || b x || c x = true) ->
   (List.length (filter a l) + List.length (filter b l) +
    List.length (filter c l) = List.length l)%nat).
Proof.
  induction l as [|x l IH]; intros H.
  - cbn. split; [lia | reflexivity].
  - destruct IH as [IH1 IH2]; [intros y Hy; apply H; now right|].
    destruct (H x (or_introl eq_refl)) as [Ha Hb].
    cbn [filter].
    destruct (a x) eqn:Ea.
    + destruct (Ha eq_refl) as [-> ->]. cbn [List.length]. split; [lia|].
      intros Hall. rewrite <- IH2 by (intros y Hy; apply Hall; now right). lia.
    + destruct (b x) eqn:Eb.
      * rewrite (Hb eq_refl). cbn [List.length]. split; [lia|].
        intros Hall. rewrite <- IH2 by (intros y Hy; apply Hall; now right). lia.
      * destruct (c x) eqn:Ec; cbn [List.length]; (split; [lia|]); intros Hall.
        -- rewrite <- IH2 by (intros y Hy; apply Hall; now right). lia.
        -- specialize (Hall x (or_introl eq_refl)).
           rewrite Ea, Eb, Ec in Hall. discriminate.
Qed.

(** X15.  The priority groups.  The three groups of the actionable
    insights never share a customer, so their sizes add up to at most
    the number of rows.  A row is in no group exactly when its
    propensity score is missing or, if the table has a [Recency] column,
    when the score is below 0.4 and the recency is not above 30 (or
    missing); without that column and without missing scores the groups
    cover the table. *)
Theorem X15_priority_groups (df : Insights.full_data) :
  let g := InsightsPage.display_actionable_insights df in
  let score r := Insights.propensity_score (Insights.pred (Insights.pre r)) in
  (forall r, ~ (In r (InsightsPage.high_prop g) /\ In r (InsightsPage.medium_prop g)) /\
             ~ (In r (InsightsPage.high_prop g) /\ In r (InsightsPage.at_risk g)) /\
             ~ (In r (InsightsPage.medium_prop g) /\ In r (InsightsPage.at_risk g))) /\
  (List.length (InsightsPage.high_prop g) + List.length (InsightsPage.medium_prop g) +
   List.length (InsightsPage.at_risk g) <= List.length (Insights.rows df))%nat /\
  (forall r, In r (Insights.rows df) ->
     (~ In r (InsightsPage.high_prop g) /\ ~ In r (InsightsPage.medium_prop g) /\
      ~ In r (InsightsPage.at_risk g)) <->
     (score r = None \/
      exists q, score r = Some q /\ q < 4 # 10 /\
                Insights.has_Recency df = true /\
                InsightsPage.num_gt (Insights.Recency r) 30 = false)) /\
  (Insights.has_Recency df = false ->
   (forall r, In r (Insights.rows df) -> score r <> None) ->
   (List.length (InsightsPage.high_prop g) + List.length (InsightsPage.medium_prop g) +
    List.length (InsightsPage.at_risk g) = List.length (Insights.rows df))%nat).
Proof.
  cbv zeta. unfold InsightsPage.display_actionable_insights.
  cbn [InsightsPage.high_prop InsightsPage.medium_prop InsightsPage.at_risk].
  set (wr := Insights.has_Recency df).
  assert (Hex : forall r,
             (InsightsPage.is_high r = true ->
              InsightsPage.is_medium r = false /\
              InsightsPage.is_at_risk wr r = false) /\
             (InsightsPage.is_medium r = true ->
              InsightsPage.is_at_risk wr r = false)).
  { intros r. pose proof (group_tests wr r) as G.
    destruct (Insights.propensity_score (Insights.pred (Insights.pre r))) as [q|].
    - destruct G as [G1 [G2 G3]]. split.
      + intros H. apply G1 in H. split.
        * destruct (InsightsPage.is_medium r); [|reflexivity].
          destruct (proj1 G2 eq_refl). lra.
        * destruct (InsightsPage.is_at_risk wr r); [|reflexivity].
          destruct (proj1 G3 eq_refl). lra.
      + intros H. apply G2 in H.
        destruct (InsightsPage.is_at_risk wr r); [|reflexivity].
        destruct (proj1 G3 eq_refl). lra.
    - destruct G as [-> [-> ->]]. split; discriminate. }
  destruct (exclusive_filters_length InsightsPage.is_high InsightsPage.is_medium
              (InsightsPage.is_at_risk wr) (Insights.rows df)
              (fun r _ => Hex r)) as [Hle Heq].
  split; [|split; [exact Hle|split]].
  - intros r. rewrite !filter_In. destruct (Hex r) as [H1 H2].
    repeat split; intros [[_ Ha] [_ Hb]].
    + destruct (H1 Ha). congruence.
    + destruct (H1 Ha). congruence.
    + specialize (H2 Ha). congruence.
  - intros r Hr. rewrite !filter_In. pose proof (group_tests wr r) as G.
    destruct (Insights.propensity_score (Insights.pred (Insights.pre r))) as [q|].
    + destruct G as [G1 [G2 G3]]. split.
      * intros [Nh [Nm Na]]. right. exists q. split; [reflexivity|].
        assert (H1 : ~ 7 # 10 < q) by (intros H; apply Nh; split; [exact Hr | now apply G1]).
        assert (H2 : ~ (4 # 10 <= q /\ q <= 7 # 10))
          by (intros H; apply Nm; split; [exact Hr | now apply G2]).
        assert (Hq : q < 4 # 10).
        { destruct (Qlt_le_dec q (4 # 10)) as [H|H]; [exact H|].
          exfalso. apply H2. split; [exact H|].
          destruct (Qlt_le_dec (7 # 10) q) as [H'|H']; [contradiction | exact H']. }
        split; [exact Hq|].
        destruct wr eqn:Ew.
        -- split; [reflexivity|].
           destruct (InsightsPage.num_gt (Insights.Recency r) 30) eqn:E;
             [|reflexivity].
           exfalso. apply Na. split; [exact Hr|]. apply G3. now split.
        -- exfalso. apply Na. split; [exact Hr|]. apply G3.
           split; [exact Hq | discriminate].
      * intros [H|[q' [[= <-] [Hq [Hw Hrec]]]]]; [discriminate|].
        repeat split; intros [_ H].
        -- apply G1 in H. lra.
        -- apply G2 in H. lra.
        -- apply G3 in H. destruct H as [_ H]. rewrite (H Hw) in Hrec. discriminate.
    + destruct G as [G1 [G2 G3]]. split; [now left|]. intros _.
      repeat split; intros [_ H]; congruence.
  - intros Hw Hall. apply Heq. intros r Hr.
    pose proof (group_tests wr r) as G. specialize (Hall r Hr).
    destruct (Insights.propensity_score (Insights.pred (Insights.pre r))) as [q|];
      [|congruence].
    destruct G as [G1 [G2 G3]].
    destruct (Qlt_le_dec (7 # 10) q) as [H|H].
    + rewrite (proj2 G1 H). reflexivity.
    + destruct (Qlt_le_dec q (4 # 10)) as [H'|H'].
      * assert (Ha : InsightsPage.is_at_risk wr r = true).
        { apply G3. split; [exact H'|]. intros E. congruence. }
        rewrite Ha. now rewrite !orb_true_r.
      * rewrite (proj2 G2 (conj H' H)). now rewrite orb_true_r.
Qed.

(** ** The rows of [preprocess_prediction_data] *)

Lemma map_fst_combine_same {A B : Type} (l : list A) (g : list B) :
  List.length g = List.length l -> map fst (combine l g) = l.
Proof.
  revert g; induction l as [|a l IH]; intros [|b g] H; try reflexivity;
    try discriminate.
  cbn. f_equal. apply IH. now injection H.
Qed.

Lemma preprocess_rows (df0 : list Insights.prediction)
    (out : list Insights.preprocessed) :
  Insights.preprocess_prediction_data df0 = Ok out ->
  map Insights.pred out = map Insights.fill_unknown df0 /\
  forall p, In p out ->
    Insights.propensity_category p
    = propensity_category_of (Insights.propensity_score (Insights.pred p)) /\
    Insights.engagement_score p
    = Insights.engagement
        (Float.series_max
           (map Insights.total_transactions (map Insights.fill_unknown df0)))
        (Insights.pred p).
Proof.
  unfold Insights.preprocess_prediction_data. cbv zeta.
  set (df := map Insights.fill_unknown df0).
  rewrite propensity_categories_cells. cbn [bind].
  destruct (Insights.spending_categories (map Insights.total_spent df))
    as [sc|e|] eqn:Esc; cbn [bind]; try discriminate.
  intros [= <-].
  assert (Hlen : List.length sc = List.length df).
  { unfold Insights.spending_categories in Esc.
    apply qcut_labels in Esc. destruct Esc as [Hl _].
    now rewrite length_map in Hl. }
  rewrite (map_map Insights.propensity_score propensity_category_of).
  unfold Insights.engagement_scores.
  rewrite (combine_columns
             (fun p => propensity_category_of (Insights.propensity_score p))
             (Insights.engagement
                (Float.series_max (map Insights.total_transactions df)))
             df sc).
  rewrite !map_map. split.
  - cbn [Insights.mk_preprocessed Insights.pred].
    rewrite <- (map_map fst (fun a => a)), map_id.
    now apply map_fst_combine_same.
  - intros p Hp. apply in_map_iff in Hp. destruct Hp as [[a c] [<- _]].
    cbn. split; reflexivity.
Qed.

(** X16.  Preprocessing only adds columns.  When
    [preprocess_prediction_data] returns, it returns one row for each
    input row, in order, with the input columns unchanged except that
    missing regions, cities and genders read "Unknown": no demographic
    cell of the result is missing, and every row carries the category
    and the engagement score of its own propensity score. *)
Theorem X16_preprocess_adds_columns (df0 : list Insights.prediction)
    (out : list Insights.preprocessed) :
  Insights.preprocess_prediction_data df0 = Ok out ->
  map Insights.pred out = map Insights.fill_unknown df0 /\
  List.length out = List.length df0 /\
  map (fun p => Insights.propensity_score (Insights.pred p)) out
  = map Insights.propensity_score df0 /\
  map (fun p => Insights.customer_id (Insights.pred p)) out
  = map Insights.customer_id df0 /\
  forall p, In p out ->
    Insights.region (Insights.pred p) <> VNaN /\
    Insights.city (Insights.pred p) <> VNaN /\
    Insights.gender (Insights.pred p) <> VNaN /\
    Insights.propensity_category p
    = propensity_category_of (Insights.propensity_score (Insights.pred p)).
Proof.
  intros H. destruct (preprocess_rows df0 out H) as [E Hrows].
  split; [exact E|]. split; [|split; [|split]].
  - rewrite <- (length_map Insights.pred), E. apply length_map.
  - rewrite <- (map_map Insights.pred Insights.propensity_score), E, map_map.
    reflexivity.
  - rewrite <- (map_map Insights.pred Insights.customer_id), E, map_map.
    reflexivity.
  - intros p Hp. destruct (Hrows p Hp) as [Hc _].
    assert (Hin : In (Insights.pred p) (map Insights.fill_unknown df0))
      by (rewrite <- E; now apply in_map).
    apply in_map_iff in Hin. destruct Hin as [a [Ea _]].
    rewrite <- Ea at 1 2 3.
    cbn [Insights.fill_unknown Insights.region Insights.city Insights.gender].
    split; [destruct (Insights.region a); discriminate|].
    split; [destruct (Insights.city a); discriminate|].
    split; [destruct (Insights.gender a); discriminate | exact Hc].
Qed.

Lemma X16_preprocess_adds_columns_witness :
  map Insights.pred no_transactions_preprocessed
  = map Insights.fill_unknown no_transactions /\
  List.length no_transactions_preprocessed = List.length no_transactions /\
  map (fun p => Insights.propensity_score (Insights.pred p))
    no_transactions_preprocessed
  = map Insights.propensity_score no_transactions /\
  map (fun p => Insights.customer_id (Insights.pred p))
    no_transactions_preprocessed
  = map Insights.customer_id no_transactions /\
  forall p, In p no_transactions_preprocessed ->
    Insights.region (Insights.pred p) <> VNaN /\
    Insights.city (Insights.pred p) <> VNaN /\
    Insights.gender (Insights.pred p) <> VNaN /\
    Insights.propensity_category p
    = propensity_category_of (Insights.propensity_score (Insights.pred p)).
Proof.
  apply (X16_preprocess_adds_columns no_transactions no_transactions_preprocessed).
  vm_compute. reflexivity.
Defined.

(** X17.  Category and priority group disagree on two bands.  For a row
    of [preprocess_prediction_data] with a score in (0, 1], the category
    "High" (above 0.6) and the high-priority group (above 0.7) differ
    exactly on the scores in (0.6, 0.7], which are "High" but of medium
    priority; the category "Medium" (0.3 to 0.6) and the medium group
    (0.4 to 0.7) differ below exactly on the scores in (0.3, 0.4), which
    are "Medium" but fall in the re-engagement band; every
    high-priority row is "High" and every "Low" row is in the
    re-engagement band. *)
Theorem X17_category_and_priority (df0 : list Insights.prediction)
    (out : list Insights.preprocessed) (r : Insights.full_row) (q : Q) :
  Insights.preprocess_prediction_data df0 = Ok out ->
  In (Insights.pre r) out ->
  Insights.propensity_score (Insights.pred (Insights.pre r)) = Some q ->
  0 < q /\ q <= 1 ->
  let category := Insights.propensity_category (Insights.pre r) in
  (InsightsPage.is_high r = true -> category = Some "High"%string) /\
  (category = Some "High"%string /\ InsightsPage.is_high r = false <->
   6 # 10 < q /\ q <= 7 # 10) /\
  (category = Some "High"%string /\ InsightsPage.is_high r = false ->
   InsightsPage.is_medium r = true) /\
  (category = Some "Medium"%string /\ InsightsPage.is_medium r = false <->
   3 # 10 < q /\ q < 4 # 10) /\
  (category = Some "Low"%string ->
   InsightsPage.num_lt (Insights.propensity_score (Insights.pred (Insights.pre r)))
     (4 # 10) = true).
Proof.
  intros Hpre Hin Hq Hrange. cbv zeta.
  destruct (preprocess_rows df0 out Hpre) as [_ Hrows].
  destruct (Hrows _ Hin) as [-> _]. rewrite Hq.
  pose proof (propensity_category_of_spec (Some q)) as C.
  cbn [category_of] in C. destruct (C Hrange) as [CL [CM CH]].
  pose proof (group_tests false r) as G. rewrite Hq in G.
  destruct G as [G1 [G2 _]].
  assert (Nh : InsightsPage.is_high r = false <-> q <= 7 # 10).
  { destruct (InsightsPage.is_high r).
    - split; [discriminate|]. intros H. destruct (proj1 G1 eq_refl). lra.
    - split; [intros _ | reflexivity].
      destruct (Qlt_le_dec (7 # 10) q) as [H|H]; [|exact H].
      apply G1 in H. discriminate. }
  assert (Nm : InsightsPage.is_medium r = false <-> q < 4 # 10 \/ 7 # 10 < q).
  { destruct (InsightsPage.is_medium r).
    - split; [discriminate|]. intros H. destruct (proj1 G2 eq_refl). lra.
    - split; [intros _ | reflexivity].
      destruct (Qlt_le_dec q (4 # 10)) as [H|H]; [now left|].
      destruct (Qlt_le_dec (7 # 10) q) as [H'|H']; [now right|].
      assert (E : false = true) by (apply G2; now split). discriminate. }
  split; [|split; [|split; [|split]]].
  - intros H. apply CH. apply G1 in H. lra.
  - rewrite CH, Nh. tauto.
  - rewrite CH, Nh. intros [H1 H2]. apply G2. split; lra.
  - rewrite CM, Nm. split; [intros [[H1 H2] [H|H]]; split; lra | intros [H1 H2]].
    split; [split; lra | now left].
  - rewrite CL. intros H. cbn. apply Qlt_bool_iff. lra.
Qed.

Lemma X17_category_and_priority_witness :
  let r := {| Insights.pre :=
                {| Insights.pred :=
                     Insights.fill_unknown (prediction_with (5 # 10) (3 # 10) 300 0);
                   Insights.propensity_category := Some "Medium"%string;
                   Insights.spending_category := Some "High Spender"%string;
                   Insights.engagement_score := Float.FNaN |};
              Insights.Recency := None; Insights.Frequency := None |} in
  let category := Insights.propensity_category (Insights.pre r) in
  (InsightsPage.is_high r = true -> category = Some "High"%string) /\
  (category = Some "High"%string /\ InsightsPage.is_high r = false <->
   6 # 10 < 5 # 10 /\ 5 # 10 <= 7 # 10) /\
  (category = Some "High"%string /\ InsightsPage.is_high r = false ->
   InsightsPage.is_medium r = true) /\
  (category = Some "Medium"%string /\ InsightsPage.is_medium r = false <->
   3 # 10 < 5 # 10 /\ 5 # 10 < 4 # 10) /\
  (category = Some "Low"%string ->
   InsightsPage.num_lt (Insights.propensity_score (Insights.pred (Insights.pre r)))
     (4 # 10) = true).
Proof.
  apply (X17_category_and_priority no_transactions no_transactions_preprocessed
           {| Insights.pre :=
                {| Insights.pred :=
                     Insights.fill_unknown (prediction_with (5 # 10) (3 # 10) 300 0);
                   Insights.propensity_category := Some "Medium"%string;
                   Insights.spending_category := Some "High Spender"%string;
                   Insights.engagement_score := Float.FNaN |};
              Insights.Recency := None; Insights.Frequency := None |} (5 # 10)).
  - vm_compute. reflexivity.
  - cbn. right. right. left. reflexivity.
  - reflexivity.
  - split; [reflexivity | discriminate].
Defined.

(** ** The top customers *)

Lemma StronglySorted_app_inv {A : Type} (R : A -> A -> Prop) (l1 l2 : list A) :
  Sorted.StronglySorted R (l1 ++ l2) ->
  forall a b, In a l1 -> In b l2 -> R a b.
Proof.
  induction l1 as [|x l1 IH]; intros H a b Ha Hb; [contradiction|].
  cbn in H. apply Sorted.StronglySorted_inv in H. destruct H as [Hs Hall].
  destruct Ha as [<-|Ha].
  - rewrite Forall_forall in Hall. apply Hall. apply in_or_app. now right.
  - now apply IH.
Qed.

(** X18.  The top customers.  When the sort rearranges the rows by
    descending priority score, missing scores last,
    [display_top_customers] shows the first 20 rows, or all when there
    are fewer; each row shown is a row of the input with its own score,
    and no row left out ranks before a row shown: a row without score is
    shown only when every row left out has none either. *)
Theorem X18_top_customers
    (sort_values : list (Insights.full_row * Float.float) ->
                   list (Insights.full_row * Float.float))
    (l : list Insights.full_row) :
  Permutation (sort_values (InsightsPage.with_priority l))
    (InsightsPage.with_priority l) ->
  Sorted.StronglySorted by_priority (sort_values (InsightsPage.with_priority l)) ->
  let top := InsightsPage.display_top_customers sort_values l in
  let left_out := skipn 20 (sort_values (InsightsPage.with_priority l)) in
  List.length top = Nat.min 20 (List.length l) /\
  Permutation (top ++ left_out) (InsightsPage.with_priority l) /\
  (forall x, In x top ->
     In (fst x) l /\
     snd x = InsightsPage.priority
               (Float.series_max
                  (map (fun r => Insights.total_spent
                                   (Insights.pred (Insights.pre r))) l))
               (fst x)) /\
  (forall x y, In x top -> In y left_out -> by_priority x y) /\
  (forall x y, In x top -> In y left_out -> snd x = Float.FNaN ->
               snd y = Float.FNaN).
Proof.
  intros Hperm Hsorted. cbv zeta. unfold InsightsPage.display_top_customers.
  set (sorted := sort_values (InsightsPage.with_priority l)) in *.
  assert (Hdom : forall x y, In x (firstn 20 sorted) -> In y (skipn 20 sorted) ->
                             by_priority x y).
  { apply StronglySorted_app_inv. now rewrite firstn_skipn. }
  split; [|split; [|split; [|split]]].
  - rewrite length_firstn, (Permutation_length Hperm).
    unfold InsightsPage.with_priority. now rewrite length_map.
  - now rewrite firstn_skipn.
  - intros x Hx. apply In_firstn in Hx.
    apply (Permutation_in x Hperm) in Hx.
    unfold InsightsPage.with_priority in Hx. cbv zeta in Hx.
    apply in_map_iff in Hx. destruct Hx as [r [<- Hr]]. now split.
  - exact Hdom.
  - intros x y Hx Hy Hnan. specialize (Hdom x y Hx Hy).
    unfold by_priority in Hdom. rewrite Hnan in Hdom.
    destruct (snd y); [discriminate | discriminate | reflexivity].
Qed.

Lemma X18_top_customers_witness :
  let sort_values := fun x : list (Insights.full_row * Float.float) => x in
  let top := InsightsPage.display_top_customers sort_values two_insights in
  let left_out := skipn 20 (sort_values (InsightsPage.with_priority two_insights)) in
  List.length top = Nat.min 20 (List.length two_insights) /\
  Permutation (top ++ left_out) (InsightsPage.with_priority two_insights) /\
  (forall x, In x top ->
     In (fst x) two_insights /\
     snd x = InsightsPage.priority
               (Float.series_max
                  (map (fun r => Insights.total_spent
                                   (Insights.pred (Insights.pre r))) two_insights))
               (fst x)) /\
  (forall x y, In x top -> In y left_out -> by_priority x y) /\
  (forall x y, In x top -> In y left_out -> snd x = Float.FNaN ->
               snd y = Float.FNaN).
Proof.
  apply (X18_top_customers (fun x => x) two_insights).
  - apply Permutation_refl.
  - repeat constructor.
Defined.

(* ================================================================== *)
(** * The application: navigation and the visualisation filters *)
(* ================================================================== *)

Lemma app_invariant_step (data : option App.purchases) (i : App.input)
    (st : App.state) :
  app_invariant data st -> app_invariant data (fst (App.main data i st)).
Proof.
  intros [Hp Hd]. unfold App.main.
  destruct (App.sidebar i);
    try (split; [cbn; repeat split; try reflexivity; discriminate | exact Hd]).
  destruct (App.page st) eqn:Ep.
  - destruct Hp as [Ha Hs]. unfold App.show_home_page.
    destruct (App.on_home i); cbn [fst].
    + cbn [fst]; split; [rewrite Ep; auto | exact Hd].
    + split; [cbn; rewrite Ha; split; [reflexivity | discriminate] | exact Hd].
    + split; [cbn; exact Hs | exact Hd].
  - destruct Hp as [Hs Hf]. unfold App.display_visualizations_page.
    destruct data as [table|]; [|cbn [fst]; split; [rewrite Ep; auto | exact Hd]].
    destruct (App.show_filter_dialog st && negb (App.filters_applied st)) eqn:E.
    + apply andb_true_iff in E. destruct E as [E1 E2].
      assert (Hnew : forall shown,
                 Some (App.dialog_filters table (App.on_dialog i)) = Some shown ->
                 exists table' w, Some table = Some table' /\
                                  shown = App.dialog_filters table' w).
      { intros shown [= <-]. now exists table, (App.on_dialog i). }
      destruct (App.apply_clicked (App.on_dialog i)); cbn [fst].
      * split; [|exact Hnew]. cbn. rewrite Ep. split; [reflexivity | discriminate].
      * split; [|exact Hnew]. cbn. rewrite Ep. split; [exact Hs | discriminate].
    + assert (Est : fst (if App.filters_applied st
                         then match App.filtered_data st with
                              | Some shown => (st, App.ChartsShown shown)
                              | None => (st, App.AttributeError)
                              end
                         else (st, App.NothingShown)) = st)
        by (destruct (App.filters_applied st);
            [destruct (App.filtered_data st)|]; reflexivity).
      rewrite Est. split; [rewrite Ep; auto | exact Hd].
  - split; [cbn; exact Hp | exact Hd].
  - cbn [fst]. split; [rewrite Ep; exact Hp | exact Hd].
Qed.

Lemma app_reachable_invariant (data : option App.purchases) (st : App.state) :
  app_reachable data st -> app_invariant data st.
Proof.
  induction 1 as [|st i R IH].
  - split; [cbn; auto | discriminate].
  - now apply app_invariant_step.
Qed.

(** X19.  The shared keys of the application.  In every state a session
    can reach, the home page is shown with [filters_applied] unset, and
    the visualisation page shows either its filter dialog or its charts,
    never both and never nothing (unless the data could not be loaded);
    [filtered_data] is never read before it was set, and the charts
    show what the dialog computed from the table when "Apply Filters"
    was clicked. *)
Theorem X19_app_shared_keys (data : option App.purchases) (st : App.state)
    (i : App.input) :
  app_reachable data st ->
  (App.page st = App.Home -> App.filters_applied st = false) /\
  (App.page st = App.Visualizations ->
   App.show_filter_dialog st = negb (App.filters_applied st)) /\
  match snd (App.main data i st) with
  | App.AttributeError | App.NothingShown => False
  | App.ChartsShown shown =>
      App.filtered_data st = Some shown /\
      exists table w, data = Some table /\ shown = App.dialog_filters table w
  | App.DialogShown filtered =>
      exists table, data = Some table /\
                    filtered = App.dialog_filters table (App.on_dialog i) /\
                    App.filtered_data (fst (App.main data i st)) = Some filtered
  | _ => True
  end.
Proof.
  intros R. destruct (app_reachable_invariant data st R) as [Hp Hd].
  split; [|split].
  - intros E. rewrite E in Hp. tauto.
  - intros E. rewrite E in Hp. tauto.
  - unfold App.main. destruct (App.sidebar i); try exact I.
    destruct (App.page st).
    + unfold App.show_home_page. destruct (App.on_home i); exact I.
    + destruct Hp as [Hs Hf]. unfold App.display_visualizations_page.
      destruct data as [table|]; [|exact I].
      rewrite Hs. destruct (App.filters_applied st); cbn [negb andb].
      * destruct (App.filtered_data st) as [shown|] eqn:E.
        -- cbn. split; [reflexivity|]. now apply Hd.
        -- now apply Hf.
      * destruct (App.apply_clicked (App.on_dialog i)); cbn; [exact I|].
        now exists table.
    + exact I.
    + exact I.
Qed.

Lemma X19_app_shared_keys_witness :
  let data := Some noon_orders in
  let i := {| App.sidebar := App.NoSidebarButton; App.on_home := App.NoHomeButton;
              App.on_dialog := default_dialog noon_orders;
              App.predictions_leaves := true |} in
  let st := fst (App.main data i
                   (fst (App.main data
                           {| App.sidebar := App.VisualizationsButton;
                              App.on_home := App.NoHomeButton;
                              App.on_dialog := default_dialog noon_orders;
                              App.predictions_leaves := true |}
                           App.new_session))) in
  (App.page st = App.Home -> App.filters_applied st = false) /\
  (App.page st = App.Visualizations ->
   App.show_filter_dialog st = negb (App.filters_applied st)) /\
  match snd (App.main data i st) with
  | App.AttributeError | App.NothingShown => False
  | App.ChartsShown shown =>
      App.filtered_data st = Some shown /\
      exists table w, data = Some table /\ shown = App.dialog_filters table w
  | App.DialogShown filtered =>
      exists table, data = Some table /\
                    filtered = App.dialog_filters table (App.on_dialog i) /\
                    App.filtered_data (fst (App.main data i st)) = Some filtered
  | _ => True
  end.
Proof.
  cbv zeta.
  apply (X19_app_shared_keys (Some noon_orders)).
  apply app_run. apply app_run. apply app_new_session.
Defined.

(** ** The filters of the dialog *)

Lemma dialog_filters_sound (data : App.purchases) (w : App.dialog)
    (r : App.purchase) :
  In r (App.dialog_filters data w) ->
  In r (App.rows data) /\ meets_dialog data w r.
Proof.
  unfold App.dialog_filters. cbv zeta.
  set (d1 := if App.has_order_date data then _ else _).
  set (d2 := if App.has_region data && _ then _ else _).
  intros H3.
  assert (H2 : In r d2 /\
               (App.has_gender data = true -> App.selected_gender w <> All ->
                App.gender r = App.selected_gender w)).
  { destruct (App.has_gender data) eqn:Eg; cbn [andb] in H3.
    - destruct (py_ne (App.selected_gender w) All) eqn:En.
      + apply filter_In in H3. destruct H3 as [H3 T]. split; [exact H3|].
        intros _ _. now apply py_eq_true.
      + split; [exact H3|]. intros _ Hn. now apply py_ne_is_All in En.
    - split; [exact H3 | discriminate]. }
  destruct H2 as [H2 Hg].
  assert (H1 : In r d1 /\
               (App.has_region data = true -> App.selected_region w <> All ->
                App.region r = App.selected_region w)).
  { unfold d2 in H2. destruct (App.has_region data) eqn:Er; cbn [andb] in H2.
    - destruct (py_ne (App.selected_region w) All) eqn:En.
      + apply filter_In in H2. destruct H2 as [H2 T]. split; [exact H2|].
        intros _ _. now apply py_eq_true.
      + split; [exact H2|]. intros _ Hn. now apply py_ne_is_All in En.
    - split; [exact H2 | discriminate]. }
  destruct H1 as [H1 Hr].
  assert (H0 : In r (App.rows data) /\
               (App.has_order_date data = true ->
                forall first last, App.date_range w = [first; last] ->
                  exists t, App.order_date r = Some t /\
                            (App.Timestamp first <= t <= App.Timestamp last)%Z)).
  { unfold d1 in H1. destruct (App.has_order_date data);
      [|split; [exact H1 | discriminate]].
    destruct (App.date_range w) as [|a [|b [|c l]]];
      try (split; [exact H1 | intros _ first last; discriminate]).
    apply filter_In in H1. destruct H1 as [H1 T]. split; [exact H1|].
    intros _ first last [= <- <-]. unfold App.date_mask in T.
    destruct (App.order_date r) as [t|]; [|discriminate].
    exists t. split; [reflexivity|]. apply andb_true_iff in T. lia. }
  destruct H0 as [H0 Hd]. split; [exact H0|]. now split.
Qed.

(** X20.  The filter dialog.  Every row the dialog keeps is a row of the
    table that meets what the dialog returned; the end of the date
    range counts as midnight of that day, so an order placed later on
    the last day is filtered out -- with the range the dialog starts
    with, the latest order itself, unless it was placed at midnight. *)
Theorem X20_dialog_filters (data : App.purchases) (w : App.dialog)
    (r : App.purchase) :
  In r (App.dialog_filters data w) ->
  In r (App.rows data) /\ meets_dialog data w r /\
  (App.has_order_date data = true ->
   forall first last t,
     App.date_range w = [first; last] -> App.order_date r = Some t ->
     (App.date_of t < last \/ (App.date_of t = last /\ t = App.Timestamp last))%Z) /\
  (App.has_order_date data = true ->
   App.date_range w = App.default_date_range data ->
   forall t, App.order_date r = Some t -> App.max_date data = Some t ->
     (t mod App.nanoseconds_per_day = 0)%Z).
Proof.
  intros H. destruct (dialog_filters_sound data w r H) as [Hin Hm].
  split; [exact Hin|]. split; [exact Hm|].
  destruct Hm as [Hd _].
  assert (Hday : (0 < App.nanoseconds_per_day)%Z) by reflexivity.
  split.
  - intros Ho first last t Er Et.
    destruct (Hd Ho first last Er) as [t' [Et' [_ Hle]]].
    rewrite Et in Et'. injection Et' as <-.
    unfold App.date_of, App.Timestamp in *.
    pose proof (Z.mul_div_le t _ Hday) as H1.
    pose proof (Z.mul_succ_div_gt t _ Hday) as H2.
    destruct (Z.lt_trichotomy (t / App.nanoseconds_per_day) last) as [L|[L|L]].
    + now left.
    + right. split; [exact L|]. nia.
    + exfalso. nia.
  - intros Ho Er t Et Emax.
    unfold App.default_date_range in Er. rewrite Emax in Er.
    destruct (App.min_date data) as [lo|] eqn:Emin.
    + destruct (Hd Ho (App.date_of lo) (App.date_of t) Er) as [t' [Et' [_ Hle]]].
      rewrite Et in Et'. injection Et' as <-.
      unfold App.date_of, App.Timestamp in Hle.
      rewrite Z.mod_eq by lia.
      pose proof (Z.mul_div_le t _ Hday). lia.
    + exfalso. unfold App.min_date, App.max_date in *.
      destruct (App.dates data); discriminate.
Qed.

Lemma X20_dialog_filters_witness :
  let r := {| App.order_date := Some (3 * App.nanoseconds_per_day)%Z;
              App.region := VStr "West"; App.gender := VStr "F" |} in
  let w := default_dialog noon_orders in
  In r (App.rows noon_orders) /\ meets_dialog noon_orders w r /\
  (App.has_order_date noon_orders = true ->
   forall first last t,
     App.date_range w = [first; last] -> App.order_date r = Some t ->
     (App.date_of t < last \/ (App.date_of t = last /\ t = App.Timestamp last))%Z) /\
  (App.has_order_date noon_orders = true ->
   App.date_range w = App.default_date_range noon_orders ->
   forall t, App.order_date r = Some t -> App.max_date noon_orders = Some t ->
     (t mod App.nanoseconds_per_day = 0)%Z).
Proof.
  apply (X20_dialog_filters noon_orders (default_dialog noon_orders)).
  vm_compute. left. reflexivity.
Defined.

(* ================================================================== *)
(** * Ranks: the frequency score *)
(* ================================================================== *)

Lemma rank_first_from_ranks (seen rest all : list Q) :
  Pandas.rank_first_from seen rest all = map number (ranks_from seen rest all).
Proof.
  revert seen. induction rest as [|x rest IH]; intros seen; [reflexivity|].
  cbn [Pandas.rank_first_from ranks_from map]. now rewrite IH.
Qed.

Lemma count_below_app (l k : list Q) (x : Q) :
  count_below (l ++ k) x = (count_below l x + count_below k x)%nat.
Proof. unfold count_below. now rewrite filter_app, length_app. Qed.

Lemma count_equal_app (l k : list Q) (x : Q) :
  count_equal (l ++ k) x = (count_equal l x + count_equal k x)%nat.
Proof. unfold count_equal. now rewrite filter_app, length_app. Qed.

Lemma count_equal_self (l : list Q) (x : Q) :
  (1 <= count_equal (x :: l) x)%nat.
Proof.
  unfold count_equal. cbn [filter].
  rewrite (proj2 (Qeq_bool_iff x x) (Qeq_refl x)). cbn. lia.
Qed.

Lemma count_below_self (l : list Q) (x : Q) :
  count_below (x :: l) x = count_below l x.
Proof.
  unfold count_below. cbn [filter].
  destruct (Pandas.Qlt_bool x x) eqn:E; [|reflexivity].
  apply Qlt_bool_iff in E. exfalso. now apply (Qlt_irrefl x).
Qed.

Lemma count_below_equal_le (l : list Q) (x : Q) :
  (count_below l x + count_equal l x <= List.length l)%nat.
Proof.
  unfold count_below, count_equal.
  induction l as [|y l IH]; [cbn; lia|]. cbn [filter List.length].
  destruct (Pandas.Qlt_bool y x) eqn:E1, (Qeq_bool y x) eqn:E2;
    cbn [List.length]; try lia.
  apply Qlt_bool_iff in E1. apply Qeq_bool_iff in E2. rewrite E2 in E1.
  exfalso. now apply (Qlt_irrefl x).
Qed.

Lemma count_same (l : list Q) (x y : Q) :
  x == y -> count_below l x = count_below l y /\ count_equal l x = count_equal l y.
Proof.
  intros E. unfold count_below, count_equal. split; f_equal; apply filter_ext;
    intros z.
  - destruct (Pandas.Qlt_bool z x) eqn:A, (Pandas.Qlt_bool z y) eqn:B;
      try reflexivity.
    + apply Qlt_bool_iff in A. rewrite E in A. apply Qlt_bool_iff in A. congruence.
    + apply Qlt_bool_iff in B. rewrite <- E in B. apply Qlt_bool_iff in B. congruence.
  - destruct (Qeq_bool z x) eqn:A, (Qeq_bool z y) eqn:B; try reflexivity.
    + apply Qeq_bool_iff in A. rewrite E in A. apply Qeq_bool_iff in A. congruence.
    + apply Qeq_bool_iff in B. rewrite <- E in B. apply Qeq_bool_iff in B. congruence.
Qed.

Lemma count_below_less (l : list Q) (x y : Q) :
  x < y -> (count_below l x + count_equal l x <= count_below l y)%nat.
Proof.
  intros H. unfold count_below, count_equal.
  induction l as [|z l IH]; [cbn; lia|]. cbn [filter].
  destruct (Pandas.Qlt_bool z x) eqn:A, (Qeq_bool z x) eqn:B,
    (Pandas.Qlt_bool z y) eqn:C; cbn [List.length]; try lia.
  - apply Qlt_bool_iff in A. apply Qeq_bool_iff in B. rewrite B in A.
    exfalso. now apply (Qlt_irrefl x).
  - apply Qlt_bool_iff in A. apply Qeq_bool_iff in B. rewrite B in A.
    exfalso. now apply (Qlt_irrefl x).
  - apply Qlt_bool_iff in A. apply Qlt_bool_false_iff in C. lra.
  - apply Qeq_bool_iff in B. apply Qlt_bool_false_iff in C. lra.
Qed.

Lemma ranks_from_In (seen rest all : list Q) (r : nat) :
  In r (ranks_from seen rest all) ->
  exists pre y post,
    rest = pre ++ y :: post /\
    r = (1 + count_below all y + count_equal (seen ++ pre) y)%nat.
Proof.
  revert seen. induction rest as [|x rest IH]; intros seen; [contradiction|].
  cbn [ranks_from]. intros [<-|H].
  - exists [], x, rest. now rewrite app_nil_r.
  - destruct (IH _ H) as [pre [y [post [-> E]]]].
    exists (x :: pre), y, post. split; [reflexivity|].
    now rewrite <- app_assoc in E.
Qed.

Lemma ranks_from_length (seen rest all : list Q) :
  List.length (ranks_from seen rest all) = List.length rest.
Proof.
  revert seen. induction rest as [|x rest IH]; intros seen; [reflexivity|].
  cbn [ranks_from List.length]. now rewrite IH.
Qed.

(** The ranks are pairwise different and lie between 1 and the number
    of values. *)
Lemma ranks_from_distinct (seen rest : list Q) :
  NoDup (ranks_from seen rest (seen ++ rest)) /\
  forall r, In r (ranks_from seen rest (seen ++ rest)) ->
            (1 <= r <= List.length (seen ++ rest))%nat.
Proof.
  remember (seen ++ rest) as all eqn:Eall. revert seen Eall.
  induction rest as [|x rest IH]; intros seen Eall.
  - split; [constructor | contradiction].
  - cbn [ranks_from].
    assert (Eall' : all = (seen ++ [x]) ++ rest) by now rewrite <- app_assoc.
    destruct (IH _ Eall') as [Hnd Hrange]. split.
    + constructor; [|exact Hnd]. intros Hin.
      destruct (ranks_from_In _ _ _ _ Hin) as [pre [y [post [-> E]]]].
      assert (Ha : all = seen ++ x :: pre ++ y :: post) by exact Eall.
      rewrite <- !app_assoc in E. cbn [app] in E.
      rewrite !count_equal_app in E.
      change (x :: pre) with ([x] ++ pre) in E.
      rewrite (count_equal_app [x] pre y) in E.
      pose proof (count_equal_self [] x) as Hx. cbn in Hx.
      destruct (Q_dec x y) as [[Hlt|Hgt]|Heq].
      * pose proof (count_below_less all x y Hlt) as H1.
        assert (H2 : (count_equal seen x + 1 <= count_equal all x)%nat).
        { rewrite Ha, count_equal_app.
          pose proof (count_equal_self (pre ++ y :: post) x). lia. }
        lia.
      * pose proof (count_below_less all y x Hgt) as H1.
        assert (H2 : (count_equal seen y + count_equal [x] y + count_equal pre y + 1
                      <= count_equal all y)%nat).
        { rewrite Ha.
          change (x :: pre ++ y :: post) with ([x] ++ pre ++ y :: post).
          rewrite !count_equal_app.
          pose proof (count_equal_self post y). lia. }
        lia.
      * destruct (count_same all x y Heq) as [H1 _].
        destruct (count_same seen x y Heq) as [_ H2].
        assert (H3 : count_equal [x] y = 1%nat).
        { unfold count_equal. cbn [filter].
          now rewrite (proj2 (Qeq_bool_iff x y) Heq). }
        lia.
    + intros r [<-|H]; [|now apply Hrange].
      rewrite Eall, !count_below_app, !count_below_self, length_app.
      pose proof (count_below_equal_le seen x) as H1.
      assert (H2 : (count_below rest x <= List.length rest)%nat)
        by apply filter_length_le.
      cbn [List.length]. lia.
Qed.

(** ** The sorted ranks are 1, 2, ..., n *)

Lemma insert_sorted_perm (x : Q) (l : list Q) :
  Permutation (Pandas.insert_sorted x l) (x :: l).
Proof.
  induction l as [|y l IH]; [apply Permutation_refl|].
  cbn [Pandas.insert_sorted]. destruct (Qle_bool x y); [apply Permutation_refl|].
  eapply perm_trans; [apply perm_skip, IH | apply perm_swap].
Qed.

Lemma sort_asc_perm (l : list Q) : Permutation (Pandas.sort_asc l) l.
Proof.
  induction l as [|x l IH]; [apply perm_nil|].
  unfold Pandas.sort_asc in *. cbn [fold_right].
  eapply perm_trans; [apply insert_sorted_perm | now apply perm_skip].
Qed.

Lemma number_le (a b : nat) : number a <= number b <-> (a <= b)%nat.
Proof. unfold number. rewrite <- Zle_Qle. lia. Qed.

Lemma ascending_nats_seq (l : list nat) (a : nat) :
  ascending (map number l) -> NoDup l ->
  (forall x, In x l -> (a <= x < a + List.length l)%nat) ->
  l = seq a (List.length l).
Proof.
  revert a. induction l as [|h t IH]; intros a Hasc Hnd Hb; [reflexivity|].
  cbn [map ascending] in Hasc. destruct Hasc as [Hh Ht].
  inversion Hnd as [|h' t' Hnin Hnd']; subst.
  pose proof (Hb h (or_introl eq_refl)) as Hbh. cbn [List.length] in Hbh.
  assert (Hlt : forall y, In y t -> (h < y)%nat).
  { intros y Hy. assert (h <= y)%nat by (apply number_le, Hh; now apply in_map).
    assert (h <> y) by (intros ->; contradiction). lia. }
  assert (Et : t = seq (S h) (List.length t)).
  { apply IH; [exact Ht | exact Hnd'|]. intros y Hy.
    specialize (Hlt y Hy). specialize (Hb y (or_intror Hy)).
    cbn [List.length] in Hb. lia. }
  assert (Eh : h = a).
  { destruct t as [|y t']; [cbn [List.length] in Hbh; lia|].
    assert (Hin : In (h + List.length (y :: t'))%nat (y :: t')).
    { rewrite Et at 2. apply in_seq. cbn [List.length]. lia. }
    specialize (Hb _ (or_intror Hin)). cbn [List.length] in Hb. lia. }
  subst h. cbn [List.length seq]. now rewrite <- Et.
Qed.

Lemma sorted_ranks (rs : list nat) :
  NoDup rs ->
  (forall r, In r rs -> (1 <= r <= List.length rs)%nat) ->
  Pandas.sort_asc (map number rs) = map number (seq 1 (List.length rs)).
Proof.
  intros Hnd Hb.
  pose proof (sort_asc_perm (map number rs)) as Hperm.
  destruct (Permutation_map_inv _ _ Hperm) as [ss [Es Hss]].
  rewrite Es. f_equal.
  pose proof (Permutation_length Hss) as Hlen. rewrite Hlen.
  apply ascending_nats_seq.
  - rewrite <- Es. apply sort_asc_ascending.
  - exact (Permutation_NoDup Hss Hnd).
  - intros x Hx. apply (Permutation_in x (Permutation_sym Hss)) in Hx.
    specialize (Hb x Hx). lia.
Qed.

(** ** The quartile edges of ranks *)

Lemma nth_ranks (n j : nat) (d : Q) :
  (j < n)%nat -> nth j (map number (seq 1 n)) d = number (S j).
Proof.
  intros H. rewrite (nth_indep _ d (number 0))
    by (rewrite length_map, length_seq; exact H).
  rewrite (map_nth number), seq_nth by exact H. reflexivity.
Qed.

Lemma number_S (j : nat) : number (S j) == number j + 1.
Proof.
  unfold number. rewrite Nat2Z.inj_succ, <- Z.add_1_r, inject_Z_plus.
  reflexivity.
Qed.

Lemma number_div_mod (h : nat) :
  number h == 4 * number (h / 4) + number (h mod 4).
Proof.
  unfold number. rewrite (Nat.div_mod_eq h 4) at 1.
  rewrite Nat2Z.inj_add, Nat2Z.inj_mul, inject_Z_plus, inject_Z_mult.
  reflexivity.
Qed.

Lemma quantile_ranks (xs : list Q) (k : nat) :
  (1 <= List.length xs)%nat -> (k <= 4)%nat ->
  Pandas.sort_asc xs = map number (seq 1 (List.length xs)) ->
  Pandas.quantile xs k 4 == 1 + number ((List.length xs - 1) * k) / 4.
Proof.
  intros Hn Hk Hs. unfold Pandas.quantile. cbv zeta. rewrite Hs.
  set (n := List.length xs) in *. set (h := ((n - 1) * k)%nat).
  assert (Hj : (h / 4 <= n - 1)%nat).
  { apply Nat.Div0.div_le_upper_bound. unfold h. nia. }
  pose proof (number_div_mod h) as Hh.
  pose proof (Nat.div_mod_eq h 4) as Hdm.
  rewrite (nth_ranks n (h / 4)) by lia.
  fold (number (h mod 4)). change (inject_Z (Z.of_nat 4)) with 4.
  destruct (Nat.lt_ge_cases (S (h / 4)) n) as [Hlt|Hge].
  - rewrite (nth_ranks n (S (h / 4))) by exact Hlt.
    rewrite Hh, (number_S (S (h / 4))), (number_S (h / 4)). field.
  - rewrite nth_overflow by (rewrite length_map, length_seq; exact Hge).
    assert (Hr : (h mod 4 = 0)%nat) by (unfold h in *; nia).
    rewrite Hh, Hr, (number_S (h / 4)). change (number 0) with 0. field.
Qed.

Lemma unique_of_distinct (l : list Q) :
  ForallOrdPairs (fun x y => ~ x == y) l -> Pandas.unique l = l.
Proof.
  induction 1 as [|x l Hx Hl IH]; [reflexivity|].
  cbn [Pandas.unique]. rewrite IH. f_equal.
  rewrite Forall_forall in Hx. clear Hl IH.
  induction l as [|y l IH]; [reflexivity|]. cbn [filter].
  destruct (Qeq_bool x y) eqn:E.
  - apply Qeq_bool_iff in E. exfalso. apply (Hx y); [now left | exact E].
  - cbn [negb]. f_equal. apply IH. intros z Hz. apply Hx. now right.
Qed.

Lemma increasing_distinct (f : nat -> Q) (a len : nat) :
  (forall i j, (a <= i < j)%nat -> (j < a + len)%nat -> f i < f j) ->
  ForallOrdPairs (fun x y => ~ x == y) (map f (seq a len)).
Proof.
  revert a. induction len as [|len IH]; intros a H; [constructor|].
  cbn [seq map]. constructor.
  - apply Forall_forall. intros y Hy. apply in_map_iff in Hy.
    destruct Hy as [j [<- Hj]]. apply in_seq in Hj.
    intros E. assert (f a < f j) by (apply H; lia). lra.
  - apply IH. intros i j Hij Hj. apply H; lia.
Qed.

Lemma number_lt (a b : nat) : (a < b)%nat -> number a < number b.
Proof. intros H. unfold number. rewrite <- Zlt_Qlt. lia. Qed.

Lemma distinct_edges_of_ranks (xs : list Q) :
  (2 <= List.length xs)%nat ->
  Pandas.sort_asc xs = map number (seq 1 (List.length xs)) ->
  distinct_edges xs.
Proof.
  intros Hn Hs. unfold distinct_edges.
  rewrite unique_of_distinct; [apply quantile_edges_length|].
  unfold Pandas.quantile_edges. apply increasing_distinct.
  intros i j Hij Hj.
  rewrite !quantile_ranks by (try exact Hs; lia).
  assert (H : number ((List.length xs - 1) * i) < number ((List.length xs - 1) * j))
    by (apply number_lt; nia).
  unfold Qdiv. change (/ 4) with (1 # 4). lra.
Qed.

Lemma rank_first_sorted (xs : list Q) :
  Pandas.sort_asc (Pandas.rank_first xs) = map number (seq 1 (List.length xs)) /\
  List.length (Pandas.rank_first xs) = List.length xs.
Proof.
  unfold Pandas.rank_first. rewrite rank_first_from_ranks.
  destruct (ranks_from_distinct [] xs) as [Hnd Hb]. cbn [app] in Hnd, Hb.
  pose proof (ranks_from_length [] xs xs) as Hlen.
  split; [|now rewrite length_map].
  rewrite <- Hlen. apply sorted_ranks; [exact Hnd|].
  intros r Hr. rewrite Hlen. now apply Hb.
Qed.

Lemma distinct_edges_two (xs : list Q) :
  distinct_edges xs -> (2 <= List.length xs)%nat.
Proof.
  intros Hd. destruct xs as [|x [|y xs]]; [|exfalso|cbn; lia].
  - now apply distinct_edges_nonempty in Hd.
  - assert (Ha : all_are x [x]) by (constructor; [apply Qeq_refl | constructor]).
    pose proof (@quantile_edges_all_are x [x] 4 ltac:(discriminate) Ha) as He.
    assert (Hne : Pandas.quantile_edges [x] 4 <> []) by discriminate.
    pose proof (@unique_all_are_length x _ Hne He) as Hu.
    unfold distinct_edges in Hd. rewrite Hu in Hd. discriminate.
Qed.

(** X23.  Frequencies never stop the scoring.  Because the frequencies
    are ranked with ties broken by order of appearance before they are
    cut, the ranks of two or more customers are 1, 2, ..., n and always
    have five distinct quartile edges: whether [show_rfm_analysis]
    scores a population or ends in [ValueError] depends on the Recency
    and Monetary columns alone. *)
Theorem X23_frequency_never_fails (population : list SourceData.rfm_row) :
  Pandas.sort_asc (Pandas.rank_first (map SourceData.Frequency population))
  = map number (seq 1 (List.length population)) /\
  ((2 <= List.length population)%nat ->
   distinct_edges (Pandas.rank_first (map SourceData.Frequency population))) /\
  ((exists scored, SourceData.score_rfm population = Ok scored) <->
   distinct_edges (map SourceData.Recency population) /\
   distinct_edges (map SourceData.Monetary population)).
Proof.
  destruct (rank_first_sorted (map SourceData.Frequency population)) as [Hs Hl].
  rewrite length_map in Hs, Hl.
  assert (HF : (2 <= List.length population)%nat ->
               distinct_edges
                 (Pandas.rank_first (map SourceData.Frequency population))).
  { intros Hn. apply distinct_edges_of_ranks; rewrite Hl; [exact Hn | exact Hs]. }
  split; [exact Hs|]. split; [exact HF|].
  destruct (score_rfm_scored_iff population) as [Hiff _]. rewrite Hiff. split.
  - tauto.
  - intros [HR HM]. split; [exact HR|]. split; [|exact HM].
    apply HF. apply distinct_edges_two in HR. now rewrite length_map in HR.
Qed.

(** ** The frequency score by position *)

Lemma ranks_from_nth (seen rest all : list Q) (i : nat) (x : Q) :
  nth_error rest i = Some x ->
  nth_error (ranks_from seen rest all) i
  = Some (1 + count_below all x + count_equal (seen ++ firstn i rest) x)%nat.
Proof.
  revert seen i. induction rest as [|y rest IH]; intros seen i H.
  - destruct i; discriminate.
  - destruct i as [|i]; cbn [nth_error ranks_from firstn] in *.
    + injection H as ->. now rewrite app_nil_r.
    + rewrite (IH _ _ H). now rewrite <- app_assoc.
Qed.

Lemma firstn_prefix {A : Type} (l : list A) (i j : nat) :
  (i <= j)%nat -> exists m, firstn j l = firstn i l ++ m.
Proof.
  revert i j. induction l as [|a l IH]; intros i j H.
  - exists []. now rewrite !firstn_nil.
  - destruct i as [|i]; [now exists (firstn j (a :: l))|].
    destruct j as [|j]; [lia|]. destruct (IH i j ltac:(lia)) as [m E].
    exists m. cbn [firstn app]. now rewrite E.
Qed.

Lemma count_equal_firstn_le (l : list Q) (i j : nat) (x : Q) :
  (i <= j)%nat ->
  (count_equal (firstn i l) x <= count_equal (firstn j l) x)%nat /\
  (count_equal (firstn i l) x <= count_equal l x)%nat.
Proof.
  intros H. split.
  - destruct (firstn_prefix l i j H) as [m ->].
    rewrite count_equal_app. lia.
  - rewrite <- (firstn_skipn i l) at 2. rewrite count_equal_app. lia.
Qed.

Lemma rank_order (xs : list Q) (i j : nat) (x y : Q) (ri rj : nat) :
  nth_error xs i = Some x -> nth_error xs j = Some y ->
  nth_error (ranks_from [] xs xs) i = Some ri ->
  nth_error (ranks_from [] xs xs) j = Some rj ->
  (i <= j)%nat ->
  (x <= y -> (ri <= rj)%nat) /\ (y < x -> (rj <= ri)%nat).
Proof.
  intros Hx Hy Hi Hj Hij.
  rewrite (ranks_from_nth [] xs xs i x Hx) in Hi. injection Hi as <-.
  rewrite (ranks_from_nth [] xs xs j y Hy) in Hj. injection Hj as <-.
  cbn [app].
  destruct (count_equal_firstn_le xs i j x Hij) as [P1 P2].
  destruct (count_equal_firstn_le xs j j y (Nat.le_refl j)) as [_ P3].
  split.
  - intros Hle. destruct (Qle_lt_or_eq _ _ Hle) as [Hlt|Heq].
    + pose proof (count_below_less xs x y Hlt). lia.
    + destruct (count_same xs x y Heq) as [E1 _].
      destruct (count_same (firstn j xs) x y Heq) as [_ E2]. lia.
  - intros Hlt. pose proof (count_below_less xs y x Hlt). lia.
Qed.

Lemma map_snd_combine_same {A B : Type} (l : list A) (g : list B) :
  List.length g = List.length l -> map snd (combine l g) = g.
Proof.
  revert g; induction l as [|a l IH]; intros [|b g] H; try reflexivity;
    try discriminate.
  cbn. f_equal. apply IH. now injection H.
Qed.

(** The frequency score of every row is the quartile label of the rank
    of the row. *)
Lemma score_rfm_frequency (population : list SourceData.rfm_row)
    (scored : list SourceData.scored_row) :
  SourceData.score_rfm population = Ok scored ->
  let ranks := Pandas.rank_first (map SourceData.Frequency population) in
  distinct_edges ranks /\
  map SourceData.rfm scored = population /\
  map SourceData.F_Score scored
  = map (quartile_score [1; 2; 3; 4]%Z ranks) ranks.
Proof.
  intros H. cbv zeta.
  destruct (proj1 (proj1 (score_rfm_scored_iff population)) (ex_intro _ scored H))
    as [DR [DF DM]].
  split; [exact DF|].
  unfold SourceData.score_rfm in H.
  rewrite <- (map_map SourceData.Recency Some population),
          <- (map_map SourceData.Monetary Some population) in H.
  rewrite (qcut_quartiles_cells _ [4; 3; 2; 1]%Z eq_refl DR) in H.
  rewrite (qcut_quartiles_cells _ [1; 2; 3; 4]%Z eq_refl DF) in H.
  rewrite (qcut_quartiles_cells _ [1; 2; 3; 4]%Z eq_refl DM) in H.
  cbn [bind] in H. rewrite !mapM_astype_int_Some in H. cbn [bind] in H.
  injection H as <-.
  set (ranks := Pandas.rank_first (map SourceData.Frequency population)).
  set (G := map (quartile_score [1; 2; 3; 4]%Z ranks) ranks).
  assert (HG : List.length G = List.length population).
  { unfold G, ranks. rewrite length_map.
    destruct (rank_first_sorted (map SourceData.Frequency population)) as [_ ->].
    apply length_map. }
  rewrite !(map_map _ (quartile_score _ _)).
  rewrite combine_columns. rewrite !map_map.
  cbn [SourceData.mk_scored SourceData.rfm SourceData.F_Score fst snd].
  split.
  - rewrite <- (map_map fst (fun c => c)), map_id.
    now apply map_fst_combine_same.
  - now apply map_snd_combine_same.
Qed.

Lemma count_all_le (l : list Q) (x : Q) :
  (forall y, In y l -> y <= x) ->
  (count_below l x + count_equal l x = List.length l)%nat.
Proof.
  unfold count_below, count_equal.
  induction l as [|y l IH]; intros H; [reflexivity|]. cbn [filter List.length].
  specialize (IH (fun z Hz => H z (or_intror Hz))).
  pose proof (H y (or_introl eq_refl)) as Hy.
  destruct (Pandas.Qlt_bool y x) eqn:A, (Qeq_bool y x) eqn:B; cbn [List.length].
  - apply Qlt_bool_iff in A. apply Qeq_bool_iff in B. lra.
  - lia.
  - lia.
  - apply Qlt_bool_false_iff in A. exfalso.
    assert (E : y == x) by (apply Qle_antisym; assumption).
    apply Qeq_bool_iff in E. congruence.
Qed.

Lemma count_none_below (l : list Q) (x : Q) :
  (forall y, In y l -> x <= y) -> count_below l x = 0%nat.
Proof.
  unfold count_below. induction l as [|y l IH]; intros H; [reflexivity|].
  cbn [filter]. destruct (Pandas.Qlt_bool y x) eqn:A.
  - apply Qlt_bool_iff in A. specialize (H y (or_introl eq_refl)). lra.
  - apply IH. intros z Hz. apply H. now right.
Qed.

(** X24.  The frequency score by row.  In a scored population the
    frequency score follows the frequency, and among customers with the
    same frequency it follows the order of the rows: an earlier row
    never scores above a later row with the same or a greater
    frequency.  Customers with identical frequency can thus score
    differently: the first row scores 1 when no frequency is below its
    own, and the last row scores 4 when none is above. *)
Theorem X24_frequency_score_by_row (population : list SourceData.rfm_row)
    (scored : list SourceData.scored_row) (i j : nat)
    (a b : SourceData.scored_row) :
  SourceData.score_rfm population = Ok scored ->
  nth_error scored i = Some a -> nth_error scored j = Some b ->
  (i <= j)%nat ->
  let frequency s := SourceData.Frequency (SourceData.rfm s) in
  (frequency a <= frequency b ->
   (SourceData.F_Score a <= SourceData.F_Score b)%Z) /\
  (frequency b < frequency a ->
   (SourceData.F_Score b <= SourceData.F_Score a)%Z) /\
  (i = 0%nat ->
   (forall c, In c population -> frequency a <= SourceData.Frequency c) ->
   SourceData.F_Score a = 1%Z) /\
  (S j = List.length population ->
   (forall c, In c population -> SourceData.Frequency c <= frequency b) ->
   SourceData.F_Score b = 4%Z).
Proof.
  intros H Ha Hb Hij. cbv zeta.
  destruct (score_rfm_frequency population scored H) as [DF [Erfm EF]].
  cbv zeta in DF, EF.
  set (xs := map SourceData.Frequency population) in *.
  set (ranks := Pandas.rank_first xs) in *.
  assert (Eranks : ranks = map number (ranks_from [] xs xs))
    by apply rank_first_from_ranks.
  (* the frequency and the rank of a row *)
  assert (Hrow : forall k s, nth_error scored k = Some s ->
            nth_error xs k = Some (SourceData.Frequency (SourceData.rfm s)) /\
            exists r, nth_error (ranks_from [] xs xs) k = Some r /\
                      SourceData.F_Score s
                      = quartile_score [1; 2; 3; 4]%Z ranks (number r) /\
                      In (number r) ranks).
  { intros k s Hs.
    assert (Hx : nth_error xs k = Some (SourceData.Frequency (SourceData.rfm s))).
    { unfold xs. rewrite <- Erfm, map_map.
      now apply (map_nth_error (fun c => SourceData.Frequency (SourceData.rfm c))). }
    split; [exact Hx|].
    pose proof (ranks_from_nth [] xs xs k _ Hx) as Hr.
    eexists. split; [exact Hr|].
    assert (Hrk : nth_error ranks k = Some (number _))
      by (rewrite Eranks; apply (map_nth_error number), Hr).
    split.
    - pose proof (map_nth_error SourceData.F_Score k scored Hs) as HF.
      rewrite EF in HF.
      rewrite (map_nth_error (quartile_score [1; 2; 3; 4]%Z ranks) k ranks Hrk) in HF.
      now injection HF.
    - exact (nth_error_In _ _ Hrk). }
  destruct (Hrow i a Ha) as [Hxa [ra [Hra [Fa Ina]]]].
  destruct (Hrow j b Hb) as [Hxb [rb [Hrb [Fb Inb]]]].
  destruct (rank_order xs i j _ _ ra rb Hxa Hxb Hra Hrb Hij) as [O1 O2].
  split; [|split; [|split]].
  - intros Hle. rewrite Fa, Fb.
    apply quartile_score_ascending; [exact Ina | exact Inb|].
    apply number_le. now apply O1.
  - intros Hlt. rewrite Fa, Fb.
    apply quartile_score_ascending; [exact Inb | exact Ina|].
    apply number_le. now apply O2.
  - intros -> Hmin.
    rewrite (ranks_from_nth [] xs xs 0 _ Hxa) in Hra. injection Hra as <-.
    cbn [firstn app] in Fa, Ina.
    rewrite count_none_below in Fa, Ina
      by (intros y Hy; apply in_map_iff in Hy; destruct Hy as [c [<- Hc]];
          now apply Hmin).
    rewrite Fa. unfold quartile_score.
    rewrite bin_id_least; [reflexivity | exact Ina|].
    intros r Hr. rewrite Eranks in Hr. apply in_map_iff in Hr.
    destruct Hr as [n [<- Hn]]. apply number_le.
    destruct (ranks_from_distinct [] xs) as [_ Hb']. cbn [app] in Hb'.
    apply (Hb' n Hn).
  - intros Hlast Hmax.
    rewrite (ranks_from_nth [] xs xs j _ Hxb) in Hrb. injection Hrb as <-.
    cbn [app] in Fb, Inb.
    set (y := SourceData.Frequency (SourceData.rfm b)) in *.
    assert (Hlen : List.length xs = S j) by (unfold xs; now rewrite length_map).
    assert (Hall : forall z, In z xs -> z <= y).
    { intros z Hz. apply in_map_iff in Hz. destruct Hz as [c [<- Hc]].
      now apply Hmax. }
    assert (Exs : xs = firstn j xs ++ [y]).
    { rewrite <- (firstn_skipn j xs) at 1. f_equal.
      pose proof (nth_error_split xs j Hxb) as [l1 [l2 [E El]]].
      rewrite E at 1. rewrite skipn_app, El, Nat.sub_diag.
      rewrite skipn_all2 by lia. cbn [app skipn].
      assert (l2 = []).
      { rewrite E, length_app in Hlen. cbn [List.length] in Hlen.
        destruct l2; [reflexivity | cbn in Hlen; lia]. }
      now subst l2. }
    assert (Hrank : (1 + count_below xs y + count_equal (firstn j xs) y
                     = List.length xs)%nat).
    { rewrite Exs at 1. rewrite count_below_app.
      assert (count_below [y] y = 0%nat)
        by (apply count_none_below; intros z [<-|[]]; apply Qle_refl).
      pose proof (count_all_le (firstn j xs) y
                    (fun z Hz => Hall z (In_firstn _ _ _ Hz))) as Hc.
      rewrite length_firstn in Hc. lia. }
    change (S (count_below xs y + count_equal (firstn j xs) y))
      with (1 + count_below xs y + count_equal (firstn j xs) y)%nat in Fb, Inb.
    rewrite Hrank in Fb, Inb. rewrite Fb. unfold quartile_score.
    rewrite bin_id_greatest; [reflexivity | exact DF | exact Inb|].
    intros r Hr. rewrite Eranks in Hr. apply in_map_iff in Hr.
    destruct Hr as [n [<- Hn]]. apply number_le.
    destruct (ranks_from_distinct [] xs) as [_ Hb']. cbn [app] in Hb'.
    apply (Hb' n Hn).
Qed.

Lemma X24_frequency_score_by_row_witness :
  let frequency s := SourceData.Frequency (SourceData.rfm s) in
  (frequency first_of_equal <= frequency last_of_equal ->
   (SourceData.F_Score first_of_equal <= SourceData.F_Score last_of_equal)%Z) /\
  (frequency last_of_equal < frequency first_of_equal ->
   (SourceData.F_Score last_of_equal <= SourceData.F_Score first_of_equal)%Z) /\
  (0%nat = 0%nat ->
   (forall c, In c equal_frequency ->
              frequency first_of_equal <= SourceData.Frequency c) ->
   SourceData.F_Score first_of_equal = 1%Z) /\
  (4%nat = List.length equal_frequency ->
   (forall c, In c equal_frequency ->
              SourceData.Frequency c <= frequency last_of_equal) ->
   SourceData.F_Score last_of_equal = 4%Z).
Proof.
  apply (X24_frequency_score_by_row equal_frequency equal_frequency_scored
           0 3 first_of_equal last_of_equal).
  - vm_compute. reflexivity.
  - reflexivity.
  - reflexivity.
  - lia.
Defined.
